(** * PyneCore strategy engine: order lifecycle and position accounting

    A shallow embedding of [src/pynecore/lib/strategy/__init__.py].

    Python floats are embedded as exact rationals ([Q]); every comparison the
    source performs on floats is the corresponding decidable comparison on
    [Q], and every division raises [ZeroDivisionError] on a zero divisor as
    Python does.  What the rounding of binary64 does to the sizes of the
    ledger is in [Sizes] and [Binary64]: the statements of [fill_order] that
    compute sizes, over an arithmetic that is instantiated with the exact
    rationals and with binary64.  Exceptions are explicit: a function that can raise returns
    a value of [res].  Python objects that are shared between containers
    (pending orders, closed trades) live in object stores and the containers
    hold references. *)

From Stdlib Require Import QArith Qabs Qround ZArith List String Bool Lia Lqa.
From Stdlib Require PrimFloat FloatOps.
Import ListNotations.
Local Open Scope Q_scope.

(** ** Exceptions *)

Inductive exn : Type :=
| ZeroDivisionError
| AssertionError
| ValueError
| TypeError
| InvalidReference. (* a reference outside the object store: never a Python outcome *)

Inductive res (A : Type) : Type :=
| Ok (a : A)
| Raise (e : exn).
Arguments Ok {A} a.
Arguments Raise {A} e.

Definition bind {A B : Type} (m : res A) (k : A -> res B) : res B :=
  match m with
  | Ok a => k a
  | Raise e => Raise e
  end.

Notation "'do' x <- m ; k" := (bind m (fun x => k))
  (at level 10, x name, m at level 100, k at level 200).
Notation "'do' ' p <- m ; k" := (bind m (fun x => match x with p => k end))
  (at level 10, p pattern, m at level 100, k at level 200).

(** Left-to-right iteration of a fallible loop body over a list. *)
Fixpoint foldM {A S : Type} (body : S -> A -> res S) (xs : list A) (s : S) : res S :=
  match xs with
  | [] => Ok s
  | x :: xs' => do s' <- body s x; foldM body xs' s'
  end.

(** ** Float operations of Python, on exact rationals *)

Definition Qltb (a b : Q) : bool := negb (Qle_bool b a).
Definition Qneb (a b : Q) : bool := negb (Qeq_bool a b).

(** [a / b] on floats. *)
Definition pydiv (a b : Q) : res Q :=
  if Qeq_bool b 0 then Raise ZeroDivisionError else Ok (a / b).

(** [0.0 if x == 0.0 else 1.0 if x > 0.0 else -1.0] *)
Definition signum (x : Q) : Q :=
  if Qeq_bool x 0 then 0 else if Qltb 0 x then 1 else -1.

(** [max(a, b)] and [min(a, b)]: the first argument wins a tie. *)
Definition pymax (a b : Q) : Q := if Qltb a b then b else a.
Definition pymin (a b : Q) : Q := if Qltb b a then b else a.
Definition pymax3 (a b c : Q) : Q := pymax (pymax a b) c.
Definition pymin3 (a b c : Q) : Q := pymin (pymin a b) c.

(** [int(x)]: truncation toward zero. *)
Definition py_int (x : Q) : Z := Z.quot (Qnum x) (Zpos (Qden x)).

(** Rounding to the nearest integer, ties to even: the rounding of
    [round(x, n)] and of [Decimal.to_integral_value()] under the default
    context. *)
Definition round_half_even (x : Q) : Z :=
  let f := Qfloor x in
  let r := x - inject_Z f in
  if Qltb r (1#2) then f
  else if Qltb (1#2) r then (f + 1)%Z
  else if Z.even f then f else (f + 1)%Z.

(** [round(x, 5)] *)
Definition py_round5 (x : Q) : Q :=
  inject_Z (round_half_even (x * 100000)) / 100000.

(** [math.isclose(a, b, abs_tol=t)] with the default [rel_tol = 1e-09]. *)
Definition rel_tol : Q := 1 # 1000000000.

Definition isclose (a b abs_tol : Q) : res bool :=
  if Qltb abs_tol 0 then Raise ValueError
  else if Qeq_bool a b then Ok true
  else
    let diff := Qabs (b - a) in
    Ok (Qle_bool diff (Qabs (rel_tol * b))
        || Qle_bool diff (Qabs (rel_tol * a))
        || Qle_bool diff abs_tol).

(** ** Optional values

    A float argument of the API is a number, [None], or the NA sentinel of
    [pynecore.types.na].  That module is not part of the sources; the
    embedding uses what its callers here rely on: [isinstance(v, NA)]
    recognises the sentinel, the sentinel is falsy, and an ordering
    comparison with the sentinel is false. *)

Inductive pyfloat : Type :=
| PNone
| PNA
| PNum (x : Q).

Inductive pystr : Type :=
| SNone
| SNA
| SStr (s : string).

Definition is_None (v : pyfloat) : bool :=
  match v with PNone => true | _ => false end.

Definition isinstance_NA (v : pyfloat) : bool :=
  match v with PNA => true | _ => false end.

(** [_is_none(value)] *)
Definition _is_none (value : pyfloat) : bool :=
  isinstance_NA value || is_None value.

(** Truthiness of a string-valued argument. *)
Definition str_truthy (s : pystr) : bool :=
  match s with
  | SStr s => negb (String.eqb s "")
  | _ => false
  end.

Definition optstr_truthy (s : option string) : bool :=
  match s with
  | Some s => negb (String.eqb s "")
  | None => false
  end.

(** ** Numeric utilities *)

(** [_size_round(qty)], with [rfactor = syminfo._size_round_factor].  The
    conversions [Decimal(str(x))] and [float(d)] are the identity on exact
    rationals; the division by a zero factor raises (in [decimal], as
    [DivisionByZero], a [ZeroDivisionError]). *)
Definition _size_round (rfactor : Q) (qty : Q) : res Q :=
  let rfactor_d := rfactor in
  let qty_d := qty in
  let sign := if Qltb 0 qty_d then 1 else -1 in
  let qrf := Qabs qty_d * rfactor_d * 10 in
  let qrf := inject_Z (Qfloor qrf) * (1#10) in
  do q <- pydiv (inject_Z (round_half_even qrf)) rfactor_d;
  Ok (sign * q).

(** The formula of the specification, for comparison: the second rounding
    truncates and the sign is the signum of the quantity. *)
Definition size_round_spec (rf : Q) (qty : Q) : Q :=
  signum qty * (inject_Z (py_int (inject_Z (Qfloor (Qabs qty * rf * 10)) * (1#10))) / rf).

(** [_price_round(price, direction)], with [mintick = syminfo.mintick]. *)
Definition _price_round (mintick : Q) (price : pyfloat) (direction : Q) : res pyfloat :=
  match price with
  | PNA => Ok PNA
  | PNone => Raise TypeError
  | PNum price =>
    do ratio <- pydiv price mintick;
    let ppmt := py_round5 ratio in
    let ppmt_int := py_int ppmt in
    if Qltb direction 0 then
      Ok (PNum (inject_Z ppmt_int * mintick))
    else if Qeq_bool ppmt (inject_Z ppmt_int) then
      Ok (PNum (inject_Z ppmt_int * mintick))
    else
      Ok (PNum (inject_Z (ppmt_int + 1) * mintick))
  end.


(** ** Data model *)

(** The two order types, [_order_type_entry] and [_order_type_close]. *)
Inductive OrderType : Type :=
| _order_type_entry
| _order_type_close.

Definition OrderType_eqb (a b : OrderType) : bool :=
  match a, b with
  | _order_type_entry, _order_type_entry => true
  | _order_type_close, _order_type_close => true
  | _, _ => false
  end.

(** [strategy.direction] *)
Inductive Direction : Type :=
| long
| short.

Definition Direction_eqb (a b : Direction) : bool :=
  match a, b with
  | long, long => true
  | short, short => true
  | _, _ => false
  end.

(** [strategy.commission]; the source has fall-through branches for a value
    that is none of the three. *)
Inductive CommissionType : Type :=
| percent
| cash_per_order
| cash_per_contract
| commission_other.

Definition CommissionType_eqb (a b : CommissionType) : bool :=
  match a, b with
  | percent, percent => true
  | cash_per_order, cash_per_order => true
  | cash_per_contract, cash_per_contract => true
  | commission_other, commission_other => true
  | _, _ => false
  end.

(** [QtyType]; [entry] raises on a value that is none of the three. *)
Inductive QtyType : Type :=
| fixed
| cash
| percent_of_equity
| qty_other.

(** [strategy.oca] *)
Inductive Oca : Type :=
| oca_cancel
| oca_reduce
| oca_none.

(** A reference to an object in a store. *)
Definition ref : Type := nat.

(** A [dict] with string keys, in insertion order. *)
Definition dict : Type := list (string * ref).

Fixpoint dict_get (d : dict) (k : string) : option ref :=
  match d with
  | [] => None
  | (k', v) :: d' => if String.eqb k' k then Some v else dict_get d' k
  end.

(** [d[k] = v]: an existing key keeps its place. *)
Fixpoint dict_set (d : dict) (k : string) (v : ref) : dict :=
  match d with
  | [] => [(k, v)]
  | (k', v') :: d' =>
    if String.eqb k' k then (k, v) :: d' else (k', v') :: dict_set d' k v
  end.

(** [d.pop(k, None)] and [del d[k]] under [except KeyError: pass]. *)
Fixpoint dict_pop (d : dict) (k : string) : dict :=
  match d with
  | [] => []
  | (k', v') :: d' =>
    if String.eqb k' k then d' else (k', v') :: dict_pop d' k
  end.

(** [list(d.values())] *)
Definition dict_values (d : dict) : list ref := map snd d.

Module Order.

(** [class Order]: one pending instruction. *)
Record t : Type := mk {
  order_id : option string;
  size : Q;
  sign : Q;
  order_type : OrderType;
  limit : pyfloat;
  stop : pyfloat;
  exit_id : option string;
  oca_name : pystr;
  oca_type : option Oca;
  comment : pystr;
  alert_message : pystr;
  trail_price : pyfloat;
  trail_offset : Q;  (* in ticks *)
  trail_triggered : bool;
  profit_ticks : option Q;
  loss_ticks : option Q;
  trail_points_ticks : option Q;
  is_market_order : bool
}.

Definition set_order_id (v : option string) (x : t) : t :=
  {| order_id := v; size := size x; sign := sign x; order_type := order_type x;
     limit := limit x; stop := stop x; exit_id := exit_id x; oca_name := oca_name x;
     oca_type := oca_type x; comment := comment x; alert_message := alert_message x;
     trail_price := trail_price x; trail_offset := trail_offset x;
     trail_triggered := trail_triggered x; profit_ticks := profit_ticks x;
     loss_ticks := loss_ticks x; trail_points_ticks := trail_points_ticks x;
     is_market_order := is_market_order x |}.

Definition set_size (v : Q) (x : t) : t :=
  {| order_id := order_id x; size := v; sign := sign x; order_type := order_type x;
     limit := limit x; stop := stop x; exit_id := exit_id x; oca_name := oca_name x;
     oca_type := oca_type x; comment := comment x; alert_message := alert_message x;
     trail_price := trail_price x; trail_offset := trail_offset x;
     trail_triggered := trail_triggered x; profit_ticks := profit_ticks x;
     loss_ticks := loss_ticks x; trail_points_ticks := trail_points_ticks x;
     is_market_order := is_market_order x |}.

Definition set_order_type (v : OrderType) (x : t) : t :=
  {| order_id := order_id x; size := size x; sign := sign x; order_type := v; limit := limit x;
     stop := stop x; exit_id := exit_id x; oca_name := oca_name x; oca_type := oca_type x;
     comment := comment x; alert_message := alert_message x; trail_price := trail_price x;
     trail_offset := trail_offset x; trail_triggered := trail_triggered x;
     profit_ticks := profit_ticks x; loss_ticks := loss_ticks x;
     trail_points_ticks := trail_points_ticks x; is_market_order := is_market_order x |}.

Definition set_limit (v : pyfloat) (x : t) : t :=
  {| order_id := order_id x; size := size x; sign := sign x; order_type := order_type x;
     limit := v; stop := stop x; exit_id := exit_id x; oca_name := oca_name x;
     oca_type := oca_type x; comment := comment x; alert_message := alert_message x;
     trail_price := trail_price x; trail_offset := trail_offset x;
     trail_triggered := trail_triggered x; profit_ticks := profit_ticks x;
     loss_ticks := loss_ticks x; trail_points_ticks := trail_points_ticks x;
     is_market_order := is_market_order x |}.

Definition set_stop (v : pyfloat) (x : t) : t :=
  {| order_id := order_id x; size := size x; sign := sign x; order_type := order_type x;
     limit := limit x; stop := v; exit_id := exit_id x; oca_name := oca_name x;
     oca_type := oca_type x; comment := comment x; alert_message := alert_message x;
     trail_price := trail_price x; trail_offset := trail_offset x;
     trail_triggered := trail_triggered x; profit_ticks := profit_ticks x;
     loss_ticks := loss_ticks x; trail_points_ticks := trail_points_ticks x;
     is_market_order := is_market_order x |}.

Definition set_exit_id (v : option string) (x : t) : t :=
  {| order_id := order_id x; size := size x; sign := sign x; order_type := order_type x;
     limit := limit x; stop := stop x; exit_id := v; oca_name := oca_name x;
     oca_type := oca_type x; comment := comment x; alert_message := alert_message x;
     trail_price := trail_price x; trail_offset := trail_offset x;
     trail_triggered := trail_triggered x; profit_ticks := profit_ticks x;
     loss_ticks := loss_ticks x; trail_points_ticks := trail_points_ticks x;
     is_market_order := is_market_order x |}.

Definition set_trail_price (v : pyfloat) (x : t) : t :=
  {| order_id := order_id x; size := size x; sign := sign x; order_type := order_type x;
     limit := limit x; stop := stop x; exit_id := exit_id x; oca_name := oca_name x;
     oca_type := oca_type x; comment := comment x; alert_message := alert_message x;
     trail_price := v; trail_offset := trail_offset x; trail_triggered := trail_triggered x;
     profit_ticks := profit_ticks x; loss_ticks := loss_ticks x;
     trail_points_ticks := trail_points_ticks x; is_market_order := is_market_order x |}.

Definition set_trail_triggered (v : bool) (x : t) : t :=
  {| order_id := order_id x; size := size x; sign := sign x; order_type := order_type x;
     limit := limit x; stop := stop x; exit_id := exit_id x; oca_name := oca_name x;
     oca_type := oca_type x; comment := comment x; alert_message := alert_message x;
     trail_price := trail_price x; trail_offset := trail_offset x; trail_triggered := v;
     profit_ticks := profit_ticks x; loss_ticks := loss_ticks x;
     trail_points_ticks := trail_points_ticks x; is_market_order := is_market_order x |}.

End Order.

Module Trade.

(** [class Trade]: one open position leg, later one closed trade. *)
Record t : Type := mk {
  size : Q;
  sign : Q;
  entry_id : string;
  entry_bar_index : Z;
  entry_time : Z;
  entry_price : Q;
  entry_comment : pystr;
  entry_equity : Q;
  exit_id : string;
  exit_bar_index : Z;
  exit_time : Z;
  exit_price : Q;
  exit_comment : pystr;
  exit_equity : pyfloat;
  commission : Q;
  max_drawdown : Q;
  max_drawdown_percent : Q;
  max_runup : Q;
  max_runup_percent : Q;
  profit : Q;
  profit_percent : Q;
  cum_profit : Q;
  cum_profit_percent : Q;
  cum_max_drawdown : Q;
  cum_max_runup : Q
}.

Definition set_size (v : Q) (x : t) : t :=
  {| size := v; sign := sign x; entry_id := entry_id x; entry_bar_index := entry_bar_index x;
     entry_time := entry_time x; entry_price := entry_price x;
     entry_comment := entry_comment x; entry_equity := entry_equity x; exit_id := exit_id x;
     exit_bar_index := exit_bar_index x; exit_time := exit_time x; exit_price := exit_price x;
     exit_comment := exit_comment x; exit_equity := exit_equity x; commission := commission x;
     max_drawdown := max_drawdown x; max_drawdown_percent := max_drawdown_percent x;
     max_runup := max_runup x; max_runup_percent := max_runup_percent x; profit := profit x;
     profit_percent := profit_percent x; cum_profit := cum_profit x;
     cum_profit_percent := cum_profit_percent x; cum_max_drawdown := cum_max_drawdown x;
     cum_max_runup := cum_max_runup x |}.

Definition set_exit_id (v : string) (x : t) : t :=
  {| size := size x; sign := sign x; entry_id := entry_id x;
     entry_bar_index := entry_bar_index x; entry_time := entry_time x;
     entry_price := entry_price x; entry_comment := entry_comment x;
     entry_equity := entry_equity x; exit_id := v; exit_bar_index := exit_bar_index x;
     exit_time := exit_time x; exit_price := exit_price x; exit_comment := exit_comment x;
     exit_equity := exit_equity x; commission := commission x; max_drawdown := max_drawdown x;
     max_drawdown_percent := max_drawdown_percent x; max_runup := max_runup x;
     max_runup_percent := max_runup_percent x; profit := profit x;
     profit_percent := profit_percent x; cum_profit := cum_profit x;
     cum_profit_percent := cum_profit_percent x; cum_max_drawdown := cum_max_drawdown x;
     cum_max_runup := cum_max_runup x |}.

Definition set_exit_bar_index (v : Z) (x : t) : t :=
  {| size := size x; sign := sign x; entry_id := entry_id x;
     entry_bar_index := entry_bar_index x; entry_time := entry_time x;
     entry_price := entry_price x; entry_comment := entry_comment x;
     entry_equity := entry_equity x; exit_id := exit_id x; exit_bar_index := v;
     exit_time := exit_time x; exit_price := exit_price x; exit_comment := exit_comment x;
     exit_equity := exit_equity x; commission := commission x; max_drawdown := max_drawdown x;
     max_drawdown_percent := max_drawdown_percent x; max_runup := max_runup x;
     max_runup_percent := max_runup_percent x; profit := profit x;
     profit_percent := profit_percent x; cum_profit := cum_profit x;
     cum_profit_percent := cum_profit_percent x; cum_max_drawdown := cum_max_drawdown x;
     cum_max_runup := cum_max_runup x |}.

Definition set_exit_time (v : Z) (x : t) : t :=
  {| size := size x; sign := sign x; entry_id := entry_id x;
     entry_bar_index := entry_bar_index x; entry_time := entry_time x;
     entry_price := entry_price x; entry_comment := entry_comment x;
     entry_equity := entry_equity x; exit_id := exit_id x; exit_bar_index := exit_bar_index x;
     exit_time := v; exit_price := exit_price x; exit_comment := exit_comment x;
     exit_equity := exit_equity x; commission := commission x; max_drawdown := max_drawdown x;
     max_drawdown_percent := max_drawdown_percent x; max_runup := max_runup x;
     max_runup_percent := max_runup_percent x; profit := profit x;
     profit_percent := profit_percent x; cum_profit := cum_profit x;
     cum_profit_percent := cum_profit_percent x; cum_max_drawdown := cum_max_drawdown x;
     cum_max_runup := cum_max_runup x |}.

Definition set_exit_price (v : Q) (x : t) : t :=
  {| size := size x; sign := sign x; entry_id := entry_id x;
     entry_bar_index := entry_bar_index x; entry_time := entry_time x;
     entry_price := entry_price x; entry_comment := entry_comment x;
     entry_equity := entry_equity x; exit_id := exit_id x; exit_bar_index := exit_bar_index x;
     exit_time := exit_time x; exit_price := v; exit_comment := exit_comment x;
     exit_equity := exit_equity x; commission := commission x; max_drawdown := max_drawdown x;
     max_drawdown_percent := max_drawdown_percent x; max_runup := max_runup x;
     max_runup_percent := max_runup_percent x; profit := profit x;
     profit_percent := profit_percent x; cum_profit := cum_profit x;
     cum_profit_percent := cum_profit_percent x; cum_max_drawdown := cum_max_drawdown x;
     cum_max_runup := cum_max_runup x |}.

Definition set_exit_comment (v : pystr) (x : t) : t :=
  {| size := size x; sign := sign x; entry_id := entry_id x;
     entry_bar_index := entry_bar_index x; entry_time := entry_time x;
     entry_price := entry_price x; entry_comment := entry_comment x;
     entry_equity := entry_equity x; exit_id := exit_id x; exit_bar_index := exit_bar_index x;
     exit_time := exit_time x; exit_price := exit_price x; exit_comment := v;
     exit_equity := exit_equity x; commission := commission x; max_drawdown := max_drawdown x;
     max_drawdown_percent := max_drawdown_percent x; max_runup := max_runup x;
     max_runup_percent := max_runup_percent x; profit := profit x;
     profit_percent := profit_percent x; cum_profit := cum_profit x;
     cum_profit_percent := cum_profit_percent x; cum_max_drawdown := cum_max_drawdown x;
     cum_max_runup := cum_max_runup x |}.

Definition set_exit_equity (v : pyfloat) (x : t) : t :=
  {| size := size x; sign := sign x; entry_id := entry_id x;
     entry_bar_index := entry_bar_index x; entry_time := entry_time x;
     entry_price := entry_price x; entry_comment := entry_comment x;
     entry_equity := entry_equity x; exit_id := exit_id x; exit_bar_index := exit_bar_index x;
     exit_time := exit_time x; exit_price := exit_price x; exit_comment := exit_comment x;
     exit_equity := v; commission := commission x; max_drawdown := max_drawdown x;
     max_drawdown_percent := max_drawdown_percent x; max_runup := max_runup x;
     max_runup_percent := max_runup_percent x; profit := profit x;
     profit_percent := profit_percent x; cum_profit := cum_profit x;
     cum_profit_percent := cum_profit_percent x; cum_max_drawdown := cum_max_drawdown x;
     cum_max_runup := cum_max_runup x |}.

Definition set_commission (v : Q) (x : t) : t :=
  {| size := size x; sign := sign x; entry_id := entry_id x;
     entry_bar_index := entry_bar_index x; entry_time := entry_time x;
     entry_price := entry_price x; entry_comment := entry_comment x;
     entry_equity := entry_equity x; exit_id := exit_id x; exit_bar_index := exit_bar_index x;
     exit_time := exit_time x; exit_price := exit_price x; exit_comment := exit_comment x;
     exit_equity := exit_equity x; commission := v; max_drawdown := max_drawdown x;
     max_drawdown_percent := max_drawdown_percent x; max_runup := max_runup x;
     max_runup_percent := max_runup_percent x; profit := profit x;
     profit_percent := profit_percent x; cum_profit := cum_profit x;
     cum_profit_percent := cum_profit_percent x; cum_max_drawdown := cum_max_drawdown x;
     cum_max_runup := cum_max_runup x |}.

Definition set_max_drawdown (v : Q) (x : t) : t :=
  {| size := size x; sign := sign x; entry_id := entry_id x;
     entry_bar_index := entry_bar_index x; entry_time := entry_time x;
     entry_price := entry_price x; entry_comment := entry_comment x;
     entry_equity := entry_equity x; exit_id := exit_id x; exit_bar_index := exit_bar_index x;
     exit_time := exit_time x; exit_price := exit_price x; exit_comment := exit_comment x;
     exit_equity := exit_equity x; commission := commission x; max_drawdown := v;
     max_drawdown_percent := max_drawdown_percent x; max_runup := max_runup x;
     max_runup_percent := max_runup_percent x; profit := profit x;
     profit_percent := profit_percent x; cum_profit := cum_profit x;
     cum_profit_percent := cum_profit_percent x; cum_max_drawdown := cum_max_drawdown x;
     cum_max_runup := cum_max_runup x |}.

Definition set_max_drawdown_percent (v : Q) (x : t) : t :=
  {| size := size x; sign := sign x; entry_id := entry_id x;
     entry_bar_index := entry_bar_index x; entry_time := entry_time x;
     entry_price := entry_price x; entry_comment := entry_comment x;
     entry_equity := entry_equity x; exit_id := exit_id x; exit_bar_index := exit_bar_index x;
     exit_time := exit_time x; exit_price := exit_price x; exit_comment := exit_comment x;
     exit_equity := exit_equity x; commission := commission x; max_drawdown := max_drawdown x;
     max_drawdown_percent := v; max_runup := max_runup x;
     max_runup_percent := max_runup_percent x; profit := profit x;
     profit_percent := profit_percent x; cum_profit := cum_profit x;
     cum_profit_percent := cum_profit_percent x; cum_max_drawdown := cum_max_drawdown x;
     cum_max_runup := cum_max_runup x |}.

Definition set_max_runup (v : Q) (x : t) : t :=
  {| size := size x; sign := sign x; entry_id := entry_id x;
     entry_bar_index := entry_bar_index x; entry_time := entry_time x;
     entry_price := entry_price x; entry_comment := entry_comment x;
     entry_equity := entry_equity x; exit_id := exit_id x; exit_bar_index := exit_bar_index x;
     exit_time := exit_time x; exit_price := exit_price x; exit_comment := exit_comment x;
     exit_equity := exit_equity x; commission := commission x; max_drawdown := max_drawdown x;
     max_drawdown_percent := max_drawdown_percent x; max_runup := v;
     max_runup_percent := max_runup_percent x; profit := profit x;
     profit_percent := profit_percent x; cum_profit := cum_profit x;
     cum_profit_percent := cum_profit_percent x; cum_max_drawdown := cum_max_drawdown x;
     cum_max_runup := cum_max_runup x |}.

Definition set_max_runup_percent (v : Q) (x : t) : t :=
  {| size := size x; sign := sign x; entry_id := entry_id x;
     entry_bar_index := entry_bar_index x; entry_time := entry_time x;
     entry_price := entry_price x; entry_comment := entry_comment x;
     entry_equity := entry_equity x; exit_id := exit_id x; exit_bar_index := exit_bar_index x;
     exit_time := exit_time x; exit_price := exit_price x; exit_comment := exit_comment x;
     exit_equity := exit_equity x; commission := commission x; max_drawdown := max_drawdown x;
     max_drawdown_percent := max_drawdown_percent x; max_runup := max_runup x;
     max_runup_percent := v; profit := profit x; profit_percent := profit_percent x;
     cum_profit := cum_profit x; cum_profit_percent := cum_profit_percent x;
     cum_max_drawdown := cum_max_drawdown x; cum_max_runup := cum_max_runup x |}.

Definition set_profit (v : Q) (x : t) : t :=
  {| size := size x; sign := sign x; entry_id := entry_id x;
     entry_bar_index := entry_bar_index x; entry_time := entry_time x;
     entry_price := entry_price x; entry_comment := entry_comment x;
     entry_equity := entry_equity x; exit_id := exit_id x; exit_bar_index := exit_bar_index x;
     exit_time := exit_time x; exit_price := exit_price x; exit_comment := exit_comment x;
     exit_equity := exit_equity x; commission := commission x; max_drawdown := max_drawdown x;
     max_drawdown_percent := max_drawdown_percent x; max_runup := max_runup x;
     max_runup_percent := max_runup_percent x; profit := v; profit_percent := profit_percent x;
     cum_profit := cum_profit x; cum_profit_percent := cum_profit_percent x;
     cum_max_drawdown := cum_max_drawdown x; cum_max_runup := cum_max_runup x |}.

Definition set_profit_percent (v : Q) (x : t) : t :=
  {| size := size x; sign := sign x; entry_id := entry_id x;
     entry_bar_index := entry_bar_index x; entry_time := entry_time x;
     entry_price := entry_price x; entry_comment := entry_comment x;
     entry_equity := entry_equity x; exit_id := exit_id x; exit_bar_index := exit_bar_index x;
     exit_time := exit_time x; exit_price := exit_price x; exit_comment := exit_comment x;
     exit_equity := exit_equity x; commission := commission x; max_drawdown := max_drawdown x;
     max_drawdown_percent := max_drawdown_percent x; max_runup := max_runup x;
     max_runup_percent := max_runup_percent x; profit := profit x; profit_percent := v;
     cum_profit := cum_profit x; cum_profit_percent := cum_profit_percent x;
     cum_max_drawdown := cum_max_drawdown x; cum_max_runup := cum_max_runup x |}.

Definition set_cum_profit (v : Q) (x : t) : t :=
  {| size := size x; sign := sign x; entry_id := entry_id x;
     entry_bar_index := entry_bar_index x; entry_time := entry_time x;
     entry_price := entry_price x; entry_comment := entry_comment x;
     entry_equity := entry_equity x; exit_id := exit_id x; exit_bar_index := exit_bar_index x;
     exit_time := exit_time x; exit_price := exit_price x; exit_comment := exit_comment x;
     exit_equity := exit_equity x; commission := commission x; max_drawdown := max_drawdown x;
     max_drawdown_percent := max_drawdown_percent x; max_runup := max_runup x;
     max_runup_percent := max_runup_percent x; profit := profit x;
     profit_percent := profit_percent x; cum_profit := v;
     cum_profit_percent := cum_profit_percent x; cum_max_drawdown := cum_max_drawdown x;
     cum_max_runup := cum_max_runup x |}.

Definition set_cum_profit_percent (v : Q) (x : t) : t :=
  {| size := size x; sign := sign x; entry_id := entry_id x;
     entry_bar_index := entry_bar_index x; entry_time := entry_time x;
     entry_price := entry_price x; entry_comment := entry_comment x;
     entry_equity := entry_equity x; exit_id := exit_id x; exit_bar_index := exit_bar_index x;
     exit_time := exit_time x; exit_price := exit_price x; exit_comment := exit_comment x;
     exit_equity := exit_equity x; commission := commission x; max_drawdown := max_drawdown x;
     max_drawdown_percent := max_drawdown_percent x; max_runup := max_runup x;
     max_runup_percent := max_runup_percent x; profit := profit x;
     profit_percent := profit_percent x; cum_profit := cum_profit x; cum_profit_percent := v;
     cum_max_drawdown := cum_max_drawdown x; cum_max_runup := cum_max_runup x |}.

Definition set_cum_max_drawdown (v : Q) (x : t) : t :=
  {| size := size x; sign := sign x; entry_id := entry_id x;
     entry_bar_index := entry_bar_index x; entry_time := entry_time x;
     entry_price := entry_price x; entry_comment := entry_comment x;
     entry_equity := entry_equity x; exit_id := exit_id x; exit_bar_index := exit_bar_index x;
     exit_time := exit_time x; exit_price := exit_price x; exit_comment := exit_comment x;
     exit_equity := exit_equity x; commission := commission x; max_drawdown := max_drawdown x;
     max_drawdown_percent := max_drawdown_percent x; max_runup := max_runup x;
     max_runup_percent := max_runup_percent x; profit := profit x;
     profit_percent := profit_percent x; cum_profit := cum_profit x;
     cum_profit_percent := cum_profit_percent x; cum_max_drawdown := v;
     cum_max_runup := cum_max_runup x |}.

Definition set_cum_max_runup (v : Q) (x : t) : t :=
  {| size := size x; sign := sign x; entry_id := entry_id x;
     entry_bar_index := entry_bar_index x; entry_time := entry_time x;
     entry_price := entry_price x; entry_comment := entry_comment x;
     entry_equity := entry_equity x; exit_id := exit_id x; exit_bar_index := exit_bar_index x;
     exit_time := exit_time x; exit_price := exit_price x; exit_comment := exit_comment x;
     exit_equity := exit_equity x; commission := commission x; max_drawdown := max_drawdown x;
     max_drawdown_percent := max_drawdown_percent x; max_runup := max_runup x;
     max_runup_percent := max_runup_percent x; profit := profit x;
     profit_percent := profit_percent x; cum_profit := cum_profit x;
     cum_profit_percent := cum_profit_percent x; cum_max_drawdown := cum_max_drawdown x;
     cum_max_runup := v |}.

End Trade.

(** [Order.__init__] *)
Definition new_Order (order_id : option string) (size : Q) (order_type : OrderType)
  (exit_id : option string) (limit stop : pyfloat) (oca_name : pystr)
  (oca_type : option Oca) (comment alert_message : pystr)
  (trail_price trail_offset : pyfloat)
  (profit_ticks loss_ticks trail_points_ticks : option Q) : Order.t :=
  {| Order.order_id := order_id;
     Order.size := size;
     Order.sign := signum size;
     Order.limit := limit;
     Order.stop := stop;
     Order.order_type := order_type;
     Order.exit_id := exit_id;
     Order.oca_name := oca_name;
     Order.oca_type := oca_type;
     Order.comment := comment;
     Order.alert_message := alert_message;
     Order.trail_price := trail_price;
     Order.trail_offset :=
       match trail_offset with
       | PNum x => if Qeq_bool x 0 then 0 else x
       | _ => 0
       end;
     Order.trail_triggered := false;
     Order.profit_ticks := profit_ticks;
     Order.loss_ticks := loss_ticks;
     Order.trail_points_ticks := trail_points_ticks;
     Order.is_market_order := is_None limit && is_None stop && is_None trail_price |}.

(** [Trade.__init__] *)
Definition new_Trade (size : Q) (entry_id : string) (entry_bar_index entry_time : Z)
  (entry_price commission : Q) (entry_comment : pystr) (entry_equity : Q) : Trade.t :=
  {| Trade.size := size;
     Trade.sign := signum size;
     Trade.entry_id := entry_id;
     Trade.entry_bar_index := entry_bar_index;
     Trade.entry_time := entry_time;
     Trade.entry_price := entry_price;
     Trade.entry_equity := entry_equity;
     Trade.entry_comment := entry_comment;
     Trade.exit_id := "";
     Trade.exit_bar_index := (-1)%Z;
     Trade.exit_time := (-1)%Z;
     Trade.exit_price := 0;
     Trade.exit_comment := SStr "";
     Trade.exit_equity := PNA;
     Trade.commission := commission;
     Trade.max_drawdown := 0;
     Trade.max_drawdown_percent := 0;
     Trade.max_runup := 0;
     Trade.max_runup_percent := 0;
     Trade.profit := 0;
     Trade.profit_percent := 0;
     Trade.cum_profit := 0;
     Trade.cum_profit_percent := 0;
     Trade.cum_max_drawdown := 0;
     Trade.cum_max_runup := 0 |}.

Module Position.

(** [class Position]: the ledger.  The risk settings that this file never
    reads are left out.  The last two fields are the object stores: the
    pending maps hold references into [order_objs], and [closed_trades] and
    [new_closed_trades] hold references into [trade_objs] (the same closed
    trade object is in both containers). *)
Record t : Type := mk {
  netprofit : Q;
  openprofit : Q;
  grossprofit : Q;
  grossloss : Q;
  entry_orders : dict;  (* order_id -> Order *)
  exit_orders : dict;  (* exit_id -> Order *)
  open_trades : list Trade.t;
  closed_trades : list ref;  (* deque(maxlen=9000) of closed-trade objects *)
  new_closed_trades : list ref;
  closed_trades_count : Z;
  wintrades : Z;
  eventrades : Z;
  losstrades : Z;
  size : Q;
  sign : Q;
  avg_price : Q;
  prev_c : Q;
  cum_profit : Q;
  risk_allowed_direction : option Direction;
  risk_max_intraday_filled_orders : option Z;
  risk_max_position_size : option Q;
  risk_intraday_filled_orders : Z;
  risk_halt_trading : bool;
  entry_equity : Q;
  max_equity : option Q;  (* None is -inf *)
  min_equity : option Q;  (* None is +inf *)
  drawdown_summ : Q;
  runup_summ : Q;
  max_drawdown : Q;
  max_runup : Q;
  entry_summ : Q;
  open_commission : Q;
  o : Q;
  h : Q;
  l : Q;
  c : Q;
  order_objs : list Order.t;  (* store of Order objects, by reference *)
  trade_objs : list Trade.t  (* store of closed-trade objects, by reference *)
}.

Definition set_netprofit (v : Q) (x : t) : t :=
  {| netprofit := v; openprofit := openprofit x; grossprofit := grossprofit x;
     grossloss := grossloss x; entry_orders := entry_orders x; exit_orders := exit_orders x;
     open_trades := open_trades x; closed_trades := closed_trades x;
     new_closed_trades := new_closed_trades x; closed_trades_count := closed_trades_count x;
     wintrades := wintrades x; eventrades := eventrades x; losstrades := losstrades x;
     size := size x; sign := sign x; avg_price := avg_price x; prev_c := prev_c x;
     cum_profit := cum_profit x; risk_allowed_direction := risk_allowed_direction x;
     risk_max_intraday_filled_orders := risk_max_intraday_filled_orders x;
     risk_max_position_size := risk_max_position_size x;
     risk_intraday_filled_orders := risk_intraday_filled_orders x;
     risk_halt_trading := risk_halt_trading x; entry_equity := entry_equity x;
     max_equity := max_equity x; min_equity := min_equity x; drawdown_summ := drawdown_summ x;
     runup_summ := runup_summ x; max_drawdown := max_drawdown x; max_runup := max_runup x;
     entry_summ := entry_summ x; open_commission := open_commission x; o := o x; h := h x;
     l := l x; c := c x; order_objs := order_objs x; trade_objs := trade_objs x |}.

Definition set_openprofit (v : Q) (x : t) : t :=
  {| netprofit := netprofit x; openprofit := v; grossprofit := grossprofit x;
     grossloss := grossloss x; entry_orders := entry_orders x; exit_orders := exit_orders x;
     open_trades := open_trades x; closed_trades := closed_trades x;
     new_closed_trades := new_closed_trades x; closed_trades_count := closed_trades_count x;
     wintrades := wintrades x; eventrades := eventrades x; losstrades := losstrades x;
     size := size x; sign := sign x; avg_price := avg_price x; prev_c := prev_c x;
     cum_profit := cum_profit x; risk_allowed_direction := risk_allowed_direction x;
     risk_max_intraday_filled_orders := risk_max_intraday_filled_orders x;
     risk_max_position_size := risk_max_position_size x;
     risk_intraday_filled_orders := risk_intraday_filled_orders x;
     risk_halt_trading := risk_halt_trading x; entry_equity := entry_equity x;
     max_equity := max_equity x; min_equity := min_equity x; drawdown_summ := drawdown_summ x;
     runup_summ := runup_summ x; max_drawdown := max_drawdown x; max_runup := max_runup x;
     entry_summ := entry_summ x; open_commission := open_commission x; o := o x; h := h x;
     l := l x; c := c x; order_objs := order_objs x; trade_objs := trade_objs x |}.

Definition set_grossprofit (v : Q) (x : t) : t :=
  {| netprofit := netprofit x; openprofit := openprofit x; grossprofit := v;
     grossloss := grossloss x; entry_orders := entry_orders x; exit_orders := exit_orders x;
     open_trades := open_trades x; closed_trades := closed_trades x;
     new_closed_trades := new_closed_trades x; closed_trades_count := closed_trades_count x;
     wintrades := wintrades x; eventrades := eventrades x; losstrades := losstrades x;
     size := size x; sign := sign x; avg_price := avg_price x; prev_c := prev_c x;
     cum_profit := cum_profit x; risk_allowed_direction := risk_allowed_direction x;
     risk_max_intraday_filled_orders := risk_max_intraday_filled_orders x;
     risk_max_position_size := risk_max_position_size x;
     risk_intraday_filled_orders := risk_intraday_filled_orders x;
     risk_halt_trading := risk_halt_trading x; entry_equity := entry_equity x;
     max_equity := max_equity x; min_equity := min_equity x; drawdown_summ := drawdown_summ x;
     runup_summ := runup_summ x; max_drawdown := max_drawdown x; max_runup := max_runup x;
     entry_summ := entry_summ x; open_commission := open_commission x; o := o x; h := h x;
     l := l x; c := c x; order_objs := order_objs x; trade_objs := trade_objs x |}.

Definition set_grossloss (v : Q) (x : t) : t :=
  {| netprofit := netprofit x; openprofit := openprofit x; grossprofit := grossprofit x;
     grossloss := v; entry_orders := entry_orders x; exit_orders := exit_orders x;
     open_trades := open_trades x; closed_trades := closed_trades x;
     new_closed_trades := new_closed_trades x; closed_trades_count := closed_trades_count x;
     wintrades := wintrades x; eventrades := eventrades x; losstrades := losstrades x;
     size := size x; sign := sign x; avg_price := avg_price x; prev_c := prev_c x;
     cum_profit := cum_profit x; risk_allowed_direction := risk_allowed_direction x;
     risk_max_intraday_filled_orders := risk_max_intraday_filled_orders x;
     risk_max_position_size := risk_max_position_size x;
     risk_intraday_filled_orders := risk_intraday_filled_orders x;
     risk_halt_trading := risk_halt_trading x; entry_equity := entry_equity x;
     max_equity := max_equity x; min_equity := min_equity x; drawdown_summ := drawdown_summ x;
     runup_summ := runup_summ x; max_drawdown := max_drawdown x; max_runup := max_runup x;
     entry_summ := entry_summ x; open_commission := open_commission x; o := o x; h := h x;
     l := l x; c := c x; order_objs := order_objs x; trade_objs := trade_objs x |}.

Definition set_entry_orders (v : dict) (x : t) : t :=
  {| netprofit := netprofit x; openprofit := openprofit x; grossprofit := grossprofit x;
     grossloss := grossloss x; entry_orders := v; exit_orders := exit_orders x;
     open_trades := open_trades x; closed_trades := closed_trades x;
     new_closed_trades := new_closed_trades x; closed_trades_count := closed_trades_count x;
     wintrades := wintrades x; eventrades := eventrades x; losstrades := losstrades x;
     size := size x; sign := sign x; avg_price := avg_price x; prev_c := prev_c x;
     cum_profit := cum_profit x; risk_allowed_direction := risk_allowed_direction x;
     risk_max_intraday_filled_orders := risk_max_intraday_filled_orders x;
     risk_max_position_size := risk_max_position_size x;
     risk_intraday_filled_orders := risk_intraday_filled_orders x;
     risk_halt_trading := risk_halt_trading x; entry_equity := entry_equity x;
     max_equity := max_equity x; min_equity := min_equity x; drawdown_summ := drawdown_summ x;
     runup_summ := runup_summ x; max_drawdown := max_drawdown x; max_runup := max_runup x;
     entry_summ := entry_summ x; open_commission := open_commission x; o := o x; h := h x;
     l := l x; c := c x; order_objs := order_objs x; trade_objs := trade_objs x |}.

Definition set_exit_orders (v : dict) (x : t) : t :=
  {| netprofit := netprofit x; openprofit := openprofit x; grossprofit := grossprofit x;
     grossloss := grossloss x; entry_orders := entry_orders x; exit_orders := v;
     open_trades := open_trades x; closed_trades := closed_trades x;
     new_closed_trades := new_closed_trades x; closed_trades_count := closed_trades_count x;
     wintrades := wintrades x; eventrades := eventrades x; losstrades := losstrades x;
     size := size x; sign := sign x; avg_price := avg_price x; prev_c := prev_c x;
     cum_profit := cum_profit x; risk_allowed_direction := risk_allowed_direction x;
     risk_max_intraday_filled_orders := risk_max_intraday_filled_orders x;
     risk_max_position_size := risk_max_position_size x;
     risk_intraday_filled_orders := risk_intraday_filled_orders x;
     risk_halt_trading := risk_halt_trading x; entry_equity := entry_equity x;
     max_equity := max_equity x; min_equity := min_equity x; drawdown_summ := drawdown_summ x;
     runup_summ := runup_summ x; max_drawdown := max_drawdown x; max_runup := max_runup x;
     entry_summ := entry_summ x; open_commission := open_commission x; o := o x; h := h x;
     l := l x; c := c x; order_objs := order_objs x; trade_objs := trade_objs x |}.

Definition set_open_trades (v : list Trade.t) (x : t) : t :=
  {| netprofit := netprofit x; openprofit := openprofit x; grossprofit := grossprofit x;
     grossloss := grossloss x; entry_orders := entry_orders x; exit_orders := exit_orders x;
     open_trades := v; closed_trades := closed_trades x;
     new_closed_trades := new_closed_trades x; closed_trades_count := closed_trades_count x;
     wintrades := wintrades x; eventrades := eventrades x; losstrades := losstrades x;
     size := size x; sign := sign x; avg_price := avg_price x; prev_c := prev_c x;
     cum_profit := cum_profit x; risk_allowed_direction := risk_allowed_direction x;
     risk_max_intraday_filled_orders := risk_max_intraday_filled_orders x;
     risk_max_position_size := risk_max_position_size x;
     risk_intraday_filled_orders := risk_intraday_filled_orders x;
     risk_halt_trading := risk_halt_trading x; entry_equity := entry_equity x;
     max_equity := max_equity x; min_equity := min_equity x; drawdown_summ := drawdown_summ x;
     runup_summ := runup_summ x; max_drawdown := max_drawdown x; max_runup := max_runup x;
     entry_summ := entry_summ x; open_commission := open_commission x; o := o x; h := h x;
     l := l x; c := c x; order_objs := order_objs x; trade_objs := trade_objs x |}.

Definition set_closed_trades (v : list ref) (x : t) : t :=
  {| netprofit := netprofit x; openprofit := openprofit x; grossprofit := grossprofit x;
     grossloss := grossloss x; entry_orders := entry_orders x; exit_orders := exit_orders x;
     open_trades := open_trades x; closed_trades := v;
     new_closed_trades := new_closed_trades x; closed_trades_count := closed_trades_count x;
     wintrades := wintrades x; eventrades := eventrades x; losstrades := losstrades x;
     size := size x; sign := sign x; avg_price := avg_price x; prev_c := prev_c x;
     cum_profit := cum_profit x; risk_allowed_direction := risk_allowed_direction x;
     risk_max_intraday_filled_orders := risk_max_intraday_filled_orders x;
     risk_max_position_size := risk_max_position_size x;
     risk_intraday_filled_orders := risk_intraday_filled_orders x;
     risk_halt_trading := risk_halt_trading x; entry_equity := entry_equity x;
     max_equity := max_equity x; min_equity := min_equity x; drawdown_summ := drawdown_summ x;
     runup_summ := runup_summ x; max_drawdown := max_drawdown x; max_runup := max_runup x;
     entry_summ := entry_summ x; open_commission := open_commission x; o := o x; h := h x;
     l := l x; c := c x; order_objs := order_objs x; trade_objs := trade_objs x |}.

Definition set_new_closed_trades (v : list ref) (x : t) : t :=
  {| netprofit := netprofit x; openprofit := openprofit x; grossprofit := grossprofit x;
     grossloss := grossloss x; entry_orders := entry_orders x; exit_orders := exit_orders x;
     open_trades := open_trades x; closed_trades := closed_trades x; new_closed_trades := v;
     closed_trades_count := closed_trades_count x; wintrades := wintrades x;
     eventrades := eventrades x; losstrades := losstrades x; size := size x; sign := sign x;
     avg_price := avg_price x; prev_c := prev_c x; cum_profit := cum_profit x;
     risk_allowed_direction := risk_allowed_direction x;
     risk_max_intraday_filled_orders := risk_max_intraday_filled_orders x;
     risk_max_position_size := risk_max_position_size x;
     risk_intraday_filled_orders := risk_intraday_filled_orders x;
     risk_halt_trading := risk_halt_trading x; entry_equity := entry_equity x;
     max_equity := max_equity x; min_equity := min_equity x; drawdown_summ := drawdown_summ x;
     runup_summ := runup_summ x; max_drawdown := max_drawdown x; max_runup := max_runup x;
     entry_summ := entry_summ x; open_commission := open_commission x; o := o x; h := h x;
     l := l x; c := c x; order_objs := order_objs x; trade_objs := trade_objs x |}.

Definition set_closed_trades_count (v : Z) (x : t) : t :=
  {| netprofit := netprofit x; openprofit := openprofit x; grossprofit := grossprofit x;
     grossloss := grossloss x; entry_orders := entry_orders x; exit_orders := exit_orders x;
     open_trades := open_trades x; closed_trades := closed_trades x;
     new_closed_trades := new_closed_trades x; closed_trades_count := v;
     wintrades := wintrades x; eventrades := eventrades x; losstrades := losstrades x;
     size := size x; sign := sign x; avg_price := avg_price x; prev_c := prev_c x;
     cum_profit := cum_profit x; risk_allowed_direction := risk_allowed_direction x;
     risk_max_intraday_filled_orders := risk_max_intraday_filled_orders x;
     risk_max_position_size := risk_max_position_size x;
     risk_intraday_filled_orders := risk_intraday_filled_orders x;
     risk_halt_trading := risk_halt_trading x; entry_equity := entry_equity x;
     max_equity := max_equity x; min_equity := min_equity x; drawdown_summ := drawdown_summ x;
     runup_summ := runup_summ x; max_drawdown := max_drawdown x; max_runup := max_runup x;
     entry_summ := entry_summ x; open_commission := open_commission x; o := o x; h := h x;
     l := l x; c := c x; order_objs := order_objs x; trade_objs := trade_objs x |}.

Definition set_wintrades (v : Z) (x : t) : t :=
  {| netprofit := netprofit x; openprofit := openprofit x; grossprofit := grossprofit x;
     grossloss := grossloss x; entry_orders := entry_orders x; exit_orders := exit_orders x;
     open_trades := open_trades x; closed_trades := closed_trades x;
     new_closed_trades := new_closed_trades x; closed_trades_count := closed_trades_count x;
     wintrades := v; eventrades := eventrades x; losstrades := losstrades x; size := size x;
     sign := sign x; avg_price := avg_price x; prev_c := prev_c x; cum_profit := cum_profit x;
     risk_allowed_direction := risk_allowed_direction x;
     risk_max_intraday_filled_orders := risk_max_intraday_filled_orders x;
     risk_max_position_size := risk_max_position_size x;
     risk_intraday_filled_orders := risk_intraday_filled_orders x;
     risk_halt_trading := risk_halt_trading x; entry_equity := entry_equity x;
     max_equity := max_equity x; min_equity := min_equity x; drawdown_summ := drawdown_summ x;
     runup_summ := runup_summ x; max_drawdown := max_drawdown x; max_runup := max_runup x;
     entry_summ := entry_summ x; open_commission := open_commission x; o := o x; h := h x;
     l := l x; c := c x; order_objs := order_objs x; trade_objs := trade_objs x |}.

Definition set_eventrades (v : Z) (x : t) : t :=
  {| netprofit := netprofit x; openprofit := openprofit x; grossprofit := grossprofit x;
     grossloss := grossloss x; entry_orders := entry_orders x; exit_orders := exit_orders x;
     open_trades := open_trades x; closed_trades := closed_trades x;
     new_closed_trades := new_closed_trades x; closed_trades_count := closed_trades_count x;
     wintrades := wintrades x; eventrades := v; losstrades := losstrades x; size := size x;
     sign := sign x; avg_price := avg_price x; prev_c := prev_c x; cum_profit := cum_profit x;
     risk_allowed_direction := risk_allowed_direction x;
     risk_max_intraday_filled_orders := risk_max_intraday_filled_orders x;
     risk_max_position_size := risk_max_position_size x;
     risk_intraday_filled_orders := risk_intraday_filled_orders x;
     risk_halt_trading := risk_halt_trading x; entry_equity := entry_equity x;
     max_equity := max_equity x; min_equity := min_equity x; drawdown_summ := drawdown_summ x;
     runup_summ := runup_summ x; max_drawdown := max_drawdown x; max_runup := max_runup x;
     entry_summ := entry_summ x; open_commission := open_commission x; o := o x; h := h x;
     l := l x; c := c x; order_objs := order_objs x; trade_objs := trade_objs x |}.

Definition set_losstrades (v : Z) (x : t) : t :=
  {| netprofit := netprofit x; openprofit := openprofit x; grossprofit := grossprofit x;
     grossloss := grossloss x; entry_orders := entry_orders x; exit_orders := exit_orders x;
     open_trades := open_trades x; closed_trades := closed_trades x;
     new_closed_trades := new_closed_trades x; closed_trades_count := closed_trades_count x;
     wintrades := wintrades x; eventrades := eventrades x; losstrades := v; size := size x;
     sign := sign x; avg_price := avg_price x; prev_c := prev_c x; cum_profit := cum_profit x;
     risk_allowed_direction := risk_allowed_direction x;
     risk_max_intraday_filled_orders := risk_max_intraday_filled_orders x;
     risk_max_position_size := risk_max_position_size x;
     risk_intraday_filled_orders := risk_intraday_filled_orders x;
     risk_halt_trading := risk_halt_trading x; entry_equity := entry_equity x;
     max_equity := max_equity x; min_equity := min_equity x; drawdown_summ := drawdown_summ x;
     runup_summ := runup_summ x; max_drawdown := max_drawdown x; max_runup := max_runup x;
     entry_summ := entry_summ x; open_commission := open_commission x; o := o x; h := h x;
     l := l x; c := c x; order_objs := order_objs x; trade_objs := trade_objs x |}.

Definition set_size (v : Q) (x : t) : t :=
  {| netprofit := netprofit x; openprofit := openprofit x; grossprofit := grossprofit x;
     grossloss := grossloss x; entry_orders := entry_orders x; exit_orders := exit_orders x;
     open_trades := open_trades x; closed_trades := closed_trades x;
     new_closed_trades := new_closed_trades x; closed_trades_count := closed_trades_count x;
     wintrades := wintrades x; eventrades := eventrades x; losstrades := losstrades x;
     size := v; sign := sign x; avg_price := avg_price x; prev_c := prev_c x;
     cum_profit := cum_profit x; risk_allowed_direction := risk_allowed_direction x;
     risk_max_intraday_filled_orders := risk_max_intraday_filled_orders x;
     risk_max_position_size := risk_max_position_size x;
     risk_intraday_filled_orders := risk_intraday_filled_orders x;
     risk_halt_trading := risk_halt_trading x; entry_equity := entry_equity x;
     max_equity := max_equity x; min_equity := min_equity x; drawdown_summ := drawdown_summ x;
     runup_summ := runup_summ x; max_drawdown := max_drawdown x; max_runup := max_runup x;
     entry_summ := entry_summ x; open_commission := open_commission x; o := o x; h := h x;
     l := l x; c := c x; order_objs := order_objs x; trade_objs := trade_objs x |}.

Definition set_sign (v : Q) (x : t) : t :=
  {| netprofit := netprofit x; openprofit := openprofit x; grossprofit := grossprofit x;
     grossloss := grossloss x; entry_orders := entry_orders x; exit_orders := exit_orders x;
     open_trades := open_trades x; closed_trades := closed_trades x;
     new_closed_trades := new_closed_trades x; closed_trades_count := closed_trades_count x;
     wintrades := wintrades x; eventrades := eventrades x; losstrades := losstrades x;
     size := size x; sign := v; avg_price := avg_price x; prev_c := prev_c x;
     cum_profit := cum_profit x; risk_allowed_direction := risk_allowed_direction x;
     risk_max_intraday_filled_orders := risk_max_intraday_filled_orders x;
     risk_max_position_size := risk_max_position_size x;
     risk_intraday_filled_orders := risk_intraday_filled_orders x;
     risk_halt_trading := risk_halt_trading x; entry_equity := entry_equity x;
     max_equity := max_equity x; min_equity := min_equity x; drawdown_summ := drawdown_summ x;
     runup_summ := runup_summ x; max_drawdown := max_drawdown x; max_runup := max_runup x;
     entry_summ := entry_summ x; open_commission := open_commission x; o := o x; h := h x;
     l := l x; c := c x; order_objs := order_objs x; trade_objs := trade_objs x |}.

Definition set_avg_price (v : Q) (x : t) : t :=
  {| netprofit := netprofit x; openprofit := openprofit x; grossprofit := grossprofit x;
     grossloss := grossloss x; entry_orders := entry_orders x; exit_orders := exit_orders x;
     open_trades := open_trades x; closed_trades := closed_trades x;
     new_closed_trades := new_closed_trades x; closed_trades_count := closed_trades_count x;
     wintrades := wintrades x; eventrades := eventrades x; losstrades := losstrades x;
     size := size x; sign := sign x; avg_price := v; prev_c := prev_c x;
     cum_profit := cum_profit x; risk_allowed_direction := risk_allowed_direction x;
     risk_max_intraday_filled_orders := risk_max_intraday_filled_orders x;
     risk_max_position_size := risk_max_position_size x;
     risk_intraday_filled_orders := risk_intraday_filled_orders x;
     risk_halt_trading := risk_halt_trading x; entry_equity := entry_equity x;
     max_equity := max_equity x; min_equity := min_equity x; drawdown_summ := drawdown_summ x;
     runup_summ := runup_summ x; max_drawdown := max_drawdown x; max_runup := max_runup x;
     entry_summ := entry_summ x; open_commission := open_commission x; o := o x; h := h x;
     l := l x; c := c x; order_objs := order_objs x; trade_objs := trade_objs x |}.

Definition set_prev_c (v : Q) (x : t) : t :=
  {| netprofit := netprofit x; openprofit := openprofit x; grossprofit := grossprofit x;
     grossloss := grossloss x; entry_orders := entry_orders x; exit_orders := exit_orders x;
     open_trades := open_trades x; closed_trades := closed_trades x;
     new_closed_trades := new_closed_trades x; closed_trades_count := closed_trades_count x;
     wintrades := wintrades x; eventrades := eventrades x; losstrades := losstrades x;
     size := size x; sign := sign x; avg_price := avg_price x; prev_c := v;
     cum_profit := cum_profit x; risk_allowed_direction := risk_allowed_direction x;
     risk_max_intraday_filled_orders := risk_max_intraday_filled_orders x;
     risk_max_position_size := risk_max_position_size x;
     risk_intraday_filled_orders := risk_intraday_filled_orders x;
     risk_halt_trading := risk_halt_trading x; entry_equity := entry_equity x;
     max_equity := max_equity x; min_equity := min_equity x; drawdown_summ := drawdown_summ x;
     runup_summ := runup_summ x; max_drawdown := max_drawdown x; max_runup := max_runup x;
     entry_summ := entry_summ x; open_commission := open_commission x; o := o x; h := h x;
     l := l x; c := c x; order_objs := order_objs x; trade_objs := trade_objs x |}.

Definition set_cum_profit (v : Q) (x : t) : t :=
  {| netprofit := netprofit x; openprofit := openprofit x; grossprofit := grossprofit x;
     grossloss := grossloss x; entry_orders := entry_orders x; exit_orders := exit_orders x;
     open_trades := open_trades x; closed_trades := closed_trades x;
     new_closed_trades := new_closed_trades x; closed_trades_count := closed_trades_count x;
     wintrades := wintrades x; eventrades := eventrades x; losstrades := losstrades x;
     size := size x; sign := sign x; avg_price := avg_price x; prev_c := prev_c x;
     cum_profit := v; risk_allowed_direction := risk_allowed_direction x;
     risk_max_intraday_filled_orders := risk_max_intraday_filled_orders x;
     risk_max_position_size := risk_max_position_size x;
     risk_intraday_filled_orders := risk_intraday_filled_orders x;
     risk_halt_trading := risk_halt_trading x; entry_equity := entry_equity x;
     max_equity := max_equity x; min_equity := min_equity x; drawdown_summ := drawdown_summ x;
     runup_summ := runup_summ x; max_drawdown := max_drawdown x; max_runup := max_runup x;
     entry_summ := entry_summ x; open_commission := open_commission x; o := o x; h := h x;
     l := l x; c := c x; order_objs := order_objs x; trade_objs := trade_objs x |}.

Definition set_entry_equity (v : Q) (x : t) : t :=
  {| netprofit := netprofit x; openprofit := openprofit x; grossprofit := grossprofit x;
     grossloss := grossloss x; entry_orders := entry_orders x; exit_orders := exit_orders x;
     open_trades := open_trades x; closed_trades := closed_trades x;
     new_closed_trades := new_closed_trades x; closed_trades_count := closed_trades_count x;
     wintrades := wintrades x; eventrades := eventrades x; losstrades := losstrades x;
     size := size x; sign := sign x; avg_price := avg_price x; prev_c := prev_c x;
     cum_profit := cum_profit x; risk_allowed_direction := risk_allowed_direction x;
     risk_max_intraday_filled_orders := risk_max_intraday_filled_orders x;
     risk_max_position_size := risk_max_position_size x;
     risk_intraday_filled_orders := risk_intraday_filled_orders x;
     risk_halt_trading := risk_halt_trading x; entry_equity := v; max_equity := max_equity x;
     min_equity := min_equity x; drawdown_summ := drawdown_summ x; runup_summ := runup_summ x;
     max_drawdown := max_drawdown x; max_runup := max_runup x; entry_summ := entry_summ x;
     open_commission := open_commission x; o := o x; h := h x; l := l x; c := c x;
     order_objs := order_objs x; trade_objs := trade_objs x |}.

Definition set_max_equity (v : option Q) (x : t) : t :=
  {| netprofit := netprofit x; openprofit := openprofit x; grossprofit := grossprofit x;
     grossloss := grossloss x; entry_orders := entry_orders x; exit_orders := exit_orders x;
     open_trades := open_trades x; closed_trades := closed_trades x;
     new_closed_trades := new_closed_trades x; closed_trades_count := closed_trades_count x;
     wintrades := wintrades x; eventrades := eventrades x; losstrades := losstrades x;
     size := size x; sign := sign x; avg_price := avg_price x; prev_c := prev_c x;
     cum_profit := cum_profit x; risk_allowed_direction := risk_allowed_direction x;
     risk_max_intraday_filled_orders := risk_max_intraday_filled_orders x;
     risk_max_position_size := risk_max_position_size x;
     risk_intraday_filled_orders := risk_intraday_filled_orders x;
     risk_halt_trading := risk_halt_trading x; entry_equity := entry_equity x; max_equity := v;
     min_equity := min_equity x; drawdown_summ := drawdown_summ x; runup_summ := runup_summ x;
     max_drawdown := max_drawdown x; max_runup := max_runup x; entry_summ := entry_summ x;
     open_commission := open_commission x; o := o x; h := h x; l := l x; c := c x;
     order_objs := order_objs x; trade_objs := trade_objs x |}.

Definition set_min_equity (v : option Q) (x : t) : t :=
  {| netprofit := netprofit x; openprofit := openprofit x; grossprofit := grossprofit x;
     grossloss := grossloss x; entry_orders := entry_orders x; exit_orders := exit_orders x;
     open_trades := open_trades x; closed_trades := closed_trades x;
     new_closed_trades := new_closed_trades x; closed_trades_count := closed_trades_count x;
     wintrades := wintrades x; eventrades := eventrades x; losstrades := losstrades x;
     size := size x; sign := sign x; avg_price := avg_price x; prev_c := prev_c x;
     cum_profit := cum_profit x; risk_allowed_direction := risk_allowed_direction x;
     risk_max_intraday_filled_orders := risk_max_intraday_filled_orders x;
     risk_max_position_size := risk_max_position_size x;
     risk_intraday_filled_orders := risk_intraday_filled_orders x;
     risk_halt_trading := risk_halt_trading x; entry_equity := entry_equity x;
     max_equity := max_equity x; min_equity := v; drawdown_summ := drawdown_summ x;
     runup_summ := runup_summ x; max_drawdown := max_drawdown x; max_runup := max_runup x;
     entry_summ := entry_summ x; open_commission := open_commission x; o := o x; h := h x;
     l := l x; c := c x; order_objs := order_objs x; trade_objs := trade_objs x |}.

Definition set_drawdown_summ (v : Q) (x : t) : t :=
  {| netprofit := netprofit x; openprofit := openprofit x; grossprofit := grossprofit x;
     grossloss := grossloss x; entry_orders := entry_orders x; exit_orders := exit_orders x;
     open_trades := open_trades x; closed_trades := closed_trades x;
     new_closed_trades := new_closed_trades x; closed_trades_count := closed_trades_count x;
     wintrades := wintrades x; eventrades := eventrades x; losstrades := losstrades x;
     size := size x; sign := sign x; avg_price := avg_price x; prev_c := prev_c x;
     cum_profit := cum_profit x; risk_allowed_direction := risk_allowed_direction x;
     risk_max_intraday_filled_orders := risk_max_intraday_filled_orders x;
     risk_max_position_size := risk_max_position_size x;
     risk_intraday_filled_orders := risk_intraday_filled_orders x;
     risk_halt_trading := risk_halt_trading x; entry_equity := entry_equity x;
     max_equity := max_equity x; min_equity := min_equity x; drawdown_summ := v;
     runup_summ := runup_summ x; max_drawdown := max_drawdown x; max_runup := max_runup x;
     entry_summ := entry_summ x; open_commission := open_commission x; o := o x; h := h x;
     l := l x; c := c x; order_objs := order_objs x; trade_objs := trade_objs x |}.

Definition set_runup_summ (v : Q) (x : t) : t :=
  {| netprofit := netprofit x; openprofit := openprofit x; grossprofit := grossprofit x;
     grossloss := grossloss x; entry_orders := entry_orders x; exit_orders := exit_orders x;
     open_trades := open_trades x; closed_trades := closed_trades x;
     new_closed_trades := new_closed_trades x; closed_trades_count := closed_trades_count x;
     wintrades := wintrades x; eventrades := eventrades x; losstrades := losstrades x;
     size := size x; sign := sign x; avg_price := avg_price x; prev_c := prev_c x;
     cum_profit := cum_profit x; risk_allowed_direction := risk_allowed_direction x;
     risk_max_intraday_filled_orders := risk_max_intraday_filled_orders x;
     risk_max_position_size := risk_max_position_size x;
     risk_intraday_filled_orders := risk_intraday_filled_orders x;
     risk_halt_trading := risk_halt_trading x; entry_equity := entry_equity x;
     max_equity := max_equity x; min_equity := min_equity x; drawdown_summ := drawdown_summ x;
     runup_summ := v; max_drawdown := max_drawdown x; max_runup := max_runup x;
     entry_summ := entry_summ x; open_commission := open_commission x; o := o x; h := h x;
     l := l x; c := c x; order_objs := order_objs x; trade_objs := trade_objs x |}.

Definition set_max_drawdown (v : Q) (x : t) : t :=
  {| netprofit := netprofit x; openprofit := openprofit x; grossprofit := grossprofit x;
     grossloss := grossloss x; entry_orders := entry_orders x; exit_orders := exit_orders x;
     open_trades := open_trades x; closed_trades := closed_trades x;
     new_closed_trades := new_closed_trades x; closed_trades_count := closed_trades_count x;
     wintrades := wintrades x; eventrades := eventrades x; losstrades := losstrades x;
     size := size x; sign := sign x; avg_price := avg_price x; prev_c := prev_c x;
     cum_profit := cum_profit x; risk_allowed_direction := risk_allowed_direction x;
     risk_max_intraday_filled_orders := risk_max_intraday_filled_orders x;
     risk_max_position_size := risk_max_position_size x;
     risk_intraday_filled_orders := risk_intraday_filled_orders x;
     risk_halt_trading := risk_halt_trading x; entry_equity := entry_equity x;
     max_equity := max_equity x; min_equity := min_equity x; drawdown_summ := drawdown_summ x;
     runup_summ := runup_summ x; max_drawdown := v; max_runup := max_runup x;
     entry_summ := entry_summ x; open_commission := open_commission x; o := o x; h := h x;
     l := l x; c := c x; order_objs := order_objs x; trade_objs := trade_objs x |}.

Definition set_max_runup (v : Q) (x : t) : t :=
  {| netprofit := netprofit x; openprofit := openprofit x; grossprofit := grossprofit x;
     grossloss := grossloss x; entry_orders := entry_orders x; exit_orders := exit_orders x;
     open_trades := open_trades x; closed_trades := closed_trades x;
     new_closed_trades := new_closed_trades x; closed_trades_count := closed_trades_count x;
     wintrades := wintrades x; eventrades := eventrades x; losstrades := losstrades x;
     size := size x; sign := sign x; avg_price := avg_price x; prev_c := prev_c x;
     cum_profit := cum_profit x; risk_allowed_direction := risk_allowed_direction x;
     risk_max_intraday_filled_orders := risk_max_intraday_filled_orders x;
     risk_max_position_size := risk_max_position_size x;
     risk_intraday_filled_orders := risk_intraday_filled_orders x;
     risk_halt_trading := risk_halt_trading x; entry_equity := entry_equity x;
     max_equity := max_equity x; min_equity := min_equity x; drawdown_summ := drawdown_summ x;
     runup_summ := runup_summ x; max_drawdown := max_drawdown x; max_runup := v;
     entry_summ := entry_summ x; open_commission := open_commission x; o := o x; h := h x;
     l := l x; c := c x; order_objs := order_objs x; trade_objs := trade_objs x |}.

Definition set_entry_summ (v : Q) (x : t) : t :=
  {| netprofit := netprofit x; openprofit := openprofit x; grossprofit := grossprofit x;
     grossloss := grossloss x; entry_orders := entry_orders x; exit_orders := exit_orders x;
     open_trades := open_trades x; closed_trades := closed_trades x;
     new_closed_trades := new_closed_trades x; closed_trades_count := closed_trades_count x;
     wintrades := wintrades x; eventrades := eventrades x; losstrades := losstrades x;
     size := size x; sign := sign x; avg_price := avg_price x; prev_c := prev_c x;
     cum_profit := cum_profit x; risk_allowed_direction := risk_allowed_direction x;
     risk_max_intraday_filled_orders := risk_max_intraday_filled_orders x;
     risk_max_position_size := risk_max_position_size x;
     risk_intraday_filled_orders := risk_intraday_filled_orders x;
     risk_halt_trading := risk_halt_trading x; entry_equity := entry_equity x;
     max_equity := max_equity x; min_equity := min_equity x; drawdown_summ := drawdown_summ x;
     runup_summ := runup_summ x; max_drawdown := max_drawdown x; max_runup := max_runup x;
     entry_summ := v; open_commission := open_commission x; o := o x; h := h x; l := l x;
     c := c x; order_objs := order_objs x; trade_objs := trade_objs x |}.

Definition set_open_commission (v : Q) (x : t) : t :=
  {| netprofit := netprofit x; openprofit := openprofit x; grossprofit := grossprofit x;
     grossloss := grossloss x; entry_orders := entry_orders x; exit_orders := exit_orders x;
     open_trades := open_trades x; closed_trades := closed_trades x;
     new_closed_trades := new_closed_trades x; closed_trades_count := closed_trades_count x;
     wintrades := wintrades x; eventrades := eventrades x; losstrades := losstrades x;
     size := size x; sign := sign x; avg_price := avg_price x; prev_c := prev_c x;
     cum_profit := cum_profit x; risk_allowed_direction := risk_allowed_direction x;
     risk_max_intraday_filled_orders := risk_max_intraday_filled_orders x;
     risk_max_position_size := risk_max_position_size x;
     risk_intraday_filled_orders := risk_intraday_filled_orders x;
     risk_halt_trading := risk_halt_trading x; entry_equity := entry_equity x;
     max_equity := max_equity x; min_equity := min_equity x; drawdown_summ := drawdown_summ x;
     runup_summ := runup_summ x; max_drawdown := max_drawdown x; max_runup := max_runup x;
     entry_summ := entry_summ x; open_commission := v; o := o x; h := h x; l := l x; c := c x;
     order_objs := order_objs x; trade_objs := trade_objs x |}.

Definition set_o (v : Q) (x : t) : t :=
  {| netprofit := netprofit x; openprofit := openprofit x; grossprofit := grossprofit x;
     grossloss := grossloss x; entry_orders := entry_orders x; exit_orders := exit_orders x;
     open_trades := open_trades x; closed_trades := closed_trades x;
     new_closed_trades := new_closed_trades x; closed_trades_count := closed_trades_count x;
     wintrades := wintrades x; eventrades := eventrades x; losstrades := losstrades x;
     size := size x; sign := sign x; avg_price := avg_price x; prev_c := prev_c x;
     cum_profit := cum_profit x; risk_allowed_direction := risk_allowed_direction x;
     risk_max_intraday_filled_orders := risk_max_intraday_filled_orders x;
     risk_max_position_size := risk_max_position_size x;
     risk_intraday_filled_orders := risk_intraday_filled_orders x;
     risk_halt_trading := risk_halt_trading x; entry_equity := entry_equity x;
     max_equity := max_equity x; min_equity := min_equity x; drawdown_summ := drawdown_summ x;
     runup_summ := runup_summ x; max_drawdown := max_drawdown x; max_runup := max_runup x;
     entry_summ := entry_summ x; open_commission := open_commission x; o := v; h := h x;
     l := l x; c := c x; order_objs := order_objs x; trade_objs := trade_objs x |}.

Definition set_h (v : Q) (x : t) : t :=
  {| netprofit := netprofit x; openprofit := openprofit x; grossprofit := grossprofit x;
     grossloss := grossloss x; entry_orders := entry_orders x; exit_orders := exit_orders x;
     open_trades := open_trades x; closed_trades := closed_trades x;
     new_closed_trades := new_closed_trades x; closed_trades_count := closed_trades_count x;
     wintrades := wintrades x; eventrades := eventrades x; losstrades := losstrades x;
     size := size x; sign := sign x; avg_price := avg_price x; prev_c := prev_c x;
     cum_profit := cum_profit x; risk_allowed_direction := risk_allowed_direction x;
     risk_max_intraday_filled_orders := risk_max_intraday_filled_orders x;
     risk_max_position_size := risk_max_position_size x;
     risk_intraday_filled_orders := risk_intraday_filled_orders x;
     risk_halt_trading := risk_halt_trading x; entry_equity := entry_equity x;
     max_equity := max_equity x; min_equity := min_equity x; drawdown_summ := drawdown_summ x;
     runup_summ := runup_summ x; max_drawdown := max_drawdown x; max_runup := max_runup x;
     entry_summ := entry_summ x; open_commission := open_commission x; o := o x; h := v;
     l := l x; c := c x; order_objs := order_objs x; trade_objs := trade_objs x |}.

Definition set_l (v : Q) (x : t) : t :=
  {| netprofit := netprofit x; openprofit := openprofit x; grossprofit := grossprofit x;
     grossloss := grossloss x; entry_orders := entry_orders x; exit_orders := exit_orders x;
     open_trades := open_trades x; closed_trades := closed_trades x;
     new_closed_trades := new_closed_trades x; closed_trades_count := closed_trades_count x;
     wintrades := wintrades x; eventrades := eventrades x; losstrades := losstrades x;
     size := size x; sign := sign x; avg_price := avg_price x; prev_c := prev_c x;
     cum_profit := cum_profit x; risk_allowed_direction := risk_allowed_direction x;
     risk_max_intraday_filled_orders := risk_max_intraday_filled_orders x;
     risk_max_position_size := risk_max_position_size x;
     risk_intraday_filled_orders := risk_intraday_filled_orders x;
     risk_halt_trading := risk_halt_trading x; entry_equity := entry_equity x;
     max_equity := max_equity x; min_equity := min_equity x; drawdown_summ := drawdown_summ x;
     runup_summ := runup_summ x; max_drawdown := max_drawdown x; max_runup := max_runup x;
     entry_summ := entry_summ x; open_commission := open_commission x; o := o x; h := h x;
     l := v; c := c x; order_objs := order_objs x; trade_objs := trade_objs x |}.

Definition set_c (v : Q) (x : t) : t :=
  {| netprofit := netprofit x; openprofit := openprofit x; grossprofit := grossprofit x;
     grossloss := grossloss x; entry_orders := entry_orders x; exit_orders := exit_orders x;
     open_trades := open_trades x; closed_trades := closed_trades x;
     new_closed_trades := new_closed_trades x; closed_trades_count := closed_trades_count x;
     wintrades := wintrades x; eventrades := eventrades x; losstrades := losstrades x;
     size := size x; sign := sign x; avg_price := avg_price x; prev_c := prev_c x;
     cum_profit := cum_profit x; risk_allowed_direction := risk_allowed_direction x;
     risk_max_intraday_filled_orders := risk_max_intraday_filled_orders x;
     risk_max_position_size := risk_max_position_size x;
     risk_intraday_filled_orders := risk_intraday_filled_orders x;
     risk_halt_trading := risk_halt_trading x; entry_equity := entry_equity x;
     max_equity := max_equity x; min_equity := min_equity x; drawdown_summ := drawdown_summ x;
     runup_summ := runup_summ x; max_drawdown := max_drawdown x; max_runup := max_runup x;
     entry_summ := entry_summ x; open_commission := open_commission x; o := o x; h := h x;
     l := l x; c := v; order_objs := order_objs x; trade_objs := trade_objs x |}.

Definition set_order_objs (v : list Order.t) (x : t) : t :=
  {| netprofit := netprofit x; openprofit := openprofit x; grossprofit := grossprofit x;
     grossloss := grossloss x; entry_orders := entry_orders x; exit_orders := exit_orders x;
     open_trades := open_trades x; closed_trades := closed_trades x;
     new_closed_trades := new_closed_trades x; closed_trades_count := closed_trades_count x;
     wintrades := wintrades x; eventrades := eventrades x; losstrades := losstrades x;
     size := size x; sign := sign x; avg_price := avg_price x; prev_c := prev_c x;
     cum_profit := cum_profit x; risk_allowed_direction := risk_allowed_direction x;
     risk_max_intraday_filled_orders := risk_max_intraday_filled_orders x;
     risk_max_position_size := risk_max_position_size x;
     risk_intraday_filled_orders := risk_intraday_filled_orders x;
     risk_halt_trading := risk_halt_trading x; entry_equity := entry_equity x;
     max_equity := max_equity x; min_equity := min_equity x; drawdown_summ := drawdown_summ x;
     runup_summ := runup_summ x; max_drawdown := max_drawdown x; max_runup := max_runup x;
     entry_summ := entry_summ x; open_commission := open_commission x; o := o x; h := h x;
     l := l x; c := c x; order_objs := v; trade_objs := trade_objs x |}.

Definition set_trade_objs (v : list Trade.t) (x : t) : t :=
  {| netprofit := netprofit x; openprofit := openprofit x; grossprofit := grossprofit x;
     grossloss := grossloss x; entry_orders := entry_orders x; exit_orders := exit_orders x;
     open_trades := open_trades x; closed_trades := closed_trades x;
     new_closed_trades := new_closed_trades x; closed_trades_count := closed_trades_count x;
     wintrades := wintrades x; eventrades := eventrades x; losstrades := losstrades x;
     size := size x; sign := sign x; avg_price := avg_price x; prev_c := prev_c x;
     cum_profit := cum_profit x; risk_allowed_direction := risk_allowed_direction x;
     risk_max_intraday_filled_orders := risk_max_intraday_filled_orders x;
     risk_max_position_size := risk_max_position_size x;
     risk_intraday_filled_orders := risk_intraday_filled_orders x;
     risk_halt_trading := risk_halt_trading x; entry_equity := entry_equity x;
     max_equity := max_equity x; min_equity := min_equity x; drawdown_summ := drawdown_summ x;
     runup_summ := runup_summ x; max_drawdown := max_drawdown x; max_runup := max_runup x;
     entry_summ := entry_summ x; open_commission := open_commission x; o := o x; h := h x;
     l := l x; c := c x; order_objs := order_objs x; trade_objs := v |}.

End Position.

(** [Position()]: the class defaults and [__init__]. *)
Definition new_Position : Position.t :=
  {| Position.netprofit := 0;
     Position.openprofit := 0;
     Position.grossprofit := 0;
     Position.grossloss := 0;
     Position.entry_orders := [];
     Position.exit_orders := [];
     Position.open_trades := [];
     Position.closed_trades := [];
     Position.new_closed_trades := [];
     Position.closed_trades_count := 0%Z;
     Position.wintrades := 0%Z;
     Position.eventrades := 0%Z;
     Position.losstrades := 0%Z;
     Position.size := 0;
     Position.sign := 0;
     Position.avg_price := 0;
     Position.prev_c := 0;
     Position.cum_profit := 0;
     Position.risk_allowed_direction := None;
     Position.risk_max_intraday_filled_orders := None;
     Position.risk_max_position_size := None;
     Position.risk_intraday_filled_orders := 0%Z;
     Position.risk_halt_trading := false;
     Position.entry_equity := 0;
     Position.max_equity := None;
     Position.min_equity := None;
     Position.drawdown_summ := 0;
     Position.runup_summ := 0;
     Position.max_drawdown := 0;
     Position.max_runup := 0;
     Position.entry_summ := 0;
     Position.open_commission := 0;
     Position.o := 0;
     Position.h := 0;
     Position.l := 0;
     Position.c := 0;
     Position.order_objs := [];
     Position.trade_objs := [] |}.

(** What the engine reads from its collaborators: the current bar and clock
    ([lib]), the symbol ([syminfo]) and the script configuration
    ([lib._script]).  [round_to_mintick] is [lib.math.round_to_mintick],
    which is not part of the sources. *)
Record Env : Type := {
  lib_open : Q;
  lib_high : Q;
  lib_low : Q;
  lib_close : Q;
  bar_index : Z;
  lib_time : Z;
  lib_semaphore : bool;
  round_to_mintick : Q -> Q;
  mintick : Q;
  pointvalue : Q;
  size_round_factor : Q;
  initial_capital : Q;
  commission_type : CommissionType;
  commission_value : Q;
  slippage : Q;
  pyramiding : Z;
  margin_long : Q;
  margin_short : Q;
  default_qty_type : QtyType;
  default_qty_value : Q
}.

(** ** Object stores *)

(** Allocation of a new [Order] object. *)
Definition alloc_order (self : Position.t) (order : Order.t) : Position.t * ref :=
  (Position.set_order_objs (Position.order_objs self ++ [order])%list self,
   List.length (Position.order_objs self)).

Definition get_order (self : Position.t) (r : ref) : res Order.t :=
  match nth_error (Position.order_objs self) r with
  | Some order => Ok order
  | None => Raise InvalidReference
  end.

Fixpoint list_update {A : Type} (xs : list A) (n : nat) (x : A) : list A :=
  match xs, n with
  | [], _ => []
  | _ :: xs', O => x :: xs'
  | y :: xs', S n' => y :: list_update xs' n' x
  end.

(** Mutation of the [Order] object behind a reference. *)
Definition put_order (self : Position.t) (r : ref) (order : Order.t) : Position.t :=
  Position.set_order_objs (list_update (Position.order_objs self) r order) self.

Definition get_trade (self : Position.t) (r : ref) : res Trade.t :=
  match nth_error (Position.trade_objs self) r with
  | Some trade => Ok trade
  | None => Raise InvalidReference
  end.

Definition put_trade (self : Position.t) (r : ref) (trade : Trade.t) : Position.t :=
  Position.set_trade_objs (list_update (Position.trade_objs self) r trade) self.

(** [deque.append] with [maxlen = 9000]. *)
Definition deque_append (d : list ref) (r : ref) : list ref :=
  if (9000 <=? Z.of_nat (List.length d))%Z then (tl d ++ [r])%list else (d ++ [r])%list.

(** The closed trades that the ledger can still show, oldest first. *)
Definition closed_trade_list (self : Position.t) : list Trade.t :=
  flat_map (fun r => match nth_error (Position.trade_objs self) r with
                     | Some t => [t]
                     | None => []
                     end) (Position.closed_trades self).

(** [Position.equity] *)
Definition equity (env : Env) (self : Position.t) : Q :=
  initial_capital env + Position.netprofit self + Position.openprofit self.

(** ** The ledger: [Position._fill_order] *)

(** [a == b] for an identifier that may be [None]. *)
Definition optstr_eqb (a b : option string) : bool :=
  match a, b with
  | Some x, Some y => String.eqb x y
  | None, None => true
  | _, _ => false
  end.

Definition is_None_str (a : option string) : bool :=
  match a with None => true | Some _ => false end.

(** The local variables of the close walk of [_fill_order], with the ledger
    it mutates. *)
Record CloseWalk : Type := {
  cw_self : Position.t;
  cw_delete : bool;
  cw_open_trades : list Trade.t;
  cw_new_closed_trades : list ref;
  cw_closed_trade_size : Q
}.

(** The block under [if closed_trade.size != -size]: a partial close splits
    commission, drawdown and run-up between the retained trade and the closed
    copy.  The result is the pair [(trade, closed_trade)]. *)
Definition split_partial (env : Env) (price size size_ratio : Q)
  (trade closed_trade : Trade.t) : Trade.t * Trade.t :=
  if Qneb (Trade.size closed_trade) (- size) then
    (* Modify commission *)
    let trade := Trade.set_commission (Trade.commission trade * size_ratio) trade in
    let closed_trade :=
      if CommissionType_eqb (commission_type env) percent then
        Trade.set_commission
          (Trade.commission closed_trade
           * ((1 - size_ratio) * commission_value env * (1#100) * price)) closed_trade
      else
        Trade.set_commission (Trade.commission closed_trade * (1 - size_ratio)) closed_trade in
    (* Modify drawdown and runup *)
    let trade := Trade.set_max_drawdown (Trade.max_drawdown trade * size_ratio) trade in
    let trade := Trade.set_max_runup (Trade.max_runup trade * size_ratio) trade in
    let closed_trade :=
      Trade.set_max_drawdown (Trade.max_drawdown closed_trade * (1 - size_ratio)) closed_trade in
    let closed_trade :=
      Trade.set_max_runup (Trade.max_runup closed_trade * (1 - size_ratio)) closed_trade in
    (trade, closed_trade)
  else (trade, closed_trade).

(** The exit context of the closed copy. *)
Definition set_exit_context (env : Env) (order_exit_id : string) (size price pnl : Q)
  (closed_trade : Trade.t) : Trade.t :=
  let closed_trade := Trade.set_size (- size) closed_trade in
  let closed_trade := Trade.set_exit_id order_exit_id closed_trade in
  let closed_trade := Trade.set_exit_bar_index (bar_index env) closed_trade in
  let closed_trade := Trade.set_exit_time (lib_time env) closed_trade in
  let closed_trade := Trade.set_exit_price price closed_trade in
  Trade.set_profit pnl closed_trade.

(** The block under [# We realize later if it is cash per order or cash per
    contract].  The result is [(self, closed_trade, closed_trade_size)]. *)
Definition realize_commission (env : Env) (price size : Q) (self : Position.t)
  (closed_trade : Trade.t) (closed_trade_size : Q) : Position.t * Trade.t * Q :=
  if CommissionType_eqb (commission_type env) cash_per_contract
     || CommissionType_eqb (commission_type env) cash_per_order
  then (self, closed_trade, closed_trade_size + Qabs size)
  else
    let commission := Qabs size * commission_value env in
    let commission :=
      if CommissionType_eqb (commission_type env) percent
      then commission * ((1#100) * price) else commission in
    let closed_trade :=
      Trade.set_commission (Trade.commission closed_trade + commission) closed_trade in
    (* Realize commission *)
    let self := Position.set_netprofit (Position.netprofit self - commission) self in
    let closed_trade :=
      Trade.set_profit (Trade.profit closed_trade - Trade.commission closed_trade)
        closed_trade in
    (self, closed_trade, closed_trade_size).

(** [# Profit percent] *)
Definition set_close_profit_percent (pnl : Q) (closed_trade : Trade.t) : Trade.t :=
  let entry_value := Qabs (Trade.size closed_trade) * Trade.entry_price closed_trade in
  match pydiv pnl entry_value with
  | Ok x => Trade.set_profit_percent (x * 100) closed_trade
  | Raise _ => Trade.set_profit_percent 0 closed_trade
  end.

(** [# Gross P/L and counters] *)
Definition count_closed_trade (closed_trade : Trade.t) (self : Position.t) : Position.t :=
  if Qeq_bool (Trade.profit closed_trade) 0 then
    Position.set_eventrades (Position.eventrades self + 1)%Z self
  else if Qltb 0 (Trade.profit closed_trade) then
    Position.set_grossprofit (Position.grossprofit self + Trade.profit closed_trade)
      (Position.set_wintrades (Position.wintrades self + 1)%Z self)
  else
    Position.set_grossloss (Position.grossloss self - Trade.profit closed_trade)
      (Position.set_losstrades (Position.losstrades self + 1)%Z self).

(** [# Average entry price] after a close. *)
Definition average_after_close (closed_trade : Trade.t) (self : Position.t)
  : res Position.t :=
  if Qneb (Position.size self) 0 then
    let self :=
      Position.set_entry_summ
        (Position.entry_summ self
         - Trade.entry_price closed_trade * Qabs (Trade.size closed_trade)) self in
    do avg <- pydiv (Position.entry_summ self) (Qabs (Position.size self));
    let self := Position.set_avg_price avg self in
    (* Unrealized P&L *)
    Ok (Position.set_openprofit
          (Position.size self * (Position.c self - Position.avg_price self)) self)
  else
    (* If position has just closed *)
    Ok (Position.set_openprofit 0 (Position.set_avg_price 0 self)).

(** The block under [if pnl > 0.0]: [# Modify summs and entry equity with
    commission]. *)
Definition adjust_for_commission (pnl : Q) (closed_trade : Trade.t) (self : Position.t)
  : Position.t :=
  if Qltb 0 pnl then
    let self :=
      Position.set_runup_summ (Position.runup_summ self - Trade.commission closed_trade)
        self in
    let self :=
      Position.set_drawdown_summ
        (Position.drawdown_summ self + Trade.commission closed_trade / 2) self in
    Position.set_entry_equity
      (Position.entry_equity self + Trade.commission closed_trade / 2) self
  else self.

(** [# Modify sizes]: the size taken from the trade is added to the position;
    a position within [1 / syminfo._size_round_factor] of zero is snapped to
    zero and the residual goes into [size].  The result is [(self, size)].
    The additions are exact here; [Sizes.close_walk_step] has the same
    statements over an arithmetic that can round. *)
Definition modify_sizes (env : Env) (size : Q) (self : Position.t)
  : res (Position.t * Q) :=
  let self := Position.set_size (Position.size self + size) self in
  do abs_tol <- pydiv 1 (size_round_factor env);
  do close_to_zero <- isclose (Position.size self) 0 abs_tol;
  let '(self, size) :=
    if close_to_zero
    then (Position.set_size 0 self, size - Position.size self)
    else (self, size) in
  Ok (Position.set_sign (signum (Position.size self)) self, size).

(** One iteration of [for trade in self.open_trades] in the close branch of
    [_fill_order]; [r] refers to the order being filled.  [trade],
    [closed_trade] and [order] are the objects the iteration mutates; the
    fields of [closed_trade] and [order] are written to the stores where the
    iteration ends. *)
Definition close_walk_step (env : Env) (r : ref) (price h l : Q)
  (w : CloseWalk) (trade : Trade.t) : res CloseWalk :=
  let self := cw_self w in
  do order <- get_order self r;
  if Qneb (Order.size order) 0
     && (optstr_eqb (Some (Trade.entry_id trade)) (Order.order_id order)
         || is_None_str (Order.order_id order))
  then
    let delete := true in
    let size :=
      if Qle_bool (Qabs (Order.size order)) (Qabs (Trade.size trade))
      then Order.size order else - Trade.size trade in
    let pnl := - size * (price - Trade.entry_price trade) in
    (* closed_trade = copy(trade) *)
    let closed_trade := trade in
    let cref := List.length (Position.trade_objs self) in
    let self :=
      Position.set_trade_objs (Position.trade_objs self ++ [closed_trade])%list self in
    do q <- pydiv size (Trade.size closed_trade);
    let size_ratio := 1 + q in
    let tc := split_partial env price size size_ratio trade closed_trade in
    let trade := fst tc in
    let closed_trade := snd tc in
    (* P/L from high/low to calculate drawdown and runup *)
    let hprofit := - size * (h - Trade.entry_price closed_trade) - Trade.commission closed_trade in
    let lprofit := - size * (l - Trade.entry_price closed_trade) - Trade.commission closed_trade in
    let drawdown := - pymin3 hprofit lprofit 0 in
    let runup := pymax3 hprofit lprofit 0 in
    let self := Position.set_drawdown_summ (Position.drawdown_summ self + drawdown) self in
    let self := Position.set_runup_summ (Position.runup_summ self + runup) self in
    match Order.exit_id order with
    | None => Raise AssertionError
    | Some order_exit_id =>
      let closed_trade := set_exit_context env order_exit_id size price pnl closed_trade in
      (* Add to closed trade *)
      let new_closed_trades := (cw_new_closed_trades w ++ [cref])%list in
      let self :=
        Position.set_closed_trades (deque_append (Position.closed_trades self) cref) self in
      let self :=
        Position.set_closed_trades_count (Position.closed_trades_count self + 1)%Z self in
      let closed_trade :=
        if str_truthy (Order.comment order)
        then Trade.set_exit_comment (Order.comment order) closed_trade
        else closed_trade in
      (* Commission summ *)
      let self :=
        Position.set_open_commission
          (Position.open_commission self - Trade.commission closed_trade) self in
      let rc := realize_commission env price size self closed_trade (cw_closed_trade_size w) in
      let self := fst (fst rc) in
      let closed_trade := snd (fst rc) in
      let closed_trade_size := snd rc in
      let closed_trade := set_close_profit_percent pnl closed_trade in
      (* Realize profit or loss *)
      let self := Position.set_netprofit (Position.netprofit self + pnl) self in
      do ms <- modify_sizes env size self;
      let self := fst ms in
      let size := snd ms in
      let trade := Trade.set_size (Trade.size trade + size) trade in
      let order := Order.set_size (Order.size order - size) order in
      let self := count_closed_trade closed_trade self in
      do self <- average_after_close closed_trade self;
      (* Exit equity *)
      let closed_trade := Trade.set_exit_equity (PNum (equity env self)) closed_trade in
      if Qeq_bool (Trade.size trade) 0 then
        (* Remove from open trades if it is fully filled: continue *)
        let self := put_order (put_trade self cref closed_trade) r order in
        Ok {| cw_self := self; cw_delete := delete;
              cw_open_trades := cw_open_trades w;
              cw_new_closed_trades := new_closed_trades;
              cw_closed_trade_size := closed_trade_size |}
      else
        let self := adjust_for_commission pnl closed_trade self in
        let self := put_order (put_trade self cref closed_trade) r order in
        Ok {| cw_self := self; cw_delete := delete;
              cw_open_trades := (cw_open_trades w ++ [trade])%list;
              cw_new_closed_trades := new_closed_trades;
              cw_closed_trade_size := closed_trade_size |}
    end
  else
    Ok {| cw_self := self; cw_delete := cw_delete w;
          cw_open_trades := (cw_open_trades w ++ [trade])%list;
          cw_new_closed_trades := cw_new_closed_trades w;
          cw_closed_trade_size := cw_closed_trade_size w |}.

(** The allocation of the per-order commission over the trades closed by the
    call: [for trade in new_closed_trades] at the end of the close branch. *)
Definition allocate_order_commission (env : Env) (closed_trade_size : Q)
  (self : Position.t) (tr : ref) : res Position.t :=
  do trade <- get_trade self tr;
  do commission <- pydiv (commission_value env * Qabs (Trade.size trade)) closed_trade_size;
  Ok (put_trade self tr (Trade.set_commission (Trade.commission trade + commission) trade)).

(** [max(self.max_equity, x)] and [min(self.min_equity, x)]. *)
Definition max_equity_with (m : option Q) (x : Q) : option Q :=
  match m with
  | None => Some x
  | Some m => Some (pymax m x)
  end.

Definition min_equity_with (m : option Q) (x : Q) : option Q :=
  match m with
  | None => Some x
  | Some m => Some (pymin m x)
  end.

(** [# Calculate commission] of a new trade. *)
Definition entry_commission (env : Env) (order : Order.t) (price : Q) : res Q :=
  if Qneb (commission_value env) 0 then
    match commission_type env with
    | cash_per_order => Ok (commission_value env)
    | percent => Ok (Qabs (Order.size order) * commission_value env * (1#100) * price)
    | cash_per_contract => Ok (Qabs (Order.size order) * commission_value env)
    | commission_other => Raise AssertionError
    end
  else Ok 0.

(** The block under [if not self.open_trades] of a new trade:
    [# Set max and min equity] and [# Entry equity]. *)
Definition mark_entry_equity (entry_equity : Q) (self : Position.t) : Position.t :=
  match Position.open_trades self with
  | [] =>
    let self :=
      Position.set_max_equity (max_equity_with (Position.max_equity self) entry_equity)
        self in
    let self :=
      Position.set_min_equity (min_equity_with (Position.min_equity self) entry_equity)
        self in
    Position.set_entry_equity entry_equity self
  | _ :: _ => self
  end.

(** The new trade joins the open trades: from [self.open_trades.append(trade)]
    to [# Commission summ].  The addition to [size] is exact here;
    [Sizes._fill_order] has it over an arithmetic that can round. *)
Definition append_trade (price commission : Q) (order : Order.t) (trade : Trade.t)
  (self : Position.t) : Position.t :=
  let self := Position.set_open_trades (Position.open_trades self ++ [trade])%list self in
  let self := Position.set_size (Position.size self + Trade.size trade) self in
  let self := Position.set_sign (signum (Position.size self)) self in
  (* Average entry price *)
  let self :=
    Position.set_entry_summ (Position.entry_summ self + price * Qabs (Order.size order))
      self in
  let self :=
    match pydiv (Position.entry_summ self) (Qabs (Position.size self)) with
    | Ok avg => Position.set_avg_price avg self
    | Raise _ => Position.set_avg_price 0 self
    end in
  (* Unrealized P&L *)
  let self :=
    Position.set_openprofit
      (Position.size self * (Position.c self - Position.avg_price self)) self in
  (* Commission summ *)
  Position.set_open_commission (Position.open_commission self + commission) self.

(** [# Remove the order from the appropriate dict] *)
Definition remove_filled_order (order : Order.t) (self : Position.t) : Position.t :=
  if OrderType_eqb (Order.order_type order) _order_type_entry
     && optstr_truthy (Order.order_id order)
  then
    match Order.order_id order with
    | Some order_id =>
      Position.set_entry_orders (dict_pop (Position.entry_orders self) order_id) self
    | None => self
    end
  else if optstr_truthy (Order.exit_id order) then
    match Order.exit_id order with
    | Some exit_id =>
      Position.set_exit_orders (dict_pop (Position.exit_orders self) exit_id) self
    | None => self
    end
  else self.

(** The block under [if delete] that ends the close branch. *)
Definition finish_close (env : Env) (order : Order.t) (w : CloseWalk) (self : Position.t)
  : res Position.t :=
  if cw_delete w then
    (* Remove from exit_orders dict *)
    let self :=
      match Order.exit_id order with
      | Some k => Position.set_exit_orders (dict_pop (Position.exit_orders self) k) self
      | None => self
      end in
    if CommissionType_eqb (commission_type env) cash_per_order then
      (* Realize commission *)
      let self :=
        Position.set_netprofit (Position.netprofit self - commission_value env) self in
      foldM (allocate_order_commission env (cw_closed_trade_size w))
        (cw_new_closed_trades w) self
    else Ok self
  else Ok self.

(** The block under [# If position has just closed] that ends
    [_fill_order]. *)
Definition reset_when_flat (self : Position.t) : Position.t :=
  match Position.open_trades self with
  | [] =>
    Position.set_open_commission 0
      (Position.set_openprofit 0
         (Position.set_avg_price 0
            (Position.set_entry_summ 0 self)))
  | _ :: _ => self
  end.

(** [Position._fill_order(order, price, h, l)] *)
Definition _fill_order (env : Env) (self : Position.t) (r : ref) (price h l : Q)
  : res Position.t :=
  do order <- get_order self r;
  do self <-
    (if Qneb (Position.size self) 0
        && negb (OrderType_eqb (Order.order_type order) _order_type_entry)
        && Qneb (Order.sign order) (Position.sign self)
     then
       (* Close order *)
       do w <- foldM (close_walk_step env r price h l) (Position.open_trades self)
                 {| cw_self := self; cw_delete := false; cw_open_trades := [];
                    cw_new_closed_trades := []; cw_closed_trade_size := 0 |};
       let self := Position.set_open_trades (cw_open_trades w) (cw_self w) in
       do self <- finish_close env order w self;
       Ok (Position.set_new_closed_trades
             (Position.new_closed_trades self ++ cw_new_closed_trades w)%list self)
     else if negb (OrderType_eqb (Order.order_type order) _order_type_close) then
       (* New trade *)
       do commission <- entry_commission env order price;
       let before_equity := equity env self in
       (* Realize commission *)
       let self := Position.set_netprofit (Position.netprofit self - commission) self in
       let entry_equity := equity env self in
       let self := mark_entry_equity entry_equity self in
       match Order.order_id order with
       | None => Raise AssertionError
       | Some order_id =>
         let trade :=
           new_Trade (Order.size order) order_id (bar_index env) (lib_time env) price
             commission (Order.comment order) before_equity in
         let self := append_trade price commission order trade self in
         Ok (remove_filled_order order self)
       end
     else Ok self);
  Ok (reset_when_flat self).

(** [Position.fill_order(order, price, h, l)]: the result carries the
    returned flag, true if the side of the position has changed. *)
Definition fill_order (env : Env) (self : Position.t) (r : ref) (price h l : Q)
  : res (Position.t * bool) :=
  do order <- get_order self r;
  let new_size := Position.size self + Order.size order in
  do new_size <-
    (if Qneb new_size 0 then
       do abs_tol <- pydiv 1 (size_round_factor env);
       do close_to_zero <- isclose new_size 0 abs_tol;
       Ok (if negb close_to_zero then 0 else new_size)
     else Ok new_size);
  let new_sign := signum new_size in
  if Qneb (Position.size self) 0 && Qneb new_sign (Position.sign self) && Qneb new_size 0
  then
    if OrderType_eqb (Order.order_type order) _order_type_close then
      (* Limit the exit order size to just close the position *)
      let self := put_order self r (Order.set_size (- Position.size self) order) in
      do self <- _fill_order env self r price h l;
      Ok (self, false)
    else
      (* order1 = copy(order) *)
      let order1 := Order.set_order_type _order_type_close order in
      let order1 := Order.set_size (- Position.size self) order1 in
      let order1 := Order.set_order_id None order1 in
      let order1 := Order.set_exit_id (Order.order_id order) order1 in
      let '(self, r1) := alloc_order self order1 in
      do self <- _fill_order env self r1 price h l;
      let new_direction_sign := if Qltb 0 new_size then 1 else -1 in
      let blocked :=
        match Position.risk_allowed_direction self with
        | Some allowed =>
          (Qltb 0 new_direction_sign && negb (Direction_eqb allowed long))
          || (Qltb new_direction_sign 0 && negb (Direction_eqb allowed short))
        | None => false
        end in
      if blocked then Ok (self, false)
      else
        do order <- get_order self r;
        let order := Order.set_size new_size order in
        let self := put_order self r order in
        do self <-
          (if OrderType_eqb (Order.order_type order) _order_type_entry then
             match Order.order_id order with
             | Some k => Ok (Position.set_entry_orders (dict_set (Position.entry_orders self) k r) self)
             | None => Raise AssertionError
             end
           else
             match Order.exit_id order with
             | Some k => Ok (Position.set_exit_orders (dict_set (Position.exit_orders self) k r) self)
             | None => Raise AssertionError
             end);
        do self <- _fill_order env self r price h l;
        Ok (self, true)
  else
    do self <- _fill_order env self r price h l;
    Ok (self, false).

(** ** The bar processor *)

(** [(type == close and size > 0) or (type == entry and size > 0)] and its
    mirror image. *)
Definition buy_side (order : Order.t) : bool :=
  (OrderType_eqb (Order.order_type order) _order_type_close && Qltb 0 (Order.size order))
  || (OrderType_eqb (Order.order_type order) _order_type_entry && Qltb 0 (Order.size order)).

Definition sell_side (order : Order.t) : bool :=
  (OrderType_eqb (Order.order_type order) _order_type_close && Qltb (Order.size order) 0)
  || (OrderType_eqb (Order.order_type order) _order_type_entry && Qltb (Order.size order) 0).

(** [Position._check_high_stop(order)] *)
Definition _check_high_stop (env : Env) (self : Position.t) (r : ref) : res Position.t :=
  do order <- get_order self r;
  match Order.stop order with
  | PNone => Ok self
  | PNA => Ok self
  | PNum stop =>
    if buy_side order && Qle_bool stop (Position.h self) then
      let p := pymax stop (Position.o self) in
      do '(self, _) <- fill_order env self r p p (Position.l self);
      Ok self
    else Ok self
  end.

(** The trailing-stop update that ends [_check_high]. *)
Definition trail_high (env : Env) (self : Position.t) (r : ref) : res Position.t :=
  do order <- get_order self r;
  if negb (is_None (Order.trail_price order)) && Qltb (Order.sign order) 0 then
    let order :=
      match Order.trail_price order with
      | PNum trail_price =>
        if negb (Order.trail_triggered order) && Qltb trail_price (Position.h self)
        then Order.set_trail_triggered true order else order
      | _ => order
      end in
    if Order.trail_triggered order then
      let offset_price := mintick env * Order.trail_offset order in
      let x := round_to_mintick env (Position.h self - offset_price) in
      match Order.stop order with
      | PNone => Raise TypeError
      | PNA => Ok (put_order self r (Order.set_stop (PNum x) order))
      | PNum stop => Ok (put_order self r (Order.set_stop (PNum (pymax x stop)) order))
      end
    else Ok (put_order self r order)
  else Ok self.

(** [Position._check_high(order)] *)
Definition _check_high (env : Env) (self : Position.t) (r : ref) : res Position.t :=
  do order <- get_order self r;
  do self <-
    match Order.limit order with
    | PNum limit =>
      if sell_side order && Qle_bool limit (Position.h self) then
        let p := pymax limit (Position.o self) in
        do '(self, _) <- fill_order env self r p p (Position.l self);
        Ok self
      else Ok self
    | _ => Ok self
    end;
  trail_high env self r.

(** [Position._check_low_stop(order)] *)
Definition _check_low_stop (env : Env) (self : Position.t) (r : ref) : res Position.t :=
  do order <- get_order self r;
  match Order.stop order with
  | PNone => Ok self
  | PNA => Ok self
  | PNum stop =>
    if sell_side order && Qle_bool (Position.l self) stop then
      let p := pymin (Position.o self) stop in
      do '(self, _) <- fill_order env self r p (Position.h self) p;
      Ok self
    else Ok self
  end.

(** The trailing-stop update that ends [_check_low]. *)
Definition trail_low (env : Env) (self : Position.t) (r : ref) : res Position.t :=
  do order <- get_order self r;
  if negb (is_None (Order.trail_price order)) && Qltb 0 (Order.sign order) then
    let order :=
      match Order.trail_price order with
      | PNum trail_price =>
        if negb (Order.trail_triggered order) && Qltb (Position.l self) trail_price
        then Order.set_trail_triggered true order else order
      | _ => order
      end in
    if Order.trail_triggered order then
      let offset_price := mintick env * Order.trail_offset order in
      let x := round_to_mintick env (Position.l self + offset_price) in
      match Order.stop order with
      | PNone => Raise TypeError
      | PNA => Ok (put_order self r (Order.set_stop (PNum x) order))
      | PNum stop => Ok (put_order self r (Order.set_stop (PNum (pymin x stop)) order))
      end
    else Ok (put_order self r order)
  else Ok self.

(** [Position._check_low(order)] *)
Definition _check_low (env : Env) (self : Position.t) (r : ref) : res Position.t :=
  do order <- get_order self r;
  do self <-
    match Order.limit order with
    | PNum limit =>
      if buy_side order && Qle_bool (Position.l self) limit then
        let p := pymin (Position.o self) limit in
        do '(self, _) <- fill_order env self r p (Position.h self) p;
        Ok self
      else Ok self
    | _ => Ok self
    end;
  trail_low env self r.

(** [Position._check_close(order, ohlcv)] *)
Definition _check_close (env : Env) (self : Position.t) (r : ref) (ohlcv : bool)
  : res Position.t :=
  do order <- get_order self r;
  match Order.stop order with
  | PNone => Raise TypeError
  | PNA => Ok self
  | PNum stop =>
    if ohlcv && Qle_bool stop (Position.c self) then
      do '(self, _) <- fill_order env self r stop stop (Position.l self);
      Ok self
    else if Qle_bool (Position.c self) stop then
      do '(self, _) <- fill_order env self r stop (Position.h self) stop;
      Ok self
    else Ok self
  end.

(** The entry price of the first open trade whose [entry_id] is the order's
    [order_id]: the search loop of [process_orders]. *)
Fixpoint find_entry_price (open_trades : list Trade.t) (order_id : option string)
  : option Q :=
  match open_trades with
  | [] => None
  | trade :: rest =>
    if optstr_eqb (Some (Trade.entry_id trade)) order_id
    then Some (Trade.entry_price trade)
    else find_entry_price rest order_id
  end.

(** The resolution of the deferred tick distances of an exit order against
    the entry price of its trade, as both rounds of [process_orders] do it. *)
Definition resolve_ticks (env : Env) (self : Position.t) (r : ref) : res Position.t :=
  do order <- get_order self r;
  match find_entry_price (Position.open_trades self) (Order.order_id order) with
  | None => Ok self
  | Some entry_price =>
    let direction := if Qltb (Order.size order) 0 then 1 else -1 in
    do order <-
      match Order.profit_ticks order with
      | Some profit_ticks =>
        if _is_none (Order.limit order) then
          let limit := entry_price + direction * mintick env * profit_ticks in
          do limit <- _price_round (mintick env) (PNum limit) direction;
          Ok (Order.set_limit limit order)
        else Ok order
      | None => Ok order
      end;
    do order <-
      match Order.loss_ticks order with
      | Some loss_ticks =>
        if _is_none (Order.stop order) then
          let stop := entry_price - direction * mintick env * loss_ticks in
          do stop <- _price_round (mintick env) (PNum stop) (- direction);
          Ok (Order.set_stop stop order)
        else Ok order
      | None => Ok order
      end;
    do order <-
      match Order.trail_points_ticks order with
      | Some trail_points_ticks =>
        if _is_none (Order.trail_price order) then
          let trail_price := entry_price + direction * mintick env * trail_points_ticks in
          do trail_price <- _price_round (mintick env) (PNum trail_price) direction;
          Ok (Order.set_trail_price trail_price order)
        else Ok order
      | None => Ok order
      end;
    Ok (put_order self r order)
  end.

Definition is_Some {A : Type} (x : option A) : bool :=
  match x with Some _ => true | None => false end.

(** The body of the first loop of [process_orders]. *)
Definition first_round (env : Env) (ohlc : bool) (self : Position.t) (r : ref)
  : res Position.t :=
  do order <- get_order self r;
  do self <-
    (if OrderType_eqb (Order.order_type order) _order_type_close
        && optstr_truthy (Order.order_id order)
     then resolve_ticks env self r else Ok self);
  do order <- get_order self r;
  if Order.is_market_order order then
    let fill_price :=
      if Qltb 0 (slippage env)
      then Position.prev_c self + mintick env * slippage env * Order.sign order
      else Position.prev_c self in
    if ohlc then
      do '(self, _) <- fill_order env self r fill_price (Position.o self) (Position.l self);
      Ok self
    else
      do '(self, _) <- fill_order env self r fill_price (Position.l self) (Position.o self);
      Ok self
  else if ohlc then
    do self <- _check_high_stop env self r;
    _check_high env self r
  else
    do self <- _check_low_stop env self r;
    _check_low env self r.

(** The body of the second loop of [process_orders]. *)
Definition second_round (env : Env) (ohlc : bool) (self : Position.t) (r : ref)
  : res Position.t :=
  do order <- get_order self r;
  do self <-
    (if OrderType_eqb (Order.order_type order) _order_type_close
        && optstr_truthy (Order.order_id order)
        && ((is_Some (Order.profit_ticks order) || is_Some (Order.loss_ticks order)
             || is_Some (Order.trail_points_ticks order))
            && _is_none (Order.limit order) && _is_none (Order.stop order))
     then resolve_ticks env self r else Ok self);
  do self <-
    (if ohlc then
       do self <- _check_low_stop env self r;
       _check_low env self r
     else
       do self <- _check_high_stop env self r;
       _check_high env self r);
  do order <- get_order self r;
  if Order.trail_triggered order && negb (is_None (Order.stop order))
  then _check_close env self r ohlc
  else Ok self.

(** The pending orders in processing order:
    [list(self.entry_orders.values()) + list(self.exit_orders.values())]. *)
Definition pending_orders (self : Position.t) : list ref :=
  (dict_values (Position.entry_orders self) ++ dict_values (Position.exit_orders self))%list.

(** The unrealized side of one open trade: the body of
    [for trade in self.open_trades] at the end of [process_orders].  The
    result is the trade with its drawdown and its run-up of the bar. *)
Definition mark_open_trade (self : Position.t) (trade : Trade.t) : Trade.t * Q * Q :=
  let trade :=
    Trade.set_profit
      (Trade.size trade * (Position.c self - Trade.entry_price trade)
       - 2 * Trade.commission trade) trade in
  let hprofit :=
    Trade.size trade * (Position.h self - Position.avg_price self) - Trade.commission trade in
  let lprofit :=
    Trade.size trade * (Position.l self - Position.avg_price self) - Trade.commission trade in
  let drawdown := - pymin3 hprofit lprofit 0 in
  let trade := Trade.set_max_drawdown (pymax drawdown (Trade.max_drawdown trade)) trade in
  let runup := pymax3 hprofit lprofit 0 in
  let trade := Trade.set_max_runup (pymax runup (Trade.max_runup trade)) trade in
  let trade_value := Qabs (Trade.size trade) * Trade.entry_price trade in
  let trade :=
    if Qltb 0 trade_value then
      let trade :=
        Trade.set_max_drawdown_percent
          (pymax (if Qltb 0 drawdown then drawdown / trade_value * 100 else 0)
             (Trade.max_drawdown_percent trade)) trade in
      Trade.set_max_runup_percent
        (pymax (if Qltb 0 runup then runup / trade_value * 100 else 0)
           (Trade.max_runup_percent trade)) trade
    else trade in
  (trade, drawdown, runup).

Fixpoint mark_open_trades (self : Position.t) (todo done : list Trade.t) : Position.t :=
  match todo with
  | [] => Position.set_open_trades done self
  | trade :: rest =>
    let '(trade, drawdown, runup) := mark_open_trade self trade in
    let self := Position.set_drawdown_summ (Position.drawdown_summ self + drawdown) self in
    let self := Position.set_runup_summ (Position.runup_summ self + runup) self in
    mark_open_trades self rest (done ++ [trade])%list
  end.

(** The cumulative statistics of one trade closed in the bar: the body of
    [for closed_trade in self.new_closed_trades]. *)
Definition cumulate_closed_trade (env : Env) (self : Position.t) (tr : ref)
  : res Position.t :=
  do closed_trade <- get_trade self tr;
  let initial_capital := initial_capital env in
  let previous_cum_profit := Position.cum_profit self - Trade.profit closed_trade in
  let closed_trade :=
    Trade.set_max_drawdown
      (- pymin3 (Trade.profit closed_trade) (- Trade.max_drawdown closed_trade) 0)
      closed_trade in
  let closed_trade :=
    Trade.set_max_runup
      (pymax3 (Trade.profit closed_trade) (Trade.max_runup closed_trade) 0) closed_trade in
  let self :=
    Position.set_cum_profit (equity env self - initial_capital - Position.openprofit self)
      self in
  let closed_trade := Trade.set_cum_profit (Position.cum_profit self) closed_trade in
  let closed_trade := Trade.set_cum_max_drawdown (Position.max_drawdown self) closed_trade in
  let closed_trade := Trade.set_cum_max_runup (Position.max_runup self) closed_trade in
  let closed_trade :=
    if (Trade.entry_bar_index closed_trade =? Trade.exit_bar_index closed_trade)%Z then
      let hprofit :=
        Trade.size closed_trade * (Position.h self - Trade.entry_price closed_trade)
        - Trade.commission closed_trade in
      let lprofit :=
        Trade.size closed_trade * (Position.l self - Trade.entry_price closed_trade)
        - Trade.commission closed_trade in
      let closed_trade :=
        Trade.set_max_drawdown
          (pymin (- pymin3 hprofit lprofit 0) (Trade.profit closed_trade)) closed_trade in
      Trade.set_max_runup
        (pymin (pymax3 hprofit lprofit 0) (Trade.profit closed_trade)) closed_trade
    else closed_trade in
  let trade_value := Qabs (Trade.size closed_trade) * Trade.entry_price closed_trade in
  do dd_percent <-
    (if Qltb 0 (Trade.max_drawdown closed_trade) then
       do x <- pydiv (Trade.max_drawdown closed_trade) trade_value; Ok (x * 100)
     else Ok 0);
  let closed_trade :=
    Trade.set_max_drawdown_percent
      (pymax dd_percent (Trade.max_drawdown_percent closed_trade)) closed_trade in
  do ru_percent <-
    (if Qltb 0 (Trade.max_runup closed_trade) then
       do x <- pydiv (Trade.max_runup closed_trade) trade_value; Ok (x * 100)
     else Ok 0);
  let closed_trade :=
    Trade.set_max_runup_percent
      (pymax ru_percent (Trade.max_runup_percent closed_trade)) closed_trade in
  let denominator := initial_capital + previous_cum_profit in
  let closed_trade :=
    match pydiv (Trade.profit closed_trade) denominator,
          pydiv (Trade.profit closed_trade)
            (Trade.size closed_trade * Trade.entry_price closed_trade) with
    | Ok a, Ok b =>
      Trade.set_profit_percent (b * 100) (Trade.set_cum_profit_percent (a * 100) closed_trade)
    | _, _ =>
      Trade.set_profit_percent 0 (Trade.set_cum_profit_percent 0 closed_trade)
    end in
  let self :=
    Position.set_entry_equity (Position.entry_equity self + Trade.profit closed_trade) self in
  Ok (put_trade self tr closed_trade).

(** [max(a, x)] where [x] is [-inf] when an equity extreme is still unset. *)
Definition pymax_opt (a : Q) (x : option Q) : Q :=
  match x with
  | Some x => pymax a x
  | None => a
  end.

(** [Position.process_orders()] *)
Definition process_orders (env : Env) (self : Position.t) : res Position.t :=
  let self := Position.set_o (round_to_mintick env (lib_open env)) self in
  let self := Position.set_h (round_to_mintick env (lib_high env)) self in
  let self := Position.set_l (round_to_mintick env (lib_low env)) self in
  let self := Position.set_c (round_to_mintick env (lib_close env)) self in
  let self := Position.set_prev_c (round_to_mintick env (Position.prev_c self)) self in
  let ohlc :=
    Qltb (Qabs (Position.h self - Position.o self)) (Qabs (Position.l self - Position.o self)) in
  let self := Position.set_runup_summ 0 self in
  let self := Position.set_drawdown_summ 0 self in
  let self := Position.set_new_closed_trades [] self in
  do self <- foldM (first_round env ohlc) (pending_orders self) self;
  (* 2nd round of process open orders *)
  do self <- foldM (second_round env ohlc) (pending_orders self) self;
  let self :=
    match Position.open_trades self with
    | [] => self
    | _ :: _ =>
      let self :=
        Position.set_openprofit
          (Position.size self * (Position.c self - Position.avg_price self)) self in
      mark_open_trades self (Position.open_trades self) []
    end in
  let self :=
    if Qneb (Position.drawdown_summ self) 0 || Qneb (Position.runup_summ self) 0 then
      let self :=
        Position.set_max_drawdown
          (pymax_opt (Position.max_drawdown self)
             (option_map
                (fun max_equity =>
                   max_equity - Position.entry_equity self + Position.drawdown_summ self)
                (Position.max_equity self))) self in
      Position.set_max_runup
        (pymax_opt (Position.max_runup self)
           (option_map
              (fun min_equity =>
                 Position.entry_equity self - min_equity + Position.runup_summ self)
              (Position.min_equity self))) self
    else self in
  foldM (cumulate_closed_trade env) (Position.new_closed_trades self) self.

(** ** The strategy API

    Each function acts on the ledger of the script ([lib._script.position])
    and returns nothing: its embedding returns the ledger after the call. *)

(** [cancel(id)] *)
Definition cancel (env : Env) (position : Position.t) (id : string) : res Position.t :=
  if lib_semaphore env then Ok position
  else
    let position :=
      Position.set_entry_orders (dict_pop (Position.entry_orders position) id) position in
    Ok (Position.set_exit_orders (dict_pop (Position.exit_orders position) id) position).

(** [cancel_all()] *)
Definition cancel_all (env : Env) (position : Position.t) : res Position.t :=
  if lib_semaphore env then Ok position
  else Ok (Position.set_exit_orders [] (Position.set_entry_orders [] position)).

(** [None if isinstance(s, NA) else s] *)
Definition none_if_na (s : pystr) : pystr :=
  match s with SNA => SNone | _ => s end.

(** [close(id, comment, qty, qty_percent, alert_message, immediately)] *)
Definition close (env : Env) (position : Position.t) (id : string) (comment : pystr)
  (qty qty_percent : pyfloat) (alert_message : pystr) (immediately : bool)
  : res Position.t :=
  if lib_semaphore env then Ok position
  else
    do nonpositive <-
      match qty with
      | PNum qty => Ok (Qle_bool qty 0)
      | PNA => Ok false
      | PNone => Raise TypeError
      end;
    if nonpositive then Ok position
    else if Qeq_bool (Position.size position) 0 then Ok position
    else
      do size <-
        match qty with
        | PNum qty => Ok (- Position.sign position * qty)
        | PNone => Raise TypeError
        | PNA =>
          match qty_percent with
          | PNum qty_percent => Ok (- Position.size position * (qty_percent * (1#100)))
          | PNA => Ok (- Position.size position)
          | PNone => Raise TypeError
          end
        end;
      do size <- _size_round (size_round_factor env) size;
      if Qeq_bool size 0 then Ok position
      else
        let exit_id := ("Close entry(s) order " ++ id)%string in
        let order :=
          new_Order (Some id) size _order_type_close (Some exit_id) PNone PNone SNone None
            (none_if_na comment) (none_if_na alert_message) PNone PNone None None None in
        let '(position, r) := alloc_order position order in
        let position :=
          Position.set_exit_orders (dict_set (Position.exit_orders position) exit_id r)
            position in
        if immediately then
          do '(position, _) <-
            fill_order env position r (round_to_mintick env (lib_close env))
              (round_to_mintick env (lib_high env)) (round_to_mintick env (lib_low env));
          Ok position
        else Ok position.

(** [close_all(comment, alert_message, immediately)] *)
Definition close_all (env : Env) (position : Position.t) (comment alert_message : pystr)
  (immediately : bool) : res Position.t :=
  if lib_semaphore env then Ok position
  else if Qeq_bool (Position.size position) 0 then Ok position
  else
    let exit_id := "Close position order"%string in
    let order :=
      new_Order None (- Position.size position) _order_type_close (Some exit_id) PNone PNone
        SNone None comment alert_message PNone PNone None None None in
    let '(position, r) := alloc_order position order in
    let position :=
      Position.set_exit_orders (dict_set (Position.exit_orders position) exit_id r) position in
    if immediately then
      do '(position, _) <-
        fill_order env position r (round_to_mintick env (lib_close env))
          (round_to_mintick env (lib_high env)) (round_to_mintick env (lib_low env));
      Ok position
    else Ok position.

(** The quantity that [entry] derives from the script parameters when no
    [qty] is given. *)
Definition default_qty (env : Env) (position : Position.t) : res Q :=
  match default_qty_type env with
  | fixed => Ok (default_qty_value env)
  | percent_of_equity =>
    let default_qty_value := default_qty_value env in
    let equity_percent := default_qty_value * (1#100) in
    let target_investment := equity env position * equity_percent in
    match commission_type env with
    | percent =>
      let commission_multiplier := 1 + commission_value env * (1#100) in
      pydiv target_investment (lib_close env * pointvalue env * commission_multiplier)
    | cash_per_contract =>
      let price_plus_commission := lib_close env * pointvalue env + commission_value env in
      pydiv target_investment price_plus_commission
    | cash_per_order =>
      do qty <- pydiv (target_investment - commission_value env)
                  (lib_close env * pointvalue env);
      Ok (pymax 0 qty)
    | commission_other =>
      pydiv target_investment (lib_close env * pointvalue env)
    end
  | cash => pydiv (default_qty_value env) (lib_close env * pointvalue env)
  | qty_other => Raise ValueError
  end.

(** [entry(id, direction, qty, limit, stop, oca_name, oca_type, comment,
    alert_message)] *)
Definition entry (env : Env) (position : Position.t) (id : string) (direction : Direction)
  (qty limit stop : pyfloat) (oca_name : pystr) (oca_type : option Oca)
  (comment alert_message : pystr) : res Position.t :=
  if lib_semaphore env then Ok position
  else if Position.risk_halt_trading position then Ok position
  else
    do qty <-
      match qty with
      | PNA => default_qty env position
      | PNum qty => Ok qty
      | PNone => Raise TypeError
      end;
    (* qty must be greater than 0 *)
    if Qle_bool qty 0 then Ok position
    else
      let direction_sign := if Direction_eqb direction short then -1 else 1 in
      let margin :=
        if Direction_eqb direction short then margin_short env else margin_long env in
      do size <- pydiv (qty * direction_sign) margin;
      let sign := signum size in
      if Qneb (Position.size position) 0
         && Qeq_bool (Position.sign position) sign
         && (pyramiding env <=? Z.of_nat (List.length (Position.open_trades position)))%Z
      then Ok position
      else if
        match Position.risk_allowed_direction position with
        | Some allowed =>
          ((Qltb 0 sign && negb (Direction_eqb allowed long))
           || (Qltb sign 0 && negb (Direction_eqb allowed short)))
          && (Qeq_bool (Position.size position) 0 || Qeq_bool (Position.sign position) sign)
        | None => false
        end
      then Ok position
      else
        let resized :=
          match Position.risk_max_position_size position with
          | Some max_position_size =>
            let new_position_size := Qabs (Position.size position + size) in
            if Qltb max_position_size new_position_size then
              let max_allowed_size := max_position_size - Qabs (Position.size position) in
              if Qle_bool max_allowed_size 0 then None
              else Some (max_allowed_size * sign)
            else Some size
          | None => Some size
          end in
        match resized with
        | None => Ok position
        | Some size =>
          if
            match Position.risk_max_intraday_filled_orders position with
            | Some max_filled =>
              (max_filled <=? Position.risk_intraday_filled_orders position)%Z
            | None => false
            end
          then Ok position
          else
            do size <- _size_round (size_round_factor env) size;
            if Qeq_bool size 0 then Ok position
            else
              do limit <-
                (if is_None limit then Ok limit
                 else _price_round (mintick env) limit direction_sign);
              do stop <-
                (if is_None stop then Ok stop
                 else _price_round (mintick env) stop (- direction_sign));
              let order :=
                new_Order (Some id) size _order_type_entry None limit stop oca_name oca_type
                  comment alert_message PNone PNone None None None in
              let '(position, r) := alloc_order position order in
              Ok (Position.set_entry_orders (dict_set (Position.entry_orders position) id r)
                    position)
        end.

(** The arguments of [exit] that the function reads ([comment_profit],
    [comment_loss], [comment_trailing], the three alert texts and
    [disable_alert] are accepted and ignored). *)
Record ExitArgs : Type := {
  x_id : string;
  x_qty : pyfloat;
  x_qty_percent : pyfloat;
  x_profit : pyfloat;
  x_loss : pyfloat;
  x_trail_points : pyfloat;
  x_trail_offset : pyfloat;
  x_oca_name : pystr;
  x_comment : pystr;
  x_alert_message : pystr
}.

(** The variables of [exit] that its nested function [_exit] shares with it
    ([nonlocal]). *)
Record ExitVars : Type := {
  v_limit : pyfloat;
  v_stop : pyfloat;
  v_trail_price : pyfloat;
  v_from_entry : option string;
  v_direction : Q;
  v_size : Q
}.

Definition ticks_of (v : pyfloat) : option Q :=
  match v with
  | PNum x => Some x
  | PNA => None
  | PNone => None
  end.

(** The nested function [_exit()] of [exit]. *)
Definition _exit (env : Env) (a : ExitArgs) (st : Position.t * ExitVars)
  : res (Position.t * ExitVars) :=
  let '(position, v) := st in
  do size <-
    match x_qty a with
    | PNum qty => Ok (- v_direction v * qty)
    | PNone => Raise TypeError
    | PNA =>
      match x_qty_percent a with
      | PNum qty_percent => Ok (- v_size v * (qty_percent * (1#100)))
      | PNA => Ok (- v_size v)
      | PNone => Raise TypeError
      end
    end;
  do size <- _size_round (size_round_factor env) size;
  let v := {| v_limit := v_limit v; v_stop := v_stop v; v_trail_price := v_trail_price v;
              v_from_entry := v_from_entry v; v_direction := v_direction v;
              v_size := size |} in
  if Qeq_bool size 0 then Ok (position, v)
  else
    let profit_ticks := ticks_of (x_profit a) in
    let loss_ticks := ticks_of (x_loss a) in
    let trail_points_ticks := ticks_of (x_trail_points a) in
    (* We need to have limit, stop or both *)
    if isinstance_NA (v_limit v) && isinstance_NA (v_stop v)
       && negb (isinstance_NA (v_trail_price v))
    then Ok (position, v)
    else
      do limit <-
        (if negb (isinstance_NA (v_limit v))
         then _price_round (mintick env) (v_limit v) (v_direction v)
         else Ok (v_limit v));
      do stop <-
        (if negb (isinstance_NA (v_stop v))
         then _price_round (mintick env) (v_stop v) (- v_direction v)
         else Ok (v_stop v));
      do trail_price <-
        (if negb (isinstance_NA (v_trail_price v))
         then _price_round (mintick env) (v_trail_price v) (v_direction v)
         else Ok (v_trail_price v));
      let v := {| v_limit := limit; v_stop := stop; v_trail_price := trail_price;
                  v_from_entry := v_from_entry v; v_direction := v_direction v;
                  v_size := size |} in
      let order :=
        new_Order (v_from_entry v) size _order_type_close (Some (x_id a)) limit stop
          (x_oca_name a) None (x_comment a) (x_alert_message a) trail_price
          (x_trail_offset a) profit_ticks loss_ticks trail_points_ticks in
      let '(position, r) := alloc_order position order in
      Ok (Position.set_exit_orders (dict_set (Position.exit_orders position) (x_id a) r)
            position, v).

Definition with_target (v : ExitVars) (direction size : Q) (from_entry : option string)
  : ExitVars :=
  {| v_limit := v_limit v; v_stop := v_stop v; v_trail_price := v_trail_price v;
     v_from_entry := from_entry; v_direction := direction; v_size := size |}.

(** [exit(id, from_entry, qty, qty_percent, profit, limit, loss, stop,
    trail_price, trail_points, trail_offset, oca_name, comment, ...,
    alert_message, ...)] *)
Definition exit (env : Env) (position : Position.t) (a : ExitArgs) (from_entry : string)
  (limit stop trail_price : pyfloat) : res Position.t :=
  if lib_semaphore env then Ok position
  else
    do negative <-
      match x_qty a with
      | PNum qty => Ok (Qltb qty 0)
      | PNA => Ok false
      | PNone => Raise TypeError
      end;
    if negative then Ok position
    else
      let v := {| v_limit := limit; v_stop := stop; v_trail_price := trail_price;
                  v_from_entry := Some from_entry; v_direction := 0; v_size := 0 |} in
      if negb (String.eqb from_entry "") then
        match dict_get (Position.entry_orders position) from_entry with
        | None =>
          do st <-
            foldM (fun st trade =>
                     if String.eqb (Trade.entry_id trade) from_entry then
                       _exit env a
                         (fst st, with_target (snd st) (Trade.sign trade) (Trade.size trade)
                                    (v_from_entry (snd st)))
                     else Ok st)
              (Position.open_trades position) (position, v);
          Ok (fst st)
        | Some r =>
          do entry_order <- get_order position r;
          do st <-
            _exit env a
              (position, with_target v (Order.sign entry_order) (Order.size entry_order)
                           (v_from_entry v));
          Ok (fst st)
        end
      else
        do st <-
          foldM (fun st r =>
                   do order <- get_order (fst st) r;
                   _exit env a
                     (fst st, with_target (snd st) (Order.sign order) (Order.size order)
                                (Order.order_id order)))
            (dict_values (Position.entry_orders position)) (position, v);
        if Qeq_bool (v_direction (snd st)) 0 then
          do st <-
            foldM (fun st trade =>
                     _exit env a
                       (fst st, with_target (snd st) (Trade.sign trade) (Trade.size trade)
                                  (Some (Trade.entry_id trade))))
              (Position.open_trades position) st;
          Ok (fst st)
        else Ok (fst st).

(** ** Sequences of operations *)

(** The calls a script and its host make on the ledger.  [FillOrder] is
    [Position.fill_order] on an order object that already exists;
    [FillNewOrder] is the same call on an order constructed by the caller. *)
Inductive Op : Type :=
| Entry (id : string) (direction : Direction) (qty limit stop : pyfloat)
    (oca_name : pystr) (oca_type : option Oca) (comment alert_message : pystr)
| Exit (a : ExitArgs) (from_entry : string) (limit stop trail_price : pyfloat)
| Close (id : string) (comment : pystr) (qty qty_percent : pyfloat)
    (alert_message : pystr) (immediately : bool)
| CloseAll (comment alert_message : pystr) (immediately : bool)
| Cancel (id : string)
| CancelAll
| FillOrder (r : ref) (price h l : Q)
| FillNewOrder (order : Order.t) (price h l : Q)
| ProcessOrders.

Definition run_op (env : Env) (op : Op) (position : Position.t) : res Position.t :=
  match op with
  | Entry id direction qty limit stop oca_name oca_type comment alert_message =>
    entry env position id direction qty limit stop oca_name oca_type comment alert_message
  | Exit a from_entry limit stop trail_price =>
    exit env position a from_entry limit stop trail_price
  | Close id comment qty qty_percent alert_message immediately =>
    close env position id comment qty qty_percent alert_message immediately
  | CloseAll comment alert_message immediately =>
    close_all env position comment alert_message immediately
  | Cancel id => cancel env position id
  | CancelAll => cancel_all env position
  | FillOrder r price h l =>
    do '(position, _) <- fill_order env position r price h l; Ok position
  | FillNewOrder order price h l =>
    let '(position, r) := alloc_order position order in
    do '(position, _) <- fill_order env position r price h l; Ok position
  | ProcessOrders => process_orders env position
  end.

(** A run: each operation with the environment it is made in. *)
Definition run (steps : list (Env * Op)) (position : Position.t) : res Position.t :=
  foldM (fun position step => run_op (fst step) (snd step) position) steps position.

(** ** Invariants and views *)

(** [Σ open_trades[i].size] *)
Fixpoint sum_sizes (trades : list Trade.t) : Q :=
  match trades with
  | [] => 0
  | trade :: rest => Trade.size trade + sum_sizes rest
  end.

Definition size_invariant (self : Position.t) : Prop :=
  Position.size self == sum_sizes (Position.open_trades self).

(** The pending orders whose [is_market_order] flag is set. *)
Definition pending_market_orders (self : Position.t) : list ref :=
  filter (fun r => match nth_error (Position.order_objs self) r with
                   | Some order => Order.is_market_order order
                   | None => false
                   end) (pending_orders self).

(** The order behind a key of a pending map, filled at a given price. *)
Definition fill_pending (env : Env) (self : Position.t) (pending : dict) (key : string)
  (price h l : Q) : res (Position.t * bool) :=
  match dict_get pending key with
  | Some r => fill_order env self r price h l
  | None => Raise InvalidReference
  end.

(** What a scenario observes of the ledger, with every number in lowest
    terms: the position, its running sums, the open trades as
    [(entry_id, size, entry_price, commission)] and the closed trades as
    [(entry_id, size, profit, commission)]. *)
Record Summary : Type := {
  s_size : Q;
  s_sign : Q;
  s_avg_price : Q;
  s_entry_summ : Q;
  s_netprofit : Q;
  s_open_trades : list (string * Q * Q * Q);
  s_closed_trades : list (string * Q * Q * Q);
  s_closed_trades_count : Z;
  s_entry_orders : list string;
  s_exit_orders : list string
}.

Definition summary (self : Position.t) : Summary :=
  {| s_size := Qred (Position.size self);
     s_sign := Qred (Position.sign self);
     s_avg_price := Qred (Position.avg_price self);
     s_entry_summ := Qred (Position.entry_summ self);
     s_netprofit := Qred (Position.netprofit self);
     s_open_trades :=
       map (fun t => (Trade.entry_id t, Qred (Trade.size t), Qred (Trade.entry_price t),
                      Qred (Trade.commission t))) (Position.open_trades self);
     s_closed_trades :=
       map (fun t => (Trade.entry_id t, Qred (Trade.size t), Qred (Trade.profit t),
                      Qred (Trade.commission t))) (closed_trade_list self);
     s_closed_trades_count := Position.closed_trades_count self;
     s_entry_orders := map fst (Position.entry_orders self);
     s_exit_orders := map fst (Position.exit_orders self) |}.

(** ** The scenario setting of the specification *)

(** Modelled from the spec: [lib.math.round_to_mintick], which is not part
    of the sources.  The bar processor snaps prices to the tick grid, and a
    snapped price is [round(price / mintick) * mintick]. *)
Definition round_to_mintick_spec (mintick : Q) (price : Q) : Q :=
  inject_Z (round_half_even (price / mintick)) * mintick.

(** [initial_capital = 10000], [mintick = 0.01], [pointvalue = 1],
    [size_round_factor = 1e8]; a quantity is a number of contracts (margin
    1), no slippage, and the bar [o=100, h=101, l=99, c=100]. *)
Definition scenario_env (ctype : CommissionType) (cvalue : Q) : Env :=
  {| lib_open := 100;
     lib_high := 101;
     lib_low := 99;
     lib_close := 100;
     bar_index := 0%Z;
     lib_time := 0%Z;
     lib_semaphore := false;
     round_to_mintick := round_to_mintick_spec (1#100);
     mintick := 1#100;
     pointvalue := 1;
     size_round_factor := 100000000;
     initial_capital := 10000;
     commission_type := ctype;
     commission_value := cvalue;
     slippage := 0;
     pyramiding := 1%Z;
     margin_long := 1;
     margin_short := 1;
     default_qty_type := fixed;
     default_qty_value := 1 |}.

(** A market entry through the API, filled at [price]. *)
Definition enter_at (env : Env) (self : Position.t) (id : string) (direction : Direction)
  (qty price : Q) : res Position.t :=
  do self <- entry env self id direction (PNum qty) PNone PNone SNone None SNone SNone;
  do '(self, _) <- fill_pending env self (Position.entry_orders self) id price price price;
  Ok self.

(** A market close of [qty] contracts of entry [id] through the API, filled
    at [price]; the result carries the flag [fill_order] returns. *)
Definition close_at (env : Env) (self : Position.t) (id : string) (qty price : Q)
  : res (Position.t * bool) :=
  do self <- close env self id SNA (PNum qty) PNA SNA false;
  fill_pending env self (Position.exit_orders self) ("Close entry(s) order " ++ id)%string
    price price price.

(** The result of a run that completes. *)
Definition result_of (r : res Position.t) : Position.t :=
  match r with
  | Ok position => position
  | Raise _ => new_Position
  end.

(** ** Scenarios *)

(** Long 10 at 100, then a close of 4 at 105. *)
Definition partial_close_scenario (ctype : CommissionType) : res Position.t :=
  let env := scenario_env ctype 0 in
  do p <- enter_at env new_Position "L" long 10 100;
  do '(p, _) <- close_at env p "L" 4 105;
  Ok p.

(** Long 10 at 100 and a full close at 110, under 0.1 percent commission.
    The result is the ledger after the entry and the ledger after the close. *)
Definition percent_commission_scenario : res (Position.t * Position.t) :=
  let env := scenario_env percent (1#10) in
  do p1 <- enter_at env new_Position "L" long 10 100;
  do '(p2, _) <- close_at env p1 "L" 10 110;
  Ok (p1, p2).

(** Long 5 at 100, then the fill of a short entry of 8 at 110. *)
Definition reversal_scenario (ctype : CommissionType) : res (Position.t * bool) :=
  let env := scenario_env ctype 0 in
  do p <- enter_at env new_Position "L" long 5 100;
  do p <- entry env p "S" short (PNum 8) PNone PNone SNone None SNone SNone;
  fill_pending env p (Position.entry_orders p) "S" 110 110 110.

(** Long 5 at 100, then a close of entry "L" for 8 contracts filled at 110. *)
Definition oversized_close_scenario : res (Position.t * bool) :=
  let env := scenario_env percent 0 in
  do p <- enter_at env new_Position "L" long 5 100;
  close_at env p "L" 8 110.

(** Short 8 at 100 and long 5 at 90 (an entry against the position that
    does not reverse it), then a close of entry "S" for 5 contracts filled
    at 95.  The result is the ledger before the close, the ledger after it
    and the flag [fill_order] returns. *)
Definition close_against_mixed_scenario : res (Position.t * Position.t * bool) :=
  let env := scenario_env percent 0 in
  do p <- enter_at env new_Position "S" short 8 100;
  do p <- enter_at env p "L" long 5 90;
  do '(p', flag) <- close_at env p "S" 5 95;
  Ok (p, p', flag).

(** A market entry "L" that fills in the next bar, then [close("X")] for an
    entry that does not exist, and [bars] further bars. *)
Definition unmatched_market_close (bars : nat) : list (Env * Op) :=
  let env := scenario_env percent 0 in
  [(env, Entry "L" long (PNum 1) PNone PNone SNone None SNone SNone);
   (env, ProcessOrders);
   (env, Close "X" SNA (PNum 1) PNA SNA false)]
  ++ repeat (env, ProcessOrders) bars.

(** A market entry "L" that fills in the next bar, then [close_all()] and
    [close("L")] in one bar, and one further bar: the second close meets a
    flat position. *)
Definition market_close_when_flat : list (Env * Op) :=
  let env := scenario_env percent 0 in
  [(env, Entry "L" long (PNum 1) PNone PNone SNone None SNone SNone);
   (env, ProcessOrders);
   (env, CloseAll SNA SNA false);
   (env, Close "L" SNA (PNum 1) PNA SNA false);
   (env, ProcessOrders)].

(** An entry, its fill, a partial close and its fill, through the API and
    the bar processor. *)
Definition sample_run : list (Env * Op) :=
  let env := scenario_env percent (1#10) in
  [(env, Entry "L" long (PNum 10) PNone PNone SNone None SNone SNone);
   (env, ProcessOrders);
   (env, Close "L" SNA (PNum 4) PNA SNA false);
   (env, ProcessOrders)].

(** A long position of 10 with a pending close for an entry "X" that does
    not exist; the close order is the object behind reference 1. *)
Definition unmatched_close_state : Position.t :=
  let env := scenario_env percent 0 in
  result_of (do p <- enter_at env new_Position "L" long 10 100;
             close env p "X" SNA (PNum 10) PNA SNA false).

(** The run [market_close_when_flat], then a new market entry "L" and the
    bar that fills it. *)
Definition stale_close_meets_new_entry : list (Env * Op) :=
  let env := scenario_env percent 0 in
  market_close_when_flat
  ++ [(env, Entry "L" long (PNum 1) PNone PNone SNone None SNone SNone);
      (env, ProcessOrders)].

(** ** Relations between ledgers *)

(** Two ledgers with the same position size and the same open trades. *)
Definition same_book (p q : Position.t) : Prop :=
  Position.size p = Position.size q /\ Position.open_trades p = Position.open_trades q.

(** The same, on the state of the loops of [exit]. *)
Definition same_book_fst (s t : Position.t * ExitVars) : Prop :=
  same_book (fst s) (fst t).

(** The quantity the close walk conserves: the position size less the
    trades already put back. *)
Definition walk_balance (w : CloseWalk) : Q :=
  Position.size (cw_self w) - sum_sizes (cw_open_trades w).



(** ** Accounts, views and states for the properties of the engine *)

(** ** The accounts of the ledger *)

(** Two ledgers with the same accounts: position, realized sums, counters,
    the ring of closed trades and the sizes of the open trades.  The pending
    maps, the object stores, the bar snapshot and the unrealized side are
    left free. *)
Definition same_accounts (p q : Position.t) : Prop :=
  Position.size p = Position.size q /\
  Position.sign p = Position.sign q /\
  Position.avg_price p = Position.avg_price q /\
  Position.entry_summ p = Position.entry_summ q /\
  Position.netprofit p = Position.netprofit q /\
  Position.grossprofit p = Position.grossprofit q /\
  Position.grossloss p = Position.grossloss q /\
  Position.closed_trades_count p = Position.closed_trades_count q /\
  Position.wintrades p = Position.wintrades q /\
  Position.eventrades p = Position.eventrades q /\
  Position.losstrades p = Position.losstrades q /\
  Position.closed_trades p = Position.closed_trades q /\
  map Trade.size (Position.open_trades p) = map Trade.size (Position.open_trades q).

(** Every closed trade is counted once, as a win, an even or a loss. *)
Definition counters_balance (self : Position.t) : Prop :=
  (Position.wintrades self + Position.eventrades self + Position.losstrades self
   = Position.closed_trades_count self)%Z.

Definition gross_nonnegative (self : Position.t) : Prop :=
  0 <= Position.grossprofit self /\ 0 <= Position.grossloss self.

(** The ring of closed trades holds the last 9000 of the trades counted. *)
Definition ring_bounded (self : Position.t) : Prop :=
  Z.of_nat (List.length (Position.closed_trades self))
  = Z.min (Position.closed_trades_count self) 9000 /\
  (0 <= Position.closed_trades_count self)%Z.

Definition sign_of_size (self : Position.t) : Prop :=
  Position.sign self = signum (Position.size self).

Definition average_price_consistent (self : Position.t) : Prop :=
  ~ Position.size self == 0 ->
  Position.avg_price self * Qabs (Position.size self) == Position.entry_summ self.

(** The counting side and the position side of the accounts. *)
Definition counts_of (self : Position.t) : Z * Z * Z * Z * Q * Q * list ref :=
  (Position.closed_trades_count self, Position.wintrades self, Position.eventrades self,
   Position.losstrades self, Position.grossprofit self, Position.grossloss self,
   Position.closed_trades self).

Definition position_of (self : Position.t) : Q * Q * Q * Q :=
  (Position.size self, Position.sign self, Position.avg_price self,
   Position.entry_summ self).

(** The counters and the gross sums of [self] are at least those of [base]. *)
Definition accounts_grow (base self : Position.t) : Prop :=
  (Position.closed_trades_count base <= Position.closed_trades_count self)%Z /\
  (Position.wintrades base <= Position.wintrades self)%Z /\
  (Position.eventrades base <= Position.eventrades self)%Z /\
  (Position.losstrades base <= Position.losstrades self)%Z /\
  Position.grossprofit base <= Position.grossprofit self /\
  Position.grossloss base <= Position.grossloss self.

(** What every ledger reached from [Position()] satisfies, taken together. *)
Definition accounts_sound (self : Position.t) : Prop :=
  counters_balance self /\ gross_nonnegative self /\ ring_bounded self /\
  sign_of_size self /\ average_price_consistent self.

(** A ledger without open trades carries no average price and no entry sum. *)
Definition flat_reset (self : Position.t) : Prop :=
  Position.open_trades self = [] ->
  Position.avg_price self = 0 /\ Position.entry_summ self = 0.

(** What the new-trade branch of [_fill_order] can change. *)
Definition entry_view (self : Position.t)
  : list Trade.t * Q * Q * Q * Q * Q * dict * dict :=
  (Position.open_trades self, Position.size self, Position.sign self,
   Position.entry_summ self, Position.netprofit self, Position.open_commission self,
   Position.entry_orders self, Position.exit_orders self).

(** A pending order that a bar with high [h] and low [l] cannot trigger: it
    is no market order, it has no trailing stop and no deferred tick
    distance, a buy stop lies above the high and a sell stop below the low,
    a sell limit lies above the high and a buy limit below the low. *)
Definition out_of_reach (h l : Q) (order : Order.t) : Prop :=
  Order.is_market_order order = false /\
  Order.trail_triggered order = false /\
  (forall p : Q, Order.trail_price order <> PNum p) /\
  Order.profit_ticks order = None /\
  Order.loss_ticks order = None /\
  Order.trail_points_ticks order = None /\
  (forall stop : Q, Order.stop order = PNum stop ->
     (buy_side order = true -> h < stop) /\ (sell_side order = true -> stop < l)) /\
  (forall limit : Q, Order.limit order = PNum limit ->
     (sell_side order = true -> h < limit) /\ (buy_side order = true -> limit < l)).

(** The bar snapshot that opens [process_orders]. *)
Definition bar_high (env : Env) : Q := round_to_mintick env (lib_high env).
Definition bar_low (env : Env) : Q := round_to_mintick env (lib_low env).

(** The state of [exit] while no order has been filed: the ledger is the
    one the call began with, and the three price arguments are as given. *)
Definition exit_idle (position : Position.t) (trail_price : pyfloat)
  (st : Position.t * ExitVars) : Prop :=
  fst st = position /\ v_limit (snd st) = PNA /\ v_stop (snd st) = PNA /\
  v_trail_price (snd st) = trail_price.

(** [Position.reset()]: the containers are cleared and the accounts are
    zeroed; the bar snapshot, [prev_c] and the risk settings and state are
    not touched. *)
Definition reset (self : Position.t) : Position.t :=
  {| Position.netprofit := 0;
     Position.openprofit := 0;
     Position.grossprofit := 0;
     Position.grossloss := 0;
     Position.entry_orders := [];
     Position.exit_orders := [];
     Position.open_trades := [];
     Position.closed_trades := [];
     Position.new_closed_trades := [];
     Position.closed_trades_count := 0%Z;
     Position.wintrades := 0%Z;
     Position.eventrades := 0%Z;
     Position.losstrades := 0%Z;
     Position.size := 0;
     Position.sign := 0;
     Position.avg_price := 0;
     Position.prev_c := Position.prev_c self;
     Position.cum_profit := 0;
     Position.risk_allowed_direction := Position.risk_allowed_direction self;
     Position.risk_max_intraday_filled_orders :=
       Position.risk_max_intraday_filled_orders self;
     Position.risk_max_position_size := Position.risk_max_position_size self;
     Position.risk_intraday_filled_orders := Position.risk_intraday_filled_orders self;
     Position.risk_halt_trading := Position.risk_halt_trading self;
     Position.entry_equity := 0;
     Position.max_equity := None;
     Position.min_equity := None;
     Position.drawdown_summ := 0;
     Position.runup_summ := 0;
     Position.max_drawdown := 0;
     Position.max_runup := 0;
     Position.entry_summ := 0;
     Position.open_commission := 0;
     Position.o := Position.o self;
     Position.h := Position.h self;
     Position.l := Position.l self;
     Position.c := Position.c self;
     Position.order_objs := Position.order_objs self;
     Position.trade_objs := Position.trade_objs self |}.

(** The assignment [position.risk_max_position_size = max_position_size]
    that a risk rule of the script makes. *)
Definition with_risk_max_position_size (max_position_size : option Q) (self : Position.t)
  : Position.t :=
  {| Position.netprofit := Position.netprofit self;
     Position.openprofit := Position.openprofit self;
     Position.grossprofit := Position.grossprofit self;
     Position.grossloss := Position.grossloss self;
     Position.entry_orders := Position.entry_orders self;
     Position.exit_orders := Position.exit_orders self;
     Position.open_trades := Position.open_trades self;
     Position.closed_trades := Position.closed_trades self;
     Position.new_closed_trades := Position.new_closed_trades self;
     Position.closed_trades_count := Position.closed_trades_count self;
     Position.wintrades := Position.wintrades self;
     Position.eventrades := Position.eventrades self;
     Position.losstrades := Position.losstrades self;
     Position.size := Position.size self;
     Position.sign := Position.sign self;
     Position.avg_price := Position.avg_price self;
     Position.prev_c := Position.prev_c self;
     Position.cum_profit := Position.cum_profit self;
     Position.risk_allowed_direction := Position.risk_allowed_direction self;
     Position.risk_max_intraday_filled_orders := Position.risk_max_intraday_filled_orders self;
     Position.risk_max_position_size := max_position_size;
     Position.risk_intraday_filled_orders := Position.risk_intraday_filled_orders self;
     Position.risk_halt_trading := Position.risk_halt_trading self;
     Position.entry_equity := Position.entry_equity self;
     Position.max_equity := Position.max_equity self;
     Position.min_equity := Position.min_equity self;
     Position.drawdown_summ := Position.drawdown_summ self;
     Position.runup_summ := Position.runup_summ self;
     Position.max_drawdown := Position.max_drawdown self;
     Position.max_runup := Position.max_runup self;
     Position.entry_summ := Position.entry_summ self;
     Position.open_commission := Position.open_commission self;
     Position.o := Position.o self;
     Position.h := Position.h self;
     Position.l := Position.l self;
     Position.c := Position.c self;
     Position.order_objs := Position.order_objs self;
     Position.trade_objs := Position.trade_objs self |}.

(** A flat ledger capped at 12 contracts, and the same after a long entry
    for 20. *)
Definition capped_state : Position.t :=
  with_risk_max_position_size (Some 12) new_Position.

Definition capped_entry_state : Position.t :=
  result_of (entry (scenario_env percent 0) capped_state "L" long (PNum 20) PNone PNone
               SNone None SNone SNone).

(** Long 10 at 100, 4 of them closed at 110 and the other 6 at 90, with a
    commission of 0.1 percent: a win, a loss and a flat ledger. *)
Definition round_trip_run : list (Env * Op) :=
  let env := scenario_env percent (1#10) in
  [(env, Entry "L" long (PNum 10) PNone PNone SNone None SNone SNone);
   (env, FillOrder 0%nat 100 100 100);
   (env, Close "L" SNA (PNum 4) PNA SNA false);
   (env, FillOrder 1%nat 110 110 110);
   (env, Close "L" SNA (PNum 6) PNA SNA false);
   (env, FillOrder 2%nat 90 90 90)].

(** A flat ledger with one resting order: a long limit entry "L" for 10 at
    95, below the bar of [scenario_env]. *)
Definition resting_entry_state : Position.t :=
  result_of (entry (scenario_env percent 0) new_Position "L" long (PNum 10) (PNum 95)
               PNone SNone None SNone SNone).

(** The order object behind a reference, for use where the reference is
    known to be valid. *)
Definition order_or_blank (self : Position.t) (r : ref) : Order.t :=
  match get_order self r with
  | Ok order => order
  | Raise _ =>
    new_Order None 0 _order_type_entry None PNone PNone SNone None SNone SNone PNone PNone
      None None None
  end.

(** The order object of that resting entry. *)
Definition resting_order : Order.t := order_or_blank resting_entry_state 0%nat.

(** A long position of 10 at 100 and nothing pending. *)
Definition open_long_state : Position.t :=
  result_of (enter_at (scenario_env percent 0) new_Position "L" long 10 100).

(** The arguments of an [exit] call "TS" that gives no quantity and no tick
    distance. *)
Definition plain_exit_args : ExitArgs :=
  {| x_id := "TS"; x_qty := PNA; x_qty_percent := PNA; x_profit := PNA; x_loss := PNA;
     x_trail_points := PNA; x_trail_offset := PNum 10; x_oca_name := SNA;
     x_comment := SNA; x_alert_message := SNA |}.

(** What [exit] may do to the ledger between two points of the call: the
    entry map and the open trades stay, every key of the exit map other
    than [id] keeps its order, and the order store only grows, by orders of
    type close filed under [id]. *)
Definition exit_frame (id : string) (s t : Position.t * ExitVars) : Prop :=
  Position.entry_orders (fst t) = Position.entry_orders (fst s) /\
  Position.open_trades (fst t) = Position.open_trades (fst s) /\
  (forall k : string, k <> id ->
     dict_get (Position.exit_orders (fst t)) k = dict_get (Position.exit_orders (fst s)) k) /\
  exists added : list Order.t,
    Position.order_objs (fst t) = (Position.order_objs (fst s) ++ added)%list /\
    Forall (fun order => Order.order_type order = _order_type_close /\
                         Order.exit_id order = Some id) added.

(** What identifies an open trade: its entry, its size and its entry
    price. *)
Definition trade_key (trade : Trade.t) : string * Q * Q :=
  (Trade.entry_id trade, Trade.size trade, Trade.entry_price trade).

(** Two ledgers with the same pending maps, the same size and the same open
    trades, by their keys. *)
Definition bar_frame (p q : Position.t) : Prop :=
  Position.entry_orders p = Position.entry_orders q /\
  Position.exit_orders p = Position.exit_orders q /\
  Position.size p = Position.size q /\
  map trade_key (Position.open_trades p) = map trade_key (Position.open_trades q).

(** The price at which the first round of [process_orders] fills a market
    order: the previous close, moved against the order by the slippage. *)
Definition market_fill_price (env : Env) (prev_c : Q) (order : Order.t) : Q :=
  if Qltb 0 (slippage env)
  then prev_c + mintick env * slippage env * Order.sign order
  else prev_c.

(** A flat ledger with previous close 100 and one pending market entry "L"
    for 10 contracts. *)
Definition market_entry_state : Position.t :=
  result_of (entry (scenario_env percent 0) (Position.set_prev_c 100 new_Position) "L" long
               (PNum 10) PNone PNone SNone None SNone SNone).

(** What the close walk never touches on the ledger: the order store apart
    from the order being filled, the pending maps and the list of open
    trades it iterates over. *)
Definition walk_store (self : Position.t)
  : nat * dict * dict * list Trade.t :=
  (List.length (Position.order_objs self), Position.entry_orders self,
   Position.exit_orders self, Position.open_trades self).

(** The open trade of [open_long_state]. *)
Definition open_long_trade : Trade.t :=
  match Position.open_trades open_long_state with
  | trade :: _ => trade
  | [] => new_Trade 0 "" 0 0 0 0 SNone 0
  end.

(** ** The sizes of [fill_order] over a number type

    [fill_order] and [_fill_order] once more, cut down to the statements
    that read or write [self.size], [self.sign], [trade.size] and
    [order.size], over any number type that has the operations these
    statements use.  Prices, commissions, profits, counters and the pending
    maps are left out: no size is computed from them, and the result stands
    for a call that returns.  [Sizes.exact] is the arithmetic of the
    embedding above, the exact rationals: with it these functions compute
    the sizes of [fill_order], [_fill_order] and [close_all]
    ([fill_order_sizes], [fill_order_inner_sizes], [close_all_sizes]).
    [Binary64.arith] is the arithmetic of Python's floats. *)

Module Sizes.

Record Arith : Type := {
  num : Type;
  zero : num;
  one : num;
  add : num -> num -> num;
  sub : num -> num -> num;
  mul : num -> num -> num;
  div : num -> num -> num;
  opp : num -> num;
  abs : num -> num;
  eqb : num -> num -> bool;
  ltb : num -> num -> bool;
  leb : num -> num -> bool;
  isinf : num -> bool;
  (** the default [rel_tol = 1e-09] of [math.isclose] *)
  default_rel_tol : num
}.

Declare Scope num_scope.
Delimit Scope num_scope with num.

Section Book.

Variable A : Arith.

Local Notation "0" := (zero A) : num_scope.
Local Notation "1" := (one A) : num_scope.
Local Infix "+" := (add A) : num_scope.
Local Infix "-" := (sub A) : num_scope.
Local Infix "*" := (mul A) : num_scope.
Local Notation "- x" := (opp A x) : num_scope.
Local Infix "==" := (eqb A) (at level 70, no associativity) : num_scope.
Local Infix "!=" := (fun a b => negb (eqb A a b)) (at level 70, no associativity) : num_scope.
Local Infix "<" := (ltb A) : num_scope.
Local Infix "<=" := (leb A) : num_scope.
Local Open Scope num_scope.

(** [a / b] on floats. *)
Definition pydiv (a b : num A) : res (num A) :=
  if b == 0 then Raise ZeroDivisionError else Ok (div A a b).

(** [0.0 if x == 0.0 else 1.0 if x > 0.0 else -1.0] *)
Definition signum (x : num A) : num A :=
  if x == 0 then 0 else if 0 < x then 1 else opp A 1.

(** [math.isclose(a, b, abs_tol=t)] *)
Definition isclose (a b abs_tol : num A) : res bool :=
  if abs_tol < 0 then Raise ValueError
  else if a == b then Ok true
  else if isinf A a || isinf A b then Ok false
  else
    let diff := abs A (b - a) in
    Ok ((diff <= abs A (default_rel_tol A * b))
        || (diff <= abs A (default_rel_tol A * a))
        || (diff <= abs_tol)).

(** An open trade, by its [entry_id] and its [size]. *)
Definition OpenTrade : Type := string * num A.

(** The ledger: [size], [sign], [open_trades] and
    [risk_allowed_direction]. *)
Record Ledger : Type := mk_Ledger {
  size : num A;
  sign : num A;
  open_trades : list OpenTrade;
  risk_allowed_direction : option Direction
}.

(** An order: [order_id], [size], [sign] and [order_type]. *)
Record Ticket : Type := mk_Ticket {
  order_id : option string;
  order_size : num A;
  order_sign : num A;
  order_type : OrderType
}.

(** [Order(order_id, size, order_type=...)]: the sign is taken from the size
    when the order is created. *)
Definition new_Ticket (order_id : option string) (size : num A) (order_type : OrderType)
  : Ticket :=
  {| order_id := order_id; order_size := size; order_sign := signum size;
     order_type := order_type |}.

Definition set_order_size (size : num A) (order : Ticket) : Ticket :=
  {| order_id := order_id order; order_size := size; order_sign := order_sign order;
     order_type := order_type order |}.

(** The local variables of the close walk: the position, the size left
    in the order, [delete] and the new list [open_trades]. *)
Record Walk : Type := mk_Walk {
  w_size : num A;
  w_sign : num A;
  w_order_size : num A;
  w_delete : bool;
  w_open_trades : list OpenTrade
}.

(** One iteration of [for trade in self.open_trades] in the close branch of
    [_fill_order]. *)
Definition close_walk_step (rfactor : num A) (order_id : option string) (w : Walk)
  (trade : OpenTrade) : res Walk :=
  let entry_id := fst trade in
  let trade_size := snd trade in
  if (w_order_size w != 0)
     && (optstr_eqb (Some entry_id) order_id || is_None_str order_id)
  then
    let size :=
      if abs A (w_order_size w) <= abs A trade_size
      then w_order_size w else - trade_size in
    (* size_ratio = 1 + size / closed_trade.size *)
    do _ <- pydiv size trade_size;
    (* Modify sizes *)
    let self_size := w_size w + size in
    do abs_tol <- pydiv 1 rfactor;
    do close_to_zero <- isclose self_size 0 abs_tol;
    let size := if close_to_zero then size - self_size else size in
    let self_size := if close_to_zero then 0 else self_size in
    let trade_size := trade_size + size in
    Ok {| w_size := self_size;
          w_sign := signum self_size;
          w_order_size := w_order_size w - size;
          w_delete := true;
          w_open_trades :=
            (* Remove from open trades if it is fully filled *)
            if trade_size == 0 then w_open_trades w
            else (w_open_trades w ++ [(entry_id, trade_size)])%list |}
  else
    Ok {| w_size := w_size w; w_sign := w_sign w; w_order_size := w_order_size w;
          w_delete := w_delete w;
          w_open_trades := (w_open_trades w ++ [trade])%list |}.

(** [Position._fill_order(order, price, h, l)]: the ledger and the order
    after the call. *)
Definition _fill_order (rfactor : num A) (self : Ledger) (order : Ticket)
  : res (Ledger * Ticket) :=
  if (size self != 0)
     && negb (OrderType_eqb (order_type order) _order_type_entry)
     && (order_sign order != sign self)
  then
    (* Close order *)
    do w <- foldM (close_walk_step rfactor (order_id order)) (open_trades self)
              {| w_size := size self; w_sign := sign self;
                 w_order_size := order_size order; w_delete := false;
                 w_open_trades := [] |};
    Ok ({| size := w_size w; sign := w_sign w; open_trades := w_open_trades w;
           risk_allowed_direction := risk_allowed_direction self |},
        set_order_size (w_order_size w) order)
  else if negb (OrderType_eqb (order_type order) _order_type_close) then
    (* New trade *)
    match order_id order with
    | None => Raise AssertionError
    | Some entry_id =>
      let self_size := size self + order_size order in
      Ok ({| size := self_size; sign := signum self_size;
             open_trades := (open_trades self ++ [(entry_id, order_size order)])%list;
             risk_allowed_direction := risk_allowed_direction self |},
          order)
    end
  else Ok (self, order).

(** [Position.fill_order(order, price, h, l)]: the ledger and the order
    after the call, and the returned flag. *)
Definition fill_order (rfactor : num A) (self : Ledger) (order : Ticket)
  : res (Ledger * Ticket * bool) :=
  let new_size := size self + order_size order in
  do new_size <-
    (if new_size != 0 then
       do abs_tol <- pydiv 1 rfactor;
       do close_to_zero <- isclose new_size 0 abs_tol;
       Ok (if negb close_to_zero then 0 else new_size)
     else Ok new_size);
  let new_sign := signum new_size in
  if (size self != 0) && (new_sign != sign self) && (new_size != 0)
  then
    if OrderType_eqb (order_type order) _order_type_close then
      (* Limit the exit order size to just close the position *)
      do filled <- _fill_order rfactor self (set_order_size (- size self) order);
      Ok (filled, false)
    else
      (* order1 = copy(order) *)
      let order1 :=
        {| order_id := None; order_size := - size self; order_sign := order_sign order;
           order_type := _order_type_close |} in
      do filled <- _fill_order rfactor self order1;
      let self := fst filled in
      let new_direction_sign := if 0 < new_size then 1 else opp A 1 in
      let blocked :=
        match risk_allowed_direction self with
        | Some allowed =>
          ((0 < new_direction_sign) && negb (Direction_eqb allowed long))
          || ((new_direction_sign < 0) && negb (Direction_eqb allowed short))
        | None => false
        end in
      if blocked then Ok (self, order, false)
      else
        do filled <- _fill_order rfactor self (set_order_size new_size order);
        Ok (filled, true)
  else
    do filled <- _fill_order rfactor self order;
    Ok (filled, false).

(** [close_all(immediately=True)], with [lib._lib_semaphore] off. *)
Definition close_all (rfactor : num A) (self : Ledger) : res Ledger :=
  if size self == 0 then Ok self
  else
    let order :=
      {| order_id := None; order_size := - size self;
         order_sign := signum (- size self); order_type := _order_type_close |} in
    do filled <- fill_order rfactor self order;
    Ok (fst (fst filled)).

(** [Position()]: flat, no open trade. *)
Definition new_Ledger : Ledger :=
  {| size := 0; sign := 0; open_trades := []; risk_allowed_direction := None |}.

(** The sum of [trade.size] over a list of open trades. *)
Fixpoint sum_sizes (trades : list OpenTrade) : num A :=
  match trades with
  | [] => 0
  | trade :: rest => snd trade + sum_sizes rest
  end.

(** A sequence of orders filled one after the other by [fill_order]. *)
Definition fill_all (rfactor : num A) (orders : list Ticket) (self : Ledger) : res Ledger :=
  foldM (fun self order =>
           do filled <- fill_order rfactor self order; Ok (fst (fst filled)))
    orders self.

End Book.

Arguments size {A} _.
Arguments sign {A} _.
Arguments open_trades {A} _.
Arguments risk_allowed_direction {A} _.
Arguments order_id {A} _.
Arguments order_size {A} _.
Arguments order_sign {A} _.
Arguments order_type {A} _.

(** The arithmetic of the embedding: exact rationals, no infinity. *)
Definition exact : Arith :=
  {| num := Q; zero := 0; one := 1; add := Qplus; sub := Qminus; mul := Qmult;
     div := Qdiv; opp := Qopp; abs := Qabs; eqb := Qeq_bool; ltb := Qltb;
     leb := Qle_bool; isinf := fun _ => false; default_rel_tol := rel_tol |}.

End Sizes.

(** ** The sizes on binary64 *)

Module Binary64.

Import PrimFloat.
Local Open Scope float_scope.
Local Set Warnings "-inexact-float".

(** The arithmetic of Python's [float]: IEEE 754 binary64, rounding to
    nearest with ties to even.  A decimal literal stands for the nearest
    binary64 value, here as in Python. *)
Definition arith : Sizes.Arith :=
  {| Sizes.num := float;
     Sizes.zero := 0;
     Sizes.one := 1;
     Sizes.add := add; Sizes.sub := sub; Sizes.mul := mul; Sizes.div := div;
     Sizes.opp := opp; Sizes.abs := abs;
     Sizes.eqb := eqb; Sizes.ltb := ltb; Sizes.leb := leb;
     Sizes.isinf := fun x => eqb (abs x) infinity;
     Sizes.default_rel_tol := 1e-09 |}.

(** The number that a float stands for, if it is finite. *)
Definition exact_value (x : float) : option Q :=
  match FloatOps.Prim2SF x with
  | SpecFloat.S754_zero _ => Some 0%Q
  | SpecFloat.S754_finite negative m e =>
    Some ((if negative then - inject_Z (Zpos m) else inject_Z (Zpos m)) * Qpower 2 e)%Q
  | _ => None
  end.

(** The sum of the numbers that the sizes of the open trades stand for. *)
Fixpoint exact_sum (trades : list (Sizes.OpenTrade arith)) : option Q :=
  match trades with
  | [] => Some 0%Q
  | trade :: rest =>
    match exact_value (snd trade), exact_sum rest with
    | Some x, Some total => Some (x + total)%Q
    | _, _ => None
    end
  end.

(** The distance between [position.size] and the sum of [trade.size] over
    [open_trades], as numbers. *)
Definition size_error (ledger : Sizes.Ledger arith) : option Q :=
  match exact_value (Sizes.size ledger), exact_sum (Sizes.open_trades ledger) with
  | Some x, Some total => Some (Qabs (x - total))
  | _, _ => None
  end.

(** [syminfo._size_round_factor] of the scenarios, [1e8]. *)
Definition size_round_factor : float := 100000000.

(** Pyramiding: [entry("A", long, 1e9)] and [entry("B", long, 5e-8)], then
    [close("A", qty=1e9)], each order filled by [fill_order] before the next
    is placed.  [_size_round] leaves the three quantities as they are, and
    [close] gives its order the size [-position.sign * qty]. *)
Definition absorbed_entry : res (Sizes.Ledger arith) :=
  Sizes.fill_all arith size_round_factor
    [ Sizes.new_Ticket arith (Some "A"%string) 1e9 _order_type_entry;
      Sizes.new_Ticket arith (Some "B"%string) 5e-8 _order_type_entry;
      Sizes.new_Ticket arith (Some "A"%string) (-1e9) _order_type_close ]
    (Sizes.new_Ledger arith).

(** Pyramiding: [entry("A", long, 0.1)] and [entry("B", long, 0.2)], each
    filled by [fill_order], then [close_all(immediately=True)]. *)
Definition residual_trade : res (Sizes.Ledger arith) :=
  do ledger <-
    Sizes.fill_all arith size_round_factor
      [ Sizes.new_Ticket arith (Some "A"%string) 0.1 _order_type_entry;
        Sizes.new_Ticket arith (Some "B"%string) 0.2 _order_type_entry ]
      (Sizes.new_Ledger arith);
  Sizes.close_all arith size_round_factor ledger.

End Binary64.

(** *** The exact sizes and the ledger of the embedding *)

Definition open_trade_of (trade : Trade.t) : Sizes.OpenTrade Sizes.exact :=
  (Trade.entry_id trade, Trade.size trade).

(** The part of the ledger that [Sizes] keeps. *)
Definition ledger_of (self : Position.t) : Sizes.Ledger Sizes.exact :=
  Sizes.mk_Ledger Sizes.exact (Position.size self) (Position.sign self)
    (map open_trade_of (Position.open_trades self))
    (Position.risk_allowed_direction self).

(** The part of an order that [Sizes] keeps. *)
Definition ticket_of (order : Order.t) : Sizes.Ticket Sizes.exact :=
  Sizes.mk_Ticket Sizes.exact (Order.order_id order) (Order.size order)
    (Order.sign order) (Order.order_type order).

(** The close walk, with the size left in the order. *)
Definition walk_of (w : CloseWalk) (order_size : Q) : Sizes.Walk Sizes.exact :=
  Sizes.mk_Walk Sizes.exact (Position.size (cw_self w)) (Position.sign (cw_self w))
    order_size (cw_delete w) (map open_trade_of (cw_open_trades w)).

(** What the blocks of [_fill_order] that deal with prices, commissions and
    counters leave alone. *)
Definition sizes_view (self : Position.t)
  : Q * Q * option Direction * list Order.t * list Trade.t :=
  (Position.size self, Position.sign self, Position.risk_allowed_direction self,
   Position.order_objs self, Position.open_trades self).

(** * Properties *)

(** ** The result monad and the comparisons *)

Lemma bind_Ok_inv {A B : Type} (m : res A) (k : A -> res B) (b : B) :
  bind m k = Ok b -> exists a, m = Ok a /\ k a = Ok b.
Proof.
  destruct m as [a|e]; simpl; intros H; [exists a; auto | discriminate].
Qed.

Lemma Qltb_iff (a b : Q) : Qltb a b = true <-> a < b.
Proof.
  unfold Qltb. rewrite negb_true_iff. split; intros H.
  - apply Qnot_le_lt. intros Hle. apply Qle_bool_iff in Hle. congruence.
  - destruct (Qle_bool b a) eqn:E; auto. apply Qle_bool_iff in E.
    exfalso. apply (Qlt_not_le _ _ H E).
Qed.

Lemma Qltb_false_iff (a b : Q) : Qltb a b = false <-> b <= a.
Proof.
  unfold Qltb. rewrite negb_false_iff. apply Qle_bool_iff.
Qed.


(** ** The size of the position is the sum of the sizes of its open trades *)

Lemma Ok_inj {A : Type} (a b : A) : Ok a = Ok b -> a = b.
Proof. intros H. injection H as H. exact H. Qed.

Ltac inv_res :=
  repeat match goal with
  | H : bind ?m ?k = Ok _ |- _ =>
    let a := fresh "a" in
    let Ha := fresh "Ha" in
    let Hk := fresh "Hk" in
    destruct (bind_Ok_inv _ _ _ H) as (a & Ha & Hk); clear H; rename Hk into H;
    cbv beta in H
  | H : Ok _ = Ok _ |- _ => apply Ok_inj in H
  | H : Raise _ = Ok _ |- _ => discriminate H
  end.

Lemma sum_sizes_app (a b : list Trade.t) :
  sum_sizes (a ++ b) == sum_sizes a + sum_sizes b.
Proof.
  induction a as [|t a IH]; simpl; [lra | rewrite IH; lra].
Qed.

Lemma same_book_refl (p : Position.t) : same_book p p.
Proof. split; reflexivity. Qed.

Lemma same_book_trans (p q s : Position.t) :
  same_book p q -> same_book q s -> same_book p s.
Proof. intros [H1 H2] [H3 H4]. split; congruence. Qed.

Lemma same_book_invariant (p q : Position.t) :
  same_book p q -> size_invariant p -> size_invariant q.
Proof.
  unfold size_invariant. intros [H1 H2] H. rewrite <- H1, <- H2. exact H.
Qed.

Lemma foldM_same_book {A : Type} (body : Position.t -> A -> res Position.t) :
  (forall p x q, body p x = Ok q -> same_book p q) ->
  forall xs p q, foldM body xs p = Ok q -> same_book p q.
Proof.
  intros Hbody xs. induction xs as [|x xs IH]; simpl; intros p q H.
  - injection H as <-. apply same_book_refl.
  - inv_res. eapply same_book_trans; eauto.
Qed.

Lemma foldM_invariant {A : Type} (body : Position.t -> A -> res Position.t) :
  (forall p x q, body p x = Ok q -> size_invariant p -> size_invariant q) ->
  forall xs p q, foldM body xs p = Ok q -> size_invariant p -> size_invariant q.
Proof.
  intros Hbody xs. induction xs as [|x xs IH]; simpl; intros p q H Hp.
  - injection H as <-. exact Hp.
  - inv_res. eauto.
Qed.

Lemma split_partial_size (env : Env) (price size size_ratio : Q) (trade closed_trade : Trade.t) :
  Trade.size (fst (split_partial env price size size_ratio trade closed_trade))
  = Trade.size trade.
Proof.
  unfold split_partial. destruct (Qneb _ _); reflexivity.
Qed.

Lemma realize_commission_book (env : Env) (price size : Q) (self : Position.t)
  (closed_trade : Trade.t) (cts : Q) :
  same_book self (fst (fst (realize_commission env price size self closed_trade cts))).
Proof.
  unfold realize_commission. destruct (_ || _); split; reflexivity.
Qed.

Lemma count_closed_trade_book (closed_trade : Trade.t) (self : Position.t) :
  same_book self (count_closed_trade closed_trade self).
Proof.
  unfold count_closed_trade.
  destruct (Qeq_bool _ _); [|destruct (Qltb _ _)]; split; reflexivity.
Qed.

Lemma average_after_close_book (closed_trade : Trade.t) (self self' : Position.t) :
  average_after_close closed_trade self = Ok self' -> same_book self self'.
Proof.
  unfold average_after_close. destruct (Qneb _ _); intros H; inv_res; subst;
    split; reflexivity.
Qed.

Lemma adjust_for_commission_book (pnl : Q) (closed_trade : Trade.t) (self : Position.t) :
  same_book self (adjust_for_commission pnl closed_trade self).
Proof.
  unfold adjust_for_commission. destruct (Qltb _ _); split; reflexivity.
Qed.

(** The position moves by exactly the size that the trade and the order
    are then moved by, residual included. *)
Lemma modify_sizes_spec (env : Env) (size : Q) (self self' : Position.t) (size' : Q) :
  modify_sizes env size self = Ok (self', size') ->
  Position.size self' == Position.size self + size' /\
  Position.open_trades self' = Position.open_trades self.
Proof.
  unfold modify_sizes. intros H. inv_res.
  destruct a0; injection H as <- <-; simpl; split; try reflexivity; lra.
Qed.

Lemma close_walk_step_balance (env : Env) (r : ref) (price h l : Q)
  (w w' : CloseWalk) (trade : Trade.t) :
  close_walk_step env r price h l w trade = Ok w' ->
  walk_balance w' == walk_balance w - Trade.size trade.
Proof.
  unfold close_walk_step, walk_balance. intros H. inv_res.
  destruct (Qneb (Order.size a) 0 && _) eqn:Ematch.
  - inv_res. destruct (Order.exit_id a) as [order_exit_id|]; [|discriminate].
    inv_res. destruct a1 as [self1 size1].
    apply modify_sizes_spec in Ha1. destruct Ha1 as [Hsize _].
    apply average_after_close_book in Ha2. destruct Ha2 as [Hs2 _].
    cbn [fst snd] in *.
    rewrite <- (proj1 (count_closed_trade_book _ _)) in Hs2.
    match type of Hsize with
    | _ == Position.size ?p + _ =>
      assert (Position.size p = Position.size (cw_self w)) as Hs0
    end.
    { cbn. rewrite <- (proj1 (realize_commission_book _ _ _ _ _ _)). reflexivity. }
    rewrite Hs0 in Hsize.
    destruct (Qeq_bool _ 0) eqn:Ezero; injection H as <-; cbn [cw_self cw_open_trades].
    + apply Qeq_bool_iff in Ezero. cbn in Ezero.
      rewrite split_partial_size in Ezero.
      cbn. rewrite <- Hs2, Hsize. lra.
    + cbn. rewrite <- (proj1 (adjust_for_commission_book _ _ _)).
      rewrite sum_sizes_app. cbn. rewrite split_partial_size.
      rewrite <- Hs2, Hsize. lra.
  - injection H as <-. cbn. rewrite sum_sizes_app. cbn. lra.
Qed.

Lemma close_walk_balance (env : Env) (r : ref) (price h l : Q) (trades : list Trade.t) :
  forall w w' : CloseWalk,
    foldM (close_walk_step env r price h l) trades w = Ok w' ->
    walk_balance w' == walk_balance w - sum_sizes trades.
Proof.
  induction trades as [|trade rest IH]; simpl; intros w w' H.
  - injection H as <-. lra.
  - inv_res. apply close_walk_step_balance in Ha. apply IH in H. lra.
Qed.

Lemma put_trade_book (self : Position.t) (tr : ref) (trade : Trade.t) :
  same_book self (put_trade self tr trade).
Proof. split; reflexivity. Qed.

Lemma put_order_book (self : Position.t) (r : ref) (order : Order.t) :
  same_book self (put_order self r order).
Proof. split; reflexivity. Qed.

Lemma alloc_order_book (self : Position.t) (order : Order.t) :
  same_book self (fst (alloc_order self order)).
Proof. split; reflexivity. Qed.

Lemma allocate_order_commission_book (env : Env) (cts : Q) (self self' : Position.t)
  (tr : ref) :
  allocate_order_commission env cts self tr = Ok self' -> same_book self self'.
Proof.
  unfold allocate_order_commission. intros H. inv_res. subst. apply put_trade_book.
Qed.

Lemma finish_close_book (env : Env) (order : Order.t) (w : CloseWalk)
  (self self' : Position.t) :
  finish_close env order w self = Ok self' -> same_book self self'.
Proof.
  unfold finish_close. intros H.
  destruct (cw_delete w); [|injection H as <-; apply same_book_refl].
  destruct (CommissionType_eqb _ _).
  - apply foldM_same_book in H; [|intros ? ? ?; apply allocate_order_commission_book].
    eapply same_book_trans; [|exact H].
    destruct (Order.exit_id order); split; reflexivity.
  - injection H as <-. destruct (Order.exit_id order); split; reflexivity.
Qed.

Lemma reset_when_flat_book (self : Position.t) : same_book self (reset_when_flat self).
Proof.
  unfold reset_when_flat. destruct (Position.open_trades self) eqn:E; split; simpl; auto.
Qed.

Lemma mark_entry_equity_book (entry_equity : Q) (self : Position.t) :
  same_book self (mark_entry_equity entry_equity self).
Proof.
  unfold mark_entry_equity. destruct (Position.open_trades self) eqn:E; split; simpl; auto.
Qed.

Lemma remove_filled_order_book (order : Order.t) (self : Position.t) :
  same_book self (remove_filled_order order self).
Proof.
  unfold remove_filled_order.
  destruct (_ && _); [|destruct (optstr_truthy _)];
    try destruct (Order.order_id order); try destruct (Order.exit_id order);
    split; reflexivity.
Qed.

Lemma append_trade_spec (price commission : Q) (order : Order.t) (trade : Trade.t)
  (self : Position.t) :
  Position.size (append_trade price commission order trade self)
  = Position.size self + Trade.size trade /\
  Position.open_trades (append_trade price commission order trade self)
  = (Position.open_trades self ++ [trade])%list.
Proof.
  unfold append_trade. cbv zeta. destruct (pydiv _ _); split; reflexivity.
Qed.

Lemma fill_order_inner_invariant (env : Env) (self self' : Position.t) (r : ref)
  (price h l : Q) :
  _fill_order env self r price h l = Ok self' ->
  size_invariant self -> size_invariant self'.
Proof.
  unfold _fill_order. intros H Hinv. inv_res. subst self'.
  apply (same_book_invariant _ _ (reset_when_flat_book _)).
  destruct (Qneb (Position.size self) 0 && _ && _) eqn:Eclose.
  - (* Close order *)
    inv_res. subst a0.
    apply close_walk_balance in Ha1. unfold walk_balance in Ha1. cbn in Ha1.
    assert (size_invariant (Position.set_open_trades (cw_open_trades a1) (cw_self a1)))
      as Hw.
    { unfold size_invariant in *. cbn. rewrite Hinv in Ha1. lra. }
    revert Hw. apply same_book_invariant.
    apply (same_book_trans _ a2); [|split; reflexivity].
    eapply finish_close_book; eassumption.
  - destruct (negb (OrderType_eqb (Order.order_type a) _order_type_close)).
    + (* New trade *)
      inv_res. destruct (Order.order_id a) as [order_id|]; [|discriminate].
      apply Ok_inj in Ha0. subst a0.
      apply (same_book_invariant _ _ (remove_filled_order_book _ _)).
      unfold size_invariant in *.
      match goal with
      | |- context [append_trade ?p ?c ?o ?t ?s] =>
        destruct (append_trade_spec p c o t s) as [-> ->];
        destruct (mark_entry_equity_book (equity env (Position.set_netprofit
                    (Position.netprofit self - a1) self))
                    (Position.set_netprofit (Position.netprofit self - a1) self))
          as [Hs Ho]
      end.
      rewrite <- Hs, <- Ho, sum_sizes_app. cbn. rewrite Hinv. lra.
    + apply Ok_inj in Ha0. subst a0. exact Hinv.
Qed.

Lemma fill_order_invariant (env : Env) (self self' : Position.t) (r : ref)
  (price h l : Q) (flag : bool) :
  fill_order env self r price h l = Ok (self', flag) ->
  size_invariant self -> size_invariant self'.
Proof.
  unfold fill_order. intros H Hinv. inv_res.
  destruct (Qneb (Position.size self) 0 && _ && _).
  - destruct (OrderType_eqb (Order.order_type a) _order_type_close).
    + inv_res. injection H as <- _.
      eapply fill_order_inner_invariant; [eassumption|].
      revert Hinv. apply same_book_invariant, put_order_book.
    + cbn [alloc_order] in H. inv_res.
      assert (size_invariant a1) as Hinv1.
      { eapply fill_order_inner_invariant; [eassumption|].
        revert Hinv. apply same_book_invariant. split; reflexivity. }
      destruct (match Position.risk_allowed_direction a1 with
                | Some _ => _ | None => _ end).
      * injection H as <- _. exact Hinv1.
      * inv_res. injection H as <- _.
        eapply fill_order_inner_invariant; [eassumption|].
        destruct (OrderType_eqb (Order.order_type (Order.set_size a0 a2)) _order_type_entry);
          [destruct (Order.order_id (Order.set_size a0 a2))
          |destruct (Order.exit_id (Order.set_size a0 a2))];
          try discriminate; apply Ok_inj in Ha3; subst a3;
          revert Hinv1; apply same_book_invariant; split; reflexivity.
  - inv_res. injection H as <- _.
    eapply fill_order_inner_invariant; eassumption.
Qed.

Ltac book := first [apply same_book_refl | split; reflexivity].

Ltac case_if H :=
  match type of H with
  | (if ?c then _ else _) = _ => destruct c eqn:?
  end.

Ltac keep_by_fill :=
  match goal with
  | Hf : fill_order _ _ _ _ _ _ = Ok (?p, _) |- size_invariant ?p =>
    eapply fill_order_invariant; [exact Hf | assumption]
  end.

Lemma check_high_stop_invariant (env : Env) (self self' : Position.t) (r : ref) :
  _check_high_stop env self r = Ok self' ->
  size_invariant self -> size_invariant self'.
Proof.
  unfold _check_high_stop. intros H Hinv. inv_res.
  destruct (Order.stop a) as [| |stop]; inv_res; subst; auto.
  destruct (buy_side a && _); inv_res; subst; auto.
  destruct a0 as [p flag]. inv_res. subst. keep_by_fill.
Qed.

Lemma check_low_stop_invariant (env : Env) (self self' : Position.t) (r : ref) :
  _check_low_stop env self r = Ok self' ->
  size_invariant self -> size_invariant self'.
Proof.
  unfold _check_low_stop. intros H Hinv. inv_res.
  destruct (Order.stop a) as [| |stop]; inv_res; subst; auto.
  destruct (sell_side a && _); inv_res; subst; auto.
  destruct a0 as [p flag]. inv_res. subst. keep_by_fill.
Qed.

Lemma trail_high_book (env : Env) (self self' : Position.t) (r : ref) :
  trail_high env self r = Ok self' -> same_book self self'.
Proof.
  unfold trail_high. intros H. inv_res.
  destruct (negb _ && _); inv_res; subst; [|book].
  match type of H with
  | (if ?c then _ else _) = _ => destruct c
  end; [|inv_res; subst; book].
  match type of H with
  | match ?s with PNone => _ | PNA => _ | PNum _ => _ end = _ => destruct s
  end; inv_res; subst; book.
Qed.

Lemma trail_low_book (env : Env) (self self' : Position.t) (r : ref) :
  trail_low env self r = Ok self' -> same_book self self'.
Proof.
  unfold trail_low. intros H. inv_res.
  destruct (negb _ && _); inv_res; subst; [|book].
  match type of H with
  | (if ?c then _ else _) = _ => destruct c
  end; [|inv_res; subst; book].
  match type of H with
  | match ?s with PNone => _ | PNA => _ | PNum _ => _ end = _ => destruct s
  end; inv_res; subst; book.
Qed.

Lemma check_high_invariant (env : Env) (self self' : Position.t) (r : ref) :
  _check_high env self r = Ok self' ->
  size_invariant self -> size_invariant self'.
Proof.
  unfold _check_high. intros H Hinv. inv_res.
  apply trail_high_book in H. apply (same_book_invariant _ _ H). clear H.
  destruct (Order.limit a) as [| |limit]; inv_res; subst; auto.
  destruct (sell_side a && _); inv_res; subst; auto.
  destruct a1 as [p flag]. inv_res. subst. keep_by_fill.
Qed.

Lemma check_low_invariant (env : Env) (self self' : Position.t) (r : ref) :
  _check_low env self r = Ok self' ->
  size_invariant self -> size_invariant self'.
Proof.
  unfold _check_low. intros H Hinv. inv_res.
  apply trail_low_book in H. apply (same_book_invariant _ _ H). clear H.
  destruct (Order.limit a) as [| |limit]; inv_res; subst; auto.
  destruct (buy_side a && _); inv_res; subst; auto.
  destruct a1 as [p flag]. inv_res. subst. keep_by_fill.
Qed.

Lemma check_close_invariant (env : Env) (self self' : Position.t) (r : ref) (ohlcv : bool) :
  _check_close env self r ohlcv = Ok self' ->
  size_invariant self -> size_invariant self'.
Proof.
  unfold _check_close. intros H Hinv. inv_res.
  destruct (Order.stop a) as [| |stop]; inv_res; subst; auto.
  destruct (ohlcv && _); [|destruct (Qle_bool _ _)]; inv_res; subst; auto;
    destruct a0 as [p flag]; inv_res; subst; keep_by_fill.
Qed.

Lemma resolve_ticks_book (env : Env) (self self' : Position.t) (r : ref) :
  resolve_ticks env self r = Ok self' -> same_book self self'.
Proof.
  unfold resolve_ticks. intros H. inv_res.
  destruct (find_entry_price _ _); inv_res; subst; book.
Qed.

Lemma first_round_invariant (env : Env) (ohlc : bool) (self self' : Position.t) (r : ref) :
  first_round env ohlc self r = Ok self' ->
  size_invariant self -> size_invariant self'.
Proof.
  unfold first_round. intros H Hinv. inv_res.
  assert (size_invariant a0) as Hinv0.
  { case_if Ha0; inv_res; subst; auto.
    apply resolve_ticks_book in Ha0. eapply same_book_invariant; eassumption. }
  destruct (Order.is_market_order a1).
  - destruct ohlc; inv_res; destruct a2 as [p flag]; inv_res; subst; keep_by_fill.
  - destruct ohlc; inv_res.
    + eapply check_high_invariant; [eassumption|].
      eapply check_high_stop_invariant; eassumption.
    + eapply check_low_invariant; [eassumption|].
      eapply check_low_stop_invariant; eassumption.
Qed.

Lemma second_round_invariant (env : Env) (ohlc : bool) (self self' : Position.t) (r : ref) :
  second_round env ohlc self r = Ok self' ->
  size_invariant self -> size_invariant self'.
Proof.
  unfold second_round. intros H Hinv. inv_res.
  assert (size_invariant a0) as Hinv0.
  { case_if Ha0; inv_res; subst; auto.
    apply resolve_ticks_book in Ha0. eapply same_book_invariant; eassumption. }
  assert (size_invariant a1) as Hinv1.
  { destruct ohlc; inv_res.
    - eapply check_low_invariant; [eassumption|].
      eapply check_low_stop_invariant; eassumption.
    - eapply check_high_invariant; [eassumption|].
      eapply check_high_stop_invariant; eassumption. }
  case_if H; inv_res; subst; auto.
  eapply check_close_invariant; eassumption.
Qed.

Lemma mark_open_trade_size (self : Position.t) (trade : Trade.t) :
  Trade.size (fst (fst (mark_open_trade self trade))) = Trade.size trade.
Proof.
  unfold mark_open_trade. cbv zeta. cbn [fst]. destruct (Qltb 0 _); reflexivity.
Qed.

Lemma mark_open_trades_spec (todo : list Trade.t) :
  forall (self : Position.t) (done : list Trade.t),
    Position.size (mark_open_trades self todo done) = Position.size self /\
    sum_sizes (Position.open_trades (mark_open_trades self todo done))
    == sum_sizes done + sum_sizes todo.
Proof.
  induction todo as [|trade rest IH]; intros self done;
    cbn [mark_open_trades sum_sizes].
  - split; [reflexivity | cbn; lra].
  - pose proof (mark_open_trade_size self trade) as Hsz.
    destruct (mark_open_trade self trade) as [[trade' drawdown] runup].
    cbn [fst] in Hsz.
    match goal with
    | |- context [mark_open_trades ?s rest ?d] => destruct (IH s d) as [Hs Ho]
    end.
    split; [rewrite Hs; reflexivity|].
    rewrite Ho, sum_sizes_app. cbn [sum_sizes]. rewrite Hsz. lra.
Qed.

Lemma cumulate_closed_trade_book (env : Env) (self self' : Position.t) (tr : ref) :
  cumulate_closed_trade env self tr = Ok self' -> same_book self self'.
Proof.
  unfold cumulate_closed_trade. intros H. inv_res. subst. book.
Qed.

Lemma process_orders_invariant (env : Env) (self self' : Position.t) :
  process_orders env self = Ok self' ->
  size_invariant self -> size_invariant self'.
Proof.
  unfold process_orders. intros H Hinv. inv_res.
  apply foldM_same_book in H; [|intros ? ? ?; apply cumulate_closed_trade_book].
  apply (same_book_invariant _ _ H). clear H.
  apply foldM_invariant in Ha; [|intros ? ? ?; apply first_round_invariant|exact Hinv].
  apply foldM_invariant in Ha0; [|intros ? ? ?; apply second_round_invariant|exact Ha].
  assert (forall p : Position.t, size_invariant p ->
            size_invariant
              match Position.open_trades p with
              | [] => p
              | _ :: _ =>
                mark_open_trades
                  (Position.set_openprofit
                     (Position.size p * (Position.c p - Position.avg_price p)) p)
                  (Position.open_trades p) []
              end) as Hmark.
  { intros p Hp. destruct (Position.open_trades p) eqn:E; [exact Hp|].
    unfold size_invariant in *.
    match goal with
    | |- context [mark_open_trades ?s ?t ?d] =>
      destruct (mark_open_trades_spec t s d) as [Hs Ho]
    end.
    rewrite Hs, Ho. cbn. rewrite Hp, E. cbn. lra. }
  specialize (Hmark a0 Ha0). revert Hmark. apply same_book_invariant.
  destruct (_ || _); book.
Qed.

Lemma foldM_preserves {A S : Type} (R : S -> S -> Prop) (body : S -> A -> res S) :
  (forall s, R s s) ->
  (forall s t u, R s t -> R t u -> R s u) ->
  (forall s x t, body s x = Ok t -> R s t) ->
  forall xs s t, foldM body xs s = Ok t -> R s t.
Proof.
  intros Hrefl Htrans Hbody xs. induction xs as [|x xs IH]; simpl; intros s t H.
  - apply Ok_inj in H. subst. apply Hrefl.
  - inv_res. eapply Htrans; eauto.
Qed.

Ltac split_fill :=
  match goal with
  | x : (Position.t * bool)%type |- _ =>
    let p := fresh "p" in
    let flag := fresh "flag" in
    destruct x as [p flag]
  end.

Lemma cancel_book (env : Env) (position position' : Position.t) (id : string) :
  cancel env position id = Ok position' -> same_book position position'.
Proof.
  unfold cancel. intros H. destruct (lib_semaphore env); inv_res; subst; book.
Qed.

Lemma cancel_all_book (env : Env) (position position' : Position.t) :
  cancel_all env position = Ok position' -> same_book position position'.
Proof.
  unfold cancel_all. intros H. destruct (lib_semaphore env); inv_res; subst; book.
Qed.

Lemma entry_book (env : Env) (position position' : Position.t) (id : string)
  (direction : Direction) (qty limit stop : pyfloat) (oca_name : pystr)
  (oca_type : option Oca) (comment alert_message : pystr) :
  entry env position id direction qty limit stop oca_name oca_type comment alert_message
  = Ok position' ->
  same_book position position'.
Proof.
  unfold entry. intros H.
  repeat (first [case_if H
                | match type of H with
                  | match ?x with Some _ => _ | None => _ end = _ => destruct x
                  end
                | progress inv_res
                | progress cbn [alloc_order] in H]);
    subst; try book.
Qed.

Lemma exit_step_book (env : Env) (a : ExitArgs) (st st' : Position.t * ExitVars) :
  _exit env a st = Ok st' -> same_book (fst st) (fst st').
Proof.
  unfold _exit. destruct st as [position v]. intros H. inv_res.
  case_if H; inv_res; subst; [book|].
  case_if H; inv_res; subst; [book|].
  cbn [alloc_order] in H. inv_res. subst. book.
Qed.

Lemma exit_book (env : Env) (position position' : Position.t) (a : ExitArgs)
  (from_entry : string) (limit stop trail_price : pyfloat) :
  exit env position a from_entry limit stop trail_price = Ok position' ->
  same_book position position'.
Proof.
  assert (forall s, same_book_fst s s) as Hrefl by (intros s; apply same_book_refl).
  assert (forall s t u, same_book_fst s t -> same_book_fst t u -> same_book_fst s u)
    as Htrans by (intros s t u; apply same_book_trans).
  unfold exit. intros H.
  case_if H; inv_res; subst; [book|].
  case_if H; inv_res; subst; [book|].
  case_if H.
  - destruct (dict_get _ _); inv_res; subst.
    + apply exit_step_book in Ha1. exact Ha1.
    + apply (foldM_preserves same_book_fst) in Ha0; auto.
      intros s x t Hx. case_if Hx.
      * apply exit_step_book in Hx. exact Hx.
      * apply Ok_inj in Hx. subst. apply Hrefl.
  - inv_res.
    apply (foldM_preserves same_book_fst) in Ha0; auto.
    2:{ intros s x t Hx. inv_res. apply exit_step_book in Hx. exact Hx. }
    case_if H; inv_res; subst; [|exact Ha0].
    apply (foldM_preserves same_book_fst) in Ha1; auto.
    2:{ intros s x t Hx. apply exit_step_book in Hx. exact Hx. }
    eapply same_book_trans; eassumption.
Qed.

Lemma close_invariant (env : Env) (position position' : Position.t) (id : string)
  (comment : pystr) (qty qty_percent : pyfloat) (alert_message : pystr)
  (immediately : bool) :
  close env position id comment qty qty_percent alert_message immediately = Ok position' ->
  size_invariant position -> size_invariant position'.
Proof.
  unfold close. intros H Hinv.
  case_if H; inv_res; subst; auto.
  case_if H; inv_res; subst; auto.
  case_if H; inv_res; subst; auto.
  case_if H; inv_res; subst; auto.
  cbn [alloc_order] in H.
  destruct immediately; inv_res.
  - split_fill. inv_res. subst.
    eapply fill_order_invariant; [eassumption|].
    revert Hinv. apply same_book_invariant. book.
  - subst. revert Hinv. apply same_book_invariant. book.
Qed.

Lemma close_all_invariant (env : Env) (position position' : Position.t)
  (comment alert_message : pystr) (immediately : bool) :
  close_all env position comment alert_message immediately = Ok position' ->
  size_invariant position -> size_invariant position'.
Proof.
  unfold close_all. intros H Hinv.
  case_if H; inv_res; subst; auto.
  case_if H; inv_res; subst; auto.
  cbn [alloc_order] in H.
  destruct immediately; inv_res.
  - split_fill. inv_res. subst.
    eapply fill_order_invariant; [eassumption|].
    revert Hinv. apply same_book_invariant. book.
  - subst. revert Hinv. apply same_book_invariant. book.
Qed.

Lemma run_op_invariant (env : Env) (op : Op) (position position' : Position.t) :
  run_op env op position = Ok position' ->
  size_invariant position -> size_invariant position'.
Proof.
  destruct op; cbn [run_op]; intros H Hinv.
  - apply entry_book in H. eapply same_book_invariant; eassumption.
  - apply exit_book in H. eapply same_book_invariant; eassumption.
  - eapply close_invariant; eassumption.
  - eapply close_all_invariant; eassumption.
  - apply cancel_book in H. eapply same_book_invariant; eassumption.
  - apply cancel_all_book in H. eapply same_book_invariant; eassumption.
  - inv_res. split_fill. inv_res. subst.
    eapply fill_order_invariant; eassumption.
  - cbn [alloc_order] in H. inv_res. split_fill. inv_res. subst.
    eapply fill_order_invariant; [eassumption|].
    revert Hinv. apply same_book_invariant. book.
  - eapply process_orders_invariant; eassumption.
Qed.

Lemma run_invariant (steps : list (Env * Op)) (position position' : Position.t) :
  run steps position = Ok position' ->
  size_invariant position -> size_invariant position'.
Proof.
  unfold run. apply foldM_invariant. intros p step q. apply run_op_invariant.
Qed.

Lemma new_Position_invariant : size_invariant new_Position.
Proof. unfold size_invariant. cbn. lra. Qed.

(** C1, in exact arithmetic: starting from a fresh [Position], after every
    sequence of calls of [entry], [exit], [close], [close_all], [cancel],
    [cancel_all], [fill_order] and [process_orders] that completes, in
    whatever environments, [position.size] is the sum of [trade.size] over
    [open_trades], exactly, with floats as exact rationals.  Nothing is
    said here of the sizes on binary64. *)
Theorem position_size_is_sum_of_open_trades (steps : list (Env * Op))
  (position : Position.t) :
  run steps new_Position = Ok position ->
  Position.size position == sum_sizes (Position.open_trades position).
Proof.
  intros H.
  exact (run_invariant _ _ _ H new_Position_invariant).
Qed.

Lemma position_size_is_sum_of_open_trades_witness :
  Position.size (result_of (run sample_run new_Position))
  == sum_sizes (Position.open_trades (result_of (run sample_run new_Position))).
Proof.
  apply (position_size_is_sum_of_open_trades sample_run
           (result_of (run sample_run new_Position))).
  vm_compute. reflexivity.
Defined.

(** ** Negative quantities *)

(** C9: a call of [entry], [exit] or [close] with a numeric [qty < 0]
    returns without raising and leaves the whole ledger as it was: pending
    orders, open and closed trades, counters and running sums. *)
Theorem negative_qty_is_dropped (env : Env) (position : Position.t) (qty : Q) :
  qty < 0 ->
  (forall id direction limit stop oca_name oca_type comment alert_message,
     entry env position id direction (PNum qty) limit stop oca_name oca_type comment
       alert_message = Ok position) /\
  (forall a from_entry limit stop trail_price,
     x_qty a = PNum qty ->
     exit env position a from_entry limit stop trail_price = Ok position) /\
  (forall id comment qty_percent alert_message immediately,
     close env position id comment (PNum qty) qty_percent alert_message immediately
     = Ok position).
Proof.
  intros Hq.
  assert (Qle_bool qty 0 = true) as Hle by (apply Qle_bool_iff; lra).
  assert (Qltb qty 0 = true) as Hlt by (apply Qltb_iff; exact Hq).
  split; [|split].
  - intros. unfold entry.
    destruct (lib_semaphore env); [reflexivity|].
    destruct (Position.risk_halt_trading position); [reflexivity|].
    cbn [bind]. rewrite Hle. reflexivity.
  - intros a from_entry limit stop trail_price Ha. unfold exit.
    destruct (lib_semaphore env); [reflexivity|].
    rewrite Ha. cbn [bind]. rewrite Hlt. reflexivity.
  - intros. unfold close.
    destruct (lib_semaphore env); [reflexivity|].
    cbn [bind]. rewrite Hle. reflexivity.
Qed.

Lemma negative_qty_is_dropped_witness :
  (forall id direction limit stop oca_name oca_type comment alert_message,
     entry (scenario_env percent 0) unmatched_close_state id direction (PNum (-1)) limit stop
       oca_name oca_type comment alert_message = Ok unmatched_close_state) /\
  (forall a from_entry limit stop trail_price,
     x_qty a = PNum (-1) ->
     exit (scenario_env percent 0) unmatched_close_state a from_entry limit stop trail_price
     = Ok unmatched_close_state) /\
  (forall id comment qty_percent alert_message immediately,
     close (scenario_env percent 0) unmatched_close_state id comment (PNum (-1)) qty_percent
       alert_message immediately = Ok unmatched_close_state).
Proof.
  apply (negative_qty_is_dropped (scenario_env percent 0) unmatched_close_state (-1)).
  reflexivity.
Defined.

(** ** Close orders that match no open trade *)

Lemma set_open_trades_same (self : Position.t) :
  Position.set_open_trades (Position.open_trades self) self = self.
Proof. destruct self; reflexivity. Qed.

Lemma set_new_closed_trades_same (self : Position.t) :
  Position.set_new_closed_trades (Position.new_closed_trades self) self = self.
Proof. destruct self; reflexivity. Qed.

(** The close walk past trades that the order does not name: every trade is
    put back and nothing else happens. *)
Lemma close_walk_no_match (env : Env) (r : ref) (price h l : Q) (order : Order.t)
  (id : string) (trades : list Trade.t) :
  Order.order_id order = Some id ->
  (forall trade, In trade trades -> Trade.entry_id trade <> id) ->
  forall w : CloseWalk,
    get_order (cw_self w) r = Ok order ->
    foldM (close_walk_step env r price h l) trades w
    = Ok {| cw_self := cw_self w; cw_delete := cw_delete w;
            cw_open_trades := (cw_open_trades w ++ trades)%list;
            cw_new_closed_trades := cw_new_closed_trades w;
            cw_closed_trade_size := cw_closed_trade_size w |}.
Proof.
  intros Hid. induction trades as [|trade rest IH]; intros Hno w Hget.
  - cbn [foldM]. rewrite app_nil_r. destruct w; reflexivity.
  - cbn [foldM]. unfold close_walk_step at 1. rewrite Hget. cbn [bind].
    rewrite Hid.
    assert (String.eqb (Trade.entry_id trade) id = false) as Hne.
    { apply String.eqb_neq. apply Hno. left. reflexivity. }
    cbn [optstr_eqb is_None_str]. rewrite Hne. cbn [orb].
    rewrite andb_false_r. cbn [bind].
    rewrite IH.
    + cbn [cw_self cw_delete cw_open_trades cw_new_closed_trades cw_closed_trade_size].
      rewrite <- app_assoc. reflexivity.
    + intros t Ht. apply Hno. right. exact Ht.
    + exact Hget.
Qed.

(** A position that is the sum of its open trades and is not flat has open
    trades; by [run_invariant] every ledger that a run reaches with an open
    position does. *)
Lemma open_position_has_trades (self : Position.t) :
  size_invariant self -> ~ Position.size self == 0 -> Position.open_trades self <> [].
Proof.
  unfold size_invariant. intros Hinv Hopen E. apply Hopen. rewrite Hinv, E. reflexivity.
Qed.

(** C10: in a ledger with an open position (its size is not zero and it has
    open trades), [_fill_order] on a Close order whose sign differs from the
    position's and whose [order_id] is the [entry_id] of no open trade
    returns the ledger as it was, field for field: open and closed trades,
    counters, net profit, size, sign, average price and running sums; the
    order stays in [exit_orders] and persists into later bars. *)
Theorem unmatched_close_is_a_no_op (env : Env) (self : Position.t) (r : ref)
  (order : Order.t) (id : string) (price h l : Q) :
  get_order self r = Ok order ->
  Order.order_type order = _order_type_close ->
  Order.order_id order = Some id ->
  (forall trade, In trade (Position.open_trades self) -> Trade.entry_id trade <> id) ->
  ~ Position.size self == 0 ->
  Position.open_trades self <> [] ->
  ~ Order.sign order == Position.sign self ->
  _fill_order env self r price h l = Ok self.
Proof.
  intros Hget Htype Hid Hno Hopen Htrades Hsign.
  unfold _fill_order. rewrite Hget. cbn [bind]. rewrite Htype.
  assert (Qneb (Position.size self) 0 = true) as E1.
  { unfold Qneb. destruct (Qeq_bool _ _) eqn:E; [|reflexivity].
    apply Qeq_bool_iff in E. contradiction. }
  assert (Qneb (Order.sign order) (Position.sign self) = true) as E2.
  { unfold Qneb. destruct (Qeq_bool _ _) eqn:E; [|reflexivity].
    apply Qeq_bool_iff in E. contradiction. }
  rewrite E1, E2. cbn [OrderType_eqb negb andb].
  rewrite (close_walk_no_match env r price h l order id _ Hid Hno); [|exact Hget].
  cbn [bind cw_self cw_delete cw_open_trades cw_new_closed_trades app finish_close].
  unfold finish_close.
  cbn [bind cw_self cw_delete cw_open_trades cw_new_closed_trades app].
  rewrite set_open_trades_same. rewrite app_nil_r. rewrite set_new_closed_trades_same.
  unfold reset_when_flat.
  destruct (Position.open_trades self) eqn:Eo; [contradiction | reflexivity].
Qed.

Lemma unmatched_close_is_a_no_op_witness :
  _fill_order (scenario_env percent 0) unmatched_close_state 1%nat 105 105 105
  = Ok unmatched_close_state.
Proof.
  eapply (unmatched_close_is_a_no_op (scenario_env percent 0) unmatched_close_state 1%nat
            _ "X"%string 105 105 105).
  - vm_compute. reflexivity.
  - reflexivity.
  - reflexivity.
  - intros trade Hin. vm_compute in Hin. destruct Hin as [<- | []].
    intros E. discriminate E.
  - intros E. vm_compute in E. discriminate E.
  - intros E. vm_compute in E. discriminate E.
  - intros E. vm_compute in E. discriminate E.
Defined.

(** ** Rounding *)

Lemma round_half_even_cases (x : Q) :
  round_half_even x = Qfloor x \/ round_half_even x = (Qfloor x + 1)%Z.
Proof.
  unfold round_half_even.
  destruct (Qltb _ _); [now left|].
  destruct (Qltb _ _); [now right|].
  destruct (Z.even _); [now left | now right].
Qed.

Lemma round_half_even_upper (x : Q) : inject_Z (round_half_even x) <= x + (1#2).
Proof.
  pose proof (Qfloor_le x) as Hf.
  unfold round_half_even.
  destruct (Qltb (x - inject_Z (Qfloor x)) (1#2)) eqn:E1; [lra|].
  apply Qltb_false_iff in E1.
  destruct (Qltb (1#2) (x - inject_Z (Qfloor x))) eqn:E2.
  - apply Qltb_iff in E2. rewrite inject_Z_plus. change (inject_Z 1) with 1. lra.
  - apply Qltb_false_iff in E2.
    destruct (Z.even (Qfloor x)); [lra|].
    rewrite inject_Z_plus. change (inject_Z 1) with 1. lra.
Qed.

Lemma round_half_even_lower (x : Q) : x - (1#2) <= inject_Z (round_half_even x).
Proof.
  pose proof (Qfloor_le x) as Hf.
  pose proof (Qlt_floor x) as Hl. rewrite inject_Z_plus in Hl.
  change (inject_Z 1) with 1 in Hl.
  unfold round_half_even.
  destruct (Qltb (x - inject_Z (Qfloor x)) (1#2)) eqn:E1.
  - apply Qltb_iff in E1. lra.
  - apply Qltb_false_iff in E1.
    destruct (Qltb (1#2) (x - inject_Z (Qfloor x))) eqn:E2.
    + rewrite inject_Z_plus. change (inject_Z 1) with 1. lra.
    + apply Qltb_false_iff in E2.
      destruct (Z.even (Qfloor x)); [lra|].
      rewrite inject_Z_plus. change (inject_Z 1) with 1. lra.
Qed.

Lemma Qfloor_nonneg (x : Q) : 0 <= x -> (0 <= Qfloor x)%Z.
Proof.
  intros H. change 0%Z with (Qfloor 0). now apply Qfloor_resp_le.
Qed.

Lemma round_half_even_nonneg (x : Q) : 0 <= x -> (0 <= round_half_even x)%Z.
Proof.
  intros H. pose proof (Qfloor_nonneg x H).
  destruct (round_half_even_cases x) as [-> | ->]; lia.
Qed.

Lemma py_int_nonneg (x : Q) : 0 <= x -> py_int x = Qfloor x.
Proof.
  destruct x as [n d]. unfold Qle, py_int, Qfloor. simpl. intros H.
  apply Z.quot_div_nonneg; lia.
Qed.

Lemma py_int_nonpos (x : Q) : x <= 0 -> py_int x = Qceiling x.
Proof.
  destruct x as [n d]. unfold Qle, py_int, Qceiling, Qfloor. simpl. intros H.
  rewrite <- (Z.opp_involutive n) at 1.
  rewrite Z.quot_opp_l by lia.
  f_equal. apply Z.quot_div_nonneg; lia.
Qed.

(** Truncation never moves a number away from zero. *)
Lemma py_int_le (x : Q) : 0 <= x -> inject_Z (py_int x) <= x.
Proof.
  intros H. rewrite (py_int_nonneg x H). apply Qfloor_le.
Qed.

Lemma py_int_succ_gt (x : Q) : x < inject_Z (py_int x + 1).
Proof.
  destruct (Qlt_le_dec x 0) as [Hn | Hp].
  - rewrite (py_int_nonpos x) by lra.
    pose proof (Qle_ceiling x). rewrite inject_Z_plus. change (inject_Z 1) with 1. lra.
  - rewrite (py_int_nonneg x Hp). apply Qlt_floor.
Qed.

Lemma py_round5_close (x : Q) :
  x - (1#200000) <= py_round5 x /\ py_round5 x <= x + (1#200000).
Proof.
  unfold py_round5.
  pose proof (round_half_even_lower (x * 100000)).
  pose proof (round_half_even_upper (x * 100000)).
  set (k := inject_Z (round_half_even (x * 100000))) in *.
  split.
  - apply Qle_shift_div_l; lra.
  - apply Qle_shift_div_r; lra.
Qed.

Lemma py_round5_nonneg (x : Q) : 0 <= x -> 0 <= py_round5 x.
Proof.
  intros H. unfold py_round5.
  apply Qle_shift_div_l; [lra|].
  assert (0 <= x * 100000) as H' by lra.
  pose proof (round_half_even_nonneg _ H') as Hz.
  assert (inject_Z 0 <= inject_Z (round_half_even (x * 100000))) as Hq
    by (rewrite <- Zle_Qle; exact Hz).
  change (inject_Z 0) with 0 in Hq. lra.
Qed.

(** ** Tick rounding *)

(** With a positive direction the result is never below the ratio rounded
    to 5 decimals. *)
Lemma price_round_up_ge (mintick p : Q) :
  0 < mintick ->
  exists up : Q,
    _price_round mintick (PNum p) 1 = Ok (PNum up) /\
    py_round5 (p / mintick) * mintick <= up.
Proof.
  intros Hm. unfold _price_round, pydiv.
  destruct (Qeq_bool mintick 0) eqn:E0.
  { apply Qeq_bool_iff in E0. lra. }
  cbn [bind]. change (Qltb 1 0) with false. cbv iota.
  set (ppmt := py_round5 (p / mintick)).
  destruct (Qeq_bool ppmt (inject_Z (py_int ppmt))) eqn:E.
  - eexists; split; [reflexivity|].
    apply Qeq_bool_iff in E. rewrite <- E. lra.
  - eexists; split; [reflexivity|].
    pose proof (py_int_succ_gt ppmt) as H.
    apply Qmult_le_compat_r; lra.
Qed.

(** With a negative direction the result of a non-negative price is never
    above the ratio rounded to 5 decimals. *)
Lemma price_round_down_le (mintick p : Q) :
  0 < mintick -> 0 <= p ->
  exists down : Q,
    _price_round mintick (PNum p) (-1) = Ok (PNum down) /\
    down <= py_round5 (p / mintick) * mintick.
Proof.
  intros Hm Hp. unfold _price_round, pydiv.
  destruct (Qeq_bool mintick 0) eqn:E0.
  { apply Qeq_bool_iff in E0. lra. }
  cbn [bind]. change (Qltb (-1) 0) with true. cbv iota.
  eexists; split; [reflexivity|].
  assert (0 <= p / mintick) as Hr.
  { apply Qle_shift_div_l; lra. }
  pose proof (py_round5_nonneg _ Hr) as Hn.
  pose proof (py_int_le _ Hn) as Hk.
  apply Qmult_le_compat_r; lra.
Qed.

(** C5, as the code has it: the ratio [price / mintick] is rounded to 5
    decimals before the direction is applied, so the directional bounds
    hold up to [mintick * 0.000005]: [_price_round(p, +1)] is at least
    [p - mintick * 0.000005] for every price, and [_price_round(p, -1)] is
    at most [p + mintick * 0.000005] for every non-negative price; both
    bounds are exact where the ratio has at most 5 decimals. *)
Theorem price_round_directional_bounds (mintick p : Q) :
  0 < mintick ->
  exists up down : Q,
    _price_round mintick (PNum p) 1 = Ok (PNum up) /\
    _price_round mintick (PNum p) (-1) = Ok (PNum down) /\
    p - mintick * (1#200000) <= up /\
    (0 <= p -> down <= p + mintick * (1#200000)) /\
    (py_round5 (p / mintick) == p / mintick -> p <= up /\ (0 <= p -> down <= p)).
Proof.
  intros Hm.
  destruct (price_round_up_ge mintick p Hm) as (up & Hup & Hge).
  assert (exists down, _price_round mintick (PNum p) (-1) = Ok (PNum down)) as (down & Hdown).
  { unfold _price_round, pydiv.
    destruct (Qeq_bool mintick 0) eqn:E0.
    { apply Qeq_bool_iff in E0. lra. }
    cbn [bind]. change (Qltb (-1) 0) with true. cbv iota. eexists; reflexivity. }
  exists up, down. split; [exact Hup|]. split; [exact Hdown|].
  assert (p / mintick * mintick == p) as Hr by (field; lra).
  destruct (py_round5_close (p / mintick)) as [Hlo Hhi].
  set (ppmt := py_round5 (p / mintick)) in *.
  set (ratio := p / mintick) in *.
  assert (forall d, 0 <= p -> _price_round mintick (PNum p) (-1) = Ok (PNum d) ->
                    d <= ppmt * mintick) as Hle.
  { intros d Hp Hd. destruct (price_round_down_le mintick p Hm Hp) as (d' & Hd' & Hle').
    rewrite Hd in Hd'. injection Hd' as ->. exact Hle'. }
  split; [|split].
  - assert ((ratio - (1#200000)) * mintick <= ppmt * mintick) as H
      by (apply Qmult_le_compat_r; lra).
    lra.
  - intros Hp. specialize (Hle down Hp Hdown).
    assert (ppmt * mintick <= (ratio + (1#200000)) * mintick) as H
      by (apply Qmult_le_compat_r; lra).
    lra.
  - intros Hex. split.
    + rewrite Hex in Hge. lra.
    + intros Hp. specialize (Hle down Hp Hdown). rewrite Hex in Hle. lra.
Qed.

Lemma price_round_directional_bounds_witness :
  exists up down : Q,
    _price_round (1#100) (PNum (10013#1000)) 1 = Ok (PNum up) /\
    _price_round (1#100) (PNum (10013#1000)) (-1) = Ok (PNum down) /\
    (10013#1000) - (1#100) * (1#200000) <= up /\
    (0 <= 10013#1000 -> down <= (10013#1000) + (1#100) * (1#200000)) /\
    (py_round5 ((10013#1000) / (1#100)) == (10013#1000) / (1#100) ->
     10013#1000 <= up /\ (0 <= 10013#1000 -> down <= 10013#1000)).
Proof.
  apply (price_round_directional_bounds (1#100) (10013#1000)). reflexivity.
Defined.

(** C5 fails as stated: a negative price is truncated toward zero, so a
    negative direction rounds it up; and a price that exceeds a tick
    multiple by less than half of the fifth decimal of a tick is rounded
    down with a positive direction. *)
Lemma price_round_directional_counterexample :
  (exists down : Q,
     _price_round (1#100) (PNum (-15#1000)) (-1) = Ok (PNum down) /\
     ~ down <= -15#1000) /\
  (exists up : Q,
     _price_round (1#100) (PNum (3000001#100000000)) 1 = Ok (PNum up) /\
     ~ 3000001#100000000 <= up).
Proof.
  split; eexists; (split; [vm_compute; reflexivity|]); intros H; vm_compute in H;
    apply H; reflexivity.
Qed.

(** ** Size rounding *)

(** What [_size_round] computes: its second rounding is
    [to_integral_value()] under the default decimal context, which rounds
    to the nearest integer with ties to even, and the sign is 1 for a
    positive quantity and -1 otherwise.  The result is a whole number [n] of
    lot steps, [n = nearest(floor(|qty| * rf * 10) * 0.1)], its magnitude is
    at most [|qty| + 1/(2 rf)] and more than [|qty| - 3/(5 rf)]. *)
Lemma size_round_nearest (rf qty : Q) :
  0 < rf ->
  exists v : Q,
    _size_round rf qty = Ok v /\
    let n := round_half_even (inject_Z (Qfloor (Qabs qty * rf * 10)) * (1#10)) in
    v == (if Qltb 0 qty then 1 else -1) * (inject_Z n / rf) /\
    Qabs v * rf == inject_Z n /\
    Qabs v <= Qabs qty + (1#2) / rf /\
    Qabs qty - (3#5) / rf < Qabs v.
Proof.
  intros Hrf. unfold _size_round, pydiv.
  destruct (Qeq_bool rf 0) eqn:E0.
  { apply Qeq_bool_iff in E0. lra. }
  cbn [bind]. eexists; split; [reflexivity|]. cbv zeta.
  set (x := Qabs qty * rf * 10).
  set (n := round_half_even (inject_Z (Qfloor x) * (1#10))).
  assert (0 <= x) as Hx.
  { unfold x. pose proof (Qabs_nonneg qty). nra. }
  pose proof (Qfloor_nonneg x Hx) as Hf0.
  assert (0 <= inject_Z (Qfloor x)) as Hf0'.
  { change 0 with (inject_Z 0). rewrite <- Zle_Qle. exact Hf0. }
  assert (0 <= inject_Z n) as Hn.
  { change 0 with (inject_Z 0). rewrite <- Zle_Qle.
    apply round_half_even_nonneg. lra. }
  pose proof (Qfloor_le x) as Hfl.
  pose proof (Qlt_floor x) as Hfu. rewrite inject_Z_plus in Hfu.
  change (inject_Z 1) with 1 in Hfu.
  pose proof (round_half_even_upper (inject_Z (Qfloor x) * (1#10))) as Hu.
  pose proof (round_half_even_lower (inject_Z (Qfloor x) * (1#10))) as Hl.
  fold n in Hu, Hl.
  assert (0 <= inject_Z n / rf) as Hq.
  { apply Qle_shift_div_l; lra. }
  assert (Qabs ((if Qltb 0 qty then 1 else -1) * (inject_Z n / rf)) == inject_Z n / rf) as Habs.
  { rewrite Qabs_Qmult. rewrite (Qabs_pos _ Hq).
    destruct (Qltb 0 qty); [change (Qabs 1) with 1 | change (Qabs (-1)) with 1]; lra. }
  split; [reflexivity|].
  rewrite Habs.
  assert (Qabs qty == x * (1#10) / rf) as Hqty.
  { unfold x. field. lra. }
  clearbody n x.
  split; [|split].
  - field. lra.
  - rewrite Hqty.
    assert (inject_Z n / rf <= (x * (1#10) + (1#2)) / rf) as H.
    { apply Qle_shift_div_l; [lra|].
      setoid_replace (inject_Z n / rf * rf) with (inject_Z n) by (field; lra). lra. }
    setoid_replace (x * (1#10) / rf + (1#2) / rf) with ((x * (1#10) + (1#2)) / rf) by (field; lra).
    exact H.
  - rewrite Hqty.
    setoid_replace (x * (1#10) / rf - (3#5) / rf) with ((x * (1#10) - (3#5)) / rf) by (field; lra).
    apply Qlt_shift_div_r; [lra|].
    setoid_replace (inject_Z n / rf * rf) with (inject_Z n) by (field; lra). lra.
Qed.

(** C6, on the code: [_size_round] does not floor to the lot step.  The
    first rounding, to tenths of a lot step, is
    [to_integral_value(rounding=ROUND_FLOOR)]; the second one is
    [to_integral_value()] without a rounding mode, which rounds to the
    nearest integer where the float version kept in the comments above it
    truncates ([int(qrf)]).  With [size_round_factor = 1e8], [5.7e-8] and
    [-5.7e-8] come out as 6 lot steps, where the formula of the
    specification gives 5, and the result is larger than the quantity. *)
Theorem size_round_is_not_truncated :
  exists up down : Q,
    _size_round 100000000 (57#1000000000) = Ok up /\
    _size_round 100000000 (- (57#1000000000)) = Ok down /\
    up == 6#100000000 /\
    down == - (6#100000000) /\
    size_round_spec 100000000 (57#1000000000) == 5#100000000 /\
    size_round_spec 100000000 (- (57#1000000000)) == - (5#100000000) /\
    ~ Qabs up <= Qabs (57#1000000000).
Proof.
  eexists. eexists.
  split; [vm_compute; reflexivity|]. split; [vm_compute; reflexivity|].
  repeat split; try reflexivity.
  intros H. vm_compute in H. apply H. reflexivity.
Qed.

(** ** The reversal split of [fill_order] *)

(** [math.isclose(a, 0.0, abs_tol=t)] is false for [|a| > t]. *)
Lemma isclose_zero_far (a abs_tol : Q) :
  0 <= abs_tol -> abs_tol < Qabs a -> isclose a 0 abs_tol = Ok false.
Proof.
  intros Ht Ha. unfold isclose.
  assert (Qltb abs_tol 0 = false) as -> by (apply Qltb_false_iff; exact Ht).
  assert (0 < Qabs a) as Hpos by lra.
  assert (Qeq_bool a 0 = false) as ->.
  { destruct (Qeq_bool a 0) eqn:E; [|reflexivity].
    apply Qeq_bool_iff in E. rewrite E in Hpos. discriminate Hpos. }
  assert (Qabs (0 - a) == Qabs a) as Hd.
  { setoid_replace (0 - a) with (- a) by ring. apply Qabs_opp. }
  assert (forall x, Qabs a <= x -> Qle_bool (Qabs (0 - a)) x = true) as Hyes.
  { intros x Hx. apply Qle_bool_iff. rewrite Hd. exact Hx. }
  assert (forall x, x < Qabs a -> Qle_bool (Qabs (0 - a)) x = false) as Hno.
  { intros x Hx. destruct (Qle_bool (Qabs (0 - a)) x) eqn:E; [|reflexivity].
    apply Qle_bool_iff in E. rewrite Hd in E. lra. }
  rewrite (Hno (Qabs (rel_tol * 0))).
  2:{ setoid_replace (rel_tol * 0) with 0 by ring. exact Hpos. }
  rewrite (Hno (Qabs (rel_tol * a))).
  2:{ rewrite Qabs_Qmult. change (Qabs rel_tol) with rel_tol. unfold rel_tol.
      set (x := Qabs a) in *. clearbody x. lra. }
  rewrite (Hno abs_tol Ha). reflexivity.
Qed.

(** On the code, a fill that moves the position by more than the rounding
    tolerance never takes the reversal branch: [new_size] is set to zero
    because it is not close to zero, and the order goes to [_fill_order] as
    it is, neither split nor clamped. *)
Lemma fill_order_skips_reversal (env : Env) (self : Position.t) (r : ref)
  (order : Order.t) (price h l : Q) :
  get_order self r = Ok order ->
  0 < size_round_factor env ->
  1 / size_round_factor env < Qabs (Position.size self + Order.size order) ->
  fill_order env self r price h l
  = (do self' <- _fill_order env self r price h l; Ok (self', false)).
Proof.
  intros Hget Hrf Hfar. unfold fill_order. rewrite Hget. cbn [bind].
  assert (0 < 1 / size_round_factor env) as Htol.
  { apply Qlt_shift_div_l; lra. }
  assert (Qneb (Position.size self + Order.size order) 0 = true) as ->.
  { unfold Qneb. destruct (Qeq_bool _ 0) eqn:E; [|reflexivity].
    apply Qeq_bool_iff in E. rewrite E in Hfar. change (Qabs 0) with 0 in Hfar. lra. }
  unfold pydiv at 1.
  assert (Qeq_bool (size_round_factor env) 0 = false) as ->.
  { destruct (Qeq_bool _ 0) eqn:E; [|reflexivity]. apply Qeq_bool_iff in E. lra. }
  cbn [bind]. rewrite isclose_zero_far; [|lra|exact Hfar].
  cbn [bind negb]. change (Qneb 0 0) with false.
  rewrite andb_false_r. reflexivity.
Qed.

(** ** Scenarios of the specification *)

(** C8: with no commission (a commission value of 0 under any commission
    type), after a long entry of 10 at 100 and a close of 4 at 105 one open
    trade of size 6 remains, one closed trade of size 4 with profit 20 is
    recorded, [entry_summ] is 600 and [avg_price] is 100. *)
Theorem partial_close_keeps_cost_basis (ctype : CommissionType) :
  match partial_close_scenario ctype with
  | Ok p =>
    summary p =
    {| s_size := 6;
       s_sign := 1;
       s_avg_price := 100;
       s_entry_summ := 600;
       s_netprofit := 20;
       s_open_trades := [("L"%string, 6, 100, 0)];
       s_closed_trades := [("L"%string, 4, 20, 0)];
       s_closed_trades_count := 1%Z;
       s_entry_orders := [];
       s_exit_orders := [] |}
  | Raise _ => False
  end.
Proof.
  destruct ctype; vm_compute; reflexivity.
Qed.

(** C7: under a percent commission of 0.1, a long entry of 10 at 100 debits
    1.0 (the net profit is -1 and the open trade carries a commission of 1);
    the full close at 110 debits 1.1 more (the closed trade carries 2.1) and
    leaves a net profit of 97.9. *)
Theorem percent_commission_round_trip :
  match percent_commission_scenario with
  | Ok (p1, p2) =>
    summary p1 =
    {| s_size := 10;
       s_sign := 1;
       s_avg_price := 100;
       s_entry_summ := 1000;
       s_netprofit := -1;
       s_open_trades := [("L"%string, 10, 100, 1)];
       s_closed_trades := [];
       s_closed_trades_count := 0%Z;
       s_entry_orders := [];
       s_exit_orders := [] |} /\
    summary p2 =
    {| s_size := 0;
       s_sign := 0;
       s_avg_price := 0;
       s_entry_summ := 0;
       s_netprofit := 979 # 10;
       s_open_trades := [];
       s_closed_trades := [("L"%string, 10, 979 # 10, 21 # 10)];
       s_closed_trades_count := 1%Z;
       s_entry_orders := [];
       s_exit_orders := [] |} /\
    Position.netprofit p2 == Position.netprofit p1 + 10 * (110 - 100) - (11 # 10)
  | Raise _ => False
  end.
Proof.
  vm_compute. repeat split; reflexivity.
Qed.

(** C3, on the code: the entry of -8 against a long position of 5 is not
    split.  [fill_order] zeroes [new_size] when it is NOT close to zero, so
    the reversal branch is skipped and the whole order opens a second trade:
    no trade is closed, the open trades are 5 at 100 and -8 at 110, the
    position is -3 with an average price of 1380 / 3 = 460 (under every
    commission type, with a commission value of 0). *)
Theorem reversal_entry_is_not_split (ctype : CommissionType) :
  match reversal_scenario ctype with
  | Ok (p, flag) =>
    flag = false /\
    summary p =
    {| s_size := -3;
       s_sign := -1;
       s_avg_price := 460;
       s_entry_summ := 1380;
       s_netprofit := 0;
       s_open_trades := [("L"%string, 5, 100, 0); ("S"%string, -8, 110, 0)];
       s_closed_trades := [];
       s_closed_trades_count := 0%Z;
       s_entry_orders := [];
       s_exit_orders := [] |}
  | Raise _ => False
  end.
Proof.
  destruct ctype; vm_compute; split; reflexivity.
Qed.

(** C2, on the code: a Close order that overshoots the position is not
    clamped.  Against a long position of 5 a close of 8 is filled with its
    size of -8: the order ends with a size of -3 where a clamped order ends
    with 0.  Against the open trades -8 and 5 (position -3) a close of 5 for
    the short entry takes 5 from the short trade and leaves the position at
    +2: the sign of the position has flipped from -1 to 1. *)
Theorem close_order_is_not_clamped :
  match oversized_close_scenario with
  | Ok (p, flag) =>
    flag = false /\
    map (fun order => Qred (Order.size order)) (Position.order_objs p) = [5; -3] /\
    Qred (Position.size p) = 0
  | Raise _ => False
  end /\
  match close_against_mixed_scenario with
  | Ok (p, p', flag) =>
    flag = false /\
    Qred (Position.size p) = -3 /\ Qred (Position.sign p) = -1 /\
    Qred (Position.size p') = 2 /\ Qred (Position.sign p') = 1 /\
    s_open_trades (summary p') = [("S"%string, -3, 100, 0); ("L"%string, 5, 90, 0)]
  | Raise _ => False
  end.
Proof.
  vm_compute. repeat split; reflexivity.
Qed.

(** C4, on the code: a market Close order that closes no trade is never
    removed.  [close("X")] for an entry that is not open is still pending,
    with its market flag set, after the bar that processes it and two bars
    later; a [close("L")] issued with [close_all()] meets a flat
    position in the next bar and stays pending as well; and that stale
    order closes the trade of a later entry "L" in the bar that opens it. *)
Theorem unmatched_market_close_persists :
  match run (unmatched_market_close 1) (Position.set_prev_c 100 new_Position) with
  | Ok p =>
    s_exit_orders (summary p) = ["Close entry(s) order X"%string] /\
    pending_market_orders p = [1%nat]
  | Raise _ => False
  end /\
  match run (unmatched_market_close 3) (Position.set_prev_c 100 new_Position) with
  | Ok p =>
    s_exit_orders (summary p) = ["Close entry(s) order X"%string] /\
    pending_market_orders p = [1%nat]
  | Raise _ => False
  end /\
  match run market_close_when_flat (Position.set_prev_c 100 new_Position) with
  | Ok p =>
    Qred (Position.size p) = 0 /\
    s_exit_orders (summary p) = ["Close entry(s) order L"%string] /\
    pending_market_orders p = [2%nat]
  | Raise _ => False
  end /\
  match run stale_close_meets_new_entry (Position.set_prev_c 100 new_Position) with
  | Ok p =>
    s_open_trades (summary p) = [] /\
    s_closed_trades_count (summary p) = 2%Z /\
    s_exit_orders (summary p) = []
  | Raise _ => False
  end.
Proof.
  vm_compute. repeat split; reflexivity.
Qed.

(** * Further properties of the engine *)

(** *** Frames: what leaves the accounts alone *)

(** ** Invariants of the accounts *)

Ltac accounts := unfold same_accounts; repeat split; reflexivity.

Lemma same_accounts_refl (p : Position.t) : same_accounts p p.
Proof. accounts. Qed.

Lemma same_accounts_trans (p q s : Position.t) :
  same_accounts p q -> same_accounts q s -> same_accounts p s.
Proof.
  unfold same_accounts.
  intros (A1 & A2 & A3 & A4 & A5 & A6 & A7 & A8 & A9 & A10 & A11 & A12 & A13)
         (B1 & B2 & B3 & B4 & B5 & B6 & B7 & B8 & B9 & B10 & B11 & B12 & B13).
  repeat split; congruence.
Qed.

Lemma foldM_same_accounts {A : Type} (body : Position.t -> A -> res Position.t) :
  (forall p x q, body p x = Ok q -> same_accounts p q) ->
  forall xs p q, foldM body xs p = Ok q -> same_accounts p q.
Proof.
  intros Hbody. apply (foldM_preserves same_accounts).
  - apply same_accounts_refl.
  - apply same_accounts_trans.
  - exact Hbody.
Qed.

Lemma trail_high_accounts (env : Env) (self self' : Position.t) (r : ref) :
  trail_high env self r = Ok self' -> same_accounts self self'.
Proof.
  unfold trail_high. intros H. inv_res.
  case_if H; inv_res; subst; [|accounts].
  case_if H; [|inv_res; subst; accounts].
  match type of H with
  | match ?s with PNone => _ | PNA => _ | PNum _ => _ end = _ => destruct s
  end; inv_res; subst; accounts.
Qed.

Lemma trail_low_accounts (env : Env) (self self' : Position.t) (r : ref) :
  trail_low env self r = Ok self' -> same_accounts self self'.
Proof.
  unfold trail_low. intros H. inv_res.
  case_if H; inv_res; subst; [|accounts].
  case_if H; [|inv_res; subst; accounts].
  match type of H with
  | match ?s with PNone => _ | PNA => _ | PNum _ => _ end = _ => destruct s
  end; inv_res; subst; accounts.
Qed.

Lemma resolve_ticks_accounts (env : Env) (self self' : Position.t) (r : ref) :
  resolve_ticks env self r = Ok self' -> same_accounts self self'.
Proof.
  unfold resolve_ticks. intros H. inv_res.
  destruct (find_entry_price _ _); inv_res; subst; accounts.
Qed.

Lemma cumulate_closed_trade_accounts (env : Env) (self self' : Position.t) (tr : ref) :
  cumulate_closed_trade env self tr = Ok self' -> same_accounts self self'.
Proof.
  unfold cumulate_closed_trade. intros H. inv_res. subst. accounts.
Qed.

Lemma mark_open_trades_accounts (todo : list Trade.t) :
  forall (self : Position.t) (done : list Trade.t),
    let self' := mark_open_trades self todo done in
    Position.size self' = Position.size self /\
    Position.sign self' = Position.sign self /\
    Position.avg_price self' = Position.avg_price self /\
    Position.entry_summ self' = Position.entry_summ self /\
    Position.netprofit self' = Position.netprofit self /\
    Position.grossprofit self' = Position.grossprofit self /\
    Position.grossloss self' = Position.grossloss self /\
    Position.closed_trades_count self' = Position.closed_trades_count self /\
    Position.wintrades self' = Position.wintrades self /\
    Position.eventrades self' = Position.eventrades self /\
    Position.losstrades self' = Position.losstrades self /\
    Position.closed_trades self' = Position.closed_trades self /\
    map Trade.size (Position.open_trades self')
    = (map Trade.size done ++ map Trade.size todo)%list.
Proof.
  induction todo as [|trade rest IH]; intros self done; cbn [mark_open_trades].
  - cbn. rewrite app_nil_r. repeat split; reflexivity.
  - pose proof (mark_open_trade_size self trade) as Hsz.
    destruct (mark_open_trade self trade) as [[trade' drawdown] runup].
    cbn [fst] in Hsz.
    match goal with
    | |- context [mark_open_trades ?s rest ?d] => specialize (IH s d)
    end.
    cbv zeta in IH.
    destruct IH as (A1 & A2 & A3 & A4 & A5 & A6 & A7 & A8 & A9 & A10 & A11 & A12 & A13).
    cbv zeta. rewrite A1, A2, A3, A4, A5, A6, A7, A8, A9, A10, A11, A12, A13.
    repeat split; try reflexivity.
    rewrite map_app. cbn [map]. rewrite Hsz, <- app_assoc. reflexivity.
Qed.

Lemma cancel_accounts (env : Env) (position position' : Position.t) (id : string) :
  cancel env position id = Ok position' -> same_accounts position position'.
Proof.
  unfold cancel. intros H. destruct (lib_semaphore env); inv_res; subst; accounts.
Qed.

Lemma cancel_all_accounts (env : Env) (position position' : Position.t) :
  cancel_all env position = Ok position' -> same_accounts position position'.
Proof.
  unfold cancel_all. intros H. destruct (lib_semaphore env); inv_res; subst; accounts.
Qed.

Lemma entry_accounts (env : Env) (position position' : Position.t) (id : string)
  (direction : Direction) (qty limit stop : pyfloat) (oca_name : pystr)
  (oca_type : option Oca) (comment alert_message : pystr) :
  entry env position id direction qty limit stop oca_name oca_type comment alert_message
  = Ok position' ->
  same_accounts position position'.
Proof.
  unfold entry. intros H.
  repeat (first [case_if H
                | match type of H with
                  | match ?x with Some _ => _ | None => _ end = _ => destruct x
                  end
                | progress inv_res
                | progress cbn [alloc_order] in H]);
    subst; try accounts.
Qed.

Lemma exit_step_accounts (env : Env) (a : ExitArgs) (st st' : Position.t * ExitVars) :
  _exit env a st = Ok st' -> same_accounts (fst st) (fst st').
Proof.
  unfold _exit. destruct st as [position v]. intros H. inv_res.
  case_if H; inv_res; subst; [accounts|].
  case_if H; inv_res; subst; [accounts|].
  cbn [alloc_order] in H. inv_res. subst. accounts.
Qed.

Lemma exit_accounts (env : Env) (position position' : Position.t) (a : ExitArgs)
  (from_entry : string) (limit stop trail_price : pyfloat) :
  exit env position a from_entry limit stop trail_price = Ok position' ->
  same_accounts position position'.
Proof.
  pose (R := fun s t : Position.t * ExitVars => same_accounts (fst s) (fst t)).
  assert (forall s, R s s) as Hrefl by (intros s; apply same_accounts_refl).
  assert (forall s t u, R s t -> R t u -> R s u)
    as Htrans by (intros s t u; apply same_accounts_trans).
  unfold exit. intros H.
  case_if H; inv_res; subst; [accounts|].
  case_if H; inv_res; subst; [accounts|].
  case_if H.
  - destruct (dict_get _ _); inv_res; subst.
    + apply exit_step_accounts in Ha1. exact Ha1.
    + apply (foldM_preserves R) in Ha0; auto.
      intros s x t Hx. case_if Hx.
      * apply exit_step_accounts in Hx. exact Hx.
      * apply Ok_inj in Hx. subst. apply Hrefl.
  - inv_res.
    apply (foldM_preserves R) in Ha0; auto.
    2:{ intros s x t Hx. inv_res. apply exit_step_accounts in Hx. exact Hx. }
    case_if H; inv_res; subst; [|exact Ha0].
    apply (foldM_preserves R) in Ha1; auto.
    2:{ intros s x t Hx. apply exit_step_accounts in Hx. exact Hx. }
    eapply same_accounts_trans; eassumption.
Qed.

Section AccountInvariant.

Variable I : Position.t -> Prop.

Hypothesis I_accounts : forall p q, same_accounts p q -> I p -> I q.

Hypothesis I_fill :
  forall env p r price h l q, _fill_order env p r price h l = Ok q -> I p -> I q.

Lemma fill_order_keeps (env : Env) (self self' : Position.t) (r : ref)
  (price h l : Q) (flag : bool) :
  fill_order env self r price h l = Ok (self', flag) -> I self -> I self'.
Proof.
  unfold fill_order. intros H Hinv. inv_res.
  case_if H.
  - case_if H.
    + inv_res. injection H as <- _.
      eapply I_fill; [eassumption|].
      revert Hinv. apply I_accounts. accounts.
    + cbn [alloc_order] in H. inv_res.
      assert (I a1) as Hinv1.
      { eapply I_fill; [eassumption|].
        revert Hinv. apply I_accounts. accounts. }
      case_if H.
      * injection H as <- _. exact Hinv1.
      * inv_res. injection H as <- _.
        eapply I_fill; [eassumption|].
        destruct (OrderType_eqb (Order.order_type (Order.set_size a0 a2)) _order_type_entry);
          [destruct (Order.order_id (Order.set_size a0 a2))
          |destruct (Order.exit_id (Order.set_size a0 a2))];
          try discriminate; apply Ok_inj in Ha3; subst a3;
          revert Hinv1; apply I_accounts; accounts.
  - inv_res. injection H as <- _. eapply I_fill; eassumption.
Qed.

Ltac keep_fill :=
  match goal with
  | Hf : fill_order _ _ _ _ _ _ = Ok (?p, _) |- I ?p =>
    eapply fill_order_keeps; [exact Hf | assumption]
  end.

Lemma check_high_stop_keeps (env : Env) (self self' : Position.t) (r : ref) :
  _check_high_stop env self r = Ok self' -> I self -> I self'.
Proof.
  unfold _check_high_stop. intros H Hinv. inv_res.
  destruct (Order.stop a) as [| |stop]; inv_res; subst; auto.
  case_if H; inv_res; subst; auto.
  split_fill. inv_res. subst. keep_fill.
Qed.

Lemma check_low_stop_keeps (env : Env) (self self' : Position.t) (r : ref) :
  _check_low_stop env self r = Ok self' -> I self -> I self'.
Proof.
  unfold _check_low_stop. intros H Hinv. inv_res.
  destruct (Order.stop a) as [| |stop]; inv_res; subst; auto.
  case_if H; inv_res; subst; auto.
  split_fill. inv_res. subst. keep_fill.
Qed.

Lemma check_high_keeps (env : Env) (self self' : Position.t) (r : ref) :
  _check_high env self r = Ok self' -> I self -> I self'.
Proof.
  unfold _check_high. intros H Hinv. inv_res.
  apply trail_high_accounts in H. apply (I_accounts _ _ H). clear H.
  destruct (Order.limit a) as [| |limit]; inv_res; subst; auto.
  case_if Ha0; inv_res; subst; auto.
  split_fill. inv_res. subst. keep_fill.
Qed.

Lemma check_low_keeps (env : Env) (self self' : Position.t) (r : ref) :
  _check_low env self r = Ok self' -> I self -> I self'.
Proof.
  unfold _check_low. intros H Hinv. inv_res.
  apply trail_low_accounts in H. apply (I_accounts _ _ H). clear H.
  destruct (Order.limit a) as [| |limit]; inv_res; subst; auto.
  case_if Ha0; inv_res; subst; auto.
  split_fill. inv_res. subst. keep_fill.
Qed.

Lemma check_close_keeps (env : Env) (self self' : Position.t) (r : ref) (ohlcv : bool) :
  _check_close env self r ohlcv = Ok self' -> I self -> I self'.
Proof.
  unfold _check_close. intros H Hinv. inv_res.
  destruct (Order.stop a) as [| |stop]; inv_res; subst; auto.
  case_if H; [|case_if H]; inv_res; subst; auto;
    split_fill; inv_res; subst; keep_fill.
Qed.

Lemma first_round_keeps (env : Env) (ohlc : bool) (self self' : Position.t) (r : ref) :
  first_round env ohlc self r = Ok self' -> I self -> I self'.
Proof.
  unfold first_round. intros H Hinv. inv_res.
  assert (I a0) as Hinv0.
  { case_if Ha0; inv_res; subst; auto.
    apply resolve_ticks_accounts in Ha0. eapply I_accounts; eassumption. }
  case_if H.
  - destruct ohlc; inv_res; split_fill; inv_res; subst; keep_fill.
  - destruct ohlc; inv_res.
    + eapply check_high_keeps; [eassumption|].
      eapply check_high_stop_keeps; eassumption.
    + eapply check_low_keeps; [eassumption|].
      eapply check_low_stop_keeps; eassumption.
Qed.

Lemma second_round_keeps (env : Env) (ohlc : bool) (self self' : Position.t) (r : ref) :
  second_round env ohlc self r = Ok self' -> I self -> I self'.
Proof.
  unfold second_round. intros H Hinv. inv_res.
  assert (I a0) as Hinv0.
  { case_if Ha0; inv_res; subst; auto.
    apply resolve_ticks_accounts in Ha0. eapply I_accounts; eassumption. }
  assert (I a1) as Hinv1.
  { destruct ohlc; inv_res.
    - eapply check_low_keeps; [eassumption|].
      eapply check_low_stop_keeps; eassumption.
    - eapply check_high_keeps; [eassumption|].
      eapply check_high_stop_keeps; eassumption. }
  case_if H; inv_res; subst; auto.
  eapply check_close_keeps; eassumption.
Qed.

Lemma foldM_keeps {A : Type} (body : Position.t -> A -> res Position.t) :
  (forall p x q, body p x = Ok q -> I p -> I q) ->
  forall xs p q, foldM body xs p = Ok q -> I p -> I q.
Proof.
  intros Hbody xs. induction xs as [|x xs IH]; simpl; intros p q H Hp.
  - apply Ok_inj in H. subst. exact Hp.
  - inv_res. eauto.
Qed.

Lemma process_orders_keeps (env : Env) (self self' : Position.t) :
  process_orders env self = Ok self' -> I self -> I self'.
Proof.
  unfold process_orders. intros H Hinv. inv_res.
  apply foldM_same_accounts in H;
    [|intros ? ? ?; apply cumulate_closed_trade_accounts].
  apply (I_accounts _ _ H). clear H.
  apply foldM_keeps in Ha; [|intros ? ? ?; apply first_round_keeps|].
  2:{ revert Hinv. apply I_accounts. accounts. }
  apply foldM_keeps in Ha0; [|intros ? ? ?; apply second_round_keeps|exact Ha].
  assert (forall p : Position.t,
            same_accounts p
              match Position.open_trades p with
              | [] => p
              | _ :: _ =>
                mark_open_trades
                  (Position.set_openprofit
                     (Position.size p * (Position.c p - Position.avg_price p)) p)
                  (Position.open_trades p) []
              end) as Hmark.
  { intros p. destruct (Position.open_trades p) eqn:E; [apply same_accounts_refl|].
    match goal with
    | |- context [mark_open_trades ?s ?t ?d] =>
      pose proof (mark_open_trades_accounts t s d) as Hm
    end.
    cbv zeta in Hm.
    destruct Hm as (A1 & A2 & A3 & A4 & A5 & A6 & A7 & A8 & A9 & A10 & A11 & A12 & A13).
    unfold same_accounts.
    rewrite A1, A2, A3, A4, A5, A6, A7, A8, A9, A10, A11, A12, A13, E.
    repeat split; reflexivity. }
  apply (I_accounts _ _ (Hmark a0)) in Ha0. clear Hmark.
  revert Ha0. apply I_accounts.
  destruct (_ || _); accounts.
Qed.

Lemma close_keeps (env : Env) (position position' : Position.t) (id : string)
  (comment : pystr) (qty qty_percent : pyfloat) (alert_message : pystr)
  (immediately : bool) :
  close env position id comment qty qty_percent alert_message immediately = Ok position' ->
  I position -> I position'.
Proof.
  unfold close. intros H Hinv.
  case_if H; inv_res; subst; auto.
  case_if H; inv_res; subst; auto.
  case_if H; inv_res; subst; auto.
  case_if H; inv_res; subst; auto.
  cbn [alloc_order] in H.
  destruct immediately; inv_res.
  - split_fill. inv_res. subst.
    eapply fill_order_keeps; [eassumption|].
    revert Hinv. apply I_accounts. accounts.
  - subst. revert Hinv. apply I_accounts. accounts.
Qed.

Lemma close_all_keeps (env : Env) (position position' : Position.t)
  (comment alert_message : pystr) (immediately : bool) :
  close_all env position comment alert_message immediately = Ok position' ->
  I position -> I position'.
Proof.
  unfold close_all. intros H Hinv.
  case_if H; inv_res; subst; auto.
  case_if H; inv_res; subst; auto.
  cbn [alloc_order] in H.
  destruct immediately; inv_res.
  - split_fill. inv_res. subst.
    eapply fill_order_keeps; [eassumption|].
    revert Hinv. apply I_accounts. accounts.
  - subst. revert Hinv. apply I_accounts. accounts.
Qed.

Lemma run_op_keeps (env : Env) (op : Op) (position position' : Position.t) :
  run_op env op position = Ok position' -> I position -> I position'.
Proof.
  destruct op; cbn [run_op]; intros H Hinv.
  - apply entry_accounts in H. eapply I_accounts; eassumption.
  - apply exit_accounts in H. eapply I_accounts; eassumption.
  - eapply close_keeps; eassumption.
  - eapply close_all_keeps; eassumption.
  - apply cancel_accounts in H. eapply I_accounts; eassumption.
  - apply cancel_all_accounts in H. eapply I_accounts; eassumption.
  - inv_res. split_fill. inv_res. subst.
    eapply fill_order_keeps; eassumption.
  - cbn [alloc_order] in H. inv_res. split_fill. inv_res. subst.
    eapply fill_order_keeps; [eassumption|].
    revert Hinv. apply I_accounts. accounts.
  - eapply process_orders_keeps; eassumption.
Qed.

(** An invariant of the accounts that [_fill_order] keeps is kept by every
    run. *)
Lemma run_keeps (steps : list (Env * Op)) (position position' : Position.t) :
  run steps position = Ok position' -> I position -> I position'.
Proof.
  unfold run. apply foldM_keeps. intros p step q. apply run_op_keeps.
Qed.

End AccountInvariant.


(** *** What one step of the close walk does to the accounts *)

Lemma realize_commission_accounts (env : Env) (price size : Q) (self : Position.t)
  (closed_trade : Trade.t) (cts : Q) :
  counts_of (fst (fst (realize_commission env price size self closed_trade cts)))
  = counts_of self /\
  position_of (fst (fst (realize_commission env price size self closed_trade cts)))
  = position_of self.
Proof.
  unfold realize_commission. destruct (_ || _); split; reflexivity.
Qed.

Lemma adjust_for_commission_accounts (pnl : Q) (closed_trade : Trade.t)
  (self : Position.t) :
  counts_of (adjust_for_commission pnl closed_trade self) = counts_of self /\
  position_of (adjust_for_commission pnl closed_trade self) = position_of self.
Proof.
  unfold adjust_for_commission. destruct (Qltb _ _); split; reflexivity.
Qed.

(** The closed trade is counted once: as an even, a win or a loss, by the
    sign of its profit, and a win or a loss goes into the gross sums. *)
Lemma count_closed_trade_spec (closed_trade : Trade.t) (self : Position.t) :
  let self' := count_closed_trade closed_trade self in
  let profit := Trade.profit closed_trade in
  position_of self' = position_of self /\
  Position.closed_trades_count self' = Position.closed_trades_count self /\
  Position.closed_trades self' = Position.closed_trades self /\
  ((profit == 0 /\
    Position.eventrades self' = (Position.eventrades self + 1)%Z /\
    Position.wintrades self' = Position.wintrades self /\
    Position.losstrades self' = Position.losstrades self /\
    Position.grossprofit self' = Position.grossprofit self /\
    Position.grossloss self' = Position.grossloss self) \/
   (0 < profit /\
    Position.eventrades self' = Position.eventrades self /\
    Position.wintrades self' = (Position.wintrades self + 1)%Z /\
    Position.losstrades self' = Position.losstrades self /\
    Position.grossprofit self' = Position.grossprofit self + profit /\
    Position.grossloss self' = Position.grossloss self) \/
   (profit < 0 /\
    Position.eventrades self' = Position.eventrades self /\
    Position.wintrades self' = Position.wintrades self /\
    Position.losstrades self' = (Position.losstrades self + 1)%Z /\
    Position.grossprofit self' = Position.grossprofit self /\
    Position.grossloss self' = Position.grossloss self - profit)).
Proof.
  cbv zeta. unfold count_closed_trade.
  destruct (Qeq_bool (Trade.profit closed_trade) 0) eqn:E0.
  - apply Qeq_bool_iff in E0. repeat split; try reflexivity.
    left. repeat split; try reflexivity. exact E0.
  - apply Qeq_bool_neq in E0.
    destruct (Qltb 0 (Trade.profit closed_trade)) eqn:E1.
    + apply Qltb_iff in E1. repeat split; try reflexivity.
      right. left. repeat split; try reflexivity. exact E1.
    + apply Qltb_false_iff in E1. repeat split; try reflexivity.
      right. right. repeat split; try reflexivity.
      destruct (Qlt_le_dec (Trade.profit closed_trade) 0) as [Hlt|Hge]; [exact Hlt|].
      exfalso. apply E0. lra.
Qed.

Lemma average_after_close_spec (closed_trade : Trade.t) (self self' : Position.t) :
  average_after_close closed_trade self = Ok self' ->
  counts_of self' = counts_of self /\
  Position.size self' = Position.size self /\
  Position.sign self' = Position.sign self /\
  average_price_consistent self'.
Proof.
  unfold average_after_close, average_price_consistent.
  destruct (Qneb (Position.size self) 0) eqn:E; intros H.
  - inv_res. subst self'. repeat split; try reflexivity.
    intros Hsz. cbn in *. unfold pydiv in Ha.
    destruct (Qeq_bool (Qabs (Position.size self)) 0) eqn:Ea; [discriminate|].
    apply Ok_inj in Ha. subst a. apply Qeq_bool_neq in Ea. field. exact Ea.
  - inv_res. subst self'. repeat split; try reflexivity.
    intros Hsz. cbn in Hsz. exfalso. apply Hsz.
    unfold Qneb in E. apply negb_false_iff in E. apply Qeq_bool_iff in E. exact E.
Qed.

Lemma modify_sizes_accounts (env : Env) (size : Q) (self self' : Position.t) (size' : Q) :
  modify_sizes env size self = Ok (self', size') ->
  counts_of self' = counts_of self /\
  Position.avg_price self' = Position.avg_price self /\
  Position.entry_summ self' = Position.entry_summ self /\
  sign_of_size self'.
Proof.
  unfold modify_sizes, sign_of_size. intros H. inv_res.
  destruct a0; injection H as <- <-; repeat split; reflexivity.
Qed.

(** A step either puts the trade back and leaves the ledger alone, or
    closes (part of) the trade: then one more closed trade is counted and
    appended to the ring, the sign follows the size and the average price
    follows the running sum. *)
Lemma close_walk_step_accounts (env : Env) (r : ref) (price h l : Q)
  (w w' : CloseWalk) (trade : Trade.t) :
  close_walk_step env r price h l w trade = Ok w' ->
  (cw_self w' = cw_self w /\ cw_delete w' = cw_delete w) \/
  (cw_delete w' = true /\
   Position.closed_trades_count (cw_self w')
   = (Position.closed_trades_count (cw_self w) + 1)%Z /\
   Position.closed_trades (cw_self w')
   = deque_append (Position.closed_trades (cw_self w))
       (List.length (Position.trade_objs (cw_self w))) /\
   sign_of_size (cw_self w') /\
   average_price_consistent (cw_self w') /\
   exists profit : Q,
     (profit == 0 /\
      Position.eventrades (cw_self w') = (Position.eventrades (cw_self w) + 1)%Z /\
      Position.wintrades (cw_self w') = Position.wintrades (cw_self w) /\
      Position.losstrades (cw_self w') = Position.losstrades (cw_self w) /\
      Position.grossprofit (cw_self w') = Position.grossprofit (cw_self w) /\
      Position.grossloss (cw_self w') = Position.grossloss (cw_self w)) \/
     (0 < profit /\
      Position.eventrades (cw_self w') = Position.eventrades (cw_self w) /\
      Position.wintrades (cw_self w') = (Position.wintrades (cw_self w) + 1)%Z /\
      Position.losstrades (cw_self w') = Position.losstrades (cw_self w) /\
      Position.grossprofit (cw_self w') = Position.grossprofit (cw_self w) + profit /\
      Position.grossloss (cw_self w') = Position.grossloss (cw_self w)) \/
     (profit < 0 /\
      Position.eventrades (cw_self w') = Position.eventrades (cw_self w) /\
      Position.wintrades (cw_self w') = Position.wintrades (cw_self w) /\
      Position.losstrades (cw_self w') = (Position.losstrades (cw_self w) + 1)%Z /\
      Position.grossprofit (cw_self w') = Position.grossprofit (cw_self w) /\
      Position.grossloss (cw_self w') = Position.grossloss (cw_self w) - profit)).
Proof.
  unfold close_walk_step. intros H. inv_res.
  case_if H.
  - right. inv_res. destruct (Order.exit_id a) as [order_exit_id|]; [|discriminate].
    inv_res. destruct a1 as [self1 size1].
    apply modify_sizes_accounts in Ha1. destruct Ha1 as (Hc1 & Havg1 & Hsum1 & Hsign1).
    apply average_after_close_spec in Ha2. destruct Ha2 as (Hc2 & Hsz2 & Hsg2 & Havg2).
    cbn [fst snd] in *.
    match type of Hc2 with
    | _ = counts_of (count_closed_trade ?ct ?s) =>
      pose proof (count_closed_trade_spec ct s) as Hcount; cbv zeta in Hcount;
      destruct Hcount as (Hp3 & Hn3 & Hr3 & Hcases);
      set (counted := count_closed_trade ct s) in *;
      set (profit := Trade.profit ct) in *; clearbody profit
    end.
    match type of Hc1 with
    | _ = counts_of (Position.set_netprofit _ (fst (fst (realize_commission ?e ?p ?s ?x ?c ?t)))) =>
      destruct (realize_commission_accounts e p s x c t) as [Hc0 _];
      set (realized := fst (fst (realize_commission e p s x c t))) in *
    end.
    assert (counts_of self1 = counts_of realized) as Hc1' by exact Hc1.
    clear Hc1.
    assert (sign_of_size a2 /\ average_price_consistent a2 /\
            Position.closed_trades_count a2
            = (Position.closed_trades_count (cw_self w) + 1)%Z /\
            Position.closed_trades a2
            = deque_append (Position.closed_trades (cw_self w))
                (List.length (Position.trade_objs (cw_self w))) /\
            Position.eventrades a2 = Position.eventrades counted /\
            Position.wintrades a2 = Position.wintrades counted /\
            Position.losstrades a2 = Position.losstrades counted /\
            Position.grossprofit a2 = Position.grossprofit counted /\
            Position.grossloss a2 = Position.grossloss counted /\
            Position.eventrades self1 = Position.eventrades (cw_self w) /\
            Position.wintrades self1 = Position.wintrades (cw_self w) /\
            Position.losstrades self1 = Position.losstrades (cw_self w) /\
            Position.grossprofit self1 = Position.grossprofit (cw_self w) /\
            Position.grossloss self1 = Position.grossloss (cw_self w)) as Hall.
    { unfold counts_of in Hc2, Hc1', Hc0. unfold position_of in Hp3.
      unfold sign_of_size in *.
      injection Hc2 as E1 E2 E3 E4 E5 E6 E7.
      injection Hc1' as F1 F2 F3 F4 F5 F6 F7.
      injection Hc0 as G1 G2 G3 G4 G5 G6 G7.
      injection Hp3 as P1 P2 P3 P4.
      cbn in G1, G2, G3, G4, G5, G6, G7.
      repeat split; try congruence; try exact Havg2. }
    destruct Hall as (S1 & S2 & S3 & S4 & T1 & T2 & T3 & T4 & T5 & U1 & U2 & U3 & U4 & U5).
    assert (forall final : Position.t,
              counts_of final = counts_of a2 -> position_of final = position_of a2 ->
              Position.closed_trades_count final
              = (Position.closed_trades_count (cw_self w) + 1)%Z /\
              Position.closed_trades final
              = deque_append (Position.closed_trades (cw_self w))
                  (List.length (Position.trade_objs (cw_self w))) /\
              sign_of_size final /\ average_price_consistent final /\
              exists profit : Q,
                (profit == 0 /\
                 Position.eventrades final = (Position.eventrades (cw_self w) + 1)%Z /\
                 Position.wintrades final = Position.wintrades (cw_self w) /\
                 Position.losstrades final = Position.losstrades (cw_self w) /\
                 Position.grossprofit final = Position.grossprofit (cw_self w) /\
                 Position.grossloss final = Position.grossloss (cw_self w)) \/
                (0 < profit /\
                 Position.eventrades final = Position.eventrades (cw_self w) /\
                 Position.wintrades final = (Position.wintrades (cw_self w) + 1)%Z /\
                 Position.losstrades final = Position.losstrades (cw_self w) /\
                 Position.grossprofit final = Position.grossprofit (cw_self w) + profit /\
                 Position.grossloss final = Position.grossloss (cw_self w)) \/
                (profit < 0 /\
                 Position.eventrades final = Position.eventrades (cw_self w) /\
                 Position.wintrades final = Position.wintrades (cw_self w) /\
                 Position.losstrades final = (Position.losstrades (cw_self w) + 1)%Z /\
                 Position.grossprofit final = Position.grossprofit (cw_self w) /\
                 Position.grossloss final = Position.grossloss (cw_self w) - profit))
      as Hfinal.
    { intros final Hcf Hpf. unfold counts_of in Hcf. unfold position_of in Hpf.
      injection Hcf as E1 E2 E3 E4 E5 E6 E7. injection Hpf as P1 P2 P3 P4.
      unfold sign_of_size, average_price_consistent in *.
      rewrite E1, E7, P1, P2, P3, P4, E2, E3, E4, E5, E6.
      repeat split; try assumption.
      exists profit.
      rewrite T1, T2, T3, T4, T5.
      destruct Hcases as [(Q0 & Q1 & Q2 & Q3 & Q4 & Q5)
                         |[(Q0 & Q1 & Q2 & Q3 & Q4 & Q5)|(Q0 & Q1 & Q2 & Q3 & Q4 & Q5)]];
        rewrite Q1, Q2, Q3, Q4, Q5, U1, U2, U3, U4, U5;
        [left | right; left | right; right]; repeat split; try reflexivity; exact Q0. }
    case_if H; apply Ok_inj in H; subst w'; cbn [cw_self cw_delete];
      (split; [reflexivity|]); apply Hfinal; try reflexivity.
    + match goal with
      | |- counts_of (put_order (put_trade ?s _ _) _ _) = _ =>
        transitivity (counts_of s); [reflexivity | apply adjust_for_commission_accounts]
      end.
    + match goal with
      | |- position_of (put_order (put_trade ?s _ _) _ _) = _ =>
        transitivity (position_of s); [reflexivity | apply adjust_for_commission_accounts]
      end.
  - left. apply Ok_inj in H. subst w'. split; reflexivity.
Qed.


(** *** Invariants of the accounts through [_fill_order] *)

Lemma same_accounts_counts (p q : Position.t) :
  same_accounts p q -> counts_of p = counts_of q /\ position_of p = position_of q.
Proof.
  unfold same_accounts, counts_of, position_of.
  intros (H1 & H2 & H3 & H4 & H5 & H6 & H7 & H8 & H9 & H10 & H11 & H12 & H13).
  rewrite H1, H2, H3, H4, H6, H7, H8, H9, H10, H11, H12. split; reflexivity.
Qed.

Lemma allocate_order_commission_accounts (env : Env) (cts : Q) (self self' : Position.t)
  (tr : ref) :
  allocate_order_commission env cts self tr = Ok self' ->
  counts_of self = counts_of self' /\ position_of self = position_of self'.
Proof.
  unfold allocate_order_commission. intros H. inv_res. subst. split; reflexivity.
Qed.

Lemma finish_close_accounts (env : Env) (order : Order.t) (w : CloseWalk)
  (self self' : Position.t) :
  finish_close env order w self = Ok self' ->
  counts_of self = counts_of self' /\ position_of self = position_of self'.
Proof.
  unfold finish_close. intros H.
  destruct (cw_delete w); [|apply Ok_inj in H; subst; split; reflexivity].
  destruct (CommissionType_eqb _ _).
  - apply (foldM_preserves
             (fun p q => counts_of p = counts_of q /\ position_of p = position_of q))
      in H.
    + destruct H as [<- <-]. destruct (Order.exit_id order); split; reflexivity.
    + intros s. split; reflexivity.
    + intros s t u [-> ->] [-> ->]. split; reflexivity.
    + intros s x t. apply allocate_order_commission_accounts.
  - apply Ok_inj in H. subst. destruct (Order.exit_id order); split; reflexivity.
Qed.

Lemma mark_entry_equity_accounts (entry_equity : Q) (self : Position.t) :
  counts_of (mark_entry_equity entry_equity self) = counts_of self /\
  position_of (mark_entry_equity entry_equity self) = position_of self.
Proof.
  unfold mark_entry_equity. destruct (Position.open_trades self); split; reflexivity.
Qed.

Lemma remove_filled_order_accounts (order : Order.t) (self : Position.t) :
  counts_of (remove_filled_order order self) = counts_of self /\
  position_of (remove_filled_order order self) = position_of self.
Proof.
  unfold remove_filled_order.
  destruct (_ && _); [|destruct (optstr_truthy _)];
    try destruct (Order.order_id order); try destruct (Order.exit_id order);
    split; reflexivity.
Qed.

Lemma append_trade_counts (price commission : Q) (order : Order.t) (trade : Trade.t)
  (self : Position.t) :
  counts_of (append_trade price commission order trade self) = counts_of self.
Proof.
  unfold append_trade. cbv zeta. destruct (pydiv _ _); reflexivity.
Qed.

Lemma append_trade_position (price commission : Q) (order : Order.t) (trade : Trade.t)
  (self : Position.t) :
  sign_of_size (append_trade price commission order trade self) /\
  average_price_consistent (append_trade price commission order trade self).
Proof.
  unfold append_trade, sign_of_size, average_price_consistent. cbv zeta.
  destruct (pydiv _ _) as [avg|e] eqn:E; split; try reflexivity;
    cbn -[Qabs Qplus Qmult Qdiv]; intros Hsz.
  - unfold pydiv in E. cbn -[Qabs Qplus Qmult Qdiv] in E.
    destruct (Qeq_bool (Qabs (Position.size self + Trade.size trade)) 0) eqn:Ea;
      [discriminate|].
    apply Ok_inj in E. subst avg. apply Qeq_bool_neq in Ea. field. exact Ea.
  - exfalso. unfold pydiv in E. cbn -[Qabs Qplus Qmult Qdiv] in E.
    destruct (Qeq_bool (Qabs (Position.size self + Trade.size trade)) 0) eqn:Ea;
      [|discriminate].
    apply Qeq_bool_iff in Ea. apply Hsz.
    destruct (Qlt_le_dec (Position.size self + Trade.size trade) 0) as [Hn|Hp].
    + rewrite Qabs_neg in Ea; lra.
    + rewrite Qabs_pos in Ea; lra.
Qed.

Lemma reset_when_flat_counts (self : Position.t) :
  counts_of (reset_when_flat self) = counts_of self /\
  Position.size (reset_when_flat self) = Position.size self /\
  Position.sign (reset_when_flat self) = Position.sign self.
Proof.
  unfold reset_when_flat. destruct (Position.open_trades self); repeat split; reflexivity.
Qed.

Lemma reset_when_flat_average (self : Position.t) :
  average_price_consistent self -> average_price_consistent (reset_when_flat self).
Proof.
  unfold reset_when_flat, average_price_consistent.
  destruct (Position.open_trades self); cbn; intros H Hsz; [lra | auto].
Qed.

Section FillKeeps.

Variable J : Position.t -> Prop.

Hypothesis J_ext :
  forall p q, counts_of p = counts_of q -> position_of p = position_of q -> J p -> J q.
Hypothesis J_step :
  forall env r price h l w w' trade,
    close_walk_step env r price h l w trade = Ok w' -> J (cw_self w) -> J (cw_self w').
Hypothesis J_append :
  forall price commission order trade self,
    J self -> J (append_trade price commission order trade self).
Hypothesis J_reset : forall self, J self -> J (reset_when_flat self).

Lemma close_walk_keeps (env : Env) (r : ref) (price h l : Q) (trades : list Trade.t) :
  forall w w' : CloseWalk,
    foldM (close_walk_step env r price h l) trades w = Ok w' ->
    J (cw_self w) -> J (cw_self w').
Proof.
  induction trades as [|trade rest IH]; simpl; intros w w' H Hw.
  - apply Ok_inj in H. subst. exact Hw.
  - inv_res. eauto.
Qed.

Lemma J_accounts (p q : Position.t) : same_accounts p q -> J p -> J q.
Proof.
  intros H. apply same_accounts_counts in H. destruct H. apply J_ext; assumption.
Qed.

Lemma fill_order_inner_keeps (env : Env) (self self' : Position.t) (r : ref)
  (price h l : Q) :
  _fill_order env self r price h l = Ok self' -> J self -> J self'.
Proof.
  unfold _fill_order. intros H Hinv. inv_res. subst self'. apply J_reset.
  destruct (Qneb (Position.size self) 0 && _ && _) eqn:Eclose.
  - inv_res. subst a0.
    apply close_walk_keeps in Ha1; [|exact Hinv]. cbn [cw_self] in Ha1.
    apply finish_close_accounts in Ha2. destruct Ha2 as [Hc Hp].
    revert Ha1. apply J_ext.
    + transitivity (counts_of a2); [exact Hc | reflexivity].
    + transitivity (position_of a2); [exact Hp | reflexivity].
  - destruct (negb (OrderType_eqb (Order.order_type a) _order_type_close)).
    + inv_res. destruct (Order.order_id a) as [order_id|]; [|discriminate].
      apply Ok_inj in Ha0. subst a0.
      match goal with
      | |- J (remove_filled_order ?o ?s) =>
        apply (J_ext s); [symmetry; apply remove_filled_order_accounts
                         |symmetry; apply remove_filled_order_accounts|]
      end.
      apply J_append.
      match goal with
      | |- J (mark_entry_equity ?e ?s) =>
        apply (J_ext s); [symmetry; apply mark_entry_equity_accounts
                         |symmetry; apply mark_entry_equity_accounts|]
      end.
      revert Hinv. apply J_ext; reflexivity.
    + apply Ok_inj in Ha0. subst a0. exact Hinv.
Qed.

(** Such an invariant holds along every run. *)
Lemma run_keeps_accounts (steps : list (Env * Op)) (position position' : Position.t) :
  run steps position = Ok position' -> J position -> J position'.
Proof.
  apply (run_keeps J J_accounts).
  intros env p r price h l q. apply fill_order_inner_keeps.
Qed.

End FillKeeps.

Lemma deque_append_length (d : list ref) (x : ref) (n : Z) :
  Z.of_nat (List.length d) = Z.min n 9000 -> (0 <= n)%Z ->
  Z.of_nat (List.length (deque_append d x)) = Z.min (n + 1) 9000.
Proof.
  unfold deque_append. intros Hd Hn.
  destruct (9000 <=? Z.of_nat (List.length d))%Z eqn:E.
  - apply Z.leb_le in E. rewrite length_app. cbn [List.length].
    destruct d as [|y d]; cbn [List.length tl] in *; lia.
  - apply Z.leb_gt in E. rewrite length_app. cbn [List.length]. lia.
Qed.

Lemma counts_ext (p q : Position.t) :
  counts_of p = counts_of q ->
  counters_balance p /\ gross_nonnegative p /\ ring_bounded p ->
  counters_balance q /\ gross_nonnegative q /\ ring_bounded q.
Proof.
  unfold counters_balance, gross_nonnegative, ring_bounded, counts_of.
  intros Hc. injection Hc as -> -> -> -> -> -> ->. auto.
Qed.

Lemma accounts_sound_ext (p q : Position.t) :
  counts_of p = counts_of q -> position_of p = position_of q ->
  accounts_sound p -> accounts_sound q.
Proof.
  unfold accounts_sound, counters_balance, gross_nonnegative, ring_bounded, sign_of_size,
    average_price_consistent, counts_of, position_of.
  intros Hc Hp. injection Hc as -> -> -> -> -> -> ->. injection Hp as -> -> -> ->.
  auto.
Qed.

Lemma accounts_sound_step (env : Env) (r : ref) (price h l : Q) (w w' : CloseWalk)
  (trade : Trade.t) :
  close_walk_step env r price h l w trade = Ok w' ->
  accounts_sound (cw_self w) -> accounts_sound (cw_self w').
Proof.
  intros H (Hbal & [Hgp Hgl] & [Hlen Hcount] & Hsign & Havg).
  apply close_walk_step_accounts in H.
  destruct H as [[-> _]|(_ & Hn & Hring & Hs & Ha & profit & Hcases)].
  { repeat split; assumption. }
  unfold accounts_sound, counters_balance, gross_nonnegative, ring_bounded in *.
  rewrite Hn, Hring.
  split; [|split; [|split; [|split; assumption]]].
  - destruct Hcases as [(_ & -> & -> & -> & _)|[(_ & -> & -> & -> & _)|(_ & -> & -> & -> & _)]];
      lia.
  - destruct Hcases as [(Q0 & _ & _ & _ & -> & ->)
                       |[(Q0 & _ & _ & _ & -> & ->)|(Q0 & _ & _ & _ & -> & ->)]];
      split; lra.
  - split; [apply deque_append_length; assumption | lia].
Qed.

Lemma accounts_sound_append (price commission : Q) (order : Order.t) (trade : Trade.t)
  (self : Position.t) :
  accounts_sound self -> accounts_sound (append_trade price commission order trade self).
Proof.
  intros (Hbal & Hg & Hring & _ & _).
  pose proof (append_trade_counts price commission order trade self) as Hc.
  destruct (append_trade_position price commission order trade self) as [Hs Ha].
  symmetry in Hc.
  destruct (counts_ext _ _ Hc (conj Hbal (conj Hg Hring))) as (Hb' & Hg' & Hr').
  unfold accounts_sound. auto.
Qed.

Lemma accounts_sound_reset (self : Position.t) :
  accounts_sound self -> accounts_sound (reset_when_flat self).
Proof.
  intros (Hbal & Hg & Hring & Hs & Ha).
  destruct (reset_when_flat_counts self) as (Hc & Hsz & Hsg).
  apply reset_when_flat_average in Ha. symmetry in Hc.
  destruct (counts_ext _ _ Hc (conj Hbal (conj Hg Hring))) as (Hb' & Hg' & Hr').
  unfold accounts_sound, sign_of_size in *. rewrite Hsz, Hsg. auto.
Qed.

Lemma new_Position_sound : accounts_sound new_Position.
Proof.
  unfold accounts_sound, counters_balance, gross_nonnegative, ring_bounded, sign_of_size,
    average_price_consistent.
  cbn. repeat split; try reflexivity; try lra; lia.
Qed.

Lemma run_sound (steps : list (Env * Op)) (position position' : Position.t) :
  run steps position = Ok position' -> accounts_sound position -> accounts_sound position'.
Proof.
  apply (run_keeps_accounts accounts_sound accounts_sound_ext accounts_sound_step
           accounts_sound_append accounts_sound_reset).
Qed.

Lemma accounts_grow_ext (base p q : Position.t) :
  counts_of p = counts_of q -> accounts_grow base p -> accounts_grow base q.
Proof.
  unfold accounts_grow, counts_of. intros Hc.
  injection Hc as E1 E2 E3 E4 E5 E6 _. rewrite E1, E2, E3, E4, E5, E6. auto.
Qed.

Lemma accounts_grow_step (base : Position.t) (env : Env) (r : ref) (price h l : Q)
  (w w' : CloseWalk) (trade : Trade.t) :
  close_walk_step env r price h l w trade = Ok w' ->
  accounts_grow base (cw_self w) -> accounts_grow base (cw_self w').
Proof.
  intros H (H1 & H2 & H3 & H4 & H5 & H6).
  apply close_walk_step_accounts in H.
  destruct H as [[-> _]|(_ & Hn & _ & _ & _ & profit & Hcases)].
  { repeat split; assumption. }
  unfold accounts_grow. rewrite Hn.
  destruct Hcases as [(Q0 & -> & -> & -> & -> & ->)
                     |[(Q0 & -> & -> & -> & -> & ->)|(Q0 & -> & -> & -> & -> & ->)]];
    repeat split; try lia; lra.
Qed.

Lemma accounts_grow_append (base : Position.t) (price commission : Q) (order : Order.t)
  (trade : Trade.t) (self : Position.t) :
  accounts_grow base self ->
  accounts_grow base (append_trade price commission order trade self).
Proof.
  pose proof (append_trade_counts price commission order trade self) as Hc.
  symmetry in Hc. apply accounts_grow_ext. exact Hc.
Qed.

Lemma accounts_grow_reset (base self : Position.t) :
  accounts_grow base self -> accounts_grow base (reset_when_flat self).
Proof.
  destruct (reset_when_flat_counts self) as (Hc & _).
  symmetry in Hc. apply accounts_grow_ext. exact Hc.
Qed.


Lemma run_grows (steps : list (Env * Op)) (position position' : Position.t) :
  run steps position = Ok position' -> accounts_grow position position'.
Proof.
  intros H.
  apply (run_keeps_accounts (accounts_grow position)
           (fun p q Hc _ => accounts_grow_ext position p q Hc)
           (accounts_grow_step position) (accounts_grow_append position)
           (accounts_grow_reset position) steps position position' H).
  unfold accounts_grow. repeat split; try lia; lra.
Qed.

Lemma flat_reset_accounts (p q : Position.t) :
  same_accounts p q -> flat_reset p -> flat_reset q.
Proof.
  unfold same_accounts, flat_reset.
  intros (_ & _ & Havg & Hsum & _ & _ & _ & _ & _ & _ & _ & _ & Hopen) Hp Hq.
  rewrite <- Havg, <- Hsum. apply Hp.
  rewrite Hq in Hopen. cbn in Hopen. apply map_eq_nil in Hopen. exact Hopen.
Qed.

Lemma fill_order_inner_flat_reset (env : Env) (self self' : Position.t) (r : ref)
  (price h l : Q) :
  _fill_order env self r price h l = Ok self' -> flat_reset self'.
Proof.
  unfold _fill_order. intros H. inv_res. subst self'.
  unfold flat_reset, reset_when_flat.
  destruct (Position.open_trades a0) eqn:E; cbn; [auto|].
  intros Hq. rewrite E in Hq. discriminate.
Qed.

Lemma run_flat_reset (steps : list (Env * Op)) (position position' : Position.t) :
  run steps position = Ok position' -> flat_reset position -> flat_reset position'.
Proof.
  apply (run_keeps flat_reset flat_reset_accounts).
  intros env p r price h l q Hf _. eapply fill_order_inner_flat_reset. exact Hf.
Qed.

(** ** The accounts along a run *)

(** X1: in every ledger reached from [Position()] the three outcome
    counters add up to the count of closed trades: each closed trade is
    counted once, as a win, an even or a loss. *)
Theorem closed_trades_are_counted_once (steps : list (Env * Op)) (position : Position.t) :
  run steps new_Position = Ok position ->
  (Position.wintrades position + Position.eventrades position
   + Position.losstrades position = Position.closed_trades_count position)%Z.
Proof.
  intros H. apply (run_sound _ _ _ H new_Position_sound).
Qed.

Lemma closed_trades_are_counted_once_witness :
  (Position.wintrades (result_of (run round_trip_run new_Position))
   + Position.eventrades (result_of (run round_trip_run new_Position))
   + Position.losstrades (result_of (run round_trip_run new_Position))
   = Position.closed_trades_count (result_of (run round_trip_run new_Position)))%Z.
Proof.
  apply (closed_trades_are_counted_once round_trip_run).
  vm_compute. reflexivity.
Defined.

(** X2: [grossprofit] and [grossloss] are never negative in a ledger reached
    from [Position()]: a winning trade adds its profit to the one, a losing
    trade subtracts its (negative) profit from the other. *)
Theorem gross_sums_are_nonnegative (steps : list (Env * Op)) (position : Position.t) :
  run steps new_Position = Ok position ->
  0 <= Position.grossprofit position /\ 0 <= Position.grossloss position.
Proof.
  intros H. apply (run_sound _ _ _ H new_Position_sound).
Qed.

Lemma gross_sums_are_nonnegative_witness :
  0 <= Position.grossprofit (result_of (run round_trip_run new_Position)) /\
  0 <= Position.grossloss (result_of (run round_trip_run new_Position)).
Proof.
  apply (gross_sums_are_nonnegative round_trip_run).
  vm_compute. reflexivity.
Defined.

(** X3: the ring [closed_trades] (a [deque] with [maxlen = 9000]) holds as
    many trades as were closed, up to 9000: its length is
    [min(closed_trades_count, 9000)]. *)
Theorem closed_trades_ring_is_bounded (steps : list (Env * Op)) (position : Position.t) :
  run steps new_Position = Ok position ->
  Z.of_nat (List.length (Position.closed_trades position))
  = Z.min (Position.closed_trades_count position) 9000.
Proof.
  intros H. apply (run_sound _ _ _ H new_Position_sound).
Qed.

Lemma closed_trades_ring_is_bounded_witness :
  Z.of_nat (List.length (Position.closed_trades (result_of (run round_trip_run new_Position))))
  = Z.min (Position.closed_trades_count (result_of (run round_trip_run new_Position))) 9000.
Proof.
  apply (closed_trades_ring_is_bounded round_trip_run).
  vm_compute. reflexivity.
Defined.

(** X4: in every ledger reached from [Position()], [sign] is the sign of
    [size]: 0, 1 or -1. *)
Theorem sign_follows_size (steps : list (Env * Op)) (position : Position.t) :
  run steps new_Position = Ok position ->
  Position.sign position = signum (Position.size position).
Proof.
  intros H. apply (run_sound _ _ _ H new_Position_sound).
Qed.

Lemma sign_follows_size_witness :
  Position.sign (result_of (run sample_run new_Position))
  = signum (Position.size (result_of (run sample_run new_Position))).
Proof.
  apply (sign_follows_size sample_run).
  vm_compute. reflexivity.
Defined.

(** X5: while a position is open, [avg_price] is [entry_summ / abs(size)]:
    in every ledger reached from [Position()] with [size != 0],
    [avg_price * abs(size)] is [entry_summ]. *)
Theorem avg_price_is_entry_summ_per_size (steps : list (Env * Op))
  (position : Position.t) :
  run steps new_Position = Ok position ->
  ~ Position.size position == 0 ->
  Position.avg_price position * Qabs (Position.size position)
  == Position.entry_summ position.
Proof.
  intros H. apply (run_sound _ _ _ H new_Position_sound).
Qed.

Lemma avg_price_is_entry_summ_per_size_witness :
  Position.avg_price (result_of (run sample_run new_Position))
  * Qabs (Position.size (result_of (run sample_run new_Position)))
  == Position.entry_summ (result_of (run sample_run new_Position)).
Proof.
  apply (avg_price_is_entry_summ_per_size sample_run).
  - vm_compute. reflexivity.
  - vm_compute. discriminate.
Defined.

(** X6: a ledger reached from [Position()] that has no open trade has
    [avg_price = 0.0] and [entry_summ = 0.0]. *)
Theorem flat_ledger_has_no_average (steps : list (Env * Op)) (position : Position.t) :
  run steps new_Position = Ok position ->
  Position.open_trades position = [] ->
  Position.avg_price position = 0 /\ Position.entry_summ position = 0.
Proof.
  intros H. apply (run_flat_reset _ _ _ H).
  intros _. split; reflexivity.
Qed.

Lemma flat_ledger_has_no_average_witness :
  Position.avg_price (result_of (run round_trip_run new_Position)) = 0 /\
  Position.entry_summ (result_of (run round_trip_run new_Position)) = 0.
Proof.
  apply (flat_ledger_has_no_average round_trip_run).
  - vm_compute. reflexivity.
  - vm_compute. reflexivity.
Defined.

(** X7: no call lowers a counter or a gross sum: after any sequence of
    calls, from any ledger, [closed_trades_count], [wintrades],
    [eventrades], [losstrades], [grossprofit] and [grossloss] are at least
    what they were. *)
Theorem counters_never_decrease (steps : list (Env * Op))
  (position position' : Position.t) :
  run steps position = Ok position' ->
  (Position.closed_trades_count position <= Position.closed_trades_count position')%Z /\
  (Position.wintrades position <= Position.wintrades position')%Z /\
  (Position.eventrades position <= Position.eventrades position')%Z /\
  (Position.losstrades position <= Position.losstrades position')%Z /\
  Position.grossprofit position <= Position.grossprofit position' /\
  Position.grossloss position <= Position.grossloss position'.
Proof.
  intros H. apply (run_grows _ _ _ H).
Qed.

Lemma counters_never_decrease_witness :
  (Position.closed_trades_count new_Position
   <= Position.closed_trades_count (result_of (run round_trip_run new_Position)))%Z /\
  (Position.wintrades new_Position
   <= Position.wintrades (result_of (run round_trip_run new_Position)))%Z /\
  (Position.eventrades new_Position
   <= Position.eventrades (result_of (run round_trip_run new_Position)))%Z /\
  (Position.losstrades new_Position
   <= Position.losstrades (result_of (run round_trip_run new_Position)))%Z /\
  Position.grossprofit new_Position
  <= Position.grossprofit (result_of (run round_trip_run new_Position)) /\
  Position.grossloss new_Position
  <= Position.grossloss (result_of (run round_trip_run new_Position)).
Proof.
  apply (counters_never_decrease round_trip_run).
  vm_compute. reflexivity.
Defined.


(** *** Rounding on the grid *)

Lemma round_half_even_int (x : Q) (n : Z) : x == inject_Z n -> round_half_even x = n.
Proof.
  intros H. unfold round_half_even.
  assert (Qfloor x = n) as Hf by (rewrite H; apply Qfloor_Z).
  rewrite Hf.
  assert (Qltb (x - inject_Z n) (1#2) = true) as ->; [|reflexivity].
  apply Qltb_iff. lra.
Qed.





(** ** Rounding *)



Lemma size_round_steps (rf qty v : Q) :
  0 < rf -> _size_round rf qty = Ok v ->
  v = (if Qltb 0 qty then 1 else -1)
      * (inject_Z (round_half_even (inject_Z (Qfloor (Qabs qty * rf * 10)) * (1#10))) / rf)
  /\ (0 <= round_half_even (inject_Z (Qfloor (Qabs qty * rf * 10)) * (1#10)))%Z.
Proof.
  intros Hrf. unfold _size_round, pydiv.
  destruct (Qeq_bool rf 0) eqn:E0.
  { apply Qeq_bool_iff in E0. lra. }
  cbn [bind]. intros H. apply Ok_inj in H. split; [symmetry; exact H|].
  apply round_half_even_nonneg.
  assert (0 <= Qabs qty * rf * 10) as Hx.
  { pose proof (Qabs_nonneg qty). nra. }
  pose proof (Qfloor_nonneg _ Hx) as Hf.
  assert (inject_Z 0 <= inject_Z (Qfloor (Qabs qty * rf * 10))) as Hq
    by (rewrite <- Zle_Qle; exact Hf).
  change (inject_Z 0) with 0 in Hq. lra.
Qed.

Lemma size_round_total (rf qty : Q) :
  0 < rf -> exists v : Q, _size_round rf qty = Ok v.
Proof.
  intros Hrf. unfold _size_round, pydiv.
  destruct (Qeq_bool rf 0) eqn:E0.
  { apply Qeq_bool_iff in E0. lra. }
  cbn [bind]. eexists. reflexivity.
Qed.

(** The quantity that is [n] lot steps, signed, rounds to itself. *)
Lemma size_round_grid (rf : Q) (n : Z) (s : Q) :
  0 < rf -> (0 <= n)%Z -> s = 1 \/ s = -1 ->
  exists v : Q, _size_round rf (s * (inject_Z n / rf)) = Ok v /\ v == s * (inject_Z n / rf).
Proof.
  intros Hrf Hn Hs.
  destruct (size_round_total rf (s * (inject_Z n / rf)) Hrf) as [v Hv].
  exists v. split; [exact Hv|].
  apply size_round_steps in Hv; [|exact Hrf]. destruct Hv as [-> _].
  assert (0 <= inject_Z n) as Hn'.
  { change 0 with (inject_Z 0). rewrite <- Zle_Qle. exact Hn. }
  assert (0 <= inject_Z n / rf) as Hq by (apply Qle_shift_div_l; lra).
  assert (Qabs (s * (inject_Z n / rf)) == inject_Z n / rf) as Habs.
  { destruct Hs as [-> | ->].
    - rewrite Qabs_pos; lra.
    - rewrite Qabs_neg; lra. }
  assert (Qabs (s * (inject_Z n / rf)) * rf * 10 == inject_Z (n * 10)) as Hx.
  { rewrite Habs, inject_Z_mult. change (inject_Z 10) with 10. field. lra. }
  assert (Qfloor (Qabs (s * (inject_Z n / rf)) * rf * 10) = (n * 10)%Z) as ->
    by (rewrite Hx; apply Qfloor_Z).
  rewrite (round_half_even_int _ n).
  2:{ rewrite inject_Z_mult. change (inject_Z 10) with 10. lra. }
  destruct (Z.eq_dec n 0) as [-> | Hnz].
  { change (inject_Z 0) with 0. destruct (Qltb 0 _); destruct Hs as [-> | ->];
      unfold Qdiv; lra. }
  assert (0 < inject_Z n) as Hpos.
  { change 0 with (inject_Z 0). rewrite <- Zlt_Qlt. lia. }
  assert (0 < inject_Z n / rf) as Hqpos by (apply Qlt_shift_div_l; lra).
  destruct Hs as [-> | ->].
  - assert (Qltb 0 (1 * (inject_Z n / rf)) = true) as -> by (apply Qltb_iff; lra).
    reflexivity.
  - assert (Qltb 0 (-1 * (inject_Z n / rf)) = false) as -> by (apply Qltb_false_iff; lra).
    reflexivity.
Qed.

(** X9: [_size_round] is idempotent: for [size_round_factor > 0] a quantity
    it has returned is a whole number of lot steps and rounds to itself. *)
Theorem size_round_idempotent (rf qty v : Q) :
  0 < rf -> _size_round rf qty = Ok v ->
  exists v' : Q, _size_round rf v = Ok v' /\ v' == v.
Proof.
  intros Hrf H. apply size_round_steps in H; [|exact Hrf]. destruct H as [-> Hn].
  apply size_round_grid; [exact Hrf | exact Hn|].
  destruct (Qltb 0 qty); [left | right]; reflexivity.
Qed.

Lemma size_round_idempotent_witness :
  exists v' : Q,
    _size_round 100000000 (1 * (inject_Z 6 / 100000000)) = Ok v' /\
    v' == 1 * (inject_Z 6 / 100000000).
Proof.
  apply (size_round_idempotent 100000000 (57#1000000000)).
  - reflexivity.
  - reflexivity.
Defined.

(** X10: [_size_round] is odd: for [size_round_factor > 0] a quantity and
    its opposite round to opposite values, so a long and a short order for
    the same quantity get the same magnitude. *)
Theorem size_round_odd (rf qty v : Q) :
  0 < rf -> _size_round rf qty = Ok v ->
  exists v' : Q, _size_round rf (- qty) = Ok v' /\ v' == - v.
Proof.
  intros Hrf H.
  destruct (size_round_total rf (- qty) Hrf) as [v' Hv']. exists v'.
  split; [exact Hv'|].
  apply size_round_steps in H; [|exact Hrf]. destruct H as [-> Hn].
  apply size_round_steps in Hv'; [|exact Hrf]. destruct Hv' as [-> _].
  assert (Qfloor (Qabs (- qty) * rf * 10) = Qfloor (Qabs qty * rf * 10)) as ->
    by (rewrite Qabs_opp; reflexivity).
  set (n := round_half_even _) in *.
  destruct (Qltb 0 qty) eqn:E1; destruct (Qltb 0 (- qty)) eqn:E2.
  - apply Qltb_iff in E1, E2. lra.
  - lra.
  - lra.
  - apply Qltb_false_iff in E1, E2.
    assert (qty == 0) as Hz by lra.
    assert (Qabs qty * rf * 10 == inject_Z 0) as Hx.
    { rewrite Hz. reflexivity. }
    assert (n = 0%Z) as ->.
    { unfold n. rewrite Hx, Qfloor_Z. reflexivity. }
    change (inject_Z 0) with 0. unfold Qdiv. lra.
Qed.

Lemma size_round_odd_witness :
  exists v' : Q,
    _size_round 100000000 (- (57#1000000000)) = Ok v' /\
    v' == - (1 * (inject_Z 6 / 100000000)).
Proof.
  apply (size_round_odd 100000000 (57#1000000000)).
  - reflexivity.
  - reflexivity.
Defined.


(** *** Python dicts as association lists *)

Lemma dict_get_absent (d : dict) (k : string) :
  ~ In k (map fst d) -> dict_get d k = None.
Proof.
  induction d as [|[k' v'] d IH]; cbn; intros H; [reflexivity|].
  destruct (String.eqb k' k) eqn:E.
  - apply String.eqb_eq in E. exfalso. apply H. left. exact E.
  - apply IH. intros Hin. apply H. right. exact Hin.
Qed.

Lemma dict_get_pop_same (d : dict) (k : string) :
  NoDup (map fst d) -> dict_get (dict_pop d k) k = None.
Proof.
  induction d as [|[k' v'] d IH]; cbn; intros H; [reflexivity|].
  inversion H as [|x xs Hnotin Hnodup]; subst.
  destruct (String.eqb k' k) eqn:E.
  - apply String.eqb_eq in E. subst k'. apply dict_get_absent. exact Hnotin.
  - cbn. rewrite E. apply IH. exact Hnodup.
Qed.

Lemma dict_get_pop_other (d : dict) (k k' : string) :
  k' <> k -> dict_get (dict_pop d k) k' = dict_get d k'.
Proof.
  intros Hne. induction d as [|[k0 v0] d IH]; cbn; [reflexivity|].
  destruct (String.eqb k0 k) eqn:E.
  - apply String.eqb_eq in E. subst k0.
    assert (String.eqb k k' = false) as ->; [|reflexivity].
    apply String.eqb_neq. congruence.
  - cbn. destruct (String.eqb k0 k'); [reflexivity | exact IH].
Qed.

Lemma dict_pop_set_fresh (d : dict) (k : string) (v : ref) :
  dict_get d k = None -> dict_pop (dict_set d k v) k = d.
Proof.
  induction d as [|[k0 v0] d IH]; cbn; intros H.
  - rewrite String.eqb_refl. reflexivity.
  - destruct (String.eqb k0 k) eqn:E; [discriminate|].
    cbn. rewrite E. f_equal. apply IH. exact H.
Qed.

Lemma dict_pop_absent (d : dict) (k : string) :
  dict_get d k = None -> dict_pop d k = d.
Proof.
  induction d as [|[k0 v0] d IH]; cbn; intros H; [reflexivity|].
  destruct (String.eqb k0 k) eqn:E; [discriminate|].
  f_equal. apply IH. exact H.
Qed.

(** ** The strategy API *)

(** X11: [cancel(id)] removes the pending orders filed under [id], from
    both maps, and nothing else: every other key of [entry_orders] and
    [exit_orders] keeps its order, and the trades and the accounts stay as
    they are.  The maps are dicts: no key occurs twice. *)
Theorem cancel_removes_only_id (env : Env) (position : Position.t) (id : string) :
  lib_semaphore env = false ->
  NoDup (map fst (Position.entry_orders position)) ->
  NoDup (map fst (Position.exit_orders position)) ->
  exists position' : Position.t,
    cancel env position id = Ok position' /\
    dict_get (Position.entry_orders position') id = None /\
    dict_get (Position.exit_orders position') id = None /\
    (forall k : string, k <> id ->
       dict_get (Position.entry_orders position') k
       = dict_get (Position.entry_orders position) k /\
       dict_get (Position.exit_orders position') k
       = dict_get (Position.exit_orders position) k) /\
    Position.open_trades position' = Position.open_trades position /\
    Position.order_objs position' = Position.order_objs position /\
    same_accounts position position'.
Proof.
  intros Hsem He Hx. unfold cancel. rewrite Hsem.
  eexists. split; [reflexivity|]. cbn.
  split; [apply dict_get_pop_same; exact He|].
  split; [apply dict_get_pop_same; exact Hx|].
  split.
  - intros k Hk. split; apply dict_get_pop_other; exact Hk.
  - repeat split; reflexivity.
Qed.


Lemma cancel_removes_only_id_witness :
  exists position' : Position.t,
    cancel (scenario_env percent 0) resting_entry_state "L" = Ok position' /\
    dict_get (Position.entry_orders position') "L" = None /\
    dict_get (Position.exit_orders position') "L" = None /\
    (forall k : string, k <> "L"%string ->
       dict_get (Position.entry_orders position') k
       = dict_get (Position.entry_orders resting_entry_state) k /\
       dict_get (Position.exit_orders position') k
       = dict_get (Position.exit_orders resting_entry_state) k) /\
    Position.open_trades position' = Position.open_trades resting_entry_state /\
    Position.order_objs position' = Position.order_objs resting_entry_state /\
    same_accounts resting_entry_state position'.
Proof.
  apply (cancel_removes_only_id (scenario_env percent 0) resting_entry_state "L").
  - reflexivity.
  - vm_compute. constructor; [intros [] | constructor].
  - vm_compute. constructor.
Defined.

(** X12: [entry] either leaves the ledger as it is, or files exactly one
    new order under [id] in [entry_orders]: an order of type entry, with
    [order_id = id], no [exit_id], a size that is not zero and the sign of
    that size.  It touches no other pending order and no order object that
    exists, no trade and no account. *)
Theorem entry_files_one_order (env : Env) (position position' : Position.t) (id : string)
  (direction : Direction) (qty limit stop : pyfloat) (oca_name : pystr)
  (oca_type : option Oca) (comment alert_message : pystr) :
  entry env position id direction qty limit stop oca_name oca_type comment alert_message
  = Ok position' ->
  position' = position \/
  exists order : Order.t,
    position'
    = Position.set_entry_orders
        (dict_set (Position.entry_orders position) id
           (List.length (Position.order_objs position)))
        (Position.set_order_objs (Position.order_objs position ++ [order])%list position) /\
    Order.order_type order = _order_type_entry /\
    Order.order_id order = Some id /\
    Order.exit_id order = None /\
    ~ Order.size order == 0 /\
    Order.sign order = signum (Order.size order).
Proof.
  unfold entry. intros H.
  repeat (first [case_if H
                | match type of H with
                  | match ?x with Some _ => _ | None => _ end = _ => destruct x
                  end
                | progress inv_res
                | progress cbn [alloc_order] in H]);
    subst; try (left; reflexivity);
    right; eexists; (split; [reflexivity|]); cbn;
    repeat split; try reflexivity;
    match goal with
    | E : Qeq_bool ?s 0 = false |- ~ ?s == 0 => apply Qeq_bool_neq; exact E
    end.
Qed.


Lemma entry_files_one_order_witness :
  resting_entry_state = new_Position \/
  exists order : Order.t,
    resting_entry_state
    = Position.set_entry_orders
        (dict_set (Position.entry_orders new_Position) "L"
           (List.length (Position.order_objs new_Position)))
        (Position.set_order_objs (Position.order_objs new_Position ++ [order])%list
           new_Position) /\
    Order.order_type order = _order_type_entry /\
    Order.order_id order = Some "L"%string /\
    Order.exit_id order = None /\
    ~ Order.size order == 0 /\
    Order.sign order = signum (Order.size order).
Proof.
  apply (entry_files_one_order (scenario_env percent 0) new_Position resting_entry_state
           "L" long (PNum 10) (PNum 95) PNone SNone None SNone SNone).
  vm_compute. reflexivity.
Defined.

Lemma entry_pending_maps (env : Env) (position position' : Position.t) (id : string)
  (direction : Direction) (qty limit stop : pyfloat) (oca_name : pystr)
  (oca_type : option Oca) (comment alert_message : pystr) :
  entry env position id direction qty limit stop oca_name oca_type comment alert_message
  = Ok position' ->
  (Position.entry_orders position' = Position.entry_orders position \/
   Position.entry_orders position'
   = dict_set (Position.entry_orders position) id
       (List.length (Position.order_objs position))) /\
  Position.exit_orders position' = Position.exit_orders position /\
  Position.open_trades position' = Position.open_trades position.
Proof.
  unfold entry. intros H.
  repeat (first [case_if H
                | match type of H with
                  | match ?x with Some _ => _ | None => _ end = _ => destruct x
                  end
                | progress inv_res
                | progress cbn [alloc_order] in H]);
    subst; cbn; repeat split; try reflexivity; try (left; reflexivity);
    right; reflexivity.
Qed.

(** X13: an [entry] under a fresh [id], cancelled by [cancel(id)] before
    the next bar, leaves the pending maps, the trades and the accounts as
    they were before the two calls. *)
Theorem entry_then_cancel_restores (env : Env) (position position1 : Position.t)
  (id : string) (direction : Direction) (qty limit stop : pyfloat) (oca_name : pystr)
  (oca_type : option Oca) (comment alert_message : pystr) :
  dict_get (Position.entry_orders position) id = None ->
  dict_get (Position.exit_orders position) id = None ->
  entry env position id direction qty limit stop oca_name oca_type comment alert_message
  = Ok position1 ->
  exists position2 : Position.t,
    cancel env position1 id = Ok position2 /\
    Position.entry_orders position2 = Position.entry_orders position /\
    Position.exit_orders position2 = Position.exit_orders position /\
    Position.open_trades position2 = Position.open_trades position /\
    same_accounts position position2.
Proof.
  intros He Hx H.
  pose proof (entry_accounts _ _ _ _ _ _ _ _ _ _ _ _ H) as Hacc.
  pose proof (entry_pending_maps _ _ _ _ _ _ _ _ _ _ _ _ H) as (Hmap & Hexit & Hopen).
  unfold cancel. destruct (lib_semaphore env) eqn:Hsem.
  - unfold entry in H. rewrite Hsem in H. apply Ok_inj in H. subst position1.
    eexists. split; [reflexivity|]. repeat split; reflexivity.
  - eexists. split; [reflexivity|]. cbn.
    split; [|split; [|split]].
    + destruct Hmap as [-> | ->].
      * apply dict_pop_absent. exact He.
      * apply dict_pop_set_fresh. exact He.
    + rewrite Hexit. apply dict_pop_absent. exact Hx.
    + exact Hopen.
    + revert Hacc. unfold same_accounts. cbn. auto.
Qed.

Lemma entry_then_cancel_restores_witness :
  exists position2 : Position.t,
    cancel (scenario_env percent 0) resting_entry_state "L" = Ok position2 /\
    Position.entry_orders position2 = Position.entry_orders new_Position /\
    Position.exit_orders position2 = Position.exit_orders new_Position /\
    Position.open_trades position2 = Position.open_trades new_Position /\
    same_accounts new_Position position2.
Proof.
  apply (entry_then_cancel_restores (scenario_env percent 0) new_Position
           resting_entry_state "L" long (PNum 10) (PNum 95) PNone SNone None SNone SNone).
  - reflexivity.
  - reflexivity.
  - vm_compute. reflexivity.
Defined.

Lemma foldM_state_invariant {A S : Type} (P : S -> Prop) (body : S -> A -> res S) :
  (forall s x t, body s x = Ok t -> P s -> P t) ->
  forall xs s t, foldM body xs s = Ok t -> P s -> P t.
Proof.
  intros Hbody xs. induction xs as [|x xs IH]; simpl; intros s t H Hs.
  - apply Ok_inj in H. subst. exact Hs.
  - inv_res. eauto.
Qed.


Lemma exit_step_trail_only (env : Env) (a : ExitArgs) (position : Position.t)
  (trail_price : pyfloat) (st st' : Position.t * ExitVars) :
  isinstance_NA trail_price = false ->
  _exit env a st = Ok st' ->
  exit_idle position trail_price st -> exit_idle position trail_price st'.
Proof.
  unfold _exit, exit_idle. destruct st as [p v]. cbn [fst snd].
  intros Htp H (-> & Hl & Hs & Ht). inv_res.
  case_if H.
  { apply Ok_inj in H. subst st'. cbn. auto. }
  cbn [v_limit v_stop v_trail_price] in H. rewrite Hl, Hs, Ht, Htp in H. cbn in H.
  apply Ok_inj in H. subst st'. cbn. auto.
Qed.

(** X14: [exit] with a [trail_price] but neither [limit] nor [stop] files no
    order: when the call returns, the ledger is as it was. *)
Theorem exit_trail_price_alone_files_nothing (env : Env) (position position' : Position.t)
  (a : ExitArgs) (from_entry : string) (trail_price : pyfloat) :
  isinstance_NA trail_price = false ->
  exit env position a from_entry PNA PNA trail_price = Ok position' ->
  position' = position.
Proof.
  intros Htp. unfold exit. intros H.
  case_if H; inv_res; subst; [reflexivity|].
  case_if H; inv_res; subst; [reflexivity|].
  assert (forall direction size from,
            exit_idle position trail_price
              (position,
               with_target {| v_limit := PNA; v_stop := PNA; v_trail_price := trail_price;
                              v_from_entry := Some from_entry; v_direction := 0;
                              v_size := 0 |} direction size from)) as Hstart.
  { intros. unfold exit_idle. cbn. auto. }
  assert (exit_idle position trail_price
            (position,
             {| v_limit := PNA; v_stop := PNA; v_trail_price := trail_price;
                v_from_entry := Some from_entry; v_direction := 0; v_size := 0 |}))
    as Hstart0.
  { unfold exit_idle. cbn. auto. }
  assert (forall st direction size from,
            exit_idle position trail_price st ->
            exit_idle position trail_price (fst st, with_target (snd st) direction size from))
    as Htarget.
  { intros [p v] direction size from Hst. unfold exit_idle in *. cbn in *. exact Hst. }
  case_if H.
  - destruct (dict_get _ _); inv_res; subst.
    + apply (exit_step_trail_only _ _ position trail_price) in Ha1; [|exact Htp|apply Hstart].
      apply Ha1.
    + apply (foldM_state_invariant (exit_idle position trail_price)) in Ha0.
      * apply Ha0.
      * intros s x t Hx Hs. case_if Hx.
        -- eapply exit_step_trail_only; [exact Htp | exact Hx |]. apply Htarget. exact Hs.
        -- apply Ok_inj in Hx. subst. exact Hs.
      * exact Hstart0.
  - inv_res.
    apply (foldM_state_invariant (exit_idle position trail_price)) in Ha0.
    2:{ intros s x t Hx Hs. inv_res.
        eapply exit_step_trail_only; [exact Htp | exact Hx |]. apply Htarget. exact Hs. }
    2:{ exact Hstart0. }
    case_if H; inv_res; subst; [|apply Ha0].
    apply (foldM_state_invariant (exit_idle position trail_price)) in Ha1.
    + apply Ha1.
    + intros s x t Hx Hs.
      eapply exit_step_trail_only; [exact Htp | exact Hx |]. apply Htarget. exact Hs.
    + exact Ha0.
Qed.


Lemma exit_trail_price_alone_files_nothing_witness :
  result_of (exit (scenario_env percent 0) open_long_state plain_exit_args "L" PNA PNA
               (PNum 105))
  = open_long_state.
Proof.
  apply (exit_trail_price_alone_files_nothing (scenario_env percent 0) open_long_state _
           plain_exit_args "L" (PNum 105)).
  - reflexivity.
  - vm_compute. reflexivity.
Defined.

Lemma signum_pos (x : Q) : 0 < x -> signum x = 1.
Proof.
  intros H. unfold signum.
  destruct (Qeq_bool x 0) eqn:E; [apply Qeq_bool_iff in E; lra|].
  assert (Qltb 0 x = true) as -> by (apply Qltb_iff; exact H). reflexivity.
Qed.

Lemma signum_neg (x : Q) : x < 0 -> signum x = -1.
Proof.
  intros H. unfold signum.
  destruct (Qeq_bool x 0) eqn:E; [apply Qeq_bool_iff in E; lra|].
  assert (Qltb 0 x = false) as -> by (apply Qltb_false_iff; lra). reflexivity.
Qed.

(** X15: the pyramiding limit: while a position is open with as many open
    trades as [pyramiding] allows, an [entry] in the direction of the
    position (positive quantity, positive margin) files nothing. *)
Theorem pyramiding_limit_blocks_entry (env : Env) (position : Position.t) (id : string)
  (direction : Direction) (qty : Q) (limit stop : pyfloat) (oca_name : pystr)
  (oca_type : option Oca) (comment alert_message : pystr) :
  0 < qty ->
  0 < (if Direction_eqb direction short then margin_short env else margin_long env) ->
  ~ Position.size position == 0 ->
  Position.sign position == (if Direction_eqb direction short then -1 else 1) ->
  (pyramiding env <= Z.of_nat (List.length (Position.open_trades position)))%Z ->
  entry env position id direction (PNum qty) limit stop oca_name oca_type comment
    alert_message = Ok position.
Proof.
  intros Hq Hm Hsz Hsg Hpy. unfold entry.
  destruct (lib_semaphore env); [reflexivity|].
  destruct (Position.risk_halt_trading position); [reflexivity|].
  cbn [bind].
  assert (Qle_bool qty 0 = false) as ->.
  { destruct (Qle_bool qty 0) eqn:E; [|reflexivity]. apply Qle_bool_iff in E. lra. }
  unfold pydiv.
  set (margin := if Direction_eqb direction short then margin_short env else margin_long env)
    in *.
  destruct (Qeq_bool margin 0) eqn:E0; [apply Qeq_bool_iff in E0; lra|].
  cbn [bind].
  assert (Qneb (Position.size position) 0 = true) as ->.
  { unfold Qneb. apply negb_true_iff.
    destruct (Qeq_bool (Position.size position) 0) eqn:E; [|reflexivity].
    apply Qeq_bool_iff in E. contradiction. }
  assert (Qeq_bool (Position.sign position)
            (signum (qty * (if Direction_eqb direction short then -1 else 1) / margin))
          = true) as ->.
  { apply Qeq_bool_iff. rewrite Hsg.
    destruct (Direction_eqb direction short).
    - rewrite signum_neg; [reflexivity|].
      apply Qlt_shift_div_r; [exact Hm | lra].
    - rewrite signum_pos; [reflexivity|].
      apply Qlt_shift_div_l; [exact Hm | lra]. }
  assert ((pyramiding env <=? Z.of_nat (List.length (Position.open_trades position)))%Z
          = true) as -> by (apply Z.leb_le; exact Hpy).
  reflexivity.
Qed.

Lemma pyramiding_limit_blocks_entry_witness :
  entry (scenario_env percent 0) open_long_state "L2" long (PNum 5) PNone PNone SNone
    None SNone SNone = Ok open_long_state.
Proof.
  apply (pyramiding_limit_blocks_entry (scenario_env percent 0) open_long_state "L2" long 5).
  - reflexivity.
  - reflexivity.
  - vm_compute. discriminate.
  - vm_compute. reflexivity.
  - vm_compute. discriminate.
Defined.


Lemma Qfloor_lt_iff (x : Q) (k : Z) : (Qfloor x < k)%Z <-> x < inject_Z k.
Proof.
  pose proof (Qfloor_le x) as Hl. pose proof (Qlt_floor x) as Hu.
  split; intros H.
  - assert (Qfloor x + 1 <= k)%Z as Hk by lia.
    rewrite Zle_Qle in Hk. lra.
  - destruct (Z_lt_le_dec (Qfloor x) k) as [Hlt|Hge]; [exact Hlt|].
    rewrite Zle_Qle in Hge. lra.
Qed.

Lemma round_half_even_zero_iff (f : Z) :
  (0 <= f)%Z ->
  (round_half_even (inject_Z f * (1#10)) = 0%Z <-> (f < 6)%Z).
Proof.
  intros Hf. set (y := inject_Z f * (1#10)).
  assert (0 <= inject_Z f) as Hf'.
  { change 0 with (inject_Z 0). rewrite <- Zle_Qle. exact Hf. }
  split; intros H.
  - destruct (Z_lt_le_dec f 6) as [Hlt|Hge]; [exact Hlt|]. exfalso.
    pose proof (round_half_even_lower y) as Hl. rewrite H in Hl.
    rewrite Zle_Qle in Hge. change (inject_Z 6) with 6 in Hge.
    change (inject_Z 0) with 0 in Hl. unfold y in Hl. lra.
  - assert (inject_Z f <= 5) as H5.
    { change 5 with (inject_Z 5). rewrite <- Zle_Qle. lia. }
    assert (Qfloor y = 0%Z) as Hfl.
    { assert (Qfloor y < 1)%Z by (apply Qfloor_lt_iff; change (inject_Z 1) with 1;
                                   unfold y; lra).
      assert (0 <= Qfloor y)%Z by (apply Qfloor_nonneg; unfold y; lra).
      lia. }
    unfold round_half_even. rewrite Hfl. change (inject_Z 0) with 0.
    destruct (Qltb (y - 0) (1#2)) eqn:E1; [reflexivity|].
    destruct (Qltb (1#2) (y - 0)) eqn:E2; [|reflexivity].
    apply Qltb_iff in E2. unfold y in E2. lra.
Qed.

(** Where the code, rounding the tenths to the nearest integer, puts the
    threshold: the result is zero exactly when
    [abs(qty) * size_round_factor * 10 < 6]. *)
Lemma size_round_zero_threshold (rf qty v : Q) :
  0 < rf -> _size_round rf qty = Ok v ->
  (v == 0 <-> Qabs qty * rf * 10 < 6).
Proof.
  intros Hrf H. apply size_round_steps in H; [|exact Hrf]. destruct H as [-> Hn].
  set (x := Qabs qty * rf * 10) in *.
  assert (0 <= x) as Hx.
  { unfold x. pose proof (Qabs_nonneg qty). nra. }
  pose proof (Qfloor_nonneg x Hx) as Hf.
  pose proof (round_half_even_zero_iff (Qfloor x) Hf) as Hz.
  pose proof (Qfloor_lt_iff x 6) as Hlt. change (inject_Z 6) with 6 in Hlt.
  set (n := round_half_even (inject_Z (Qfloor x) * (1#10))) in *.
  assert (0 <= inject_Z n) as Hn'.
  { change 0 with (inject_Z 0). rewrite <- Zle_Qle. exact Hn. }
  assert ((if Qltb 0 qty then 1 else -1) * (inject_Z n / rf) == 0 <-> n = 0%Z) as Hv.
  { split; intros Hv.
    - destruct (Z.eq_dec n 0) as [Hz0|Hnz]; [exact Hz0|]. exfalso.
      assert (0 < inject_Z n) as Hpos.
      { change 0 with (inject_Z 0). rewrite <- Zlt_Qlt. lia. }
      assert (0 < inject_Z n / rf) as Hq by (apply Qlt_shift_div_l; lra).
      destruct (Qltb 0 qty); lra.
    - rewrite Hv. change (inject_Z 0) with 0. unfold Qdiv. destruct (Qltb 0 qty); lra. }
  rewrite Hv, Hz. exact Hlt.
Qed.

(** X16: what [_size_round] rounds to zero, whichever way the tenths of a
    lot step are rounded: for [size_round_factor > 0] a quantity of at most
    half a lot step comes out as zero, and a quantity of a whole lot step or
    more never does. *)
Theorem size_round_zero_bounds (rf qty v : Q) :
  0 < rf -> _size_round rf qty = Ok v ->
  (Qabs qty * rf <= 1#2 -> v == 0) /\ (1 <= Qabs qty * rf -> ~ v == 0).
Proof.
  intros Hrf H. pose proof (size_round_zero_threshold rf qty v Hrf H) as Hiff.
  split; intros Hq.
  - apply Hiff. lra.
  - intros Hv. apply Hiff in Hv. lra.
Qed.

Lemma size_round_zero_bounds_witness :
  (Qabs (- (3#1000000000)) * 100000000 <= 1#2 -> -1 * (inject_Z 0 / 100000000) == 0) /\
  (1 <= Qabs (- (3#1000000000)) * 100000000 -> ~ -1 * (inject_Z 0 / 100000000) == 0).
Proof.
  apply (size_round_zero_bounds 100000000 (- (3#1000000000))).
  - reflexivity.
  - reflexivity.
Defined.

Lemma size_round_dust (rf qty v : Q) :
  0 < rf -> Qabs qty * rf * 10 < 6 -> _size_round rf qty = Ok v -> Qeq_bool v 0 = true.
Proof.
  intros Hrf Hd H. apply Qeq_bool_iff.
  unfold _size_round, pydiv in H.
  destruct (Qeq_bool rf 0) eqn:E0; [apply Qeq_bool_iff in E0; lra|].
  cbn [bind] in H. apply Ok_inj in H. subst v.
  set (x := Qabs qty * rf * 10) in *.
  assert (0 <= x) as Hx.
  { unfold x. pose proof (Qabs_nonneg qty). nra. }
  pose proof (Qfloor_nonneg x Hx) as Hf.
  assert (round_half_even (inject_Z (Qfloor x) * (1#10)) = 0%Z) as ->.
  { apply round_half_even_zero_iff; [exact Hf|].
    apply Qfloor_lt_iff. exact Hd. }
  change (inject_Z 0) with 0. unfold Qdiv. destruct (Qltb 0 qty); lra.
Qed.

Lemma signum_abs_le (x : Q) : Qabs (signum x) <= 1.
Proof.
  unfold signum. destruct (Qeq_bool x 0); [|destruct (Qltb 0 x)]; vm_compute; discriminate.
Qed.

(** X17: an [entry] whose size, [qty / margin], is below six tenths of a
    lot step files nothing: with [size_round_factor > 0] and a margin that
    is not zero the call returns and the ledger is as it was, whatever the
    risk settings. *)
Theorem dust_entry_is_dropped (env : Env) (position : Position.t) (id : string)
  (direction : Direction) (qty : Q) (limit stop : pyfloat) (oca_name : pystr)
  (oca_type : option Oca) (comment alert_message : pystr) :
  0 < size_round_factor env ->
  ~ (if Direction_eqb direction short then margin_short env else margin_long env) == 0 ->
  Qabs (qty / (if Direction_eqb direction short then margin_short env else margin_long env))
  * size_round_factor env * 10 < 6 ->
  entry env position id direction (PNum qty) limit stop oca_name oca_type comment
    alert_message = Ok position.
Proof.
  intros Hrf Hm Hd. unfold entry.
  destruct (lib_semaphore env); [reflexivity|].
  destruct (Position.risk_halt_trading position); [reflexivity|].
  cbn [bind]. destruct (Qle_bool qty 0); [reflexivity|].
  unfold pydiv at 1.
  set (margin := if Direction_eqb direction short then margin_short env else margin_long env)
    in *.
  destruct (Qeq_bool margin 0) eqn:E0; [apply Qeq_bool_iff in E0; contradiction|].
  cbn [bind].
  set (size := qty * (if Direction_eqb direction short then -1 else 1) / margin).
  assert (Qabs size == Qabs (qty / margin)) as Hsize.
  { unfold size. destruct (Direction_eqb direction short).
    - setoid_replace (qty * -1 / margin) with (- (qty / margin)) by (field; exact Hm).
      apply Qabs_opp.
    - setoid_replace (qty * 1 / margin) with (qty / margin) by (field; exact Hm).
      reflexivity. }
  destruct (_ && _ && _); [reflexivity|].
  match goal with
  | |- (if ?c then _ else _) = _ => destruct c; [reflexivity|]
  end.
  assert (forall size0 : Q, Qabs size0 <= Qabs size ->
            Qabs size0 * size_round_factor env * 10 < 6) as Hdust.
  { intros size0 H0. rewrite Hsize in H0.
    assert (Qabs size0 * size_round_factor env <= Qabs (qty / margin) * size_round_factor env)
      by (apply Qmult_le_compat_r; lra).
    lra. }
  assert (forall size0 : Q, Qabs size0 <= Qabs size ->
            (if match Position.risk_max_intraday_filled_orders position with
                | Some max_filled =>
                  (max_filled <=? Position.risk_intraday_filled_orders position)%Z
                | None => false
                end
             then Ok position
             else
               do size1 <- _size_round (size_round_factor env) size0;
               if Qeq_bool size1 0 then Ok position
               else
                 do limit <-
                   (if is_None limit then Ok limit
                    else _price_round (mintick env) limit
                           (if Direction_eqb direction short then -1 else 1));
                 do stop <-
                   (if is_None stop then Ok stop
                    else _price_round (mintick env) stop
                           (- (if Direction_eqb direction short then -1 else 1)));
                 let order :=
                   new_Order (Some id) size1 _order_type_entry None limit stop oca_name
                     oca_type comment alert_message PNone PNone None None None in
                 let '(position, r) := alloc_order position order in
                 Ok (Position.set_entry_orders
                       (dict_set (Position.entry_orders position) id r) position))
            = Ok position) as Htail.
  { intros size0 H0.
    match goal with
    | |- (if ?c then _ else _) = _ => destruct c; [reflexivity|]
    end.
    destruct (size_round_total (size_round_factor env) size0 Hrf) as [v Hv].
    rewrite Hv. cbn [bind].
    rewrite (size_round_dust _ _ _ Hrf (Hdust size0 H0) Hv). reflexivity. }
  destruct (Position.risk_max_position_size position) as [max_position_size|].
  - destruct (Qltb max_position_size (Qabs (Position.size position + size))) eqn:Emax.
    + destruct (Qle_bool _ 0) eqn:Ecap; [reflexivity|].
      apply Htail.
      apply Qltb_iff in Emax.
      assert (~ max_position_size - Qabs (Position.size position) <= 0) as Hcap.
      { intros Hc. apply Qle_bool_iff in Hc. rewrite Hc in Ecap. discriminate. }
      pose proof (Qabs_triangle (Position.size position) size) as Htri.
      pose proof (signum_abs_le size) as Hsg.
      rewrite Qabs_Qmult.
      rewrite (Qabs_pos (max_position_size - Qabs (Position.size position))) by lra.
      pose proof (Qabs_nonneg (signum size)) as Hsg0.
      assert ((max_position_size - Qabs (Position.size position)) * Qabs (signum size)
              <= (max_position_size - Qabs (Position.size position)) * 1) as Hmul.
      { rewrite (Qmult_comm _ (Qabs (signum size))), (Qmult_comm _ 1).
        apply Qmult_le_compat_r; lra. }
      lra.
    + apply Htail. lra.
  - apply Htail. lra.
Qed.

Lemma dust_entry_is_dropped_witness :
  entry (scenario_env percent 0) new_Position "L" long (PNum (59#10000000000)) PNone PNone
    SNone None SNone SNone = Ok new_Position.
Proof.
  apply (dust_entry_is_dropped (scenario_env percent 0) new_Position "L" long
           (59#10000000000)).
  - reflexivity.
  - vm_compute. discriminate.
  - vm_compute. reflexivity.
Defined.


(** *** The new-trade branch of [_fill_order] *)

Lemma mark_entry_equity_view (entry_equity : Q) (self : Position.t) :
  entry_view (mark_entry_equity entry_equity self) = entry_view self.
Proof.
  unfold mark_entry_equity. destruct (Position.open_trades self); reflexivity.
Qed.

Lemma append_trade_view (price commission : Q) (order : Order.t) (trade : Trade.t)
  (self : Position.t) :
  entry_view (append_trade price commission order trade self)
  = ((Position.open_trades self ++ [trade])%list,
     Position.size self + Trade.size trade,
     signum (Position.size self + Trade.size trade),
     Position.entry_summ self + price * Qabs (Order.size order),
     Position.netprofit self,
     Position.open_commission self + commission,
     Position.entry_orders self, Position.exit_orders self).
Proof.
  unfold append_trade. cbv zeta. destruct (pydiv _ _); reflexivity.
Qed.

Lemma remove_filled_order_entry (order : Order.t) (id : string) (self : Position.t) :
  Order.order_type order = _order_type_entry ->
  Order.order_id order = Some id -> id <> ""%string ->
  remove_filled_order order self
  = Position.set_entry_orders (dict_pop (Position.entry_orders self) id) self.
Proof.
  intros Htype Hid Hne. unfold remove_filled_order. rewrite Htype, Hid.
  cbn [OrderType_eqb optstr_truthy andb].
  assert (String.eqb id "" = false) as -> by (apply String.eqb_neq; exact Hne).
  reflexivity.
Qed.

Lemma remove_filled_order_view (order : Order.t) (self : Position.t) :
  Position.open_trades (remove_filled_order order self) = Position.open_trades self /\
  Position.size (remove_filled_order order self) = Position.size self /\
  Position.sign (remove_filled_order order self) = Position.sign self /\
  Position.entry_summ (remove_filled_order order self) = Position.entry_summ self /\
  Position.netprofit (remove_filled_order order self) = Position.netprofit self /\
  Position.open_commission (remove_filled_order order self)
  = Position.open_commission self.
Proof.
  unfold remove_filled_order.
  destruct (_ && _); [|destruct (optstr_truthy _)];
    try destruct (Order.order_id order); try destruct (Order.exit_id order);
    repeat split; reflexivity.
Qed.

Lemma reset_when_flat_open (self : Position.t) :
  Position.open_trades self <> [] -> reset_when_flat self = self.
Proof.
  unfold reset_when_flat. destruct (Position.open_trades self); [congruence | reflexivity].
Qed.


(** The new-trade branch, step by step: [s1] has the commission realized,
    [s2] the equity marks, [s3] the trade appended and [s4] the order
    removed. *)
Lemma new_trade_effect (self s1 s2 s3 s4 : Position.t) (order : Order.t) (id : string)
  (trade : Trade.t) (price commission : Q) :
  entry_view s1
  = (Position.open_trades self, Position.size self, Position.sign self,
     Position.entry_summ self, Position.netprofit self - commission,
     Position.open_commission self, Position.entry_orders self,
     Position.exit_orders self) ->
  counts_of s1 = counts_of self ->
  entry_view s2 = entry_view s1 ->
  counts_of s2 = counts_of s1 ->
  entry_view s3
  = ((Position.open_trades s2 ++ [trade])%list,
     Position.size s2 + Trade.size trade,
     signum (Position.size s2 + Trade.size trade),
     Position.entry_summ s2 + price * Qabs (Order.size order),
     Position.netprofit s2,
     Position.open_commission s2 + commission,
     Position.entry_orders s2, Position.exit_orders s2) ->
  counts_of s3 = counts_of s2 ->
  (Position.open_trades s4 = Position.open_trades s3 /\
   Position.size s4 = Position.size s3 /\
   Position.sign s4 = Position.sign s3 /\
   Position.entry_summ s4 = Position.entry_summ s3 /\
   Position.netprofit s4 = Position.netprofit s3 /\
   Position.open_commission s4 = Position.open_commission s3) ->
  counts_of s4 = counts_of s3 ->
  (id <> ""%string ->
   s4 = Position.set_entry_orders (dict_pop (Position.entry_orders s3) id) s3) ->
  Trade.size trade = Order.size order ->
  Position.open_trades s4 = (Position.open_trades self ++ [trade])%list /\
  Position.size s4 = Position.size self + Order.size order /\
  Position.sign s4 = signum (Position.size self + Order.size order) /\
  Position.entry_summ s4 = Position.entry_summ self + price * Qabs (Order.size order) /\
  Position.netprofit s4 = Position.netprofit self - commission /\
  Position.open_commission s4 = Position.open_commission self + commission /\
  counts_of s4 = counts_of self /\
  (id <> ""%string ->
   Position.entry_orders s4 = dict_pop (Position.entry_orders self) id /\
   Position.exit_orders s4 = Position.exit_orders self).
Proof.
  unfold entry_view. intros V1 C1 V2 C2 V3 C3 V4 C4 R4 T2.
  destruct V4 as (O4 & Z4 & G4 & E4 & N4 & M4).
  injection V3 as O3 Z3 G3 E3 N3 M3 D3 X3.
  injection V2 as O2 Z2 G2 E2 N2 M2 D2 X2.
  injection V1 as O1 Z1 G1 E1 N1 M1 D1 X1.
  split; [rewrite O4, O3, O2, O1; reflexivity|].
  split; [rewrite Z4, Z3, Z2, Z1, T2; reflexivity|].
  split; [rewrite G4, G3, Z2, Z1, T2; reflexivity|].
  split; [rewrite E4, E3, E2, E1; reflexivity|].
  split; [rewrite N4, N3, N2, N1; reflexivity|].
  split; [rewrite M4, M3, M2, M1; reflexivity|].
  split; [rewrite C4, C3, C2, C1; reflexivity|].
  intros Hne. rewrite (R4 Hne). split.
  - transitivity (dict_pop (Position.entry_orders s3) id); [reflexivity|].
    rewrite D3, D2, D1. reflexivity.
  - transitivity (Position.exit_orders s3); [reflexivity|].
    rewrite X3, X2, X1. reflexivity.
Qed.

(** What [_fill_order] does with an order of type entry. *)
Lemma fill_order_inner_entry (env : Env) (self self' : Position.t) (r : ref)
  (price h l : Q) (order : Order.t) :
  get_order self r = Ok order ->
  Order.order_type order = _order_type_entry ->
  _fill_order env self r price h l = Ok self' ->
  exists (trade : Trade.t) (id : string),
    Order.order_id order = Some id /\
    Position.open_trades self' = (Position.open_trades self ++ [trade])%list /\
    Trade.entry_id trade = id /\
    Trade.size trade = Order.size order /\
    Trade.entry_price trade = price /\
    entry_commission env order price = Ok (Trade.commission trade) /\
    Position.size self' = Position.size self + Order.size order /\
    Position.sign self' = signum (Position.size self + Order.size order) /\
    Position.entry_summ self'
    = Position.entry_summ self + price * Qabs (Order.size order) /\
    Position.netprofit self' = Position.netprofit self - Trade.commission trade /\
    Position.open_commission self'
    = Position.open_commission self + Trade.commission trade /\
    counts_of self' = counts_of self /\
    (id <> ""%string ->
     Position.entry_orders self' = dict_pop (Position.entry_orders self) id /\
     Position.exit_orders self' = Position.exit_orders self).
Proof.
  intros Hget Htype. unfold _fill_order. intros H. inv_res.
  rewrite Hget in Ha. apply Ok_inj in Ha. subst a.
  destruct (Qneb (Position.size self) 0 && _ && _) eqn:Eclose.
  { rewrite Htype in Eclose. cbn [OrderType_eqb negb] in Eclose.
    rewrite andb_false_r in Eclose. discriminate. }
  destruct (negb (OrderType_eqb (Order.order_type order) _order_type_close)) eqn:Enew.
  2:{ rewrite Htype in Enew. discriminate. }
  inv_res. destruct (Order.order_id order) as [id|] eqn:Eid; [|discriminate].
  apply Ok_inj in Ha0. rename a into commission. rename Ha into Hcommission.
  remember (new_Trade (Order.size order) id (bar_index env) (lib_time env) price commission
              (Order.comment order) (equity env self)) as trade eqn:Htrade.
  assert (Trade.entry_id trade = id /\ Trade.size trade = Order.size order /\
          Trade.entry_price trade = price /\ Trade.commission trade = commission)
    as (T1 & T2 & T3 & T4) by (rewrite Htrade; repeat split; reflexivity).
  clear Htrade.
  match type of Ha0 with
  | remove_filled_order _ (append_trade _ _ _ _ (mark_entry_equity ?e ?s1)) = _ =>
    pose proof (new_trade_effect self s1 (mark_entry_equity e s1)
                  (append_trade price commission order trade (mark_entry_equity e s1))
                  (remove_filled_order order
                     (append_trade price commission order trade (mark_entry_equity e s1)))
                  order id trade price commission
                  eq_refl eq_refl
                  (mark_entry_equity_view e s1)
                  (proj1 (mark_entry_equity_accounts e s1))
                  (append_trade_view price commission order trade (mark_entry_equity e s1))
                  (append_trade_counts price commission order trade
                     (mark_entry_equity e s1))
                  (remove_filled_order_view order _)
                  (proj1 (remove_filled_order_accounts order _))
                  (remove_filled_order_entry order id _ Htype Eid) T2) as Heffect
  end.
  rewrite Ha0 in Heffect. clear Ha0.
  destruct Heffect as (P1 & P2 & P3 & P4 & P5 & P6 & P7 & P8).
  assert (Position.open_trades a0 <> []) as Hopen.
  { rewrite P1. destruct (Position.open_trades self); discriminate. }
  rewrite (reset_when_flat_open a0 Hopen) in H. subst self'.
  exists trade, id. rewrite T4.
  repeat (split; [first [reflexivity | assumption]|]). exact P8.
Qed.

(** ** Filling an entry order *)

(** X18: [_fill_order] on an order of type entry never closes anything,
    whatever the position: it opens exactly one trade, of the size of the
    order at the fill price, adds the order size to [size] and its cost to
    [entry_summ], books the entry commission against [netprofit] and into
    [open_commission], leaves the counters and the closed trades alone, and
    takes an order with a non-empty id out of [entry_orders]. *)
Theorem entry_fill_opens_one_trade (env : Env) (self self' : Position.t) (r : ref)
  (price h l : Q) (order : Order.t) :
  get_order self r = Ok order ->
  Order.order_type order = _order_type_entry ->
  _fill_order env self r price h l = Ok self' ->
  exists (trade : Trade.t) (id : string),
    Order.order_id order = Some id /\
    Position.open_trades self' = (Position.open_trades self ++ [trade])%list /\
    Trade.entry_id trade = id /\
    Trade.size trade = Order.size order /\
    Trade.entry_price trade = price /\
    entry_commission env order price = Ok (Trade.commission trade) /\
    Position.size self' = Position.size self + Order.size order /\
    Position.sign self' = signum (Position.size self + Order.size order) /\
    Position.entry_summ self'
    = Position.entry_summ self + price * Qabs (Order.size order) /\
    Position.netprofit self' = Position.netprofit self - Trade.commission trade /\
    Position.open_commission self'
    = Position.open_commission self + Trade.commission trade /\
    counts_of self' = counts_of self /\
    (id <> ""%string ->
     Position.entry_orders self' = dict_pop (Position.entry_orders self) id /\
     Position.exit_orders self' = Position.exit_orders self).
Proof.
  apply fill_order_inner_entry.
Qed.

Lemma entry_fill_opens_one_trade_witness :
  exists (trade : Trade.t) (id : string),
    Order.order_id resting_order = Some id /\
    Position.open_trades
      (result_of (_fill_order (scenario_env percent 0) resting_entry_state 0%nat 95 95 95))
    = (Position.open_trades resting_entry_state ++ [trade])%list /\
    Trade.entry_id trade = id /\
    Trade.size trade = Order.size resting_order /\
    Trade.entry_price trade = 95 /\
    entry_commission (scenario_env percent 0) resting_order 95
    = Ok (Trade.commission trade) /\
    Position.size
      (result_of (_fill_order (scenario_env percent 0) resting_entry_state 0%nat 95 95 95))
    = Position.size resting_entry_state + Order.size resting_order /\
    Position.sign
      (result_of (_fill_order (scenario_env percent 0) resting_entry_state 0%nat 95 95 95))
    = signum (Position.size resting_entry_state + Order.size resting_order) /\
    Position.entry_summ
      (result_of (_fill_order (scenario_env percent 0) resting_entry_state 0%nat 95 95 95))
    = Position.entry_summ resting_entry_state + 95 * Qabs (Order.size resting_order) /\
    Position.netprofit
      (result_of (_fill_order (scenario_env percent 0) resting_entry_state 0%nat 95 95 95))
    = Position.netprofit resting_entry_state - Trade.commission trade /\
    Position.open_commission
      (result_of (_fill_order (scenario_env percent 0) resting_entry_state 0%nat 95 95 95))
    = Position.open_commission resting_entry_state + Trade.commission trade /\
    counts_of
      (result_of (_fill_order (scenario_env percent 0) resting_entry_state 0%nat 95 95 95))
    = counts_of resting_entry_state /\
    (id <> ""%string ->
     Position.entry_orders
       (result_of (_fill_order (scenario_env percent 0) resting_entry_state 0%nat 95 95 95))
     = dict_pop (Position.entry_orders resting_entry_state) id /\
     Position.exit_orders
       (result_of (_fill_order (scenario_env percent 0) resting_entry_state 0%nat 95 95 95))
     = Position.exit_orders resting_entry_state).
Proof.
  apply (entry_fill_opens_one_trade (scenario_env percent 0) resting_entry_state
           (result_of (_fill_order (scenario_env percent 0) resting_entry_state 0%nat 95 95 95))
           0%nat 95 95 95 resting_order).
  - vm_compute. reflexivity.
  - vm_compute. reflexivity.
  - vm_compute. reflexivity.
Defined.


(** *** A bar that triggers nothing *)

Lemma list_update_same {A : Type} (xs : list A) (n : nat) (x : A) :
  nth_error xs n = Some x -> list_update xs n x = xs.
Proof.
  revert n. induction xs as [|y xs IH]; intros [|n] H; cbn in *;
    try discriminate; try reflexivity.
  - injection H as ->. reflexivity.
  - f_equal. apply IH. exact H.
Qed.

Lemma put_order_same (self : Position.t) (r : ref) (order : Order.t) :
  get_order self r = Ok order -> put_order self r order = self.
Proof.
  unfold get_order, put_order. intros H.
  destruct (nth_error (Position.order_objs self) r) as [order'|] eqn:E; [|discriminate].
  apply Ok_inj in H. subst order'.
  rewrite (list_update_same _ _ _ E). destruct self. reflexivity.
Qed.

Lemma Qle_bool_false (a b : Q) : b < a -> Qle_bool a b = false.
Proof.
  intros H. destruct (Qle_bool a b) eqn:E; [|reflexivity].
  apply Qle_bool_iff in E. lra.
Qed.

Section Idle.

Variables (env : Env) (self : Position.t) (r : ref) (order : Order.t).
Hypothesis Hget : get_order self r = Ok order.
Hypothesis Hidle : out_of_reach (Position.h self) (Position.l self) order.

Lemma check_high_stop_idle : _check_high_stop env self r = Ok self.
Proof.
  destruct Hidle as (_ & _ & _ & _ & _ & _ & Hstop & _).
  unfold _check_high_stop. rewrite Hget. cbn [bind].
  destruct (Order.stop order) as [| |stop] eqn:E; try reflexivity.
  destruct (buy_side order) eqn:Eb; [|reflexivity].
  rewrite Qle_bool_false; [reflexivity|].
  apply (Hstop stop eq_refl). reflexivity.
Qed.

Lemma check_low_stop_idle : _check_low_stop env self r = Ok self.
Proof.
  destruct Hidle as (_ & _ & _ & _ & _ & _ & Hstop & _).
  unfold _check_low_stop. rewrite Hget. cbn [bind].
  destruct (Order.stop order) as [| |stop] eqn:E; try reflexivity.
  destruct (sell_side order) eqn:Eb; [|reflexivity].
  rewrite Qle_bool_false; [reflexivity|].
  apply (Hstop stop eq_refl). reflexivity.
Qed.

Lemma trail_high_idle : trail_high env self r = Ok self.
Proof.
  destruct Hidle as (_ & Htrig & Htrail & _).
  unfold trail_high. rewrite Hget. cbn [bind].
  destruct (negb (is_None (Order.trail_price order)) && _); [|reflexivity].
  destruct (Order.trail_price order) as [| |p] eqn:E.
  - rewrite Htrig. rewrite (put_order_same _ _ _ Hget). reflexivity.
  - rewrite Htrig. rewrite (put_order_same _ _ _ Hget). reflexivity.
  - exfalso. apply (Htrail p). reflexivity.
Qed.

Lemma trail_low_idle : trail_low env self r = Ok self.
Proof.
  destruct Hidle as (_ & Htrig & Htrail & _).
  unfold trail_low. rewrite Hget. cbn [bind].
  destruct (negb (is_None (Order.trail_price order)) && _); [|reflexivity].
  destruct (Order.trail_price order) as [| |p] eqn:E.
  - rewrite Htrig. rewrite (put_order_same _ _ _ Hget). reflexivity.
  - rewrite Htrig. rewrite (put_order_same _ _ _ Hget). reflexivity.
  - exfalso. apply (Htrail p). reflexivity.
Qed.

Lemma check_high_idle : _check_high env self r = Ok self.
Proof.
  destruct Hidle as (_ & _ & _ & _ & _ & _ & _ & Hlimit).
  unfold _check_high. rewrite Hget. cbn [bind].
  destruct (Order.limit order) as [| |limit] eqn:E; cbn [bind];
    try apply trail_high_idle.
  destruct (sell_side order) eqn:Eb; cbn [andb bind]; [|apply trail_high_idle].
  rewrite Qle_bool_false; [apply trail_high_idle|].
  apply (Hlimit limit eq_refl). reflexivity.
Qed.

Lemma check_low_idle : _check_low env self r = Ok self.
Proof.
  destruct Hidle as (_ & _ & _ & _ & _ & _ & _ & Hlimit).
  unfold _check_low. rewrite Hget. cbn [bind].
  destruct (Order.limit order) as [| |limit] eqn:E; cbn [bind];
    try apply trail_low_idle.
  destruct (buy_side order) eqn:Eb; cbn [andb bind]; [|apply trail_low_idle].
  rewrite Qle_bool_false; [apply trail_low_idle|].
  apply (Hlimit limit eq_refl). reflexivity.
Qed.

Lemma resolve_ticks_idle : resolve_ticks env self r = Ok self.
Proof.
  destruct Hidle as (_ & _ & _ & Hp & Hl & Ht & _).
  unfold resolve_ticks. rewrite Hget. cbn [bind].
  destruct (find_entry_price _ _); [|reflexivity].
  rewrite Hp. cbn [bind]. rewrite Hl. cbn [bind]. rewrite Ht. cbn [bind].
  rewrite (put_order_same _ _ _ Hget). reflexivity.
Qed.

Lemma first_round_idle (ohlc : bool) : first_round env ohlc self r = Ok self.
Proof.
  unfold first_round. rewrite Hget. cbn [bind].
  assert ((if OrderType_eqb (Order.order_type order) _order_type_close
              && optstr_truthy (Order.order_id order)
           then resolve_ticks env self r else Ok self) = Ok self) as ->.
  { destruct (_ && _); [apply resolve_ticks_idle | reflexivity]. }
  cbn [bind]. rewrite Hget. cbn [bind].
  rewrite (proj1 Hidle).
  destruct ohlc.
  - rewrite check_high_stop_idle. cbn [bind]. apply check_high_idle.
  - rewrite check_low_stop_idle. cbn [bind]. apply check_low_idle.
Qed.

Lemma second_round_idle (ohlc : bool) : second_round env ohlc self r = Ok self.
Proof.
  unfold second_round. rewrite Hget. cbn [bind].
  match goal with
  | |- bind (if ?c then _ else _) _ = _ =>
    assert ((if c then resolve_ticks env self r else Ok self) = Ok self) as ->
  end.
  { destruct (_ && _); [apply resolve_ticks_idle | reflexivity]. }
  cbn [bind].
  assert ((if ohlc
           then do self0 <- _check_low_stop env self r; _check_low env self0 r
           else do self0 <- _check_high_stop env self r; _check_high env self0 r)
          = Ok self) as ->.
  { destruct ohlc.
    - rewrite check_low_stop_idle. cbn [bind]. apply check_low_idle.
    - rewrite check_high_stop_idle. cbn [bind]. apply check_high_idle. }
  cbn [bind]. rewrite Hget. cbn [bind].
  destruct Hidle as (_ & -> & _). reflexivity.
Qed.

End Idle.

Lemma foldM_idle {A S : Type} (body : S -> A -> res S) (xs : list A) (s : S) :
  (forall x, In x xs -> body s x = Ok s) -> foldM body xs s = Ok s.
Proof.
  induction xs as [|x xs IH]; intros H; cbn [foldM]; [reflexivity|].
  rewrite (H x (or_introl eq_refl)). cbn [bind]. apply IH.
  intros y Hy. apply H. right. exact Hy.
Qed.


Lemma mark_open_trades_frame (todo : list Trade.t) :
  forall (self : Position.t) (done : list Trade.t),
    Position.entry_orders (mark_open_trades self todo done) = Position.entry_orders self /\
    Position.exit_orders (mark_open_trades self todo done) = Position.exit_orders self /\
    Position.order_objs (mark_open_trades self todo done) = Position.order_objs self /\
    Position.new_closed_trades (mark_open_trades self todo done)
    = Position.new_closed_trades self.
Proof.
  induction todo as [|trade rest IH]; intros self done; cbn [mark_open_trades].
  - repeat split; reflexivity.
  - destruct (mark_open_trade self trade) as [[trade' drawdown] runup].
    match goal with
    | |- context [mark_open_trades ?s rest ?d] => destruct (IH s d) as (-> & -> & -> & ->)
    end.
    repeat split; reflexivity.
Qed.

(** What the end of [process_orders] does to a ledger [s0] on which the two
    rounds have filled nothing. *)
Lemma bar_tail_frame (s0 : Position.t) (marked final : Position.t) :
  marked = match Position.open_trades s0 with
           | [] => s0
           | _ :: _ =>
             mark_open_trades
               (Position.set_openprofit
                  (Position.size s0 * (Position.c s0 - Position.avg_price s0)) s0)
               (Position.open_trades s0) []
           end ->
  final = (if Qneb (Position.drawdown_summ marked) 0 || Qneb (Position.runup_summ marked) 0
           then
             Position.set_max_runup
               (pymax_opt (Position.max_runup
                             (Position.set_max_drawdown
                                (pymax_opt (Position.max_drawdown marked)
                                   (option_map
                                      (fun max_equity =>
                                         max_equity - Position.entry_equity marked
                                         + Position.drawdown_summ marked)
                                      (Position.max_equity marked))) marked))
                  (option_map
                     (fun min_equity =>
                        Position.entry_equity
                          (Position.set_max_drawdown
                             (pymax_opt (Position.max_drawdown marked)
                                (option_map
                                   (fun max_equity =>
                                      max_equity - Position.entry_equity marked
                                      + Position.drawdown_summ marked)
                                   (Position.max_equity marked))) marked)
                        - min_equity
                        + Position.runup_summ
                            (Position.set_max_drawdown
                               (pymax_opt (Position.max_drawdown marked)
                                  (option_map
                                     (fun max_equity =>
                                        max_equity - Position.entry_equity marked
                                        + Position.drawdown_summ marked)
                                     (Position.max_equity marked))) marked))
                     (Position.min_equity
                        (Position.set_max_drawdown
                           (pymax_opt (Position.max_drawdown marked)
                              (option_map
                                 (fun max_equity =>
                                    max_equity - Position.entry_equity marked
                                    + Position.drawdown_summ marked)
                                 (Position.max_equity marked))) marked))))
               (Position.set_max_drawdown
                  (pymax_opt (Position.max_drawdown marked)
                     (option_map
                        (fun max_equity =>
                           max_equity - Position.entry_equity marked
                           + Position.drawdown_summ marked)
                        (Position.max_equity marked))) marked)
           else marked) ->
  Position.entry_orders final = Position.entry_orders s0 /\
  Position.exit_orders final = Position.exit_orders s0 /\
  Position.order_objs final = Position.order_objs s0 /\
  Position.new_closed_trades final = Position.new_closed_trades s0 /\
  same_accounts s0 final.
Proof.
  intros Hmarked Hfinal.
  assert (Position.entry_orders marked = Position.entry_orders s0 /\
          Position.exit_orders marked = Position.exit_orders s0 /\
          Position.order_objs marked = Position.order_objs s0 /\
          Position.new_closed_trades marked = Position.new_closed_trades s0 /\
          same_accounts s0 marked) as (M1 & M2 & M3 & M4 & M5).
  { rewrite Hmarked. destruct (Position.open_trades s0) eqn:E.
    - repeat split; reflexivity.
    - match goal with
      | |- context [mark_open_trades ?s ?t ?d] =>
        pose proof (mark_open_trades_accounts t s d) as Hm;
        destruct (mark_open_trades_frame t s d) as (F1 & F2 & F3 & F4)
      end.
      cbv zeta in Hm.
      destruct Hm as (A1 & A2 & A3 & A4 & A5 & A6 & A7 & A8 & A9 & A10 & A11 & A12 & A13).
      split; [exact F1|]. split; [exact F2|]. split; [exact F3|]. split; [exact F4|].
      unfold same_accounts.
      rewrite A1, A2, A3, A4, A5, A6, A7, A8, A9, A10, A11, A12, A13, E.
      repeat split; reflexivity. }
  clear Hmarked.
  assert (Position.entry_orders final = Position.entry_orders marked /\
          Position.exit_orders final = Position.exit_orders marked /\
          Position.order_objs final = Position.order_objs marked /\
          Position.new_closed_trades final = Position.new_closed_trades marked /\
          same_accounts marked final) as (N1 & N2 & N3 & N4 & N5).
  { rewrite Hfinal. destruct (_ || _); repeat split; reflexivity. }
  clear Hfinal.
  rewrite N1, N2, N3, N4, M1, M2, M3, M4.
  repeat (split; [reflexivity|]).
  eapply same_accounts_trans; eassumption.
Qed.

(** ** Bars *)

(** X19: a bar that reaches no trigger fills nothing.  When every pending
    order is out of reach of the bar's rounded high and low,
    [process_orders] returns, and the pending maps, the order objects and
    the accounts (position, realized sums, counters, closed trades, sizes
    of the open trades) are as they were; no trade was closed in the
    bar. *)
Theorem idle_bar_fills_nothing (env : Env) (self : Position.t) :
  (forall r : ref, In r (pending_orders self) ->
     exists order : Order.t,
       get_order self r = Ok order /\ out_of_reach (bar_high env) (bar_low env) order) ->
  exists self' : Position.t,
    process_orders env self = Ok self' /\
    Position.entry_orders self' = Position.entry_orders self /\
    Position.exit_orders self' = Position.exit_orders self /\
    Position.order_objs self' = Position.order_objs self /\
    Position.new_closed_trades self' = [] /\
    same_accounts self self'.
Proof.
  intros Hpending. unfold process_orders. cbv zeta.
  rewrite foldM_idle.
  2:{ intros r Hr. destruct (Hpending r Hr) as (order & Hg & Hi).
      apply (first_round_idle env _ r order); [exact Hg | exact Hi]. }
  cbn [bind].
  rewrite foldM_idle.
  2:{ intros r Hr. destruct (Hpending r Hr) as (order & Hg & Hi).
      apply (second_round_idle env _ r order); [exact Hg | exact Hi]. }
  cbn [bind].
  match goal with
  | |- context [match Position.open_trades ?s with _ => _ end] =>
    remember s as s0 eqn:Hs0
  end.
  match goal with
  | |- context [Qneb (Position.drawdown_summ ?m) 0] => remember m as marked eqn:Hmarked
  end.
  match goal with
  | |- exists self', foldM _ (Position.new_closed_trades ?f) ?f = _ /\ _ =>
    remember f as final eqn:Hfinal
  end.
  destruct (bar_tail_frame s0 marked final Hmarked Hfinal) as (F1 & F2 & F3 & F4 & F5).
  clear Hmarked Hfinal.
  assert (Position.entry_orders s0 = Position.entry_orders self /\
          Position.exit_orders s0 = Position.exit_orders self /\
          Position.order_objs s0 = Position.order_objs self /\
          Position.new_closed_trades s0 = [] /\
          same_accounts self s0) as (S1 & S2 & S3 & S4 & S5).
  { rewrite Hs0. repeat split; reflexivity. }
  clear Hs0.
  exists final. rewrite F4, S4. cbn [foldM].
  split; [reflexivity|].
  rewrite F1, F2, F3, S1, S2, S3.
  repeat (split; [reflexivity|]).
  eapply same_accounts_trans; eassumption.
Qed.

Lemma idle_bar_fills_nothing_witness :
  exists self' : Position.t,
    process_orders (scenario_env percent 0) resting_entry_state = Ok self' /\
    Position.entry_orders self' = Position.entry_orders resting_entry_state /\
    Position.exit_orders self' = Position.exit_orders resting_entry_state /\
    Position.order_objs self' = Position.order_objs resting_entry_state /\
    Position.new_closed_trades self' = [] /\
    same_accounts resting_entry_state self'.
Proof.
  apply (idle_bar_fills_nothing (scenario_env percent 0) resting_entry_state).
  intros r Hr. vm_compute in Hr. destruct Hr as [<- | []].
  exists resting_order. split; [vm_compute; reflexivity|].
  unfold out_of_reach.
  split; [reflexivity|]. split; [reflexivity|].
  split; [intros p Hp; vm_compute in Hp; discriminate|].
  split; [reflexivity|]. split; [reflexivity|]. split; [reflexivity|].
  split.
  - intros stop Hs. vm_compute in Hs. discriminate.
  - intros limit Hl. vm_compute in Hl. injection Hl as <-.
    split; intros Hside; vm_compute in Hside; [discriminate | vm_compute; reflexivity].
Defined.


(** ** Reset *)

Lemma reset_sound (self : Position.t) : accounts_sound (reset self).
Proof.
  unfold accounts_sound, counters_balance, gross_nonnegative, ring_bounded, sign_of_size,
    average_price_consistent.
  cbn. repeat split; try reflexivity; try lra; lia.
Qed.

(** X20: [Position.reset()] re-establishes the invariants of the ledger,
    whatever state it is called in: after a reset, every sequence of calls
    that completes leaves the outcome counters adding up to
    [closed_trades_count], non-negative gross sums (floats as exact
    rationals), the ring of closed trades as long as [min(count, 9000)] and
    [sign] the sign of [size]. *)
Theorem reset_restores_invariants (steps : list (Env * Op))
  (position position' : Position.t) :
  run steps (reset position) = Ok position' ->
  (Position.wintrades position' + Position.eventrades position'
   + Position.losstrades position' = Position.closed_trades_count position')%Z /\
  (0 <= Position.grossprofit position' /\ 0 <= Position.grossloss position') /\
  Z.of_nat (List.length (Position.closed_trades position'))
  = Z.min (Position.closed_trades_count position') 9000 /\
  Position.sign position' = signum (Position.size position').
Proof.
  intros H.
  pose proof (run_sound _ _ _ H (reset_sound position)) as (Hb & Hg & [Hr _] & Hs & _).
  repeat split; try assumption; apply Hg.
Qed.

Lemma reset_restores_invariants_witness :
  (Position.wintrades (result_of (run sample_run (reset unmatched_close_state)))
   + Position.eventrades (result_of (run sample_run (reset unmatched_close_state)))
   + Position.losstrades (result_of (run sample_run (reset unmatched_close_state)))
   = Position.closed_trades_count
       (result_of (run sample_run (reset unmatched_close_state))))%Z /\
  (0 <= Position.grossprofit (result_of (run sample_run (reset unmatched_close_state))) /\
   0 <= Position.grossloss (result_of (run sample_run (reset unmatched_close_state)))) /\
  Z.of_nat (List.length
              (Position.closed_trades
                 (result_of (run sample_run (reset unmatched_close_state)))))
  = Z.min (Position.closed_trades_count
             (result_of (run sample_run (reset unmatched_close_state)))) 9000 /\
  Position.sign (result_of (run sample_run (reset unmatched_close_state)))
  = signum (Position.size (result_of (run sample_run (reset unmatched_close_state)))).
Proof.
  apply (reset_restores_invariants sample_run unmatched_close_state).
  vm_compute. reflexivity.
Defined.

(** *** The cap on the position size *)

Lemma size_round_error (rf qty v : Q) :
  0 < rf -> _size_round rf qty = Ok v -> Qabs (v - qty) <= (3#5) / rf.
Proof.
  intros Hrf H. apply size_round_steps in H; [|exact Hrf]. destruct H as [-> Hn].
  set (x := Qabs qty * rf * 10) in *.
  set (n := round_half_even (inject_Z (Qfloor x) * (1#10))) in *.
  pose proof (Qfloor_le x) as Hfl.
  pose proof (Qlt_floor x) as Hfu. rewrite inject_Z_plus in Hfu.
  change (inject_Z 1) with 1 in Hfu.
  pose proof (round_half_even_upper (inject_Z (Qfloor x) * (1#10))) as Hu.
  pose proof (round_half_even_lower (inject_Z (Qfloor x) * (1#10))) as Hl.
  fold n in Hu, Hl.
  assert (inject_Z n / rf - Qabs qty <= (1#2) / rf) as Hup.
  { apply Qle_shift_div_l; [exact Hrf|].
    setoid_replace ((inject_Z n / rf - Qabs qty) * rf) with (inject_Z n - Qabs qty * rf)
      by (field; lra).
    unfold x in *. lra. }
  assert (- ((3#5) / rf) <= inject_Z n / rf - Qabs qty) as Hlow.
  { setoid_replace (- ((3#5) / rf)) with ((- (3#5)) / rf) by (field; lra).
    apply Qle_shift_div_r; [exact Hrf|].
    setoid_replace ((inject_Z n / rf - Qabs qty) * rf) with (inject_Z n - Qabs qty * rf)
      by (field; lra).
    unfold x in *. lra. }
  assert ((1#2) / rf <= (3#5) / rf) as Hhalf.
  { apply Qle_shift_div_l; [exact Hrf|].
    setoid_replace ((1#2) / rf * rf) with (1#2) by (field; lra). lra. }
  clearbody n. clear Hu Hl Hfl Hfu. clearbody x.
  set (q := inject_Z n / rf) in *. clearbody q.
  set (e := (3#5) / rf) in *. clearbody e.
  set (e2 := (1#2) / rf) in *. clearbody e2.
  apply Qabs_Qle_condition.
  destruct (Qltb 0 qty) eqn:E.
  - apply Qltb_iff in E. rewrite (Qabs_pos qty) in Hup, Hlow by lra. split; lra.
  - apply Qltb_false_iff in E. rewrite (Qabs_neg qty) in Hup, Hlow by lra. split; lra.
Qed.

Lemma nth_error_at_length {A : Type} (xs : list A) :
  nth_error xs (List.length xs) = None.
Proof. apply nth_error_None. lia. Qed.

Lemma nth_error_appended {A : Type} (xs : list A) (x : A) :
  nth_error (xs ++ [x])%list (List.length xs) = Some x.
Proof.
  rewrite nth_error_app2 by lia. rewrite Nat.sub_diag. reflexivity.
Qed.

(** X21: the cap [risk_max_position_size]: the order that [entry] creates
    (the new object in the order store) would take the position to at most
    the cap, up to the rounding of the size, which is less than a lot
    step: [abs(position.size + order.size) <= cap + 0.6 / size_round_factor]. *)
Theorem entry_respects_max_position_size (env : Env) (position position' : Position.t)
  (id : string) (direction : Direction) (qty limit stop : pyfloat) (oca_name : pystr)
  (oca_type : option Oca) (comment alert_message : pystr) (cap : Q) (order : Order.t) :
  0 < size_round_factor env ->
  Position.risk_max_position_size position = Some cap ->
  entry env position id direction qty limit stop oca_name oca_type comment alert_message
  = Ok position' ->
  nth_error (Position.order_objs position') (List.length (Position.order_objs position))
  = Some order ->
  Qabs (Position.size position + Order.size order)
  <= cap + (3#5) / size_round_factor env.
Proof.
  intros Hrf Hcap H Hnth.
  assert (forall x : Order.t,
            Ok position = Ok position' ->
            Qabs (Position.size position + Order.size x)
            <= cap + (3#5) / size_round_factor env) as Hnoop.
  { intros x Hx. apply Ok_inj in Hx. subst position'.
    rewrite nth_error_at_length in Hnth. discriminate. }
  unfold entry in H.
  destruct (lib_semaphore env); [exact (Hnoop order H)|].
  destruct (Position.risk_halt_trading position); [exact (Hnoop order H)|].
  inv_res.
  case_if H; [exact (Hnoop order H)|].
  inv_res. rename a0 into size.
  case_if H; [exact (Hnoop order H)|].
  case_if H; [exact (Hnoop order H)|].
  rewrite Hcap in H.
  assert (forall size0 : Q,
            Qabs (Position.size position + size0) <= cap ->
            (if match Position.risk_max_intraday_filled_orders position with
                | Some max_filled =>
                  (max_filled <=? Position.risk_intraday_filled_orders position)%Z
                | None => false
                end
             then Ok position
             else
               do size1 <- _size_round (size_round_factor env) size0;
               if Qeq_bool size1 0 then Ok position
               else
                 do limit <-
                   (if is_None limit then Ok limit
                    else _price_round (mintick env) limit
                           (if Direction_eqb direction short then -1 else 1));
                 do stop <-
                   (if is_None stop then Ok stop
                    else _price_round (mintick env) stop
                           (- (if Direction_eqb direction short then -1 else 1)));
                 let order :=
                   new_Order (Some id) size1 _order_type_entry None limit stop oca_name
                     oca_type comment alert_message PNone PNone None None None in
                 let '(position, r) := alloc_order position order in
                 Ok (Position.set_entry_orders
                       (dict_set (Position.entry_orders position) id r) position))
            = Ok position' ->
            Qabs (Position.size position + Order.size order)
            <= cap + (3#5) / size_round_factor env) as Htail.
  { intros size0 Hfit Ht.
    case_if Ht; [exact (Hnoop order Ht)|].
    inv_res.
    match goal with
    | Hr : _size_round _ size0 = Ok ?v |- _ =>
      pose proof (size_round_error _ _ _ Hrf Hr) as Herr; clear Hr; rename v into size1
    end.
    case_if Ht; [exact (Hnoop order Ht)|].
    inv_res. cbn [alloc_order] in Ht. apply Ok_inj in Ht.
    rewrite <- Ht in Hnth.
    cbn [Position.order_objs Position.set_entry_orders Position.set_order_objs] in Hnth.
    rewrite nth_error_appended in Hnth. injection Hnth as <-.
    cbn [Order.size new_Order].
    setoid_replace (Position.size position + size1)
      with ((Position.size position + size0) + (size1 - size0)) by ring.
    pose proof (Qabs_triangle (Position.size position + size0) (size1 - size0)).
    lra. }
  destruct (Qltb cap (Qabs (Position.size position + size))) eqn:Ecap.
  - destruct (Qle_bool (cap - Qabs (Position.size position)) 0) eqn:Ezero;
      [exact (Hnoop order H)|].
    refine (Htail _ _ H).
    assert (0 < cap - Qabs (Position.size position)) as Hroom.
    { destruct (Qlt_le_dec 0 (cap - Qabs (Position.size position))) as [Hlt|Hle];
        [exact Hlt|].
      apply Qle_bool_iff in Hle. rewrite Hle in Ezero. discriminate. }
    pose proof (Qabs_triangle (Position.size position)
                  ((cap - Qabs (Position.size position)) * signum size)) as Htri.
    rewrite Qabs_Qmult in Htri.
    rewrite (Qabs_pos (cap - Qabs (Position.size position))) in Htri by lra.
    pose proof (signum_abs_le size) as Hsg.
    assert ((cap - Qabs (Position.size position)) * Qabs (signum size)
            <= (cap - Qabs (Position.size position)) * 1) as Hmul.
    { rewrite (Qmult_comm _ (Qabs (signum size))), (Qmult_comm _ 1).
      apply Qmult_le_compat_r; lra. }
    lra.
  - refine (Htail _ _ H). apply Qltb_false_iff in Ecap. exact Ecap.
Qed.

Lemma entry_respects_max_position_size_witness :
  Qabs (Position.size capped_state + Order.size (order_or_blank capped_entry_state 0%nat))
  <= 12 + (3#5) / size_round_factor (scenario_env percent 0).
Proof.
  apply (entry_respects_max_position_size (scenario_env percent 0) capped_state
           capped_entry_state "L" long (PNum 20) PNone PNone SNone None SNone SNone 12
           (order_or_blank capped_entry_state 0%nat)).
  - reflexivity.
  - reflexivity.
  - vm_compute. reflexivity.
  - vm_compute. reflexivity.
Defined.


(** *** What [exit] and [close] file *)

Lemma dict_get_set_other (d : dict) (k k' : string) (v : ref) :
  k' <> k -> dict_get (dict_set d k v) k' = dict_get d k'.
Proof.
  intros Hne. induction d as [|[k0 v0] d IH]; cbn.
  - assert (String.eqb k k' = false) as ->; [|reflexivity].
    apply String.eqb_neq. congruence.
  - destruct (String.eqb k0 k) eqn:E.
    + apply String.eqb_eq in E. subst k0. cbn.
      assert (String.eqb k k' = false) as ->; [|reflexivity].
      apply String.eqb_neq. congruence.
    + cbn. destruct (String.eqb k0 k'); [reflexivity | exact IH].
Qed.

Lemma exit_frame_refl (id : string) (s : Position.t * ExitVars) : exit_frame id s s.
Proof.
  unfold exit_frame. repeat split; try reflexivity.
  exists []. split; [rewrite app_nil_r; reflexivity | constructor].
Qed.

Lemma exit_frame_trans (id : string) (s t u : Position.t * ExitVars) :
  exit_frame id s t -> exit_frame id t u -> exit_frame id s u.
Proof.
  unfold exit_frame.
  intros (E1 & O1 & K1 & a1 & A1 & F1) (E2 & O2 & K2 & a2 & A2 & F2).
  split; [congruence|]. split; [congruence|]. split.
  - intros k Hk. rewrite (K2 k Hk). apply K1. exact Hk.
  - exists (a1 ++ a2)%list. split.
    + rewrite A2, A1, app_assoc. reflexivity.
    + apply Forall_app. split; assumption.
Qed.

Lemma exit_frame_target (id : string) (s : Position.t * ExitVars) (direction size : Q)
  (from : option string) :
  exit_frame id s (fst s, with_target (snd s) direction size from).
Proof.
  unfold exit_frame. cbn [fst]. repeat split; try reflexivity.
  exists []. split; [rewrite app_nil_r; reflexivity | constructor].
Qed.

Lemma exit_step_frame (env : Env) (a : ExitArgs) (st st' : Position.t * ExitVars) :
  _exit env a st = Ok st' -> exit_frame (x_id a) st st'.
Proof.
  unfold _exit. destruct st as [position v]. intros H. inv_res.
  case_if H; inv_res; subst; [apply (exit_frame_target _ (position, v))|].
  case_if H; inv_res; subst; [apply (exit_frame_target _ (position, v))|].
  cbn [alloc_order] in H. inv_res. subst.
  unfold exit_frame. cbn [fst].
  split; [reflexivity|]. split; [reflexivity|]. split.
  - intros k Hk. cbn. apply dict_get_set_other. exact Hk.
  - eexists. split; [reflexivity|]. constructor; [|constructor]. split; reflexivity.
Qed.

(** X22: [exit] touches nothing but [exit_orders[id]]: when the call
    returns, [entry_orders] and the open trades are as they were, every key
    of [exit_orders] other than [id] keeps its order, every order object
    that existed is unchanged, and every order object the call created is of
    type close with [exit_id = id]. *)
Theorem exit_touches_only_its_key (env : Env) (position position' : Position.t)
  (a : ExitArgs) (from_entry : string) (limit stop trail_price : pyfloat) :
  exit env position a from_entry limit stop trail_price = Ok position' ->
  Position.entry_orders position' = Position.entry_orders position /\
  Position.open_trades position' = Position.open_trades position /\
  (forall k : string, k <> x_id a ->
     dict_get (Position.exit_orders position') k
     = dict_get (Position.exit_orders position) k) /\
  exists added : list Order.t,
    Position.order_objs position' = (Position.order_objs position ++ added)%list /\
    Forall (fun order => Order.order_type order = _order_type_close /\
                         Order.exit_id order = Some (x_id a)) added.
Proof.
  pose (R := exit_frame (x_id a)).
  assert (forall s, R s s) as Hrefl by (intros s; apply exit_frame_refl).
  assert (forall s t u, R s t -> R t u -> R s u)
    as Htrans by (intros s t u; apply exit_frame_trans).
  set (v0 := {| v_limit := limit; v_stop := stop; v_trail_price := trail_price;
                v_from_entry := Some from_entry; v_direction := 0; v_size := 0 |}).
  assert (forall st : Position.t * ExitVars,
            R (position, v0) st -> fst st = position' ->
            Position.entry_orders position' = Position.entry_orders position /\
            Position.open_trades position' = Position.open_trades position /\
            (forall k : string, k <> x_id a ->
               dict_get (Position.exit_orders position') k
               = dict_get (Position.exit_orders position) k) /\
            exists added : list Order.t,
              Position.order_objs position' = (Position.order_objs position ++ added)%list /\
              Forall (fun order => Order.order_type order = _order_type_close /\
                                   Order.exit_id order = Some (x_id a)) added) as Hout.
  { intros st Hst <-. exact Hst. }
  unfold exit. fold v0. intros H.
  case_if H; [apply Ok_inj in H; exact (Hout (position, v0) (Hrefl _) H)|].
  inv_res.
  case_if H; [apply Ok_inj in H; exact (Hout (position, v0) (Hrefl _) H)|].
  case_if H.
  - destruct (dict_get _ _); inv_res.
    + match goal with
      | Hx : _exit _ _ (position, ?v) = Ok ?st, He : fst ?st = position' |- _ =>
        apply exit_step_frame in Hx; refine (Hout st _ He);
        apply (Htrans _ (position, v)); [|exact Hx]
      end.
      apply (exit_frame_target _ (position, v0)).
    + match goal with
      | Hf : foldM _ _ _ = Ok ?st, He : fst ?st = position' |- _ =>
        apply (foldM_preserves R) in Hf; auto; [exact (Hout st Hf He)|]
      end.
      intros s x t Hx. case_if Hx.
      * apply exit_step_frame in Hx.
        eapply Htrans; [|exact Hx]. apply exit_frame_target.
      * apply Ok_inj in Hx. subst. apply Hrefl.
  - inv_res.
    match goal with
    | Hf : foldM _ (dict_values _) _ = Ok ?st |- _ =>
      apply (foldM_preserves R) in Hf; auto; [rename Hf into Hfirst; rename st into st1|]
    end.
    2:{ intros s x t Hx. inv_res. apply exit_step_frame in Hx.
        eapply Htrans; [|exact Hx]. apply exit_frame_target. }
    case_if H; inv_res; [|exact (Hout st1 Hfirst H)].
    match goal with
    | Hf : foldM _ _ st1 = Ok ?st, He : fst ?st = position' |- _ =>
      apply (foldM_preserves R) in Hf; auto;
        [refine (Hout st _ He); eapply Htrans; eassumption|]
    end.
    intros s x t Hx. apply exit_step_frame in Hx.
    eapply Htrans; [|exact Hx]. apply exit_frame_target.
Qed.

Lemma exit_touches_only_its_key_witness :
  Position.entry_orders
    (result_of (exit (scenario_env percent 0) open_long_state plain_exit_args "L"
                  (PNum 110) PNA PNA))
  = Position.entry_orders open_long_state /\
  Position.open_trades
    (result_of (exit (scenario_env percent 0) open_long_state plain_exit_args "L"
                  (PNum 110) PNA PNA))
  = Position.open_trades open_long_state /\
  (forall k : string, k <> x_id plain_exit_args ->
     dict_get (Position.exit_orders
                 (result_of (exit (scenario_env percent 0) open_long_state plain_exit_args
                               "L" (PNum 110) PNA PNA))) k
     = dict_get (Position.exit_orders open_long_state) k) /\
  exists added : list Order.t,
    Position.order_objs
      (result_of (exit (scenario_env percent 0) open_long_state plain_exit_args "L"
                    (PNum 110) PNA PNA))
    = (Position.order_objs open_long_state ++ added)%list /\
    Forall (fun order => Order.order_type order = _order_type_close /\
                         Order.exit_id order = Some (x_id plain_exit_args)) added.
Proof.
  apply (exit_touches_only_its_key (scenario_env percent 0) open_long_state _
           plain_exit_args "L" (PNum 110) PNA PNA).
  vm_compute. reflexivity.
Defined.

Lemma size_round_sign (rf qty v : Q) :
  0 < rf -> _size_round rf qty = Ok v -> ~ v == 0 ->
  (0 < qty -> 0 < v) /\ (qty <= 0 -> v < 0).
Proof.
  intros Hrf H Hv. apply size_round_steps in H; [|exact Hrf]. destruct H as [-> Hn].
  set (n := round_half_even _) in *. clearbody n.
  assert (0 <= inject_Z n) as Hn'.
  { change 0 with (inject_Z 0). rewrite <- Zle_Qle. exact Hn. }
  assert (0 <= inject_Z n / rf) as Hq by (apply Qle_shift_div_l; lra).
  destruct (Qltb 0 qty) eqn:E.
  - apply Qltb_iff in E. split; intros; lra.
  - apply Qltb_false_iff in E. split; intros; lra.
Qed.

Lemma signum_cases (x : Q) :
  (x == 0 /\ signum x = 0) \/ (0 < x /\ signum x = 1) \/ (x < 0 /\ signum x = -1).
Proof.
  unfold signum. destruct (Qeq_bool x 0) eqn:E0.
  - left. apply Qeq_bool_iff in E0. split; [exact E0 | reflexivity].
  - apply Qeq_bool_neq in E0. destruct (Qltb 0 x) eqn:E1.
    + right. left. apply Qltb_iff in E1. split; [exact E1 | reflexivity].
    + right. right. apply Qltb_false_iff in E1. split; [lra | reflexivity].
Qed.

(** X23: [close] files a market order against the position.  With
    [qty_percent] not given and [immediately] false, on a ledger whose
    [sign] is the sign of its [size], the call either leaves the ledger as
    it was or files exactly one new order under
    ["Close entry(s) order " + id]: of type close, for the trades of entry
    [id], a market order, of a size that is not zero and of the sign
    opposite to the position. *)
Theorem close_files_order_against_position (env : Env) (position position' : Position.t)
  (id : string) (comment : pystr) (qty : pyfloat) (alert_message : pystr) :
  0 < size_round_factor env ->
  Position.sign position = signum (Position.size position) ->
  close env position id comment qty PNA alert_message false = Ok position' ->
  position' = position \/
  exists order : Order.t,
    position'
    = Position.set_exit_orders
        (dict_set (Position.exit_orders position) ("Close entry(s) order " ++ id)%string
           (List.length (Position.order_objs position)))
        (Position.set_order_objs (Position.order_objs position ++ [order])%list position) /\
    Order.order_type order = _order_type_close /\
    Order.order_id order = Some id /\
    Order.exit_id order = Some ("Close entry(s) order " ++ id)%string /\
    Order.is_market_order order = true /\
    ~ Order.size order == 0 /\
    Order.sign order == - Position.sign position.
Proof.
  intros Hrf Hsign. unfold close. intros H.
  case_if H; [left; apply Ok_inj in H; auto|].
  inv_res.
  case_if H; [left; apply Ok_inj in H; auto|].
  case_if H; [left; apply Ok_inj in H; auto|].
  inv_res.
  case_if H; [left; apply Ok_inj in H; auto|].
  cbn [alloc_order] in H. apply Ok_inj in H. subst position'.
  right. eexists. split; [reflexivity|].
  cbn [new_Order Order.order_type Order.order_id Order.exit_id Order.is_market_order
         Order.size Order.sign is_None andb].
  repeat (split; [reflexivity|]).
  match goal with
  | Hz : Qeq_bool ?v 0 = false |- _ => apply Qeq_bool_neq in Hz; rename Hz into Hnz
  end.
  split; [exact Hnz|].
  match goal with
  | Hz : Qeq_bool (Position.size position) 0 = false |- _ =>
    apply Qeq_bool_neq in Hz; rename Hz into Hopen
  end.
  match goal with
  | Hr : _size_round _ ?raw = Ok ?v |- _ =>
    destruct (size_round_sign _ _ _ Hrf Hr Hnz) as [Hpos Hneg]
  end.
  rewrite Hsign.
  destruct (signum_cases (Position.size position)) as [[Hz _]|[[Hp Hs]|[Hn Hs]]];
    [contradiction | |]; rewrite Hs.
  - (* long position: the raw size is negative *)
    rewrite Hs in Hsign.
    match goal with
    | |- signum ?v == _ => assert (v < 0) as Hv
    end.
    { apply Hneg. destruct qty as [| |q]; inv_res.
      - subst. lra.
      - subst. rewrite Hsign.
        match goal with
        | Hq : Qle_bool q 0 = false |- _ =>
          assert (0 < q) by (destruct (Qlt_le_dec 0 q) as [Hl|Hl]; [exact Hl|];
                             apply Qle_bool_iff in Hl; rewrite Hl in Hq; discriminate)
        end.
        lra. }
    rewrite (signum_neg _ Hv). reflexivity.
  - rewrite Hs in Hsign.
    match goal with
    | |- signum ?v == _ => assert (0 < v) as Hv
    end.
    { apply Hpos. destruct qty as [| |q]; inv_res.
      - subst. lra.
      - subst. rewrite Hsign.
        match goal with
        | Hq : Qle_bool q 0 = false |- _ =>
          assert (0 < q) by (destruct (Qlt_le_dec 0 q) as [Hl|Hl]; [exact Hl|];
                             apply Qle_bool_iff in Hl; rewrite Hl in Hq; discriminate)
        end.
        lra. }
    rewrite (signum_pos _ Hv). reflexivity.
Qed.

Lemma close_files_order_against_position_witness :
  result_of (close (scenario_env percent 0) open_long_state "L" SNA (PNum 4) PNA SNA false)
  = open_long_state \/
  exists order : Order.t,
    result_of (close (scenario_env percent 0) open_long_state "L" SNA (PNum 4) PNA SNA false)
    = Position.set_exit_orders
        (dict_set (Position.exit_orders open_long_state) ("Close entry(s) order " ++ "L")%string
           (List.length (Position.order_objs open_long_state)))
        (Position.set_order_objs (Position.order_objs open_long_state ++ [order])%list
           open_long_state) /\
    Order.order_type order = _order_type_close /\
    Order.order_id order = Some "L"%string /\
    Order.exit_id order = Some ("Close entry(s) order " ++ "L")%string /\
    Order.is_market_order order = true /\
    ~ Order.size order == 0 /\
    Order.sign order == - Position.sign open_long_state.
Proof.
  apply (close_files_order_against_position (scenario_env percent 0) open_long_state
           (result_of (close (scenario_env percent 0) open_long_state "L" SNA (PNum 4) PNA
                         SNA false)) "L" SNA (PNum 4) SNA).
  - reflexivity.
  - vm_compute. reflexivity.
  - vm_compute. reflexivity.
Defined.

(** *** Market orders in [process_orders] *)

Lemma bar_frame_refl (p : Position.t) : bar_frame p p.
Proof. unfold bar_frame. repeat split; reflexivity. Qed.

Lemma bar_frame_trans (p q u : Position.t) :
  bar_frame p q -> bar_frame q u -> bar_frame p u.
Proof.
  unfold bar_frame. intros (A1 & A2 & A3 & A4) (B1 & B2 & B3 & B4).
  repeat split; congruence.
Qed.

Lemma mark_open_trade_key (self : Position.t) (trade : Trade.t) :
  trade_key (fst (fst (mark_open_trade self trade))) = trade_key trade.
Proof.
  unfold mark_open_trade. cbv zeta. cbn [fst]. destruct (Qltb 0 _); reflexivity.
Qed.

Lemma mark_open_trades_keys (todo : list Trade.t) :
  forall (self : Position.t) (done : list Trade.t),
    Position.size (mark_open_trades self todo done) = Position.size self /\
    map trade_key (Position.open_trades (mark_open_trades self todo done))
    = (map trade_key done ++ map trade_key todo)%list.
Proof.
  induction todo as [|trade rest IH]; intros self done; cbn [mark_open_trades].
  - cbn. rewrite app_nil_r. split; reflexivity.
  - pose proof (mark_open_trade_key self trade) as Hk.
    destruct (mark_open_trade self trade) as [[trade' drawdown] runup].
    cbn [fst] in Hk.
    match goal with
    | |- context [mark_open_trades ?s rest ?d] => destruct (IH s d) as [-> ->]
    end.
    split; [reflexivity|].
    rewrite map_app. cbn [map]. rewrite Hk, <- app_assoc. reflexivity.
Qed.

Lemma cumulate_closed_trade_frame (env : Env) (self self' : Position.t) (tr : ref) :
  cumulate_closed_trade env self tr = Ok self' -> bar_frame self self'.
Proof.
  unfold cumulate_closed_trade. intros H. inv_res. subst.
  unfold bar_frame. repeat split; reflexivity.
Qed.

(** The marking pass that ends [process_orders] keeps the pending maps,
    the size and the keys of the open trades. *)
Lemma bar_tail_keys (s0 : Position.t) (marked final : Position.t) :
  marked = match Position.open_trades s0 with
           | [] => s0
           | _ :: _ =>
             mark_open_trades
               (Position.set_openprofit
                  (Position.size s0 * (Position.c s0 - Position.avg_price s0)) s0)
               (Position.open_trades s0) []
           end ->
  final = (if Qneb (Position.drawdown_summ marked) 0 || Qneb (Position.runup_summ marked) 0
           then
             Position.set_max_runup
               (pymax_opt (Position.max_runup
                             (Position.set_max_drawdown
                                (pymax_opt (Position.max_drawdown marked)
                                   (option_map
                                      (fun max_equity =>
                                         max_equity - Position.entry_equity marked
                                         + Position.drawdown_summ marked)
                                      (Position.max_equity marked))) marked))
                  (option_map
                     (fun min_equity =>
                        Position.entry_equity
                          (Position.set_max_drawdown
                             (pymax_opt (Position.max_drawdown marked)
                                (option_map
                                   (fun max_equity =>
                                      max_equity - Position.entry_equity marked
                                      + Position.drawdown_summ marked)
                                   (Position.max_equity marked))) marked)
                        - min_equity
                        + Position.runup_summ
                            (Position.set_max_drawdown
                               (pymax_opt (Position.max_drawdown marked)
                                  (option_map
                                     (fun max_equity =>
                                        max_equity - Position.entry_equity marked
                                        + Position.drawdown_summ marked)
                                     (Position.max_equity marked))) marked))
                     (Position.min_equity
                        (Position.set_max_drawdown
                           (pymax_opt (Position.max_drawdown marked)
                              (option_map
                                 (fun max_equity =>
                                    max_equity - Position.entry_equity marked
                                    + Position.drawdown_summ marked)
                                 (Position.max_equity marked))) marked))))
               (Position.set_max_drawdown
                  (pymax_opt (Position.max_drawdown marked)
                     (option_map
                        (fun max_equity =>
                           max_equity - Position.entry_equity marked
                           + Position.drawdown_summ marked)
                        (Position.max_equity marked))) marked)
           else marked) ->
  bar_frame s0 final.
Proof.
  intros Hmarked Hfinal.
  assert (bar_frame s0 marked) as Hm.
  { rewrite Hmarked. destruct (Position.open_trades s0) eqn:E.
    - apply bar_frame_refl.
    - match goal with
      | |- context [mark_open_trades ?s ?t ?d] =>
        destruct (mark_open_trades_keys t s d) as (K1 & K2);
        destruct (mark_open_trades_frame t s d) as (F1 & F2 & _)
      end.
      unfold bar_frame. rewrite F1, F2, K1, K2, E. repeat split; reflexivity. }
  assert (bar_frame marked final) as Hf.
  { rewrite Hfinal. destruct (_ || _); unfold bar_frame; repeat split; reflexivity. }
  exact (bar_frame_trans _ _ _ Hm Hf).
Qed.

Lemma first_round_market (env : Env) (ohlc : bool) (self self' : Position.t) (r : ref)
  (order : Order.t) :
  get_order self r = Ok order ->
  Order.order_type order = _order_type_entry ->
  Order.is_market_order order = true ->
  first_round env ohlc self r = Ok self' ->
  exists (h l : Q) (flag : bool),
    fill_order env self r (market_fill_price env (Position.prev_c self) order) h l
    = Ok (self', flag).
Proof.
  intros Hget Htype Hmarket H. unfold first_round in H. inv_res.
  rewrite Hget in Ha. apply Ok_inj in Ha. subst a.
  rewrite Htype in Ha0. cbn [OrderType_eqb andb] in Ha0. apply Ok_inj in Ha0. subst a0.
  rewrite Hget in Ha1. apply Ok_inj in Ha1. subst a1.
  rewrite Hmarket in H. unfold market_fill_price.
  destruct ohlc; inv_res; split_fill; apply Ok_inj in H; subst;
    match goal with
    | Hf : fill_order _ _ _ _ ?h ?l = Ok (_, ?flag) |- _ => exists h, l, flag; exact Hf
    end.
Qed.

Lemma fill_order_flat (env : Env) (self self' : Position.t) (r : ref) (price h l : Q)
  (flag : bool) :
  Position.size self == 0 ->
  fill_order env self r price h l = Ok (self', flag) ->
  _fill_order env self r price h l = Ok self'.
Proof.
  intros Hflat. unfold fill_order. intros H. inv_res.
  assert (Qneb (Position.size self) 0 = false) as Hz.
  { unfold Qneb. apply negb_false_iff. apply Qeq_bool_iff. exact Hflat. }
  destruct (Qneb (Position.size self) 0 && _ && _) eqn:E.
  { rewrite Hz in E. discriminate. }
  inv_res. injection H as <- _. assumption.
Qed.

Lemma foldM_nil {A S : Type} (body : S -> A -> res S) (s t : S) :
  foldM body [] s = Ok t -> s = t.
Proof. cbn. apply Ok_inj. Qed.

Lemma foldM_single {A S : Type} (body : S -> A -> res S) (x : A) (s t : S) :
  foldM body [x] s = Ok t -> body s x = Ok t.
Proof.
  cbn [foldM]. intros H. inv_res. subst. assumption.
Qed.

(** X24: a market entry is filled by the next [process_orders], in its
    first round, at the rounded previous close moved by the slippage: on a
    flat ledger whose only pending order is a market order of type entry
    under a non-empty [id], when [process_orders] returns the order is gone
    from [entry_orders], [size] has grown by the order size, and the one
    open trade has the order's id and size and the entry price
    [prev_c + mintick * slippage * sign] ([prev_c] without slippage). *)
Theorem market_entry_fills_at_previous_close (env : Env) (self self' : Position.t)
  (r : ref) (id : string) (order : Order.t) :
  Position.entry_orders self = [(id, r)] ->
  Position.exit_orders self = [] ->
  Position.open_trades self = [] ->
  Position.size self == 0 ->
  get_order self r = Ok order ->
  Order.order_type order = _order_type_entry ->
  Order.order_id order = Some id ->
  id <> ""%string ->
  Order.is_market_order order = true ->
  process_orders env self = Ok self' ->
  Position.entry_orders self' = [] /\
  Position.exit_orders self' = [] /\
  Position.size self' = Position.size self + Order.size order /\
  map trade_key (Position.open_trades self')
  = [(id, Order.size order,
      market_fill_price env (round_to_mintick env (Position.prev_c self)) order)].
Proof.
  intros He Hx Ho Hz Hget Htype Hid Hne Hmarket.
  unfold process_orders. intros H. inv_res.
  match type of Ha with
  | foldM (first_round _ ?b) _ _ = _ => generalize dependent b; intros ohlc Ha Ha0
  end.
  match type of Ha with
  | foldM _ (pending_orders ?s) ?s = _ => remember s as s0 eqn:Hs0
  end.
  assert (Position.entry_orders s0 = [(id, r)] /\ Position.exit_orders s0 = [] /\
          Position.open_trades s0 = [] /\ Position.size s0 = Position.size self /\
          get_order s0 r = Ok order /\
          Position.prev_c s0 = round_to_mintick env (Position.prev_c self))
    as (He0 & Hx0 & Ho0 & Hz0 & Hget0 & Hprev0).
  { rewrite Hs0. repeat split; assumption || reflexivity. }
  clear Hs0.
  assert (pending_orders s0 = [r]) as Hp.
  { unfold pending_orders. rewrite He0, Hx0. reflexivity. }
  rewrite Hp in Ha. apply foldM_single in Ha. clear Hp.
  destruct (first_round_market _ _ _ _ _ _ Hget0 Htype Hmarket Ha) as (h & l & flag & Hfill).
  apply fill_order_flat in Hfill; [|rewrite Hz0; exact Hz].
  destruct (fill_order_inner_entry _ _ _ _ _ _ _ _ Hget0 Htype Hfill)
    as (trade & id' & Hid' & Ht & T1 & T2 & T3 & _ & P2 & _ & _ & _ & _ & _ & P8).
  rewrite Hid in Hid'. injection Hid' as <-.
  destruct (P8 Hne) as [Pe Px].
  rewrite He0 in Pe. cbn [dict_pop] in Pe. rewrite String.eqb_refl in Pe.
  rewrite Hx0 in Px. rewrite Ho0 in Ht. cbn [app] in Ht.
  rewrite Hz0 in P2. rewrite Hprev0 in T3.
  clear Ha Hfill P8 He0 Hx0 Ho0 Hz0 Hget0 Hprev0.
  assert (pending_orders a = []) as Hp.
  { unfold pending_orders. rewrite Pe, Px. reflexivity. }
  rewrite Hp in Ha0. apply foldM_nil in Ha0. subst a0. clear Hp.
  match type of H with
  | context [Qneb (Position.drawdown_summ ?m) 0] => remember m as marked eqn:Hmarked
  end.
  match type of H with
  | foldM _ (Position.new_closed_trades ?f) ?f = _ => remember f as final eqn:Hfinal
  end.
  pose proof (bar_tail_keys a marked final Hmarked Hfinal) as Htail.
  clear Hmarked Hfinal.
  apply (foldM_preserves bar_frame) in H;
    [|apply bar_frame_refl|apply bar_frame_trans
     |intros ? ? ?; apply cumulate_closed_trade_frame].
  destruct (bar_frame_trans _ _ _ Htail H) as (B1 & B2 & B3 & B4).
  rewrite <- B1, <- B2, <- B3, <- B4, Pe, Px, P2, Ht.
  cbn [map]. unfold trade_key. rewrite T1, T2, T3.
  repeat split; reflexivity.
Qed.

Lemma market_entry_fills_at_previous_close_witness :
  Position.entry_orders (result_of (process_orders (scenario_env percent 0)
                                      market_entry_state)) = [] /\
  Position.exit_orders (result_of (process_orders (scenario_env percent 0)
                                     market_entry_state)) = [] /\
  Position.size (result_of (process_orders (scenario_env percent 0) market_entry_state))
  = Position.size market_entry_state + Order.size (order_or_blank market_entry_state 0%nat) /\
  map trade_key
    (Position.open_trades (result_of (process_orders (scenario_env percent 0)
                                        market_entry_state)))
  = [("L"%string, Order.size (order_or_blank market_entry_state 0%nat),
      market_fill_price (scenario_env percent 0)
        (round_to_mintick (scenario_env percent 0) (Position.prev_c market_entry_state))
        (order_or_blank market_entry_state 0%nat))].
Proof.
  apply (market_entry_fills_at_previous_close (scenario_env percent 0) market_entry_state
           (result_of (process_orders (scenario_env percent 0) market_entry_state))
           0%nat "L" (order_or_blank market_entry_state 0%nat)).
  - reflexivity.
  - reflexivity.
  - reflexivity.
  - reflexivity.
  - vm_compute. reflexivity.
  - reflexivity.
  - reflexivity.
  - discriminate.
  - reflexivity.
  - vm_compute. reflexivity.
Defined.

(** *** A close order that takes every open trade *)

Lemma realize_commission_store (env : Env) (price size : Q) (self : Position.t)
  (closed_trade : Trade.t) (cts : Q) :
  Position.order_objs (fst (fst (realize_commission env price size self closed_trade cts)))
  = Position.order_objs self /\
  walk_store (fst (fst (realize_commission env price size self closed_trade cts)))
  = walk_store self.
Proof.
  unfold realize_commission. destruct (_ || _); split; reflexivity.
Qed.

Lemma count_closed_trade_store (closed_trade : Trade.t) (self : Position.t) :
  Position.order_objs (count_closed_trade closed_trade self) = Position.order_objs self /\
  walk_store (count_closed_trade closed_trade self) = walk_store self.
Proof.
  unfold count_closed_trade. destruct (Qeq_bool _ _); [|destruct (Qltb _ _)];
    split; reflexivity.
Qed.

Lemma average_after_close_store (closed_trade : Trade.t) (self self' : Position.t) :
  average_after_close closed_trade self = Ok self' ->
  Position.order_objs self' = Position.order_objs self /\
  walk_store self' = walk_store self.
Proof.
  unfold average_after_close. destruct (Qneb _ _); intros H; inv_res; subst;
    split; reflexivity.
Qed.

Lemma adjust_for_commission_store (pnl : Q) (closed_trade : Trade.t) (self : Position.t) :
  Position.order_objs (adjust_for_commission pnl closed_trade self)
  = Position.order_objs self /\
  walk_store (adjust_for_commission pnl closed_trade self) = walk_store self.
Proof.
  unfold adjust_for_commission. destruct (Qltb _ _); split; reflexivity.
Qed.

(** [modify_sizes], case by case: the new size is snapped to zero when it
    is close to zero, and the residual goes into the size that the trade
    and the order are moved by. *)
Lemma modify_sizes_cases (env : Env) (size : Q) (self self' : Position.t) (size' : Q) :
  modify_sizes env size self = Ok (self', size') ->
  Position.order_objs self' = Position.order_objs self /\
  walk_store self' = walk_store self /\
  exists abs_tol : Q,
    pydiv 1 (size_round_factor env) = Ok abs_tol /\
    ((isclose (Position.size self + size) 0 abs_tol = Ok true /\
      size' = size - (Position.size self + size) /\ Position.size self' = 0) \/
     (isclose (Position.size self + size) 0 abs_tol = Ok false /\
      size' = size /\ Position.size self' = Position.size self + size)).
Proof.
  unfold modify_sizes. intros H. inv_res.
  destruct a0; injection H as <- <-.
  - split; [reflexivity|]. split; [reflexivity|].
    exists a. split; [assumption|]. left. repeat split; assumption || reflexivity.
  - split; [reflexivity|]. split; [reflexivity|].
    exists a. split; [assumption|]. right. repeat split; assumption || reflexivity.
Qed.

Lemma nth_error_list_update {A : Type} (xs : list A) (n : nat) (x y : A) :
  nth_error xs n = Some y -> nth_error (list_update xs n x) n = Some x.
Proof.
  revert n. induction xs as [|z xs IH]; intros [|n] H; cbn in *; try discriminate.
  - reflexivity.
  - apply IH. exact H.
Qed.

Lemma length_list_update {A : Type} (xs : list A) (n : nat) (x : A) :
  List.length (list_update xs n x) = List.length xs.
Proof.
  revert n. induction xs as [|z xs IH]; intros [|n]; cbn; try reflexivity.
  f_equal. apply IH.
Qed.

Lemma get_put_order (self : Position.t) (r : ref) (order order' : Order.t) :
  get_order self r = Ok order -> get_order (put_order self r order') r = Ok order'.
Proof.
  unfold get_order, put_order. cbn [Position.order_objs Position.set_order_objs].
  destruct (nth_error (Position.order_objs self) r) eqn:E; [|discriminate].
  intros _. rewrite (nth_error_list_update _ _ _ _ E). reflexivity.
Qed.

Lemma get_order_same_store (p q : Position.t) (r : ref) :
  Position.order_objs p = Position.order_objs q -> get_order p r = get_order q r.
Proof. unfold get_order. intros ->. reflexivity. Qed.

(** One step of the walk for an order without [order_id] that is not yet
    used up: the trade is matched. *)
Lemma close_walk_step_take (env : Env) (r : ref) (price h l : Q) (w w' : CloseWalk)
  (trade : Trade.t) (order0 : Order.t) :
  get_order (cw_self w) r = Ok order0 ->
  Order.order_id order0 = None ->
  ~ Order.size order0 == 0 ->
  close_walk_step env r price h l w trade = Ok w' ->
  exists size size' abs_tol : Q,
    size = (if Qle_bool (Qabs (Order.size order0)) (Qabs (Trade.size trade))
            then Order.size order0 else - Trade.size trade) /\
    pydiv 1 (size_round_factor env) = Ok abs_tol /\
    ((isclose (Position.size (cw_self w) + size) 0 abs_tol = Ok true /\
      size' = size - (Position.size (cw_self w) + size) /\
      Position.size (cw_self w') = 0) \/
     (isclose (Position.size (cw_self w) + size) 0 abs_tol = Ok false /\
      size' = size /\
      Position.size (cw_self w') = Position.size (cw_self w) + size)) /\
    get_order (cw_self w') r = Ok (Order.set_size (Order.size order0 - size') order0) /\
    (Trade.size trade + size' == 0 -> cw_open_trades w' = cw_open_trades w) /\
    cw_delete w' = true /\
    walk_store (cw_self w') = walk_store (cw_self w) /\
    Position.closed_trades_count (cw_self w')
    = (Position.closed_trades_count (cw_self w) + 1)%Z.
Proof.
  intros Hget Hid Hnz. unfold close_walk_step. intros H. inv_res.
  rewrite Hget in Ha. apply Ok_inj in Ha. subst a.
  destruct (Qneb (Order.size order0) 0 && _) eqn:Ematch.
  2:{ exfalso. rewrite Hid in Ematch. cbn [is_None_str] in Ematch.
      rewrite orb_true_r, andb_true_r in Ematch.
      unfold Qneb in Ematch. apply negb_false_iff in Ematch.
      apply Qeq_bool_iff in Ematch. contradiction. }
  inv_res. destruct (Order.exit_id order0) as [order_exit_id|]; [|discriminate].
  inv_res.
  match goal with
  | Hm : modify_sizes _ _ _ = Ok ?p |- _ => destruct p as [self1 size1]; rename Hm into Hmod
  end.
  match goal with
  | Hv : average_after_close _ _ = Ok ?x |- _ => rename x into self2; rename Hv into Havg
  end.
  pose proof (modify_sizes_accounts _ _ _ _ _ Hmod) as (Hc1 & _).
  apply modify_sizes_cases in Hmod.
  destruct Hmod as (Hobjs1 & Hstore1 & abs_tol & Htol & Hcases).
  pose proof (average_after_close_store _ _ _ Havg) as [Hobjs2 Hstore2].
  apply average_after_close_spec in Havg. destruct Havg as (Hc2 & Hsz2 & _ & _).
  cbn [fst snd] in *.
  match type of Hsz2 with
  | _ = Position.size (count_closed_trade ?ct ?s) =>
    destruct (count_closed_trade_store ct s) as [Hobjs3 Hstore3];
    pose proof (count_closed_trade_spec ct s) as Hcount; cbv zeta in Hcount;
    destruct Hcount as (Hp3 & Hn3 & _ & _);
    set (counted := count_closed_trade ct s) in *
  end.
  match type of Hobjs1 with
  | _ = Position.order_objs
          (Position.set_netprofit _ (fst (fst (realize_commission ?e ?p ?s ?x ?c ?t)))) =>
    destruct (realize_commission_store e p s x c t) as [Hobjs0 Hstore0];
    destruct (realize_commission_accounts e p s x c t) as [Hc0 Hp0];
    set (realized := fst (fst (realize_commission e p s x c t))) in *
  end.
  assert (Position.order_objs self2 = Position.order_objs (cw_self w) /\
          walk_store self2 = walk_store (cw_self w) /\
          Position.size self2 = Position.size self1 /\
          Position.closed_trades_count self2
          = (Position.closed_trades_count (cw_self w) + 1)%Z /\
          Position.size realized = Position.size (cw_self w)) as (S1 & S2 & S3 & S4 & S5).
  { unfold position_of in Hp3, Hp0. unfold counts_of in Hc2, Hc1, Hc0.
    injection Hp3 as P1 _ _ _. injection Hp0 as Q1 _ _ _.
    injection Hc2 as E1 _ _ _ _ _ _. injection Hc1 as F1 _ _ _ _ _ _.
    injection Hc0 as G1 _ _ _ _ _ _.
    cbn in G1, Q1, F1.
    split; [rewrite Hobjs2, Hobjs3, Hobjs1; cbn; rewrite Hobjs0; reflexivity|].
    split; [rewrite Hstore2, Hstore3, Hstore1; unfold walk_store; cbn;
            unfold walk_store in Hstore0; cbn in Hstore0; exact Hstore0|].
    split; [rewrite Hsz2, P1; reflexivity|].
    split; [rewrite E1, Hn3, F1, G1; reflexivity|].
    exact Q1. }
  clear Hobjs2 Hstore2 Hc2 Hsz2 Hobjs3 Hstore3 Hp3 Hn3 Hobjs0 Hstore0 Hc0 Hp0 Hobjs1
        Hstore1 Hc1.
  assert (forall x : Q, Position.size (Position.set_netprofit x realized)
                        = Position.size (cw_self w)) as S6 by (intros x; exact S5).
  rewrite S6 in Hcases. clear S5 S6. clearbody counted realized.
  set (size := if Qle_bool (Qabs (Order.size order0)) (Qabs (Trade.size trade))
               then Order.size order0 else - Trade.size trade) in *.
  exists size, size1, abs_tol.
  split; [reflexivity|]. split; [exact Htol|].
  assert (forall (final : Position.t) (closed : Trade.t) (cref : ref),
            Position.order_objs final = Position.order_objs self2 ->
            get_order (put_order (put_trade final cref closed) r
                         (Order.set_size (Order.size order0 - size1) order0)) r
            = Ok (Order.set_size (Order.size order0 - size1) order0)) as Hput.
  { intros final closed cref Hf. apply (get_put_order _ _ order0).
    rewrite <- Hget. apply get_order_same_store. cbn. rewrite Hf. exact S1. }
  assert (forall (final : Position.t) (closed : Trade.t) (cref : ref),
            Position.order_objs final = Position.order_objs self2 ->
            walk_store final = walk_store self2 ->
            Position.size final = Position.size self2 ->
            Position.closed_trades_count final = Position.closed_trades_count self2 ->
            let last :=
              put_order (put_trade final cref closed) r
                (Order.set_size (Order.size order0 - size1) order0) in
            ((isclose (Position.size (cw_self w) + size) 0 abs_tol = Ok true /\
              size1 = size - (Position.size (cw_self w) + size) /\
              Position.size last = 0) \/
             (isclose (Position.size (cw_self w) + size) 0 abs_tol = Ok false /\
              size1 = size /\
              Position.size last = Position.size (cw_self w) + size)) /\
            get_order last r = Ok (Order.set_size (Order.size order0 - size1) order0) /\
            walk_store last = walk_store (cw_self w) /\
            Position.closed_trades_count last
            = (Position.closed_trades_count (cw_self w) + 1)%Z) as Hlast.
  { intros final closed cref F1 F2 F3 F4. cbv zeta.
    split; [|split; [apply Hput; exact F1|split]].
    - change (Position.size (put_order (put_trade final cref closed) r
                               (Order.set_size (Order.size order0 - size1) order0)))
        with (Position.size final).
      rewrite F3, S3. exact Hcases.
    - rewrite <- S2, <- F2. unfold walk_store, put_order, put_trade.
      cbn [Position.order_objs Position.set_order_objs Position.set_trade_objs
             Position.entry_orders Position.exit_orders Position.open_trades].
      rewrite length_list_update. reflexivity.
    - change (Position.closed_trades_count
                (put_order (put_trade final cref closed) r
                   (Order.set_size (Order.size order0 - size1) order0)))
        with (Position.closed_trades_count final).
      rewrite F4. exact S4. }
  clear Hput Hcases.
  assert (Trade.size
            (Trade.set_size
               (Trade.size (fst (split_partial env price size (1 + a) trade trade)) + size1)
               (fst (split_partial env price size (1 + a) trade trade)))
          = Trade.size trade + size1) as Hts.
  { cbn [Trade.size Trade.set_size]. rewrite split_partial_size. reflexivity. }
  case_if H; apply Ok_inj in H; subst w'; cbn [cw_self cw_delete cw_open_trades].
  - match goal with
    | |- context [put_order (put_trade ?f ?c ?t) r _] =>
      destruct (Hlast f t c eq_refl eq_refl eq_refl eq_refl) as (L1 & L2 & L3 & L4)
    end.
    split; [exact L1|]. split; [exact L2|]. split; [intros _; reflexivity|].
    split; [reflexivity|]. split; [exact L3 | exact L4].
  - match goal with
    | |- context [put_order (put_trade (adjust_for_commission ?p ?c ?s) ?cr ?t) r _] =>
      destruct (adjust_for_commission_store p c s) as [A1 A2];
      destruct (adjust_for_commission_accounts p c s) as [A3 A4];
      unfold counts_of in A3; unfold position_of in A4;
      injection A3 as A3 _ _ _ _ _ _; injection A4 as A4 _ _ _;
      destruct (Hlast (adjust_for_commission p c s) t cr A1 A2 A4 A3)
        as (L1 & L2 & L3 & L4)
    end.
    split; [exact L1|]. split; [exact L2|].
    split; [|split; [reflexivity|split; [exact L3 | exact L4]]].
    intros Hzero. exfalso.
    match goal with
    | Hq : Qeq_bool _ 0 = false |- _ => rewrite Hts in Hq; apply Qeq_bool_neq in Hq
    end.
    contradiction.
Qed.

Lemma isclose_zero_eq (a abs_tol : Q) (b : bool) :
  a == 0 -> isclose a 0 abs_tol = Ok b -> b = true.
Proof.
  intros Ha. unfold isclose. destruct (Qltb abs_tol 0); [discriminate|].
  assert (Qeq_bool a 0 = true) as -> by (apply Qeq_bool_iff; exact Ha).
  intros H. apply Ok_inj in H. symmetry. exact H.
Qed.

Lemma side_sum_nonneg (d abs_tol : Q) (trades : list Trade.t) :
  0 <= abs_tol ->
  Forall (fun t => abs_tol < d * Trade.size t) trades ->
  0 <= d * sum_sizes trades.
Proof.
  intros Htol H. induction H as [|t rest Ht _ IH]; cbn [sum_sizes]; [lra|].
  setoid_replace (d * (Trade.size t + sum_sizes rest))
    with (d * Trade.size t + d * sum_sizes rest) by ring.
  lra.
Qed.

Lemma side_sum_far (d abs_tol : Q) (trades : list Trade.t) :
  0 <= abs_tol -> trades <> [] ->
  Forall (fun t => abs_tol < d * Trade.size t) trades ->
  abs_tol < d * sum_sizes trades.
Proof.
  intros Htol Hne H. destruct H as [|t rest Ht Hrest]; [congruence|].
  pose proof (side_sum_nonneg d abs_tol rest Htol Hrest) as Hn. cbn [sum_sizes].
  setoid_replace (d * (Trade.size t + sum_sizes rest))
    with (d * Trade.size t + d * sum_sizes rest) by ring.
  lra.
Qed.

Lemma side_abs (d x : Q) : d = 1 \/ d = -1 -> 0 <= d * x -> Qabs x == d * x.
Proof.
  intros [-> | ->] H.
  - rewrite Qabs_pos; lra.
  - rewrite Qabs_neg; lra.
Qed.

(** The walk of an order without [order_id] whose size is the opposite of
    the sum of the trades, all on one side and each after the first larger
    than the tolerance: every trade is taken whole (in exact arithmetic). *)
Lemma close_walk_takes_all (env : Env) (r : ref) (price h l d abs_tol : Q) :
  d = 1 \/ d = -1 ->
  pydiv 1 (size_round_factor env) = Ok abs_tol ->
  0 <= abs_tol ->
  forall (trades : list Trade.t) (w w' : CloseWalk) (order0 : Order.t),
    Forall (fun t => 0 < d * Trade.size t) trades ->
    Forall (fun t => abs_tol < d * Trade.size t) (tl trades) ->
    get_order (cw_self w) r = Ok order0 ->
    Order.order_id order0 = None ->
    Order.size order0 == - sum_sizes trades ->
    Position.size (cw_self w) == sum_sizes trades ->
    foldM (close_walk_step env r price h l) trades w = Ok w' ->
    cw_open_trades w' = cw_open_trades w /\
    walk_store (cw_self w') = walk_store (cw_self w) /\
    Position.closed_trades_count (cw_self w')
    = (Position.closed_trades_count (cw_self w) + Z.of_nat (List.length trades))%Z /\
    (trades <> [] -> cw_delete w' = true /\ Position.size (cw_self w') = 0).
Proof.
  intros Hd Htol Htol0.
  induction trades as [|t rest IH]; intros w w' order0 Hside Hbig Hget Hid Ho Hp Hfold.
  - cbn [foldM] in Hfold. apply Ok_inj in Hfold. subst w'. cbn [List.length].
    split; [reflexivity|]. split; [reflexivity|]. split; [cbn; lia|].
    intros Hne. congruence.
  - cbn [foldM] in Hfold. inv_res. rename a into w1. rename Ha into Hstep.
    rename Hfold into Hrest.
    inversion Hside as [|t0 rest0 Ht Hside']; subst t0 rest0.
    cbn [tl] in Hbig.
    pose proof (side_sum_nonneg d abs_tol rest Htol0 Hbig) as Hrest0.
    cbn [sum_sizes] in Ho, Hp.
    assert (0 < d * (Trade.size t + sum_sizes rest)) as Hall.
    { setoid_replace (d * (Trade.size t + sum_sizes rest))
        with (d * Trade.size t + d * sum_sizes rest) by ring. lra. }
    assert (~ Order.size order0 == 0) as Hnz.
    { intros Hz. rewrite Hz in Ho.
      assert (Trade.size t + sum_sizes rest == 0) as Hsum by lra.
      rewrite Hsum in Hall. lra. }
    destruct (close_walk_step_take _ _ _ _ _ _ _ _ _ Hget Hid Hnz Hstep)
      as (size & size' & tol' & Hsize & Htol' & Hcases & Hget1 & Hopen1 & Hdel1 & Hstore1
          & Hcount1).
    rewrite Htol in Htol'. apply Ok_inj in Htol'. subst tol'.
    assert (size == - Trade.size t) as Hsz.
    { rewrite Hsize.
      destruct (Qle_bool (Qabs (Order.size order0)) (Qabs (Trade.size t))) eqn:E;
        [|reflexivity].
      apply Qle_bool_iff in E.
      rewrite Ho, Qabs_opp in E.
      rewrite (side_abs d (Trade.size t + sum_sizes rest) Hd) in E by lra.
      rewrite (side_abs d (Trade.size t) Hd) in E by lra.
      assert (d * sum_sizes rest == 0) as Hzero.
      { setoid_replace (d * (Trade.size t + sum_sizes rest))
          with (d * Trade.size t + d * sum_sizes rest) in E by ring. lra. }
      assert (sum_sizes rest == 0) as Hzero'.
      { destruct Hd as [-> | ->]; lra. }
      rewrite Ho, Hzero'. lra. }
    clear Hsize.
    assert (Position.size (cw_self w) + size == sum_sizes rest) as Hleft.
    { rewrite Hp, Hsz. ring. }
    assert (size' == - Trade.size t /\ Position.size (cw_self w1) == sum_sizes rest /\
            (rest = [] -> Position.size (cw_self w1) = 0)) as (Hsz' & Hp1 & Hflat1).
    { destruct rest as [|t2 rest2].
      - cbn [sum_sizes] in *.
        destruct Hcases as [(Hc & -> & Hs1) | (Hc & -> & Hs1)].
        + split; [lra|]. split; [rewrite Hs1; reflexivity | intros _; exact Hs1].
        + apply (isclose_zero_eq _ _ _ Hleft) in Hc. discriminate.
      - assert (abs_tol < d * sum_sizes (t2 :: rest2)) as Hfar
            by (apply side_sum_far; [exact Htol0 | discriminate | exact Hbig]).
        destruct Hcases as [(Hc & -> & Hs1) | (Hc & -> & Hs1)].
        + exfalso.
          assert (abs_tol < Qabs (Position.size (cw_self w) + size)) as Hfar'.
          { rewrite Hleft. rewrite (side_abs d _ Hd); lra. }
          rewrite (isclose_zero_far _ _ Htol0 Hfar') in Hc. discriminate.
        + split; [exact Hsz|]. split; [rewrite Hs1; exact Hleft | discriminate]. }
    clear Hcases.
    assert (cw_open_trades w1 = cw_open_trades w) as Hopen by (apply Hopen1; lra).
    assert (Forall (fun t => abs_tol < d * Trade.size t) (tl rest)) as Hbig'.
    { destruct Hbig as [|t2 rest2 _ Hbig2]; [constructor | exact Hbig2]. }
    specialize (IH w1 w' (Order.set_size (Order.size order0 - size') order0) Hside' Hbig'
                  Hget1).
    destruct IH as (I1 & I2 & I3 & I4).
    + exact Hid.
    + cbn [Order.size Order.set_size]. rewrite Ho, Hsz'. ring.
    + exact Hp1.
    + exact Hrest.
    + split; [congruence|]. split; [congruence|].
      split.
      * rewrite I3, Hcount1. cbn [List.length]. lia.
      * intros _. destruct rest as [|t2 rest2].
        -- cbn [foldM] in Hrest. apply Ok_inj in Hrest. subst w'.
           split; [exact Hdel1 | apply Hflat1; reflexivity].
        -- apply I4. discriminate.
Qed.

Lemma allocate_order_commission_store (env : Env) (cts : Q) (self self' : Position.t)
  (tr : ref) :
  allocate_order_commission env cts self tr = Ok self' ->
  walk_store self' = walk_store self.
Proof.
  unfold allocate_order_commission. intros H. inv_res. subst. reflexivity.
Qed.

(** The end of the close branch when the walk has closed something: the
    order leaves [exit_orders]; nothing else of the book changes. *)
Lemma finish_close_effect (env : Env) (order : Order.t) (w : CloseWalk)
  (self self' : Position.t) (k : string) :
  cw_delete w = true ->
  Order.exit_id order = Some k ->
  finish_close env order w self = Ok self' ->
  Position.exit_orders self' = dict_pop (Position.exit_orders self) k /\
  Position.entry_orders self' = Position.entry_orders self /\
  Position.open_trades self' = Position.open_trades self /\
  counts_of self' = counts_of self /\
  position_of self' = position_of self.
Proof.
  intros Hdel Hk H.
  pose proof (finish_close_accounts _ _ _ _ _ H) as [Hc Hp].
  unfold finish_close in H. rewrite Hdel, Hk in H.
  assert (forall s t : Position.t,
            walk_store t = walk_store s ->
            Position.exit_orders t = Position.exit_orders s /\
            Position.entry_orders t = Position.entry_orders s /\
            Position.open_trades t = Position.open_trades s) as Hstore.
  { intros s t Hst. unfold walk_store in Hst. injection Hst as _ E1 E2 E3. auto. }
  destruct (CommissionType_eqb _ _).
  - apply (foldM_preserves (fun s t => walk_store t = walk_store s)) in H.
    + destruct (Hstore _ _ H) as (E1 & E2 & E3).
      rewrite E1, E2, E3. repeat split; try reflexivity; symmetry; assumption.
    + reflexivity.
    + intros s t u Hst Htu. congruence.
    + intros s x t. apply allocate_order_commission_store.
  - apply Ok_inj in H. subst self'.
    repeat split; try reflexivity; symmetry; assumption.
Qed.

Lemma reset_when_flat_closed (self : Position.t) :
  Position.open_trades self = [] ->
  Position.open_trades (reset_when_flat self) = [] /\
  Position.avg_price (reset_when_flat self) = 0 /\
  Position.entry_summ (reset_when_flat self) = 0 /\
  Position.size (reset_when_flat self) = Position.size self /\
  Position.closed_trades_count (reset_when_flat self) = Position.closed_trades_count self /\
  Position.exit_orders (reset_when_flat self) = Position.exit_orders self /\
  Position.entry_orders (reset_when_flat self) = Position.entry_orders self.
Proof.
  intros H. unfold reset_when_flat. rewrite H. cbn. rewrite H. repeat split; reflexivity.
Qed.

(** [_fill_order] on a close order without [order_id] for the whole
    position, in exact arithmetic. *)
Lemma fill_order_inner_takes_all (env : Env) (self self' : Position.t) (r : ref)
  (price h l d abs_tol : Q) (order : Order.t) (k : string) :
  d = 1 \/ d = -1 ->
  pydiv 1 (size_round_factor env) = Ok abs_tol ->
  0 <= abs_tol ->
  get_order self r = Ok order ->
  Order.order_id order = None ->
  Order.exit_id order = Some k ->
  Order.size order == - sum_sizes (Position.open_trades self) ->
  Position.size self == sum_sizes (Position.open_trades self) ->
  Qneb (Position.size self) 0
  && negb (OrderType_eqb (Order.order_type order) _order_type_entry)
  && Qneb (Order.sign order) (Position.sign self) = true ->
  Position.open_trades self <> [] ->
  Forall (fun t => 0 < d * Trade.size t) (Position.open_trades self) ->
  Forall (fun t => abs_tol < d * Trade.size t) (tl (Position.open_trades self)) ->
  _fill_order env self r price h l = Ok self' ->
  Position.open_trades self' = [] /\
  Position.size self' = 0 /\
  Position.avg_price self' = 0 /\
  Position.entry_summ self' = 0 /\
  Position.closed_trades_count self'
  = (Position.closed_trades_count self
     + Z.of_nat (List.length (Position.open_trades self)))%Z /\
  Position.exit_orders self' = dict_pop (Position.exit_orders self) k /\
  Position.entry_orders self' = Position.entry_orders self.
Proof.
  intros Hd Htol Htol0 Hget Hid Hk Ho Hp Hbranch Hne Hside Hbig.
  unfold _fill_order. intros H. inv_res.
  rewrite Hget in Ha. apply Ok_inj in Ha. subst a.
  destruct (Qneb (Position.size self) 0 && _ && _) eqn:Eclose; [|discriminate].
  clear Hbranch. inv_res.
  match goal with
  | Hf : foldM (close_walk_step _ _ _ _ _) _ ?w0 = Ok ?w |- _ =>
    destruct (close_walk_takes_all env r price h l d abs_tol Hd Htol Htol0
                (Position.open_trades self) w0 w order Hside Hbig Hget Hid Ho Hp Hf)
      as (W1 & W2 & W3 & W4);
    destruct (W4 Hne) as [W5 W6]; clear W4 Hf; rename w into walked
  end.
  cbn [cw_open_trades cw_self] in W1, W2, W3.
  match goal with
  | Hf : finish_close _ _ _ ?s = Ok ?s' |- _ =>
    destruct (finish_close_effect _ _ _ _ _ k W5 Hk Hf) as (F1 & F2 & F3 & F4 & F5);
    clear Hf; rename s' into finished
  end.
  unfold walk_store in W2. injection W2 as _ W2e W2x _.
  unfold counts_of in F4. injection F4 as F4 _ _ _ _ _ _.
  unfold position_of in F5. injection F5 as F5 _ _ _.
  cbn [Position.exit_orders Position.entry_orders Position.open_trades
         Position.set_open_trades Position.closed_trades_count Position.size] in F1, F2, F3,
    F4, F5.
  subst a0. subst self'.
  match goal with
  | |- context [reset_when_flat ?s] =>
    assert (Position.open_trades s = []) as Hflat
      by (cbn [Position.open_trades Position.set_new_closed_trades]; congruence);
    destruct (reset_when_flat_closed s Hflat) as (R1 & R2 & R3 & R4 & R5 & R6 & R7)
  end.
  rewrite R1, R2, R3, R4, R5, R6, R7.
  cbn [Position.size Position.closed_trades_count Position.exit_orders
         Position.entry_orders Position.set_new_closed_trades].
  repeat split; try reflexivity; congruence.
Qed.

Lemma fill_order_exact (env : Env) (self self' : Position.t) (r : ref) (price h l : Q)
  (flag : bool) (order : Order.t) :
  get_order self r = Ok order ->
  Position.size self + Order.size order == 0 ->
  fill_order env self r price h l = Ok (self', flag) ->
  _fill_order env self r price h l = Ok self'.
Proof.
  intros Hget Hzero. unfold fill_order. intros H. inv_res.
  rewrite Hget in Ha. apply Ok_inj in Ha. subst a.
  assert (Qneb (Position.size self + Order.size order) 0 = false) as Hz.
  { unfold Qneb. apply negb_false_iff. apply Qeq_bool_iff. exact Hzero. }
  rewrite Hz in Ha0. apply Ok_inj in Ha0. subst a0.
  rewrite Hz in H. rewrite andb_false_r in H.
  inv_res. injection H as <- _. assumption.
Qed.

Lemma sum_sizes_nonempty (trades : list Trade.t) :
  ~ sum_sizes trades == 0 -> trades <> [].
Proof.
  intros H ->. apply H. reflexivity.
Qed.

Lemma signum_opp_differs (x : Q) : ~ x == 0 -> Qneb (signum (- x)) (signum x) = true.
Proof.
  intros Hx. unfold Qneb. apply negb_true_iff.
  destruct (signum_cases x) as [[Hz _]|[[Hp ->]|[Hn ->]]]; [contradiction| |].
  - rewrite signum_neg by lra. reflexivity.
  - rewrite signum_pos by lra. reflexivity.
Qed.

(** ** Closing the position *)

(** X25: [close_all(immediately=True)] closes a position that is held by
    one open trade.  On a ledger whose only open trade carries the whole
    position ([size] is the size of that trade and is not zero, [sign] is
    the sign of [size]), when the call returns there is no open trade,
    [size], [avg_price] and [entry_summ] are zero, the trade has been
    counted as closed, the order has been taken out of [exit_orders] again
    and [entry_orders] is untouched.  With one trade the order takes exactly
    the size of the trade, so no residual of an addition is left over. *)
Theorem close_all_flattens_position (env : Env) (self self' : Position.t)
  (trade : Trade.t) (comment alert_message : pystr) :
  lib_semaphore env = false ->
  0 < size_round_factor env ->
  Position.open_trades self = [trade] ->
  Position.size self == Trade.size trade ->
  ~ Position.size self == 0 ->
  Position.sign self = signum (Position.size self) ->
  close_all env self comment alert_message true = Ok self' ->
  Position.open_trades self' = [] /\
  Position.size self' = 0 /\
  Position.avg_price self' = 0 /\
  Position.entry_summ self' = 0 /\
  Position.closed_trades_count self' = (Position.closed_trades_count self + 1)%Z /\
  Position.exit_orders self'
  = dict_pop (dict_set (Position.exit_orders self) "Close position order"
                (List.length (Position.order_objs self))) "Close position order" /\
  Position.entry_orders self' = Position.entry_orders self.
Proof.
  intros Hsem Hrf Hone Hinv Hopen Hsign.
  assert (Position.sign self = 1 \/ Position.sign self = -1) as Hd.
  { rewrite Hsign. destruct (signum_cases (Position.size self)) as [[Hz _]|[[_ ->]|[_ ->]]];
      [contradiction | left; reflexivity | right; reflexivity]. }
  assert (0 < Position.sign self * Trade.size trade) as Hside.
  { rewrite <- Hinv, Hsign.
    destruct (signum_cases (Position.size self)) as [[Hz _]|[[Hp ->]|[Hn ->]]];
      [contradiction | lra | lra]. }
  assert (pydiv 1 (size_round_factor env) = Ok (1 / size_round_factor env)) as Htol.
  { unfold pydiv. destruct (Qeq_bool (size_round_factor env) 0) eqn:E; [|reflexivity].
    apply Qeq_bool_iff in E. lra. }
  assert (0 <= 1 / size_round_factor env) as Htol0 by (apply Qle_shift_div_l; lra).
  unfold close_all. rewrite Hsem. intros H.
  case_if H.
  { exfalso. match goal with Hq : Qeq_bool _ 0 = true |- _ => apply Qeq_bool_iff in Hq end.
    contradiction. }
  cbn [alloc_order] in H. inv_res. split_fill. apply Ok_inj in H. subst p.
  match goal with
  | Hf : fill_order _ ?p1 ?r _ _ _ = Ok _ |- _ =>
    remember p1 as placed eqn:Hplaced; rename Hf into Hfill
  end.
  set (order := new_Order None (- Position.size self) _order_type_close
                  (Some "Close position order"%string) PNone PNone SNone None comment
                  alert_message PNone PNone None None None) in *.
  assert (get_order placed (List.length (Position.order_objs self)) = Ok order /\
          Position.size placed = Position.size self /\
          Position.sign placed = Position.sign self /\
          Position.open_trades placed = [trade] /\
          Position.closed_trades_count placed = Position.closed_trades_count self /\
          Position.entry_orders placed = Position.entry_orders self /\
          Position.exit_orders placed
          = dict_set (Position.exit_orders self) "Close position order"
              (List.length (Position.order_objs self)))
    as (G1 & G2 & G3 & G4 & G5 & G6 & G7).
  { rewrite Hplaced. split; [|repeat split; try reflexivity; exact Hone].
    unfold get_order. cbn [Position.order_objs Position.set_exit_orders
                             Position.set_order_objs].
    rewrite nth_error_appended. reflexivity. }
  clear Hplaced.
  assert (Order.order_id order = None /\
          Order.exit_id order = Some "Close position order"%string /\
          Order.size order = - Position.size self /\
          Order.sign order = signum (- Position.size self) /\
          Order.order_type order = _order_type_close)
    as (O1 & O2 & O3 & O4 & O5) by (repeat split; reflexivity).
  clearbody order.
  apply (fill_order_exact _ _ _ _ _ _ _ _ _ G1) in Hfill.
  2:{ rewrite G2, O3. ring. }
  rewrite <- G5, <- G6, <- G7.
  assert (Order.size order == - sum_sizes (Position.open_trades placed)) as H1.
  { rewrite O3, G4, Hinv. cbn [sum_sizes]. ring. }
  assert (Position.size placed == sum_sizes (Position.open_trades placed)) as H2.
  { rewrite G2, G4, Hinv. cbn [sum_sizes]. ring. }
  assert (Qneb (Position.size placed) 0
          && negb (OrderType_eqb (Order.order_type order) _order_type_entry)
          && Qneb (Order.sign order) (Position.sign placed) = true) as H3.
  { rewrite G2, G3, O4, O5, Hsign. cbn [OrderType_eqb negb].
    rewrite (signum_opp_differs _ Hopen), andb_true_r.
    unfold Qneb. rewrite Heqb. reflexivity. }
  assert (Position.open_trades placed <> []) as Hne by (rewrite G4; discriminate).
  assert (Forall (fun t => 0 < Position.sign self * Trade.size t)
            (Position.open_trades placed)) as Hall.
  { rewrite G4. constructor; [exact Hside | constructor]. }
  assert (Forall (fun t => 1 / size_round_factor env < Position.sign self * Trade.size t)
            (tl (Position.open_trades placed))) as Hbig.
  { rewrite G4. constructor. }
  pose proof (fill_order_inner_takes_all env placed self' _ _ _ _ (Position.sign self)
                (1 / size_round_factor env) order "Close position order" Hd Htol Htol0
                G1 O1 O2 H1 H2 H3 Hne Hall Hbig Hfill) as Hall'.
  rewrite G4 in Hall'. exact Hall'.
Qed.

Lemma close_all_flattens_position_witness :
  let self' := result_of (close_all (scenario_env percent 0) open_long_state SNA SNA true) in
  Position.open_trades self' = [] /\
  Position.size self' = 0 /\
  Position.avg_price self' = 0 /\
  Position.entry_summ self' = 0 /\
  Position.closed_trades_count self'
  = (Position.closed_trades_count open_long_state + 1)%Z /\
  Position.exit_orders self'
  = dict_pop (dict_set (Position.exit_orders open_long_state) "Close position order"
                (List.length (Position.order_objs open_long_state)))
      "Close position order" /\
  Position.entry_orders self' = Position.entry_orders open_long_state.
Proof.
  apply (close_all_flattens_position (scenario_env percent 0) open_long_state
           (result_of (close_all (scenario_env percent 0) open_long_state SNA SNA true))
           open_long_trade SNA SNA).
  - reflexivity.
  - vm_compute. reflexivity.
  - vm_compute. reflexivity.
  - vm_compute. reflexivity.
  - vm_compute. discriminate.
  - vm_compute. reflexivity.
  - vm_compute. reflexivity.
Defined.


(** ** The sizes of the embedding are those of [Sizes] on exact rationals *)

Lemma realize_commission_sizes (env : Env) (price size : Q) (self : Position.t)
  (closed_trade : Trade.t) (cts : Q) :
  sizes_view (fst (fst (realize_commission env price size self closed_trade cts)))
  = sizes_view self.
Proof.
  unfold realize_commission. destruct (_ || _); reflexivity.
Qed.

Lemma count_closed_trade_sizes (closed_trade : Trade.t) (self : Position.t) :
  sizes_view (count_closed_trade closed_trade self) = sizes_view self.
Proof.
  unfold count_closed_trade. destruct (Qeq_bool _ _); [reflexivity|].
  destruct (Qltb _ _); reflexivity.
Qed.

Lemma average_after_close_sizes (closed_trade : Trade.t) (self self' : Position.t) :
  average_after_close closed_trade self = Ok self' -> sizes_view self' = sizes_view self.
Proof.
  unfold average_after_close. intros H. case_if H; inv_res; subst self'; reflexivity.
Qed.

Lemma adjust_for_commission_sizes (pnl : Q) (closed_trade : Trade.t) (self : Position.t) :
  sizes_view (adjust_for_commission pnl closed_trade self) = sizes_view self.
Proof.
  unfold adjust_for_commission. destruct (Qltb _ _); reflexivity.
Qed.

Lemma modify_sizes_sizes (env : Env) (size : Q) (self self' : Position.t) (size' : Q) :
  modify_sizes env size self = Ok (self', size') ->
  exists (abs_tol : Q) (close_to_zero : bool),
    pydiv 1 (size_round_factor env) = Ok abs_tol /\
    isclose (Position.size self + size) 0 abs_tol = Ok close_to_zero /\
    size' = (if close_to_zero then size - (Position.size self + size) else size) /\
    Position.size self' = (if close_to_zero then 0 else Position.size self + size) /\
    Position.sign self' = signum (Position.size self') /\
    Position.risk_allowed_direction self' = Position.risk_allowed_direction self /\
    Position.order_objs self' = Position.order_objs self /\
    Position.open_trades self' = Position.open_trades self.
Proof.
  unfold modify_sizes. intros H. inv_res.
  exists a, a0. split; [exact Ha|]. split; [exact Ha0|].
  destruct a0; injection H as <- <-; repeat split; reflexivity.
Qed.

Lemma allocate_order_commission_sizes (env : Env) (cts : Q) (trs : list ref)
  (self self' : Position.t) :
  foldM (allocate_order_commission env cts) trs self = Ok self' ->
  sizes_view self' = sizes_view self.
Proof.
  revert self. induction trs as [|tr trs IH]; intros self H; cbn [foldM] in H.
  - apply Ok_inj in H. subst. reflexivity.
  - inv_res. apply IH in H. rewrite H.
    unfold allocate_order_commission in Ha. inv_res. subst a. reflexivity.
Qed.

Lemma finish_close_sizes (env : Env) (order : Order.t) (w : CloseWalk)
  (self self' : Position.t) :
  finish_close env order w self = Ok self' -> sizes_view self' = sizes_view self.
Proof.
  unfold finish_close. intros H.
  destruct (cw_delete w); [|apply Ok_inj in H; subst; reflexivity].
  destruct (CommissionType_eqb _ _).
  - apply allocate_order_commission_sizes in H. rewrite H.
    destruct (Order.exit_id order); reflexivity.
  - apply Ok_inj in H. subst. destruct (Order.exit_id order); reflexivity.
Qed.

Lemma mark_entry_equity_sizes (entry_equity : Q) (self : Position.t) :
  sizes_view (mark_entry_equity entry_equity self) = sizes_view self.
Proof.
  unfold mark_entry_equity. destruct (Position.open_trades self); reflexivity.
Qed.

Lemma remove_filled_order_sizes (order : Order.t) (self : Position.t) :
  sizes_view (remove_filled_order order self) = sizes_view self.
Proof.
  unfold remove_filled_order.
  destruct (_ && _); [destruct (Order.order_id order); reflexivity|].
  destruct (optstr_truthy _); [destruct (Order.exit_id order); reflexivity | reflexivity].
Qed.

Lemma reset_when_flat_sizes (self : Position.t) :
  sizes_view (reset_when_flat self) = sizes_view self.
Proof.
  unfold reset_when_flat. destruct (Position.open_trades self) eqn:E; [|reflexivity].
  unfold sizes_view. cbn. rewrite E. reflexivity.
Qed.

Lemma append_trade_sizes (price commission : Q) (order : Order.t) (trade : Trade.t)
  (self : Position.t) :
  sizes_view (append_trade price commission order trade self)
  = (Position.size self + Trade.size trade,
     signum (Position.size self + Trade.size trade),
     Position.risk_allowed_direction self, Position.order_objs self,
     (Position.open_trades self ++ [trade])%list).
Proof.
  unfold append_trade. cbv zeta.
  match goal with
  | |- context [match ?d with Ok _ => _ | Raise _ => _ end] => destruct d
  end; reflexivity.
Qed.


Lemma exact_pydiv (a b : Q) : Sizes.pydiv Sizes.exact a b = pydiv a b.
Proof. reflexivity. Qed.

Lemma exact_signum (x : Q) : Sizes.signum Sizes.exact x = signum x.
Proof. reflexivity. Qed.

Lemma exact_isclose (a b abs_tol : Q) :
  Sizes.isclose Sizes.exact a b abs_tol = isclose a b abs_tol.
Proof. reflexivity. Qed.

Lemma ticket_of_set_size (size : Q) (order : Order.t) :
  ticket_of (Order.set_size size order)
  = Sizes.set_order_size Sizes.exact size (ticket_of order).
Proof. reflexivity. Qed.

Lemma ticket_of_same_size (order : Order.t) :
  ticket_of order = Sizes.set_order_size Sizes.exact (Order.size order) (ticket_of order).
Proof. reflexivity. Qed.

(** The sizes after one iteration of the close walk, from the values the
    iteration computes. *)
Lemma exact_close_walk_step (rfactor : Q) (order_id : option string)
  (w : Sizes.Walk Sizes.exact) (entry_id : string) (trade_size : Q)
  (q abs_tol : Q) (close_to_zero : bool) :
  let size :=
    if Qle_bool (Qabs (Sizes.w_order_size Sizes.exact w)) (Qabs trade_size)
    then Sizes.w_order_size Sizes.exact w else - trade_size in
  let self_size := Sizes.w_size Sizes.exact w + size in
  let size' := if close_to_zero then size - self_size else size in
  let self_size' := if close_to_zero then 0 else self_size in
  Qneb (Sizes.w_order_size Sizes.exact w) 0
  && (optstr_eqb (Some entry_id) order_id || is_None_str order_id) = true ->
  pydiv size trade_size = Ok q ->
  pydiv 1 rfactor = Ok abs_tol ->
  isclose self_size 0 abs_tol = Ok close_to_zero ->
  Sizes.close_walk_step Sizes.exact rfactor order_id w (entry_id, trade_size)
  = Ok (Sizes.mk_Walk Sizes.exact self_size' (signum self_size')
          (Sizes.w_order_size Sizes.exact w - size') true
          (if Qeq_bool (trade_size + size') 0
           then Sizes.w_open_trades Sizes.exact w
           else (Sizes.w_open_trades Sizes.exact w ++ [(entry_id, trade_size + size')])%list)).
Proof.
  intros size self_size size' self_size' Hmatch Hq Htol Hclose.
  change (Sizes.close_walk_step Sizes.exact rfactor order_id w (entry_id, trade_size))
    with (if Qneb (Sizes.w_order_size Sizes.exact w) 0
             && (optstr_eqb (Some entry_id) order_id || is_None_str order_id)
          then
            do _ <- pydiv size trade_size;
            do abs_tol <- pydiv 1 rfactor;
            do close_to_zero <- isclose self_size 0 abs_tol;
            let size := if close_to_zero then size - self_size else size in
            let self_size := if close_to_zero then 0 else self_size in
            Ok (Sizes.mk_Walk Sizes.exact self_size (signum self_size)
                  (Sizes.w_order_size Sizes.exact w - size) true
                  (if Qeq_bool (trade_size + size) 0
                   then Sizes.w_open_trades Sizes.exact w
                   else (Sizes.w_open_trades Sizes.exact w
                         ++ [(entry_id, trade_size + size)])%list))
          else
            Ok (Sizes.mk_Walk Sizes.exact (Sizes.w_size Sizes.exact w)
                  (Sizes.w_sign Sizes.exact w) (Sizes.w_order_size Sizes.exact w)
                  (Sizes.w_delete Sizes.exact w)
                  (Sizes.w_open_trades Sizes.exact w ++ [(entry_id, trade_size)])%list)).
  rewrite Hmatch, Hq. cbn [bind]. rewrite Htol. cbn [bind]. rewrite Hclose. reflexivity.
Qed.


Lemma exact_close_walk_step_skip (rfactor : Q) (order_id : option string)
  (w : Sizes.Walk Sizes.exact) (trade : Sizes.OpenTrade Sizes.exact) :
  Qneb (Sizes.w_order_size Sizes.exact w) 0
  && (optstr_eqb (Some (fst trade)) order_id || is_None_str order_id) = false ->
  Sizes.close_walk_step Sizes.exact rfactor order_id w trade
  = Ok (Sizes.mk_Walk Sizes.exact (Sizes.w_size Sizes.exact w) (Sizes.w_sign Sizes.exact w)
          (Sizes.w_order_size Sizes.exact w) (Sizes.w_delete Sizes.exact w)
          (Sizes.w_open_trades Sizes.exact w ++ [trade])%list).
Proof.
  intros Hskip. unfold Sizes.close_walk_step.
  change (negb (Sizes.eqb Sizes.exact (Sizes.w_order_size Sizes.exact w)
                  (Sizes.zero Sizes.exact)))
    with (Qneb (Sizes.w_order_size Sizes.exact w) 0).
  rewrite Hskip. reflexivity.
Qed.

Lemma split_partial_entry_id (env : Env) (price size size_ratio : Q)
  (trade closed_trade : Trade.t) :
  Trade.entry_id (fst (split_partial env price size size_ratio trade closed_trade))
  = Trade.entry_id trade.
Proof.
  unfold split_partial. destruct (Qneb _ _); reflexivity.
Qed.

Lemma nth_error_list_update_other {A : Type} (xs : list A) (n m : nat) (x : A) :
  n <> m -> nth_error (list_update xs n x) m = nth_error xs m.
Proof.
  revert n m. induction xs as [|z xs IH]; intros [|n] [|m] H; cbn; try reflexivity.
  - congruence.
  - apply IH. congruence.
Qed.

Lemma get_put_order_other (self : Position.t) (r r' : ref) (order : Order.t) :
  r <> r' -> get_order (put_order self r order) r' = get_order self r'.
Proof.
  intros H. unfold get_order, put_order.
  cbn [Position.order_objs Position.set_order_objs].
  rewrite nth_error_list_update_other by exact H. reflexivity.
Qed.

Lemma close_walk_step_assemble (env : Env) (r cref : ref) (w w' : CloseWalk)
  (final : Position.t) (order0 : Order.t) (trade closed : Trade.t)
  (q abs_tol size1 : Q) (close_to_zero : bool) :
  let size :=
    if Qle_bool (Qabs (Order.size order0)) (Qabs (Trade.size trade))
    then Order.size order0 else - Trade.size trade in
  get_order (cw_self w) r = Ok order0 ->
  Qneb (Order.size order0) 0
  && (optstr_eqb (Some (Trade.entry_id trade)) (Order.order_id order0)
      || is_None_str (Order.order_id order0)) = true ->
  pydiv size (Trade.size trade) = Ok q ->
  pydiv 1 (size_round_factor env) = Ok abs_tol ->
  isclose (Position.size (cw_self w) + size) 0 abs_tol = Ok close_to_zero ->
  size1 = (if close_to_zero then size - (Position.size (cw_self w) + size) else size) ->
  Position.size final = (if close_to_zero then 0 else Position.size (cw_self w) + size) ->
  Position.sign final = signum (Position.size final) ->
  Position.risk_allowed_direction final = Position.risk_allowed_direction (cw_self w) ->
  Position.order_objs final = Position.order_objs (cw_self w) ->
  cw_self w'
  = put_order (put_trade final cref closed) r
      (Order.set_size (Order.size order0 - size1) order0) ->
  cw_delete w' = true ->
  map open_trade_of (cw_open_trades w')
  = (if Qeq_bool (Trade.size trade + size1) 0
     then map open_trade_of (cw_open_trades w)
     else (map open_trade_of (cw_open_trades w)
           ++ [(Trade.entry_id trade, Trade.size trade + size1)])%list) ->
  exists order' : Order.t,
    get_order (cw_self w') r = Ok order' /\
    ticket_of order'
    = Sizes.set_order_size Sizes.exact (Order.size order') (ticket_of order0) /\
    Position.risk_allowed_direction (cw_self w')
    = Position.risk_allowed_direction (cw_self w) /\
    (forall r' : ref, r <> r' -> get_order (cw_self w') r' = get_order (cw_self w) r') /\
    Sizes.close_walk_step Sizes.exact (size_round_factor env) (Order.order_id order0)
      (walk_of w (Order.size order0)) (open_trade_of trade)
    = Ok (walk_of w' (Order.size order')).
Proof.
  intros size Hget Hmatch Hq Htol Hclose Hsize1 Hsize Hsign Hrisk Hobjs Hself Hdelete Hopen.
  exists (Order.set_size (Order.size order0 - size1) order0).
  split.
  { rewrite Hself. apply (get_put_order _ _ order0).
    rewrite <- Hget. apply get_order_same_store. exact Hobjs. }
  split; [reflexivity|].
  split; [rewrite Hself; exact Hrisk|].
  split.
  { intros r' Hr'. rewrite Hself. rewrite get_put_order_other by exact Hr'.
    apply get_order_same_store. exact Hobjs. }
  unfold open_trade_of at 1.
  rewrite (exact_close_walk_step (size_round_factor env) (Order.order_id order0)
             (walk_of w (Order.size order0)) (Trade.entry_id trade) (Trade.size trade)
             q abs_tol close_to_zero Hmatch Hq Htol Hclose).
  unfold walk_of. cbn [Sizes.w_size Sizes.w_sign Sizes.w_order_size Sizes.w_delete
                         Sizes.w_open_trades Order.size Order.set_size].
  rewrite Hdelete, Hopen, Hself.
  change (Position.size (put_order (put_trade final cref closed) r
                           (Order.set_size (Order.size order0 - size1) order0)))
    with (Position.size final).
  change (Position.sign (put_order (put_trade final cref closed) r
                           (Order.set_size (Order.size order0 - size1) order0)))
    with (Position.sign final).
  rewrite Hsign, Hsize, Hsize1. reflexivity.
Qed.

Lemma close_walk_step_sizes (env : Env) (r : ref) (price h l : Q) (w w' : CloseWalk)
  (trade : Trade.t) (order0 : Order.t) :
  get_order (cw_self w) r = Ok order0 ->
  close_walk_step env r price h l w trade = Ok w' ->
  exists order' : Order.t,
    get_order (cw_self w') r = Ok order' /\
    ticket_of order'
    = Sizes.set_order_size Sizes.exact (Order.size order') (ticket_of order0) /\
    Position.risk_allowed_direction (cw_self w')
    = Position.risk_allowed_direction (cw_self w) /\
    (forall r' : ref, r <> r' -> get_order (cw_self w') r' = get_order (cw_self w) r') /\
    Sizes.close_walk_step Sizes.exact (size_round_factor env) (Order.order_id order0)
      (walk_of w (Order.size order0)) (open_trade_of trade)
    = Ok (walk_of w' (Order.size order')).
Proof.
  intros Hget. unfold close_walk_step. intros H. inv_res.
  rewrite Hget in Ha. apply Ok_inj in Ha. subst a.
  destruct (Qneb (Order.size order0) 0 && _) eqn:Ematch.
  2:{ apply Ok_inj in H. subst w'. exists order0. cbn [cw_self].
      split; [exact Hget|]. split; [reflexivity|]. split; [reflexivity|].
      split; [reflexivity|].
      rewrite exact_close_walk_step_skip by exact Ematch.
      unfold walk_of. cbn [cw_self cw_delete cw_open_trades].
      rewrite map_app. reflexivity. }
  inv_res. destruct (Order.exit_id order0) as [order_exit_id|]; [|discriminate].
  inv_res.
  match goal with
  | Hm : modify_sizes _ _ _ = Ok ?p |- _ => destruct p as [self1 size1]; rename Hm into Hmod
  end.
  match goal with
  | Hv : average_after_close _ _ = Ok ?x |- _ => rename x into self2; rename Hv into Havg
  end.
  set (size := if Qle_bool (Qabs (Order.size order0)) (Qabs (Trade.size trade))
               then Order.size order0 else - Trade.size trade) in *.
  match type of Hmod with
  | modify_sizes _ _
      (Position.set_netprofit _ (fst (fst (realize_commission ?e ?p ?s ?x ?c ?t)))) = _ =>
    pose proof (realize_commission_sizes e p s x c t) as Hrealized;
    assert (sizes_view x = sizes_view (cw_self w)) as Hstart by reflexivity;
    rewrite Hstart in Hrealized; clear Hstart;
    set (realized := fst (fst (realize_commission e p s x c t))) in *
  end.
  clearbody realized.
  match type of Havg with
  | average_after_close ?ct _ = _ => set (closed := ct) in *
  end.
  clearbody closed.
  pose proof (average_after_close_sizes _ _ _ Havg) as Hself2.
  rewrite count_closed_trade_sizes in Hself2. clear Havg.
  destruct (modify_sizes_sizes _ _ _ _ _ Hmod)
    as (abs_tol & close_to_zero & Htol & Hclose & Hsize1 & Hs1 & Hsign1 & Hrisk1 & Hobjs1
        & Hopen1).
  clear Hmod.
  change (Position.size (Position.set_netprofit ?x realized))
    with (Position.size realized) in *.
  change (Position.risk_allowed_direction (Position.set_netprofit ?x realized))
    with (Position.risk_allowed_direction realized) in *.
  change (Position.order_objs (Position.set_netprofit ?x realized))
    with (Position.order_objs realized) in *.
  change (Position.open_trades (Position.set_netprofit ?x realized))
    with (Position.open_trades realized) in *.
  unfold sizes_view in Hrealized, Hself2.
  injection Hrealized as R1 R2 R3 R4 R5.
  injection Hself2 as S1 S2 S3 S4 S5.
  rewrite R1 in Hclose, Hs1, Hsize1.
  assert (Position.size self2 = (if close_to_zero then 0
                                 else Position.size (cw_self w) + size)) as Fsize
      by congruence.
  assert (Position.sign self2 = signum (Position.size self2)) as Fsign by congruence.
  assert (Position.risk_allowed_direction self2
          = Position.risk_allowed_direction (cw_self w)) as Frisk by congruence.
  assert (Position.order_objs self2 = Position.order_objs (cw_self w)) as Fobjs
      by congruence.
  clear R1 R2 R3 R4 R5 S1 S2 S3 S4 S5 Hs1 Hsign1 Hrisk1 Hobjs1 Hopen1.
  cbn [snd] in H.
  assert (Trade.size
            (Trade.set_size
               (Trade.size (fst (split_partial env price size (1 + a) trade trade)) + size1)
               (fst (split_partial env price size (1 + a) trade trade)))
          = Trade.size trade + size1) as Hts.
  { cbn [Trade.size Trade.set_size]. rewrite split_partial_size. reflexivity. }
  rewrite Hts in H.
  destruct (Qeq_bool (Trade.size trade + size1) 0) eqn:Ezero; apply Ok_inj in H.
  - eapply (close_walk_step_assemble env r _ w w' self2 order0 trade _ a abs_tol size1
              close_to_zero Hget Ematch Ha Htol Hclose Hsize1 Fsize Fsign Frisk Fobjs).
    + rewrite <- H. reflexivity.
    + rewrite <- H. reflexivity.
    + rewrite <- H. cbn [cw_open_trades]. rewrite Ezero. reflexivity.
  - pose proof (adjust_for_commission_sizes (- size * (price - Trade.entry_price trade))
                  (Trade.set_exit_equity (PNum (equity env self2)) closed) self2) as Hadj.
    unfold sizes_view in Hadj. injection Hadj as A1 A2 A3 A4 A5.
    eapply (close_walk_step_assemble env r _ w w'
              (adjust_for_commission (- size * (price - Trade.entry_price trade))
                 (Trade.set_exit_equity (PNum (equity env self2)) closed) self2)
              order0 trade _ a abs_tol size1
              close_to_zero Hget Ematch Ha Htol Hclose Hsize1).
    + rewrite A1. exact Fsize.
    + rewrite A2, A1. exact Fsign.
    + rewrite A3. exact Frisk.
    + rewrite A4. exact Fobjs.
    + rewrite <- H. reflexivity.
    + rewrite <- H. reflexivity.
    + rewrite <- H. cbn [cw_open_trades]. rewrite Ezero, map_app. cbn [map].
      unfold open_trade_of at 2. rewrite Hts.
      cbn [Trade.entry_id Trade.set_size]. rewrite split_partial_entry_id. reflexivity.
Qed.

Lemma close_walk_sizes (env : Env) (r : ref) (price h l : Q) (trades : list Trade.t) :
  forall (w w' : CloseWalk) (order0 : Order.t),
    get_order (cw_self w) r = Ok order0 ->
    foldM (close_walk_step env r price h l) trades w = Ok w' ->
    exists order' : Order.t,
      get_order (cw_self w') r = Ok order' /\
      ticket_of order'
      = Sizes.set_order_size Sizes.exact (Order.size order') (ticket_of order0) /\
      Position.risk_allowed_direction (cw_self w')
      = Position.risk_allowed_direction (cw_self w) /\
      (forall r' : ref, r <> r' -> get_order (cw_self w') r' = get_order (cw_self w) r') /\
      foldM (Sizes.close_walk_step Sizes.exact (size_round_factor env)
               (Order.order_id order0))
        (map open_trade_of trades) (walk_of w (Order.size order0))
      = Ok (walk_of w' (Order.size order')).
Proof.
  induction trades as [|trade rest IH]; intros w w' order0 Hget H; cbn [foldM map] in *.
  - apply Ok_inj in H. subst w'. exists order0.
    repeat split; try reflexivity. exact Hget.
  - inv_res. rename a into w1.
    destruct (close_walk_step_sizes _ _ _ _ _ _ _ _ _ Hget Ha)
      as (order1 & Hget1 & Hticket1 & Hrisk1 & Hframe1 & Hstep).
    destruct (IH w1 w' order1 Hget1 H) as (order' & Hget' & Hticket' & Hrisk' & Hframe' & Hrest).
    assert (Order.order_id order1 = Order.order_id order0) as Hid
        by exact (f_equal (@Sizes.order_id Sizes.exact) Hticket1).
    exists order'. split; [exact Hget'|].
    split; [rewrite Hticket', Hticket1; reflexivity|].
    split; [congruence|].
    split; [intros r' Hr'; rewrite Hframe', Hframe1 by exact Hr'; reflexivity|].
    rewrite Hstep. cbn [bind]. rewrite <- Hid. exact Hrest.
Qed.


Lemma sizes_view_ledger (p q : Position.t) :
  sizes_view p = sizes_view q -> ledger_of p = ledger_of q.
Proof.
  unfold sizes_view, ledger_of. intros H. injection H as -> -> -> _ ->. reflexivity.
Qed.

Lemma sizes_view_get_order (p q : Position.t) (r : ref) :
  sizes_view p = sizes_view q -> get_order p r = get_order q r.
Proof.
  unfold sizes_view. intros H. injection H as _ _ _ H _.
  apply get_order_same_store. exact H.
Qed.

(** [_fill_order] computes the sizes that [Sizes._fill_order] computes on
    exact rationals: whenever the call returns, the sizes of the ledger and
    of the order after it are those of the cut-down function. *)
Lemma fill_order_inner_sizes (env : Env) (self self' : Position.t) (r : ref)
  (price h l : Q) (order : Order.t) :
  get_order self r = Ok order ->
  _fill_order env self r price h l = Ok self' ->
  exists order' : Order.t,
    get_order self' r = Ok order' /\
    (forall r' : ref, r <> r' -> get_order self' r' = get_order self r') /\
    Sizes._fill_order Sizes.exact (size_round_factor env) (ledger_of self) (ticket_of order)
    = Ok (ledger_of self', ticket_of order').
Proof.
  intros Hget. unfold _fill_order. intros H. inv_res.
  rewrite Hget in Ha. apply Ok_inj in Ha. subst a.
  rename a0 into filled. rename Ha0 into Hbody.
  pose proof (reset_when_flat_sizes filled) as Hreset. rewrite H in Hreset. clear H.
  change (Sizes._fill_order Sizes.exact (size_round_factor env) (ledger_of self)
            (ticket_of order))
    with (if Qneb (Position.size self) 0
             && negb (OrderType_eqb (Order.order_type order) _order_type_entry)
             && Qneb (Order.sign order) (Position.sign self)
          then
            do w <- foldM (Sizes.close_walk_step Sizes.exact (size_round_factor env)
                             (Order.order_id order))
                      (map open_trade_of (Position.open_trades self))
                      (Sizes.mk_Walk Sizes.exact (Position.size self) (Position.sign self)
                         (Order.size order) false []);
            Ok (Sizes.mk_Ledger Sizes.exact (Sizes.w_size Sizes.exact w)
                  (Sizes.w_sign Sizes.exact w) (Sizes.w_open_trades Sizes.exact w)
                  (Position.risk_allowed_direction self),
                Sizes.set_order_size Sizes.exact (Sizes.w_order_size Sizes.exact w)
                  (ticket_of order))
          else if negb (OrderType_eqb (Order.order_type order) _order_type_close) then
            match Order.order_id order with
            | None => Raise AssertionError
            | Some entry_id =>
              Ok (Sizes.mk_Ledger Sizes.exact (Position.size self + Order.size order)
                    (signum (Position.size self + Order.size order))
                    (map open_trade_of (Position.open_trades self)
                     ++ [(entry_id, Order.size order)])%list
                    (Position.risk_allowed_direction self),
                  ticket_of order)
            end
          else Ok (ledger_of self, ticket_of order)).
  destruct (Qneb (Position.size self) 0 && _ && _) eqn:Eclose.
  - inv_res.
    match goal with
    | Hw : foldM _ _ _ = Ok ?x, Hf : finish_close _ _ ?x _ = Ok _ |- _ =>
      rename x into w; rename Hw into Hwalk; rename Hf into Hfinish
    end.
    match type of Hwalk with
    | foldM _ _ ?w0 = _ =>
      destruct (close_walk_sizes env r price h l (Position.open_trades self) w0 w order
                  Hget Hwalk) as (order' & Hget' & Hticket & Hrisk & Hframe & Hsizes)
    end.
    cbn [cw_self] in Hrisk, Hframe.
    unfold walk_of at 1 in Hsizes. cbn [cw_self cw_delete cw_open_trades map] in Hsizes.
    rewrite Hsizes. cbn [bind].
    apply finish_close_sizes in Hfinish.
    assert (sizes_view self'
            = sizes_view (Position.set_open_trades (cw_open_trades w) (cw_self w))) as Hview.
    { rewrite Hreset, <- Hfinish.
      rewrite <- Hbody. reflexivity. }
    clear Hreset Hfinish.
    exists order'. split; [|split].
    + rewrite (sizes_view_get_order _ _ r Hview). exact Hget'.
    + intros r' Hr'. rewrite (sizes_view_get_order _ _ r' Hview).
      apply Hframe. exact Hr'.
    + rewrite (sizes_view_ledger _ _ Hview), Hticket.
      unfold ledger_of, walk_of.
      cbn [Sizes.w_size Sizes.w_sign Sizes.w_open_trades Sizes.w_order_size
             Position.size Position.sign Position.open_trades
             Position.risk_allowed_direction Position.set_open_trades].
      rewrite Hrisk. reflexivity.
  - destruct (negb (OrderType_eqb (Order.order_type order) _order_type_close)) eqn:Enew.
    + inv_res. destruct (Order.order_id order) as [entry_id|] eqn:Eid; [|discriminate].
      apply Ok_inj in Hbody.
      match type of Hbody with
      | remove_filled_order _ (append_trade ?p ?c ?o ?t (mark_entry_equity ?e ?s)) = _ =>
        pose proof (append_trade_sizes p c o t (mark_entry_equity e s)) as Happend;
        pose proof (mark_entry_equity_sizes e s) as Hmark;
        pose proof (remove_filled_order_sizes o
                      (append_trade p c o t (mark_entry_equity e s))) as Hremove
      end.
      rewrite Hbody in Hremove. rewrite Hremove in Hreset. rewrite Happend in Hreset.
      clear Hbody Hremove Happend.
      unfold sizes_view in Hmark. injection Hmark as M1 M2 M3 M4 M5.
      cbn [Position.size Position.sign Position.risk_allowed_direction
             Position.order_objs Position.open_trades Position.set_netprofit] in M1, M2, M3,
        M4, M5.
      rewrite M1, M3, M4, M5 in Hreset. clear M1 M2 M3 M4 M5.
      unfold sizes_view in Hreset. injection Hreset as V1 V2 V3 V4 V5.
      exists order. split; [|split].
      * rewrite <- Hget. apply get_order_same_store. exact V4.
      * intros r' _. apply get_order_same_store. exact V4.
      * unfold ledger_of. rewrite V1, V2, V3, V5, map_app. reflexivity.
    + apply Ok_inj in Hbody. subst filled.
      exists order. split; [|split].
      * rewrite (sizes_view_get_order _ _ r Hreset). exact Hget.
      * intros r' _. apply (sizes_view_get_order _ _ r' Hreset).
      * rewrite (sizes_view_ledger _ _ Hreset). reflexivity.
Qed.


Lemma get_order_in_store (self : Position.t) (r : ref) (order : Order.t) :
  get_order self r = Ok order -> (r < List.length (Position.order_objs self))%nat.
Proof.
  unfold get_order. destruct (nth_error (Position.order_objs self) r) eqn:E; [|discriminate].
  intros _. apply nth_error_Some. congruence.
Qed.

Lemma get_order_allocated (self : Position.t) (order : Order.t) :
  get_order (fst (alloc_order self order)) (snd (alloc_order self order)) = Ok order.
Proof.
  unfold get_order, alloc_order. cbn [fst snd Position.order_objs Position.set_order_objs].
  rewrite nth_error_appended. reflexivity.
Qed.

Lemma get_order_after_alloc (self : Position.t) (order new : Order.t) (r : ref) :
  get_order self r = Ok order ->
  get_order (fst (alloc_order self new)) r = Ok order /\
  snd (alloc_order self new) <> r.
Proof.
  intros H. pose proof (get_order_in_store _ _ _ H) as Hlt.
  unfold alloc_order. cbn [fst snd]. split; [|lia].
  revert H. unfold get_order. cbn [Position.order_objs Position.set_order_objs].
  rewrite nth_error_app1 by exact Hlt. tauto.
Qed.

(** [fill_order] computes the sizes that [Sizes.fill_order] computes on
    exact rationals, and returns the same flag. *)
Lemma fill_order_sizes (env : Env) (self self' : Position.t) (r : ref)
  (price h l : Q) (order : Order.t) (flag : bool) :
  get_order self r = Ok order ->
  fill_order env self r price h l = Ok (self', flag) ->
  exists order' : Order.t,
    get_order self' r = Ok order' /\
    Sizes.fill_order Sizes.exact (size_round_factor env) (ledger_of self) (ticket_of order)
    = Ok (ledger_of self', ticket_of order', flag).
Proof.
  intros Hget. unfold fill_order. intros H. inv_res.
  rewrite Hget in Ha. apply Ok_inj in Ha. subst a.
  rename a0 into new_size. rename Ha0 into Hnew.
  change (Sizes.fill_order Sizes.exact (size_round_factor env) (ledger_of self)
            (ticket_of order))
    with (do new_size <-
            (if Qneb (Position.size self + Order.size order) 0 then
               do abs_tol <- pydiv 1 (size_round_factor env);
               do close_to_zero <- isclose (Position.size self + Order.size order) 0 abs_tol;
               Ok (if negb close_to_zero then 0 else Position.size self + Order.size order)
             else Ok (Position.size self + Order.size order));
          if Qneb (Position.size self) 0 && Qneb (signum new_size) (Position.sign self)
             && Qneb new_size 0
          then
            if OrderType_eqb (Order.order_type order) _order_type_close then
              do filled <- Sizes._fill_order Sizes.exact (size_round_factor env)
                             (ledger_of self)
                             (ticket_of (Order.set_size (- Position.size self) order));
              Ok (filled, false)
            else
              do filled <- Sizes._fill_order Sizes.exact (size_round_factor env)
                             (ledger_of self)
                             (Sizes.mk_Ticket Sizes.exact None (- Position.size self)
                                (Order.sign order) _order_type_close);
              let new_direction_sign := if Qltb 0 new_size then 1 else -1 in
              let blocked :=
                match Sizes.risk_allowed_direction (fst filled) with
                | Some allowed =>
                  (Qltb 0 new_direction_sign && negb (Direction_eqb allowed long))
                  || (Qltb new_direction_sign 0 && negb (Direction_eqb allowed short))
                | None => false
                end in
              if blocked then Ok (fst filled, ticket_of order, false)
              else
                do filled <- Sizes._fill_order Sizes.exact (size_round_factor env)
                               (fst filled) (ticket_of (Order.set_size new_size order));
                Ok (filled, true)
          else
            do filled <- Sizes._fill_order Sizes.exact (size_round_factor env)
                           (ledger_of self) (ticket_of order);
            Ok (filled, false)).
  rewrite Hnew. cbn [bind]. clear Hnew.
  destruct (Qneb (Position.size self) 0 && _ && _) eqn:Eturn.
  - destruct (OrderType_eqb (Order.order_type order) _order_type_close) eqn:Etype.
    + inv_res. injection H as <- <-. rename Ha into Hfill.
      pose proof (get_put_order self r order (Order.set_size (- Position.size self) order)
                    Hget) as Hget2.
      destruct (fill_order_inner_sizes _ _ _ _ _ _ _ _ Hget2 Hfill)
        as (order' & Hget' & _ & Hsizes).
      exists order'. split; [exact Hget'|].
      change (ledger_of (put_order self r (Order.set_size (- Position.size self) order)))
        with (ledger_of self) in Hsizes.
      rewrite Hsizes. reflexivity.
    + set (order1 := Order.set_exit_id (Order.order_id order)
                       (Order.set_order_id None
                          (Order.set_size (- Position.size self)
                             (Order.set_order_type _order_type_close order)))) in *.
      pose proof (get_order_allocated self order1) as Hget1.
      destruct (get_order_after_alloc self order order1 r Hget) as [Hkept Hfresh].
      assert (ledger_of (fst (alloc_order self order1)) = ledger_of self) as Hledger
          by reflexivity.
      destruct (alloc_order self order1) as [placed r1]. cbn [fst snd] in *.
      inv_res. rename a into closed. rename Ha into Hfill1.
      destruct (fill_order_inner_sizes _ _ _ _ _ _ _ _ Hget1 Hfill1)
        as (order1' & _ & Hframe & Hsizes1).
      rewrite Hledger in Hsizes1.
      change (ticket_of order1)
        with (Sizes.mk_Ticket Sizes.exact None (- Position.size self) (Order.sign order)
                _order_type_close) in Hsizes1.
      rewrite Hsizes1. cbn [bind fst].
      change (Sizes.risk_allowed_direction (ledger_of closed))
        with (Position.risk_allowed_direction closed).
      rewrite <- (Hframe r Hfresh) in Hkept.
      destruct (match Position.risk_allowed_direction closed with
                | Some _ => _ | None => false end) eqn:Eblocked.
      * injection H as <- <-. exists order. split; [exact Hkept | reflexivity].
      * inv_res. rewrite Hkept in Ha. apply Ok_inj in Ha. subst a.
        match goal with
        | Hf : _fill_order _ ?s _ _ _ _ = Ok ?q |- _ =>
          rename Hf into Hfill2; rename s into refiled; rename q into opened
        end.
        injection H as <- <-.
        assert (get_order refiled r = Ok (Order.set_size new_size order) /\
                ledger_of refiled = ledger_of closed) as [Hget2 Hledger2].
        { match goal with
          | Hr : (if _ then _ else _) = Ok refiled |- _ => rename Hr into Hrefile
          end.
          pose proof (get_put_order closed r order (Order.set_size new_size order) Hkept)
            as Hput.
          case_if Hrefile;
            (match type of Hrefile with
             | match ?x with Some _ => _ | None => _ end = _ => destruct x
             end);
            try discriminate; apply Ok_inj in Hrefile; subst refiled;
            (split; [exact Hput | reflexivity]). }
        destruct (fill_order_inner_sizes _ _ _ _ _ _ _ _ Hget2 Hfill2)
          as (order' & Hget' & _ & Hsizes2).
        rewrite Hledger2 in Hsizes2. rewrite Hsizes2.
        exists order'. split; [exact Hget' | reflexivity].
  - inv_res. injection H as <- <-. rename Ha into Hfill.
    destruct (fill_order_inner_sizes _ _ _ _ _ _ _ _ Hget Hfill)
      as (order' & Hget' & _ & Hsizes).
    exists order'. split; [exact Hget'|]. rewrite Hsizes. reflexivity.
Qed.


(** [close_all(immediately=True)] computes the sizes that [Sizes.close_all]
    computes on exact rationals. *)
Lemma close_all_sizes (env : Env) (self self' : Position.t)
  (comment alert_message : pystr) :
  lib_semaphore env = false ->
  close_all env self comment alert_message true = Ok self' ->
  Sizes.close_all Sizes.exact (size_round_factor env) (ledger_of self)
  = Ok (ledger_of self').
Proof.
  intros Hsem. unfold close_all. rewrite Hsem. intros H.
  change (Sizes.close_all Sizes.exact (size_round_factor env) (ledger_of self))
    with (if Qeq_bool (Position.size self) 0 then Ok (ledger_of self)
          else
            do filled <- Sizes.fill_order Sizes.exact (size_round_factor env)
                           (ledger_of self)
                           (Sizes.mk_Ticket Sizes.exact None (- Position.size self)
                              (signum (- Position.size self)) _order_type_close);
            Ok (fst (fst filled))).
  case_if H.
  { apply Ok_inj in H. subst self'. reflexivity. }
  cbn [alloc_order] in H. inv_res. split_fill. apply Ok_inj in H. subst p.
  match goal with
  | Hf : fill_order _ ?placed ?r _ _ _ = Ok _ |- _ =>
    assert (exists order : Order.t,
              get_order placed r = Ok order /\
              ticket_of order
              = Sizes.mk_Ticket Sizes.exact None (- Position.size self)
                  (signum (- Position.size self)) _order_type_close /\
              ledger_of placed = ledger_of self) as (order & Hget & Hticket & Hledger);
    [|destruct (fill_order_sizes _ _ _ _ _ _ _ _ _ Hget Hf) as (order' & _ & Hsizes)]
  end.
  { exists (new_Order None (- Position.size self) _order_type_close
              (Some "Close position order"%string) PNone PNone SNone None comment
              alert_message PNone PNone None None None).
    split; [|split; reflexivity].
    unfold get_order. cbn [Position.order_objs Position.set_exit_orders
                             Position.set_order_objs].
    rewrite nth_error_appended. reflexivity. }
  rewrite Hledger, Hticket in Hsizes. rewrite Hsizes. reflexivity.
Qed.

(** ** Sizes on binary64 *)

(** C1 fails as stated on binary64: the entry of [5e-8] is absorbed when it
    is added to the position of [1e9], and closing "A" leaves a flat
    position with the open trade "B": [size] and the sum of the open trades
    are [5e-8] apart, more than [1 / size_round_factor = 1e-8]. *)
Lemma position_size_binary64_counterexample :
  exists (ledger : Sizes.Ledger Binary64.arith) (error : Q),
    Binary64.absorbed_entry = Ok ledger /\
    Binary64.exact_value (Sizes.size ledger) = Some 0 /\
    List.length (Sizes.open_trades ledger) = 1%nat /\
    Binary64.size_error ledger = Some error /\
    1 / 100000000 < error.
Proof.
  eexists. eexists. split; [vm_compute; reflexivity|].
  split; [reflexivity|]. split; [reflexivity|].
  split; [vm_compute; reflexivity|]. reflexivity.
Qed.

(** On binary64 [close_all(immediately=True)] can leave an open trade
    behind a flat position: with the trades [0.1] and [0.2] the position is
    [0.30000000000000004], the order takes [0.1] and then [0.2], the position
    comes out as [2^-55], about [2.78e-17], is snapped to zero, and the
    residual goes into the second trade, which stays open with the size
    [-2^-55]. *)
Lemma close_all_residual_on_binary64 :
  exists (ledger : Sizes.Ledger Binary64.arith) (residual : Q),
    Binary64.residual_trade = Ok ledger /\
    Binary64.exact_value (Sizes.size ledger) = Some 0 /\
    map (fun trade => (fst trade, Binary64.exact_value (snd trade)))
      (Sizes.open_trades ledger) = [("B"%string, Some residual)] /\
    residual == - (1 # 36028797018963968).
Proof.
  eexists. eexists. split; [vm_compute; reflexivity|].
  split; [reflexivity|]. split; [vm_compute; reflexivity|]. reflexivity.
Qed.
